(** * Browser scripts of the malaria ETL dashboard: a shallow embedding

    The repository holds three page scripts:
    - [static/js/dashboard.js] (geospatial dashboard: upload, start merge,
      poll the status endpoint),
    - [upload_app/js/user-upload_app.js] (user upload page: sidebar, status
      map kept in session storage, fetch-based submission),
    - [upload_app/js/admin-upload-app.js] (admin upload page).

    Each script is embedded as functions over an explicit page state: the
    script's global variables, the DOM of the page, session storage, the
    pending timers and the requests issued so far.  Asynchronous functions
    are split at their [await] points; a callback that the script hands to
    the browser ([setTimeout], [setInterval], [then]) is a constructor of a
    small callback type together with the function that runs it.

    Conventions of the model.
    - Strings are byte strings; upload types, status labels and class names
      are opaque tokens (the DOM's own rejection of malformed tokens and
      selectors is not modelled).
    - Property names are neither canonical numeric strings (which
      JavaScript enumerates first) nor names of members of
      [Object.prototype]: a look-up in an object sees own properties only,
      in insertion order.
    - JSON numbers are integers.
    - An exception is represented by a string.  For an [Error] the script
      throws and for a rejected request it is the text of [error.message];
      for a property of a response read on [null] or [undefined] it is the
      message V8 gives the TypeError (other engines word it differently);
      for the use of an element that is missing it is a text that names
      what was missing.
    - The server-rendered templates are not part of the scripts: the DOM is
      a parameter of every function, and what a statement needs of it (the
      ids a function looks up, the upload types of the sidebar) is a
      hypothesis of that statement. *)

From Stdlib Require Import ZArith String Ascii List Lia Bool.
From stdpp Require Import base option list strings gmap pretty.

Set Warnings "-register-all".
Local Open Scope Z_scope.

(* ===================================================================== *)
(** * JavaScript values, truthiness, string conversion                    *)
(* ===================================================================== *)

Module JS.

(** A value as [response.json()] delivers it, plus [undefined]. *)
Inductive value : Type :=
| Undefined
| Null
| Bool (b : bool)
| Num (n : Z)
| Str (s : string)
| Obj (props : list (string * value))
| Arr (items : list value).

(** ToBoolean. *)
Definition truthy (v : value) : bool :=
  match v with
  | Undefined | Null => false
  | Bool b => b
  | Num n => negb (n =? 0)
  | Str s => negb (String.eqb s "")
  | Obj _ | Arr _ => true
  end.

(** [v === 'literal']. *)
Definition is_str (v : value) (literal : string) : bool :=
  match v with
  | Str s => String.eqb s literal
  | _ => false
  end.

(** [a || b]. *)
Definition or_else (a b : value) : value := if truthy a then a else b.

Fixpoint assoc {A} (k : string) (l : list (string * A)) : option A :=
  match l with
  | [] => None
  | (k', v) :: r => if String.eqb k k' then Some v else assoc k r
  end.

Fixpoint assoc_nat {A} (k : nat) (l : list (nat * A)) : option A :=
  match l with
  | [] => None
  | (k', v) :: r => if Nat.eqb k k' then Some v else assoc_nat k r
  end.

(** Property read [v.k] for a data property [k]: [None] is the TypeError
    raised on [null] and [undefined]; primitives and arrays have no such
    property. *)
Definition get (v : value) (k : string) : option value :=
  match v with
  | Undefined | Null => None
  | Obj ps => Some (default Undefined (assoc k ps))
  | _ => Some Undefined
  end.

Fixpoint join (sep : string) (l : list string) : string :=
  match l with
  | [] => ""
  | [s] => s
  | s :: r => s +:+ sep +:+ join sep r
  end.

(** ToString, as used by string concatenation, template literals,
    [new Error(m)] and [FormData.append]. *)
Fixpoint to_string (v : value) : string :=
  match v with
  | Undefined => "undefined"
  | Null => "null"
  | Bool true => "true"
  | Bool false => "false"
  | Num n => pretty n
  | Str s => s
  | Obj _ => "[object Object]"
  | Arr items =>
      join "," (map (fun x => match x with
                              | Undefined | Null => ""
                              | _ => to_string x
                              end) items)
  end.

End JS.

(* ===================================================================== *)
(** * JSON text of a flat object with string values                       *)
(* ===================================================================== *)

Module JSON.

(** A JavaScript object whose own properties are strings, in property
    order.  Keys are distinct in any object; [wf] says so. *)
Definition object := list (string * string).

Definition wf (o : object) : Prop := NoDup (map fst o).

Definition get (o : object) (k : string) : option string := JS.assoc k o.

(** [o[k] = v]: an existing property keeps its place, a new one goes last. *)
Fixpoint set (o : object) (k v : string) : object :=
  match o with
  | [] => [(k, v)]
  | (k', v') :: r =>
      if String.eqb k k' then (k', v) :: r else (k', v') :: set r k v
  end.

Definition put (acc : object) (kv : string * string) : object :=
  set acc kv.1 kv.2.

Definition keys (o : object) : list string := map fst o.
Definition values (o : object) : list string := map snd o.

Definition dquote : ascii := "034"%char.
Definition backslash : ascii := "092"%char.

Definition hex_digit (n : N) : ascii :=
  if (n <? 10)%N then ascii_of_N (48 + n) else ascii_of_N (87 + n).

(** QuoteJSONString, one code unit. *)
Definition escape (c : ascii) : string :=
  let n := N_of_ascii c in
  if (n =? 34)%N then String backslash (String dquote "")
  else if (n =? 92)%N then String backslash (String backslash "")
  else if (n =? 8)%N then String backslash "b"
  else if (n =? 9)%N then String backslash "t"
  else if (n =? 10)%N then String backslash "n"
  else if (n =? 12)%N then String backslash "f"
  else if (n =? 13)%N then String backslash "r"
  else if (n <? 32)%N then
    String backslash
      (String "u" (String "0" (String "0"
        (String (hex_digit (n / 16)) (String (hex_digit (n mod 16)) "")))))
  else String c "".

Fixpoint quote_chars (s : string) : string :=
  match s with
  | EmptyString => ""
  | String c r => escape c +:+ quote_chars r
  end.

Definition quote (s : string) : string :=
  String dquote (quote_chars s +:+ String dquote "").

Definition member (kv : string * string) : string :=
  quote kv.1 +:+ ":" +:+ quote kv.2.

(** [JSON.stringify(o)] for a flat object of strings. *)
Definition stringify (o : object) : string :=
  "{" +:+ JS.join "," (map member o) +:+ "}".

(** ** Reading it back *)

Definition is_ws (c : ascii) : bool :=
  let n := N_of_ascii c in
  (n =? 32)%N || (n =? 9)%N || (n =? 10)%N || (n =? 13)%N.

Fixpoint skip_ws (s : string) : string :=
  match s with
  | EmptyString => ""
  | String c r => if is_ws c then skip_ws r else s
  end.

Definition hex_value (c : ascii) : option N :=
  let n := N_of_ascii c in
  if (48 <=? n)%N && (n <=? 57)%N then Some (n - 48)%N
  else if (97 <=? n)%N && (n <=? 102)%N then Some (n - 87)%N
  else if (65 <=? n)%N && (n <=? 70)%N then Some (n - 55)%N
  else None.

Definition unescape (c : ascii) : option ascii :=
  let n := N_of_ascii c in
  if (n =? 34)%N then Some dquote
  else if (n =? 92)%N then Some backslash
  else if (n =? 47)%N then Some "/"%char
  else if (n =? 98)%N then Some (ascii_of_N 8)
  else if (n =? 116)%N then Some (ascii_of_N 9)
  else if (n =? 110)%N then Some (ascii_of_N 10)
  else if (n =? 102)%N then Some (ascii_of_N 12)
  else if (n =? 114)%N then Some (ascii_of_N 13)
  else None.

(** The characters of a JSON string after its opening quote, up to and
    including the closing quote; returns the decoded string and the rest of
    the input.  [None]: a SyntaxError, or an escape [\uXXXX] above 255.
    ([JSON.stringify] writes such an escape for control characters only; an
    escape from [\u0080] to [ÿ] is read as one byte.) *)
Fixpoint parse_chars (s : string) : option (string * string) :=
  match s with
  | EmptyString => None
  | String c r =>
      if (N_of_ascii c =? 34)%N then Some ("", r)
      else if (N_of_ascii c =? 92)%N then
        match r with
        | EmptyString => None
        | String e r1 =>
            if (N_of_ascii e =? 117)%N then
              match r1 with
              | String h1 (String h2 (String h3 (String h4 r2))) =>
                  match hex_value h1, hex_value h2, hex_value h3, hex_value h4 with
                  | Some a, Some b, Some c', Some d =>
                      let code := (((a * 16 + b) * 16 + c') * 16 + d)%N in
                      if (code <? 256)%N then
                        match parse_chars r2 with
                        | Some (t, rest) => Some (String (ascii_of_N code) t, rest)
                        | None => None
                        end
                      else None
                  | _, _, _, _ => None
                  end
              | _ => None
              end
            else
              match unescape e with
              | Some c' =>
                  match parse_chars r1 with
                  | Some (t, rest) => Some (String c' t, rest)
                  | None => None
                  end
              | None => None
              end
        end
      else if (N_of_ascii c <? 32)%N then None
      else
        match parse_chars r with
        | Some (t, rest) => Some (String c t, rest)
        | None => None
        end
  end.

(** A quoted string, after optional white space. *)
Definition parse_string (s : string) : option (string * string) :=
  match skip_ws s with
  | String c r => if (N_of_ascii c =? 34)%N then parse_chars r else None
  | EmptyString => None
  end.

Definition expect (c : ascii) (s : string) : option string :=
  match skip_ws s with
  | String c' r => if Ascii.eqb c c' then Some r else None
  | EmptyString => None
  end.

(** The members of an object after its opening brace, up to the end of the
    text.  Each round consumes input, so the length of the text is fuel
    enough. *)
Fixpoint parse_members (fuel : nat) (s : string) (acc : object) : option object :=
  match fuel with
  | O => None
  | S fuel' =>
      '(k, r1) ← parse_string s;
      r2 ← expect ":" r1;
      '(v, r3) ← parse_string r2;
      match skip_ws r3 with
      | String c r4 =>
          if Ascii.eqb c "," then parse_members fuel' r4 (set acc k v)
          else if Ascii.eqb c "}" then
            match skip_ws r4 with
            | EmptyString => Some (set acc k v)
            | _ => None
            end
          else None
      | EmptyString => None
      end
  end.

(** [JSON.parse(text)] where the text denotes a flat object of strings;
    [None] when [JSON.parse] throws or yields any other value. *)
Definition parse (text : string) : option object :=
  r ← expect "{" text;
  match expect "}" r with
  | Some r' => match skip_ws r' with EmptyString => Some [] | _ => None end
  | None => parse_members (String.length text) r []
  end.

End JSON.

(* ===================================================================== *)
(** * The effects the scripts share: exceptions over a page state         *)
(* ===================================================================== *)

(** A computation over a page state [S] that returns or throws; the state
    reached when it throws is kept, as after a JavaScript exception. *)
Inductive outcome (A : Type) : Type :=
| Ret (a : A)
| Throw (e : string).
Arguments Ret {A} a.
Arguments Throw {A} e.

Definition M (S A : Type) : Type := S -> S * outcome A.

Definition throw {S A} (e : string) : M S A := fun s => (s, Throw e).

#[global] Instance M_ret {S} : MRet (M S) := fun A a s => (s, Ret a).
#[global] Instance M_bind {S} : MBind (M S) := fun A B k m s =>
  match m s with
  | (s', Ret a) => k a s'
  | (s', Throw e) => (s', Throw e)
  end.

(** [try { m } catch (e) { h e }]. *)
Definition try_catch {S A} (m : M S A) (h : string -> M S A) : M S A :=
  fun s => match m s with
           | (s', Throw e) => h e s'
           | r => r
           end.
Definition modify {S} (f : S -> S) : M S unit := fun s => (f s, Ret tt).
Definition gets {S A} (f : S -> A) : M S A := fun s => (s, Ret (f s)).
(** Dereferencing what may be [null]. *)
Definition deref {S A} (o : option A) (what : string) : M S A :=
  match o with
  | Some a => mret a
  | None => throw ("TypeError: " +:+ what +:+ " is null")
  end.

(* ===================================================================== *)
(** * The document                                                        *)
(* ===================================================================== *)

Module DOM.

(** An element.  [attrs] are the attributes the templates write ([id],
    [data-upload], [data-upload-type], [required], [type], [action]);
    the other fields are what the scripts read and write. *)
Record node : Type := Node {
  tag : string;
  attrs : gmap string string;
  parent : option nat;
  classes : list string;
  attached : bool;
  disabled : bool;
  content : string;
  value : string;
  files : nat;
  style : gmap string string
}.

(** The elements of the page in document order; an element is referred to
    by its position, and elements created by a script go last. *)
Abbreviation document := (list node).

Definition with_classes (c : list string) (n : node) : node :=
  Node (tag n) (attrs n) (parent n) c (attached n) (disabled n)
       (content n) (value n) (files n) (style n).
Definition with_attached (b : bool) (n : node) : node :=
  Node (tag n) (attrs n) (parent n) (classes n) b (disabled n)
       (content n) (value n) (files n) (style n).
Definition with_disabled (b : bool) (n : node) : node :=
  Node (tag n) (attrs n) (parent n) (classes n) (attached n) b
       (content n) (value n) (files n) (style n).
Definition with_content (s : string) (n : node) : node :=
  Node (tag n) (attrs n) (parent n) (classes n) (attached n) (disabled n)
       s (value n) (files n) (style n).
Definition with_style (k v : string) (n : node) : node :=
  Node (tag n) (attrs n) (parent n) (classes n) (attached n) (disabled n)
       (content n) (value n) (files n) (<[k := v]> (style n)).

(** A fresh element from [document.createElement]. *)
Definition element (t : string) (cls : list string) (text : string)
    (p : option nat) : node :=
  Node t ∅ p cls true false text "" 0 ∅.

Definition has_class (c : string) (n : node) : bool :=
  existsb (String.eqb c) (classes n).

(** [classList.add] and [classList.remove]. *)
Definition add_class (c : string) (n : node) : node :=
  if has_class c n then n else with_classes (classes n ++ [c]) n.
Definition remove_class (c : string) (n : node) : node :=
  with_classes (List.filter (fun x => negb (String.eqb c x)) (classes n)) n.
Definition remove_classes (cs : list string) (n : node) : node :=
  fold_left (fun m c => remove_class c m) cs n.

Definition attr (k : string) (n : node) : option string := attrs n !! k.

(** [element.dataset.k], [element.getAttribute(k)]: reading an attribute of
    the element at [i]. *)
Definition dataset (d : list node) (i : nat) (k : string) : option string :=
  n ← d !! i; attr k n.

(** The selectors the scripts use. *)
Inductive selector : Type :=
| Class (c : string)
| Tag (t : string)
| HasAttr (k : string)
| AttrIs (k v : string)
| And (a b : selector)
| Or (a b : selector)
| Not (a : selector).

Fixpoint matches (s : selector) (n : node) : bool :=
  match s with
  | Class c => has_class c n
  | Tag t => String.eqb t (tag n)
  | HasAttr k => bool_decide (is_Some (attr k n))
  | AttrIs k v => bool_decide (attr k n = Some v)
  | And a b => matches a n && matches b n
  | Or a b => matches a n || matches b n
  | Not a => negb (matches a n)
  end.

Fixpoint find_from {A} (p : nat -> A -> bool) (i : nat) (l : list A) : list nat :=
  match l with
  | [] => []
  | x :: r => if p i x then i :: find_from p (S i) r else find_from p (S i) r
  end.

(** Is [i] a proper descendant of [root]?  The parent chain of an element
    is shorter than the document. *)
Fixpoint descends (d : document) (fuel : nat) (root i : nat) : bool :=
  match fuel with
  | O => false
  | S fuel' =>
      match d !! i with
      | Some n =>
          match parent n with
          | Some p => Nat.eqb p root || descends d fuel' root p
          | None => false
          end
      | None => false
      end
  end.

Definition querySelectorAll (d : document) (s : selector) : list nat :=
  find_from (fun _ n => attached n && matches s n) 0%nat d.

Definition querySelector (d : document) (s : selector) : option nat :=
  head (querySelectorAll d s).

Definition getElementById (d : document) (id : string) : option nat :=
  querySelector d (AttrIs "id" id).

(** [root.querySelectorAll(s)] and [root.querySelector(s)]. *)
Definition querySelectorAllIn (d : document) (root : nat) (s : selector) : list nat :=
  find_from (fun i n => attached n && matches s n && descends d (length d) root i)
            0%nat d.

Definition querySelectorIn (d : document) (root : nat) (s : selector) : option nat :=
  head (querySelectorAllIn d root s).

(** Writing a property of the element at [i]. *)
Definition update (i : nat) (f : node -> node) (d : document) : document :=
  alter f i d.

Definition update_all (l : list nat) (f : node -> node) (d : document) : document :=
  fold_left (fun d' i => update i f d') l d.

(** [parent.appendChild(n)]: the position of the new element. *)
Definition append (n : node) (d : document) : document * nat :=
  (d ++ [n], length d).

(** [f] leaves attributes and attachment alone. *)
Definition keeps_attrs (f : node -> node) : Prop :=
  forall n, attrs (f n) = attrs n /\ attached (f n) = attached n.

(** The four writes of a section switch: [active] is taken from the items
    and the sections, given to the clicked item, and given to the target
    when there is one. *)
Definition switched (d : document) (items sections : list nat) (i : nat)
    (target : option nat) : document :=
  let d := update_all items (remove_class "active") d in
  let d := update_all sections (remove_class "active") d in
  let d := update i (add_class "active") d in
  match target with
  | Some t => update t (add_class "active") d
  | None => d
  end.

Definition class_of (d : document) (i : nat) (c : string) : bool :=
  match d !! i with
  | Some n => has_class c n
  | None => false
  end.

(** An element as a template writes it. *)
Definition tagged (t : string) (cls : list string) (attributes : list (string * string))
    (p : option nat) (v : string) (nfiles : nat) : node :=
  Node t (list_to_map attributes) p cls true false "" v nfiles ∅.

(** The button at [b] shows the loading state. *)
Definition loading (d : document) (b : nat) : Prop :=
  disabled <$> d !! b = Some true /\
  content <$> d !! b = Some "⏳ Uploading...".

(** Does [active] sit on the clicked item and its section form, and on no
    other item or section? *)
Definition only_active (d d' : document) (i : nat) : Prop :=
  let target :=
    getElementById d (default "undefined" (dataset d i "data-upload") +:+ "-form") in
  class_of d' i "active" = true /\
  (forall t, target = Some t -> class_of d' t "active" = true) /\
  (forall j,
     j ∈ querySelectorAll d (Class "upload-item") \/
     j ∈ querySelectorAll d (Class "upload-section") ->
     class_of d' j "active" = true -> j = i \/ target = Some j).

End DOM.

(* ===================================================================== *)
(** * JavaScript numbers                                                  *)
(* ===================================================================== *)

(** The double-precision operations [formatFileSize] uses.  The scripts
    only combine them, so they are taken as they come. *)
Record Math : Type := {
  number : Type;
  is_zero : number -> bool;                 (* [x === 0] *)
  of_nat : nat -> number;                   (* a literal *)
  Math_log : number -> number;
  Math_floor : number -> number;
  Math_pow : number -> number -> number;
  divide : number -> number -> number;      (* [/] *)
  toFixed : number -> nat -> string;
  parseFloat : string -> number;
  show : number -> string;                  (* ToString *)
  index : number -> option nat              (* the array index a number names *)
}.

(* ===================================================================== *)
(** * upload_app/js/user-upload_app.js                                    *)
(* ===================================================================== *)

Module UserUpload.
Import DOM.

(** The closures the script hands to [setTimeout] and [setInterval]. *)
Inductive callback : Type :=
| SelectNext                 (* () => selectNextAvailableUpload() *)
| CompletionNotice           (* completion toast and modal *)
| ToastFadeIn (toast : nat)
| ToastFadeOut (toast : nat)
| ToastRemove (toast : nat)
| SessionTick (indicator : nat)
| HideMessages (container : nat)
| RemoveMessages (container : nat).

Record timer : Type := Timer {
  delay : Z;               (* milliseconds *)
  repeating : bool;        (* setInterval rather than setTimeout *)
  action : callback
}.

(** A request issued by [fetch(form.action, {method: 'POST', ...})]; its
    [then]/[catch] handlers close over [req_uploadType]. *)
Record request : Type := Request {
  req_url : option string;
  req_form : nat;
  req_uploadType : string
}.

(** What [fetch(...).then(response => response.json())] settles to. *)
Inductive reply : Type :=
| Rejected (reason : string)
| Json (data : JS.value).

Record state : Type := State {
  uploadStatus : JSON.object;
  sessionStorage : gmap string string;
  dom : document;
  timers : list timer;
  console : list string;
  requests : list request;
  localTime : string        (* new Date().toLocaleTimeString() *)
}.

Definition set_uploadStatus (o : JSON.object) (st : state) : state :=
  State o (sessionStorage st) (dom st) (timers st) (console st) (requests st)
        (localTime st).
Definition set_sessionStorage (m : gmap string string) (st : state) : state :=
  State (uploadStatus st) m (dom st) (timers st) (console st) (requests st)
        (localTime st).
Definition set_dom (d : document) (st : state) : state :=
  State (uploadStatus st) (sessionStorage st) d (timers st) (console st)
        (requests st) (localTime st).
Definition on_dom (f : document -> document) (st : state) : state :=
  set_dom (f (dom st)) st.
Definition setTimeout (c : callback) (ms : Z) (st : state) : state :=
  State (uploadStatus st) (sessionStorage st) (dom st)
        (timers st ++ [Timer ms false c]) (console st) (requests st)
        (localTime st).
Definition setInterval (c : callback) (ms : Z) (st : state) : state :=
  State (uploadStatus st) (sessionStorage st) (dom st)
        (timers st ++ [Timer ms true c]) (console st) (requests st)
        (localTime st).
Definition log (line : string) (st : state) : state :=
  State (uploadStatus st) (sessionStorage st) (dom st) (timers st)
        (console st ++ [line]) (requests st) (localTime st).
Definition fetch (r : request) (st : state) : state :=
  State (uploadStatus st) (sessionStorage st) (dom st) (timers st)
        (console st) (requests st ++ [r]) (localTime st).

(** [body.appendChild(n)] for a new element [n]. *)
Definition appendChild (n : node) (st : state) : state * nat :=
  let '(d, i) := append n (dom st) in (set_dom d st, i).

(** Line 7: the value [uploadStatus] is initialised with. *)
Definition initialStatus : JSON.object :=
  [("health-center", "available"); ("hmis-api", "available");
   ("temperature", "available"); ("precipitation", "available")].

Definition categories : list string :=
  ["health-center"; "hmis-api"; "temperature"; "precipitation"].

Definition labels : list string :=
  ["available"; "processing"; "completed"; "disabled"].

Section Script.

(** The text JavaScript prints for [(completed / total) * 100]. *)
Variable percent : nat -> nat -> string.

(** ** Toasts *)

Definition getToastColor (type : string) : string :=
  if String.eqb type "success" then "#28a745"
  else if String.eqb type "error" then "#dc3545"
  else if String.eqb type "warning" then "#ffc107"
  else "#17a2b8".

(** [showToast(message, type)]: the toast is appended to the body, faded in
    after 100 ms and faded out after 4 s (the other declarations of its
    [cssText] are constants). *)
Definition showToast (message type : string) (st : state) : state :=
  let toast :=
    with_style "opacity" "0"
      (with_style "background" (getToastColor type)
        (element "div" ["toast"; "toast-" +:+ type] message None)) in
  let '(st, t) := appendChild toast st in
  let st := setTimeout (ToastFadeIn t) 100 st in
  setTimeout (ToastFadeOut t) 4000 st.

(** ** Session storage *)

Definition saveUploadStatus (st : state) : state :=
  set_sessionStorage
    (<["uploadStatus" := JSON.stringify (uploadStatus st)]> (sessionStorage st)) st.

(** ** Badges, icons, form state *)

Definition statusTexts (status : string) : option string :=
  if String.eqb status "available" then Some "AVAILABLE"
  else if String.eqb status "processing" then Some "UPLOADING"
  else if String.eqb status "completed" then Some "COMPLETED"
  else if String.eqb status "disabled" then Some "DISABLED"
  else None.

Definition updateStatusBadge (uploadItem : nat) (status : string) (st : state) : state :=
  match querySelectorIn (dom st) uploadItem (Class "status-badge") with
  | Some badge =>
      let st := on_dom (update badge
                  (with_content (default "AVAILABLE" (statusTexts status)))) st in
      on_dom (update badge (with_classes ["status-badge"; status])) st
  | None => st
  end.

Definition updateStatusIcon (uploadItem : nat) (status : string) (st : state) : state :=
  let icons := querySelectorAllIn (dom st) uploadItem (Class "status-icon") in
  let st := on_dom (update_all icons (with_style "display" "none")) st in
  match querySelectorIn (dom st) uploadItem
          (And (Class "status-icon") (Class status)) with
  | Some activeIcon =>
      on_dom (update activeIcon (with_style "display" "inline-block")) st
  | None => st
  end.

Definition getOriginalButtonText (uploadType : option string) : string :=
  match uploadType with
  | Some t =>
      if String.eqb t "health-center" then "📤 Upload Health Records"
      else if String.eqb t "hmis-api" then "📤 Upload HMIS Data"
      else if String.eqb t "temperature" then "📤 Upload Temperature Data"
      else if String.eqb t "precipitation" then "📤 Upload Precipitation Data"
      else "📤 Upload Data"
  | None => "📤 Upload Data"
  end.

Definition fields : selector := Or (Tag "input") (Or (Tag "select") (Tag "textarea")).

Definition updateFormState (uploadSection : nat) (status : string) (st : state) : state :=
  let submitBtn := querySelectorIn (dom st) uploadSection (Class "submit-btn") in
  let formInputs := querySelectorAllIn (dom st) uploadSection fields in
  if String.eqb status "completed" || String.eqb status "disabled" then
    let st := on_dom (update_all formInputs (with_disabled true)) st in
    match submitBtn with
    | Some b =>
        let st := on_dom (update b (with_disabled true)) st in
        if String.eqb status "completed" then
          let st := on_dom (update b (with_content "✅ Upload Completed")) st in
          on_dom (update b (with_style "background" "#28a745")) st
        else
          let st := on_dom (update b (with_content "🚫 Upload Disabled")) st in
          on_dom (update b (with_style "background" "#6c757d")) st
    | None => st
    end
  else
    let st := on_dom (update_all formInputs (with_disabled false)) st in
    match submitBtn with
    | Some b =>
        let st := on_dom (update b (with_disabled false)) st in
        let originalText :=
          getOriginalButtonText (dataset (dom st) b "data-upload-type") in
        let st := on_dom (update b (with_content originalText)) st in
        on_dom (update b (with_style "background" "")) st
    | None => st
    end.

(** ** Progress bar and session indicator *)

Definition completedCount (o : JSON.object) : nat :=
  length (List.filter (fun s => String.eqb s "completed") (JSON.values o)).

Definition updateProgressBar (st : state) : state :=
  let totalUploads := length (JSON.keys (uploadStatus st)) in
  let completedUploads := completedCount (uploadStatus st) in
  match querySelector (dom st) (Class "progress-bar") with
  | Some progressBar =>
      on_dom (update progressBar
                (with_style "width" (percent completedUploads totalUploads +:+ "%"))) st
  | None => st
  end.

Definition getSessionStatusText (st : state) : string :=
  "Session: " +:+ pretty (completedCount (uploadStatus st)) +:+ "/" +:+
  pretty (length (JSON.keys (uploadStatus st))) +:+ " completed • " +:+
  localTime st.

Definition updateSessionStatus (st : state) : state :=
  match querySelector (dom st) (Class "session-status") with
  | Some sessionIndicator =>
      on_dom (update sessionIndicator (with_content (getSessionStatusText st))) st
  | None => st
  end.

(** ** [updateUploadState] (lines 78-109) *)

(** The function as it runs for a status that is a class name and an upload
    type that line 79 quotes as it is.  (The DOM raises an exception for a
    class token that is empty or has white space, and for a selector that
    the upload type breaks; the statements that depend on it say so.) *)

Definition updateUploadState (uploadType status : string) (st : state) : state :=
  let uploadItem := querySelector (dom st) (AttrIs "data-upload" uploadType) in
  let uploadSection := getElementById (dom st) (uploadType +:+ "-form") in
  match uploadItem, uploadSection with
  | Some uploadItem, Some uploadSection =>
      let st := on_dom (update uploadItem (remove_classes labels)) st in
      let st := on_dom (update uploadSection (remove_classes labels)) st in
      let st := on_dom (update uploadItem (add_class status)) st in
      let st := on_dom (update uploadSection (add_class status)) st in
      let st := updateStatusBadge uploadItem status st in
      let st := updateStatusIcon uploadItem status st in
      let st := updateFormState uploadSection status st in
      let st := set_uploadStatus (JSON.set (uploadStatus st) uploadType status) st in
      let st := saveUploadStatus st in
      let st := updateProgressBar st in
      updateSessionStatus st
  | _, _ =>
      log ("warn: Could not find elements for upload type: " +:+ uploadType) st
  end.

(** ** Sidebar *)

Definition handleSectionSwitch (clickedItem : nat) (st : state) : state :=
  let allItems := querySelectorAll (dom st) (Class "upload-item") in
  let allSections := querySelectorAll (dom st) (Class "upload-section") in
  let st := on_dom (update_all allItems (remove_class "active")) st in
  let st := on_dom (update_all allSections (remove_class "active")) st in
  let st := on_dom (update clickedItem (add_class "active")) st in
  let uploadType := default "undefined" (dataset (dom st) clickedItem "data-upload") in
  match getElementById (dom st) (uploadType +:+ "-form") with
  | Some targetForm => on_dom (update targetForm (add_class "active")) st
  | None => st
  end.

Definition selectNextAvailableUpload (st : state) : state :=
  let availableItems :=
    querySelectorAll (dom st)
      (And (Class "upload-item") (And (Not (Class "completed")) (Not (Class "disabled")))) in
  match availableItems with
  | first :: _ =>
      let items := querySelectorAll (dom st) (Class "upload-item") in
      let st := on_dom (update_all items (remove_class "active")) st in
      let st := on_dom (update first (add_class "active")) st in
      handleSectionSwitch first st
  | [] => st
  end.

(** The click listener that [setupSidebarNavigation] puts on each
    [.upload-item] (lines 230-245). *)
Definition on_item_click (item : nat) (st : state) : state :=
  let uploadType := default "undefined" (dataset (dom st) item "data-upload") in
  let status := JSON.get (uploadStatus st) uploadType in
  if bool_decide (status ≠ Some "completed") && bool_decide (status ≠ Some "disabled")
  then handleSectionSwitch item st
  else if bool_decide (status = Some "completed")
  then showToast "This upload has already been completed!" "info" st
  else showToast "This upload section is currently disabled." "warning" st.

Definition updateAllUploadStates (st : state) : state :=
  let st := fold_left (fun st uploadType =>
                match JSON.get (uploadStatus st) uploadType with
                | Some status => updateUploadState uploadType status st
                | None => updateUploadState uploadType "undefined" st
                end) (JSON.keys (uploadStatus st)) st in
  match querySelector (dom st) (And (Class "upload-item") (Class "active")) with
  | Some activeItem =>
      let currentUploadType :=
        default "undefined" (dataset (dom st) activeItem "data-upload") in
      if bool_decide (JSON.get (uploadStatus st) currentUploadType = Some "completed")
      then selectNextAvailableUpload st
      else st
  | None => st
  end.

(** [loadUploadStatus]: [None] when the stored text is not that of a flat
    object of strings. *)
Definition loadUploadStatus (st : state) : option state :=
  match sessionStorage st !! "uploadStatus" with
  | Some savedStatus =>
      if String.eqb savedStatus "" then Some st
      else
        o ← JSON.parse savedStatus;
        Some (updateAllUploadStates (set_uploadStatus o st))
  | None => Some st
  end.

(** ** Submission *)

Definition getUploadDisplayName (uploadType : string) : string :=
  if String.eqb uploadType "health-center" then "Health Center Data"
  else if String.eqb uploadType "hmis-api" then "HMIS API Data"
  else if String.eqb uploadType "temperature" then "Temperature Data"
  else if String.eqb uploadType "precipitation" then "Precipitation Data"
  else "Data".

Definition allCompleted (o : JSON.object) : bool :=
  forallb (fun status => String.eqb status "completed" || String.eqb status "disabled")
          (JSON.values o).

Definition checkAllUploadsCompleted (st : state) : state :=
  if allCompleted (uploadStatus st)
  then setTimeout CompletionNotice 2000 st
  else st.

Definition handleUploadSuccess (uploadType : string) (st : state) : state :=
  let st := updateUploadState uploadType "completed" st in
  let st := showToast (getUploadDisplayName uploadType +:+ " uploaded successfully! ✅")
                      "success" st in
  let st := setTimeout SelectNext 1500 st in
  checkAllUploadsCompleted st.

Definition handleUploadFailure (uploadType : string) (st : state) : state :=
  let st := updateUploadState uploadType "available" st in
  showToast (getUploadDisplayName uploadType +:+ " upload failed. Please try again.")
            "error" st.

(** [handleRealDjangoSubmission]: the request goes out ...  ([req_url] is
    the text of the [action] attribute; the browser resolves it against the
    address of the page, and takes that address when there is none.) *)
Definition handleRealDjangoSubmission (form : nat) (uploadType : string) (st : state) : state :=
  fetch (Request (dataset (dom st) form "action") form uploadType) st.

(** ... and this is its [then(data => ...)] with its [catch]. *)
Definition on_reply (uploadType : string) (r : reply) (st : state) : state :=
  match r with
  | Json data =>
      match JS.get data "success" with
      | Some success =>
          if JS.truthy success then handleUploadSuccess uploadType st
          else handleUploadFailure uploadType st
      | None => handleUploadFailure uploadType st
      end
  | Rejected _ => handleUploadFailure uploadType st
  end.

Definition setButtonLoadingState (button : nat) (st : state) : state :=
  let st := on_dom (update button (with_disabled true)) st in
  let st := on_dom (update button (with_content "⏳ Uploading...")) st in
  on_dom (update button (add_class "loading")) st.

Definition resetButtonState (button : nat) (originalText : string) (st : state) : state :=
  let st := on_dom (update button (with_disabled false)) st in
  let st := on_dom (update button (with_content originalText)) st in
  on_dom (update button (remove_class "loading")) st.

Definition handleFormSubmission (form : nat) : M state unit :=
  d ← gets dom;
  submitButton ← deref (querySelectorIn d form (Class "submit-btn")) "submitButton";
  match dataset d submitButton "data-upload-type" with
  | Some uploadType =>
      if String.eqb uploadType "" then
        modify (log "error: Upload type not found on submit button");;
        modify (showToast "Error: Upload type not specified" "error")
      else
        modify (updateUploadState uploadType "processing");;
        modify (setButtonLoadingState submitButton);;
        modify (handleRealDjangoSubmission form uploadType)
  | None =>
      modify (log "error: Upload type not found on submit button");;
      modify (showToast "Error: Upload type not specified" "error")
  end.

(** ** Validation *)

(** [value.trim()] gives the empty string: the white space of ASCII.  ([trim]
    also strips the white space outside ASCII, such as U+00A0: a value of
    such characters only is blank for the script and not for [is_blank].) *)
Definition is_space (c : ascii) : bool :=
  let n := N_of_ascii c in ((9 <=? n) && (n <=? 13) || (n =? 32))%N.

Fixpoint is_blank (s : string) : bool :=
  match s with
  | EmptyString => true
  | String c r => is_space c && is_blank r
  end.

Definition parentNode (i : nat) : M state nat :=
  d ← gets dom;
  deref (n ← d !! i; parent n) "parentNode".

Definition clearFieldError (field : nat) : M state unit :=
  p ← parentNode field;
  d ← gets dom;
  match querySelectorIn d p (Class "field-error") with
  | Some existingError => modify (on_dom (update existingError (with_attached false)))
  | None => mret tt
  end;;
  modify (on_dom (update field (with_style "borderColor" ""))).

Definition showFieldError (field : nat) (message : string) : M state unit :=
  clearFieldError field;;
  p ← parentNode field;
  let errorDiv :=
    with_style "marginTop" "4px"
      (with_style "fontSize" "12px"
        (with_style "color" "#dc3545"
          (element "div" ["field-error"] message (Some p)))) in
  modify (fun st => (appendChild errorDiv st).1);;
  modify (on_dom (update field (with_style "borderColor" "#dc3545"))).

Fixpoint for_each {S A} (l : list A) (f : A -> M S unit) : M S unit :=
  match l with
  | [] => mret tt
  | a :: r => f a;; for_each r f
  end.

(** [validateForm]: [isValid] is the conjunction over the fields. *)
Definition validateForm (form : nat) : M state bool :=
  d ← gets dom;
  let requiredFields := querySelectorAllIn d form (HasAttr "required") in
  let blank i := match d !! i with Some n => is_blank (value n) | None => true end in
  for_each requiredFields (fun field =>
    if blank field then showFieldError field "This field is required"
    else clearFieldError field);;
  let fileInputs := querySelectorAllIn d form (And (Tag "input") (AttrIs "type" "file")) in
  let missing i :=
    match d !! i with
    | Some n => bool_decide (is_Some (attr "required" n)) && Nat.eqb (files n) 0
    | None => false
    end in
  for_each fileInputs (fun input =>
    if missing input then showFieldError input "Please select a file" else mret tt);;
  mret (forallb (fun i => negb (blank i)) requiredFields &&
        forallb (fun i => negb (missing i)) fileInputs).

(** The submit listener of each [.upload-form] (lines 280-286); the default
    submission is prevented. *)
Definition on_submit (form : nat) : M state unit :=
  isValid ← validateForm form;
  if (isValid : bool) then handleFormSubmission form else mret tt.

(** ** Reset *)

Definition resetAllUploads (st : state) : state :=
  let st := fold_left (fun st uploadType => updateUploadState uploadType "available" st)
                      (JSON.keys (uploadStatus st)) st in
  showToast "All upload statuses have been reset." "info" st.

(** ** Timers *)

(** [showCompletionModal]: a style sheet and the modal are appended. *)
Definition showCompletionModal (st : state) : state :=
  let '(st, _) := appendChild (element "style" [] ".modal-content" None) st in
  let modal :=
    with_style "cssText" "position: fixed; z-index: 1000"
      (element "div" ["completion-modal"] "Upload Process Complete!" None) in
  (appendChild modal st).1.

(** [if (n.parentNode) n.parentNode.removeChild(n)]. *)
Definition removeFromParent (i : nat) (st : state) : state :=
  match dom st !! i with
  | Some n => if attached n then on_dom (update i (with_attached false)) st else st
  | None => st
  end.

(** Running one of the closures. *)
Definition fire (c : callback) (st : state) : state :=
  match c with
  | SelectNext => selectNextAvailableUpload st
  | CompletionNotice =>
      showCompletionModal (showToast "🎉 All uploads completed successfully!" "success" st)
  | ToastFadeIn t => on_dom (update t (with_style "opacity" "1")) st
  | ToastFadeOut t =>
      setTimeout (ToastRemove t) 300 (on_dom (update t (with_style "opacity" "0")) st)
  | ToastRemove t => removeFromParent t st
  | SessionTick i => on_dom (update i (with_content (getSessionStatusText st))) st
  | HideMessages m =>
      let st := on_dom (update m (with_style "transition" "opacity 0.5s ease")) st in
      let st := on_dom (update m (with_style "opacity" "0")) st in
      setTimeout (RemoveMessages m) 500 st
  | RemoveMessages m => removeFromParent m st
  end.

(** ** Page load *)

Definition createProgressIndicator (st : state) : state :=
  let '(st, bar) := appendChild (element "div" ["upload-progress"] "" None) st in
  let '(st, _) := appendChild (element "div" ["progress-bar"] "" (Some bar)) st in
  updateProgressBar st.

Definition createSessionStatusIndicator (st : state) : state :=
  let '(st, i) :=
    appendChild (element "div" ["session-status"] (getSessionStatusText st) None) st in
  setInterval (SessionTick i) 30000 st.

Definition setupMessageHandling (st : state) : state :=
  match querySelector (dom st) (Class "messages") with
  | Some messagesContainer =>
      let st := setTimeout (HideMessages messagesContainer) 5000 st in
      let alerts := querySelectorAllIn (dom st) messagesContainer (Class "alert") in
      on_dom (update_all alerts (with_style "cursor" "pointer")) st
  | None => st
  end.

Definition addLoadingAnimation (st : state) : state :=
  (appendChild (element "style" [] ".submit-btn.loading" None) st).1.

(** [initializeDashboard]; the listeners it registers are [on_item_click],
    [on_submit] and the drag-and-drop and keyboard handlers. *)
Definition initializeDashboard (st : state) : state :=
  let st := setupMessageHandling st in
  let st := addLoadingAnimation st in
  let st := createProgressIndicator st in
  let st := createSessionStatusIndicator st in
  log "User Dashboard initialized successfully" st.

(** The page as the browser hands it to the script: the template's
    document, the tab's session storage, and line 7 evaluated. *)
Definition page (template : document) (storage : gmap string string)
    (time : string) : state :=
  State initialStatus storage template [] [] [] time.

(** The [DOMContentLoaded] listener (lines 15-18). *)
Definition DOMContentLoaded (st : state) : option state :=
  loadUploadStatus (initializeDashboard st).

End Script.

(** [formatFileSize] (lines 791-799). *)
Definition formatFileSize (m : Math) (bytes : number m) : string :=
  if is_zero m bytes then "0 Bytes"
  else
    let k := of_nat m 1024 in
    let sizes := ["Bytes"; "KB"; "MB"; "GB"] in
    let i := Math_floor m (divide m (Math_log m bytes) (Math_log m k)) in
    show m (parseFloat m (toFixed m (divide m bytes (Math_pow m k i)) 2)) +:+ " " +:+
    default "undefined" (j ← index m i; sizes !! j).

(** ** The status map as the page keeps it *)

(** A flat mapping from the four category names to a status label. *)
Definition status_map (o : JSON.object) : Prop :=
  JSON.keys o = categories /\ Forall (fun s => s ∈ labels) (JSON.values o).

(** The statuses [checkAllUploadsCompleted] counts as done. *)
Definition finished (s : string) : Prop := s = "completed" \/ s = "disabled".

(** Session storage holds the text of the current map. *)
Definition saved (st : state) : Prop :=
  sessionStorage st !! "uploadStatus" = Some (JSON.stringify (uploadStatus st)).

(** The map after an operation is still a status map, and either map and
    storage are as before or storage holds the text of the new map. *)
Definition kept (st st' : state) : Prop :=
  status_map (uploadStatus st') /\
  ((uploadStatus st' = uploadStatus st /\ sessionStorage st' = sessionStorage st) \/
   saved st').

(** [f] writes nothing but the document. *)
Definition dom_only (f : state -> state) : Prop :=
  forall st, exists d, f st = set_dom d st.

(** A response with which the submission has failed: the request was
    rejected, or [data.success] is falsy or cannot be read. *)
Definition failed (r : reply) : bool :=
  match r with
  | Rejected _ => true
  | Json data =>
      match JS.get data "success" with
      | Some success => negb (JS.truthy success)
      | None => true
      end
  end.

(** A toast with this text and type is in the document, with the timers
    that fade it in and, after 4 s, out. *)
Definition toast_shown (message type : string) (st : state) : Prop :=
  exists t n,
    dom st !! t = Some n /\
    content n = message /\ classes n = ["toast"; "toast-" +:+ type] /\
    attached n = true /\
    Timer 100 false (ToastFadeIn t) ∈ timers st /\
    Timer 4000 false (ToastFadeOut t) ∈ timers st.

(** The completion modal is in the document, attached, after the style
    sheet that comes with it. *)
Definition modal_shown (st : state) : Prop :=
  exists s m ns nm,
    (s < m)%nat /\
    dom st !! s = Some ns /\ tag ns = "style" /\ attached ns = true /\
    dom st !! m = Some nm /\ tag nm = "div" /\
    classes nm = ["completion-modal"] /\ attached nm = true /\
    content nm = "Upload Process Complete!".

(** [m] issues no request. *)
Definition silent {A} (m : M state A) : Prop :=
  forall st, requests (m st).1 = requests st.

(** Both elements [updateUploadState] looks up are there. *)
Definition found (uploadType : string) (st : state) : bool :=
  bool_decide (is_Some (querySelector (dom st) (AttrIs "data-upload" uploadType))) &&
  bool_decide (is_Some (getElementById (dom st) (uploadType +:+ "-form"))).

(** The sidebar of the page is that of the four categories: an element in
    the document that carries [data-upload] names one of them. *)
Definition sidebar_of_categories (d : document) : Prop :=
  forall i n ut,
    d !! i = Some n -> attached n = true -> attr "data-upload" n = Some ut ->
    ut ∈ categories.

Definition sidebar_of_categoriesb (d : document) : bool :=
  forallb (fun n => negb (attached n) ||
                    match attr "data-upload" n with
                    | Some ut => bool_decide (ut ∈ categories)
                    | None => true
                    end) d.

(** ** A page to run the script on *)

(** Two of the categories, each with its sidebar item, section, form, a
    required field and a submit button. *)
Definition sample_template : document :=
  [ tagged "ul" ["sidebar"] [] None "" 0;
    tagged "li" ["upload-item"; "active"] [("data-upload", "health-center")] (Some 0%nat) "" 0;
    tagged "span" ["status-badge"] [] (Some 1%nat) "" 0;
    tagged "li" ["upload-item"] [("data-upload", "hmis-api")] (Some 0%nat) "" 0;
    tagged "span" ["status-badge"] [] (Some 3%nat) "" 0;
    tagged "div" ["upload-section"; "active"] [("id", "health-center-form")] None "" 0;
    tagged "form" ["upload-form"] [("action", "/upload/health-center/")] (Some 5%nat) "" 0;
    tagged "input" [] [("type", "file"); ("required", "")] (Some 6%nat) "records.csv" 1;
    tagged "button" ["submit-btn"] [("data-upload-type", "health-center")] (Some 6%nat) "" 0;
    tagged "div" ["upload-section"] [("id", "hmis-api-form")] None "" 0;
    tagged "form" ["upload-form"] [("action", "/upload/hmis/")] (Some 9%nat) "" 0;
    tagged "input" [] [("type", "text"); ("required", "")] (Some 10%nat) "2024" 0;
    tagged "button" ["submit-btn"] [("data-upload-type", "hmis-api")] (Some 10%nat) "" 0 ].

(** The same page, but the second submit button carries no upload type. *)
Definition untyped_template : document :=
  <[12%nat := tagged "button" ["submit-btn"] [] (Some 10%nat) "" 0]> sample_template.

Definition no_percent (completed total : nat) : string := "".

Definition sample : state := page sample_template ∅ "12:00:00".

Definition untyped : state := page untyped_template ∅ "12:00:00".

End UserUpload.

(* ===================================================================== *)
(** * upload_app/js/admin-upload-app.js                                   *)
(* ===================================================================== *)

Module AdminUpload.
Import DOM.

Inductive callback : Type :=
| HideMessages                                   (* line 17 *)
| RemoveMessages (messages : nat)                (* line 22 *)
| RestoreButton (button : nat) (originalText : string).   (* lines 35-38 *)

Record timer : Type := Timer { delay : Z; action : callback }.

Record state : Type := State {
  dom : document;
  timers : list timer;
  gtag : bool;                               (* is [gtag] defined? *)
  tracked : list (string * string);          (* admin_action events sent *)
  submitted : list nat                       (* forms handed to the browser *)
}.

Definition on_dom (f : document -> document) (st : state) : state :=
  State (f (dom st)) (timers st) (gtag st) (tracked st) (submitted st).
Definition setTimeout (c : callback) (ms : Z) (st : state) : state :=
  State (dom st) (timers st ++ [Timer ms c]) (gtag st) (tracked st) (submitted st).
Definition submit_form (form : nat) (st : state) : state :=
  State (dom st) (timers st) (gtag st) (tracked st) (submitted st ++ [form]).

(** [classList.add] on what [getElementById] returned. *)
Definition activate (target : option nat) : M state unit :=
  t ← deref target "document.getElementById(...)";
  modify (on_dom (update t (add_class "active"))).

(** The click listener of lines 4-13. *)
Definition on_item_click (item : nat) : M state unit :=
  d ← gets dom;
  modify (on_dom (update_all (querySelectorAll d (Class "upload-item"))
                             (remove_class "active")));;
  d ← gets dom;
  modify (on_dom (update_all (querySelectorAll d (Class "upload-section"))
                             (remove_class "active")));;
  modify (on_dom (update item (add_class "active")));;
  d ← gets dom;
  let upload := default "undefined" (dataset d item "data-upload") in
  activate (getElementById d (upload +:+ "-form")).

(** The submit listener of lines 28-39. *)
Definition on_submit (form : nat) : M state unit :=
  d ← gets dom;
  button ← deref (querySelectorIn d form (Class "submit-btn")) "button";
  modify (on_dom (update button (with_disabled true)));;
  let originalText := default "" (content <$> d !! button) in
  modify (on_dom (update button (with_content "⏳ Uploading...")));;
  modify (setTimeout (RestoreButton button originalText) 30000).

Definition trackAdminAction (action formType : string) (st : state) : state :=
  if gtag st
  then State (dom st) (timers st) (gtag st) (tracked st ++ [(action, formType)])
             (submitted st)
  else st.

(** Is [i] or one of its ancestors matched by [s]?  ([closest]) *)
Fixpoint closest (d : document) (fuel : nat) (s : selector) (i : nat) : option nat :=
  match fuel with
  | O => None
  | S fuel' =>
      n ← d !! i;
      if matches s n then Some i
      else p ← parent n; closest d fuel' s p
  end.

(** The analytics listeners of lines 58-61 and 66-69. *)
Definition on_submit_track (form : nat) : M state unit :=
  d ← gets dom;
  section ← deref (closest d (S (length d)) (Class "upload-section") form)
                  "this.closest('.upload-section')";
  let formId := default "" (dataset d section "id") in
  modify (trackAdminAction "form_submit" formId).

Definition on_click_track (item : nat) : M state unit :=
  d ← gets dom;
  modify (trackAdminAction "navigation_click"
            (default "undefined" (dataset d item "data-upload"))).

(** Dispatching an event: every listener runs, an exception in one does not
    stop the next; the state after all of them. *)
Definition after {A} (m : M state A) (st : state) : state := (m st).1.

Definition click (item : nat) (st : state) : state :=
  after (on_click_track item) (after (on_item_click item) st).

(** A submit event is not cancelled by any listener, so the browser then
    sends the form. *)
Definition submit (form : nat) (st : state) : state :=
  submit_form form (after (on_submit_track form) (after (on_submit form) st)).

(** Running a timer callback. *)
Definition fire (c : callback) (st : state) : state :=
  match c with
  | HideMessages =>
      match querySelector (dom st) (Class "messages") with
      | Some messages =>
          let st := on_dom (update messages (with_style "transition" "opacity 0.5s")) st in
          let st := on_dom (update messages (with_style "opacity" "0")) st in
          setTimeout (RemoveMessages messages) 500 st
      | None => st
      end
  | RemoveMessages messages => on_dom (update messages (with_attached false)) st
  | RestoreButton button originalText =>
      let st := on_dom (update button (with_disabled false)) st in
      on_dom (update button (with_content originalText)) st
  end.

(** The script as loaded: only the message timer is pending. *)
Definition page (template : document) (has_gtag : bool) : state :=
  State template [Timer 5000 HideMessages] has_gtag [] [].

End AdminUpload.

(* ===================================================================== *)
(** * static/js/dashboard.js                                              *)
(* ===================================================================== *)

Module Dashboard.
Import DOM.

Record file : Type := File { name : string; size : Z; mime : string }.

Inductive form_value : Type :=
| Text (s : string)
| Blob (f : file).

Record request : Type := Request {
  method : string;
  url : string;
  csrf : option string;                      (* the X-CSRFToken header *)
  body : list (string * form_value)          (* FormData entries *)
}.

(** What [await fetch(...)] followed by [await response.json()] gives. *)
Inductive reply : Type :=
| Rejected (message : string)
| Json (data : JS.value).

(** Where an [async] function is waiting. *)
Inductive continuation : Type :=
| AfterUpload          (* handleFormSubmit, line 178 *)
| AfterStartMerge      (* startProcessing, line 210 *)
| AfterPoll.           (* the interval callback, line 236 *)

Inductive callback : Type :=
| Poll                 (* line 234 *)
| RefreshStatistics    (* line 486 *)
| RemoveAlert (alert : nat).   (* line 415 *)

Record timer : Type := Timer {
  id : nat;
  due : Z;                  (* when it fires next *)
  period : option Z;        (* [Some p] for setInterval *)
  action : callback
}.

Record state : Type := State {
  boundaries : option file;             (* uploadedFiles.boundaries *)
  geotiff : option file;                (* uploadedFiles.geotiff *)
  currentProcessId : JS.value;
  progressInterval : option nat;
  startTime : option Z;
  dom : document;
  event : option nat;                   (* window.event.target, in a listener *)
  now : Z;                              (* Date.now() *)
  timers : list timer;
  next_id : nat;
  requests : list (Z * request);        (* each fetch and when it was issued *)
  pending : list (nat * continuation);  (* requests not yet settled *)
  console : list string
}.

Definition set_currentProcessId (v : JS.value) (st : state) : state :=
  State (boundaries st) (geotiff st) v (progressInterval st) (startTime st)
        (dom st) (event st) (now st) (timers st) (next_id st) (requests st)
        (pending st) (console st).
Definition set_startTime (t : option Z) (st : state) : state :=
  State (boundaries st) (geotiff st) (currentProcessId st) (progressInterval st) t
        (dom st) (event st) (now st) (timers st) (next_id st) (requests st)
        (pending st) (console st).
Definition on_dom (f : document -> document) (st : state) : state :=
  State (boundaries st) (geotiff st) (currentProcessId st) (progressInterval st)
        (startTime st) (f (dom st)) (event st) (now st) (timers st) (next_id st)
        (requests st) (pending st) (console st).
Definition set_event (e : option nat) (st : state) : state :=
  State (boundaries st) (geotiff st) (currentProcessId st) (progressInterval st)
        (startTime st) (dom st) e (now st) (timers st) (next_id st)
        (requests st) (pending st) (console st).
Definition set_now (t : Z) (st : state) : state :=
  State (boundaries st) (geotiff st) (currentProcessId st) (progressInterval st)
        (startTime st) (dom st) (event st) t (timers st) (next_id st)
        (requests st) (pending st) (console st).
Definition set_timers (l : list timer) (st : state) : state :=
  State (boundaries st) (geotiff st) (currentProcessId st) (progressInterval st)
        (startTime st) (dom st) (event st) (now st) l (next_id st)
        (requests st) (pending st) (console st).
Definition set_pending (l : list (nat * continuation)) (st : state) : state :=
  State (boundaries st) (geotiff st) (currentProcessId st) (progressInterval st)
        (startTime st) (dom st) (event st) (now st) (timers st) (next_id st)
        (requests st) l (console st).
Definition log (line : string) (st : state) : state :=
  State (boundaries st) (geotiff st) (currentProcessId st) (progressInterval st)
        (startTime st) (dom st) (event st) (now st) (timers st) (next_id st)
        (requests st) (pending st) (console st ++ [line]).

(** [setTimeout(c, ms)] and [setInterval(c, ms)]: a fresh timer id. *)
Definition setTimeout (c : callback) (ms : Z) (st : state) : state :=
  State (boundaries st) (geotiff st) (currentProcessId st) (progressInterval st)
        (startTime st) (dom st) (event st) (now st)
        (timers st ++ [Timer (next_id st) (now st + ms) None c]) (S (next_id st))
        (requests st) (pending st) (console st).

(** [progressInterval = setInterval(c, ms)]. *)
Definition setProgressInterval (c : callback) (ms : Z) (st : state) : state :=
  State (boundaries st) (geotiff st) (currentProcessId st) (Some (next_id st))
        (startTime st) (dom st) (event st) (now st)
        (timers st ++ [Timer (next_id st) (now st + ms) (Some ms) c]) (S (next_id st))
        (requests st) (pending st) (console st).

Definition clearInterval (h : option nat) (st : state) : state :=
  match h with
  | Some i => set_timers (List.filter (fun t => negb (Nat.eqb (id t) i)) (timers st)) st
  | None => st
  end.

(** [await fetch(r)]: the request goes out and the function waits at [k]. *)
Definition fetch (r : request) (k : continuation) (st : state) : state :=
  State (boundaries st) (geotiff st) (currentProcessId st) (progressInterval st)
        (startTime st) (dom st) (event st) (now st) (timers st) (next_id st)
        (requests st ++ [(now st, r)])
        (pending st ++ [(length (requests st), k)]) (console st).

Section Script.

(** Number formatting that depends on the locale and on doubles:
    [v.toLocaleString()], the success rate of lines 292-295, and the markup
    of the processing summary (lines 333-354). *)
Variable toLocaleString : JS.value -> string.
Variable successRate : JS.value -> JS.value -> string.
Variable summaryMarkup : JS.value -> string.

(** [x.k] where [x] may be [null]. *)
Definition prop (v : JS.value) (k : string) : M state JS.value :=
  match JS.get v k with
  | Some x => mret x
  | None => throw ("Cannot read properties of " +:+ JS.to_string v +:+
                   " (reading '" +:+ k +:+ "')")
  end.

(** [x.k] for a truthy [x]. *)
Definition field (v : JS.value) (k : string) : JS.value :=
  default JS.Undefined (JS.get v k).

(** [document.getElementById(id).p = ...]. *)
Definition set_by_id (i : string) (f : node -> node) : M state unit :=
  d ← gets dom;
  e ← deref (getElementById d i) i;
  modify (on_dom (update e f)).

Definition getCsrfToken (st : state) : string :=
  match querySelector (dom st) (AttrIs "name" "csrfmiddlewaretoken") with
  | Some token => default "" (value <$> dom st !! token)
  | None => ""
  end.

(** [updateProgress] (lines 269-282); the markup of the status panel is
    reduced to its text.  The width is kept as the text that is written: the
    browser keeps it when it is a CSS percentage that is not negative, and
    the text of a number is the one JavaScript prints when the number is an
    integer below 2^53; the statements about the width are about such
    numbers. *)
Definition updateProgress (percentage message : JS.value) : M state unit :=
  d ← gets dom;
  let progressFill := getElementById d "progressFill" in
  let progressText := getElementById d "progressText" in
  fill ← deref progressFill "progressFill";
  modify (on_dom (update fill (with_style "width" (JS.to_string percentage +:+ "%"))));;
  text ← deref progressText "progressText";
  modify (on_dom (update text (with_content (JS.to_string message))));;
  pid ← gets currentProcessId;
  set_by_id "processingStatus"
    (with_content ("Status: " +:+ JS.to_string message +:+
                   " Progress: " +:+ JS.to_string percentage +:+ "%" +:+
                   " Process ID: " +:+
                   JS.to_string (JS.or_else pid (JS.Str "Not assigned")))).

(** [showAlert] (lines 403-420): the alert is removed after 5 s. *)
Definition showAlert (message type : string) : M state unit :=
  d ← gets dom;
  alertContainer ← mret (getElementById d "alertContainer");
  let alertDiv := element "div" ["alert"; "alert-" +:+ type] message alertContainer in
  c ← deref alertContainer "alertContainer";
  modify (on_dom (fun d => (append alertDiv d).1));;
  modify (setTimeout (RemoveAlert (length d)) 5000).

Definition switchTab (tabName : string) : M state unit :=
  d ← gets dom;
  modify (on_dom (update_all (querySelectorAll d (Class "tab-content"))
                             (remove_class "active")));;
  d ← gets dom;
  modify (on_dom (update_all (querySelectorAll d (Class "tab"))
                             (remove_class "active")));;
  set_by_id (tabName +:+ "Tab") (add_class "active");;
  e ← gets event;
  target ← deref e "event";
  modify (on_dom (update target (add_class "active"))).

Definition updateStatistics : M state unit :=
  set_by_id "totalBoundaryFeatures" (with_content "-");;
  set_by_id "totalSlopePoints" (with_content "-");;
  set_by_id "processedFeatures" (with_content "-");;
  set_by_id "failedFeatures" (with_content "-");;
  set_by_id "successRate" (with_content "-%");;
  set_by_id "batchesCompleted" (with_content "-").

Definition updateStatisticsFromStatus (stats : JS.value) : M state unit :=
  set_by_id "totalBoundaryFeatures"
    (with_content (JS.to_string
       (JS.or_else (field stats "total_boundary_features") (JS.Str "-"))));;
  set_by_id "totalSlopePoints"
    (with_content (toLocaleString
       (JS.or_else (field stats "total_slope_points") (JS.Num 0))));;
  set_by_id "processedFeatures"
    (with_content (JS.to_string
       (JS.or_else (field stats "processed_features") (JS.Str "-"))));;
  set_by_id "failedFeatures"
    (with_content (JS.to_string
       (JS.or_else (field stats "failed_features") (JS.Str "-"))));;
  set_by_id "batchesCompleted"
    (with_content
       (JS.to_string (JS.or_else (field stats "batches_completed") (JS.Num 0)) +:+ "/" +:+
        JS.to_string (JS.or_else (field stats "total_batches") (JS.Num 0))));;
  let total := JS.or_else (field stats "total_boundary_features") (JS.Num 0) in
  let processed := JS.or_else (field stats "processed_features") (JS.Num 0) in
  set_by_id "successRate" (with_content (successRate total processed +:+ "%")).

Definition when (v : JS.value) (m : M state unit) : M state unit :=
  if JS.truthy v then m else mret tt.

Definition updateCoordinateDisplay (coordInfo : JS.value) : M state unit :=
  when (field coordInfo "boundary_bounds")
    (set_by_id "boundaryBounds"
       (with_content (JS.to_string (field coordInfo "boundary_bounds"))));;
  when (field coordInfo "slope_bounds")
    (set_by_id "slopeBounds"
       (with_content (JS.to_string (field coordInfo "slope_bounds"))));;
  when (field coordInfo "overlap_coverage")
    (set_by_id "overlapCoverage"
       (with_content (JS.to_string (field coordInfo "overlap_coverage"))));;
  d ← gets dom;
  overlapStatus ← deref (getElementById d "overlapStatus") "overlapStatus";
  if JS.is_str (field coordInfo "overlap_status") "OVERLAP_ACHIEVED" then
    modify (on_dom (update overlapStatus (with_classes ["overlap-status"])));;
    modify (on_dom (update overlapStatus
      (with_content "Spatial overlap confirmed - Processing can proceed")))
  else
    modify (on_dom (update overlapStatus (with_classes ["overlap-status"; "no-overlap"])));;
    modify (on_dom (update overlapStatus (with_content "No spatial overlap detected"))).

Definition updateFinalStatistics (status : JS.value) : M state unit :=
  st ← gets (fun st => st);
  match startTime st with
  | Some t0 =>
      if t0 =? 0 then mret tt
      else
        let processingTimeMs := now st - t0 in
        let minutes := processingTimeMs / 60000 in
        let seconds := Z.rem processingTimeMs 60000 / 1000 in
        set_by_id "processingTime"
          (with_content (pretty minutes +:+ "m " +:+ pretty seconds +:+ "s"))
  | None => mret tt
  end;;
  _ ← prop status "file_statistics";        (* line 331 *)
  set_by_id "processingSummary" (with_content (summaryMarkup status)).

(** ** The status monitor (lines 233-267) *)

Definition startProgressMonitoring (st : state) : state :=
  setProgressInterval Poll 2000 st.

Definition status_url (pid : JS.value) : string :=
  "/geospatial/api/status/?process_id=" +:+ JS.to_string pid.

(** The interval callback up to its first [await]. *)
Definition poll (st : state) : state :=
  fetch (Request "GET" (status_url (currentProcessId st)) None []) AfterPoll st.

(** The rest of the callback, once the response is there. *)
Definition poll_resume (r : reply) : M state unit :=
  try_catch
    (status ← match r with
              | Rejected e => throw e
              | Json v => mret v
              end;
     progress ← prop status "progress";
     updateProgress (JS.or_else progress (JS.Num 0))
                    (JS.or_else (field status "message") (JS.Str "Processing..."));;
     when (field status "file_statistics")
       (updateStatisticsFromStatus (field status "file_statistics"));;
     when (field status "coordinate_info")
       (updateCoordinateDisplay (field status "coordinate_info"));;
     when (field status "completed")
       (h ← gets progressInterval;
        modify (clearInterval h);;
        if JS.truthy (field status "error") then
          showAlert ("Processing failed: " +:+ JS.to_string (field status "error")) "error"
        else
          updateProgress (JS.Num 100) (JS.Str "Processing completed successfully!");;
          showAlert "Processing completed successfully!" "success";;
          updateFinalStatistics status;;
          switchTab "statistics"))
    (fun error => modify (log ("error: Progress check error: " +:+ error))).

(** ** Upload, then start the merge (lines 153-231) *)

Definition processing_catch (error : string) : M state unit :=
  modify (log ("error: Processing error: " +:+ error));;
  showAlert ("Processing failed: " +:+ error) "error".

Definition upload_catch (error : string) : M state unit :=
  modify (log ("error: Upload error: " +:+ error));;
  showAlert ("Upload failed: " +:+ error) "error";;
  updateProgress (JS.Num 0) (JS.Str "Upload failed").

(** [startProcessing] up to its [await fetch]. *)
Definition startProcessing : M state unit :=
  try_catch
    (st ← gets (fun st => st);
     modify (fetch (Request "POST" "/geospatial/api/start_merge/"
                            (Some (getCsrfToken st))
                            [("process_id", Text (JS.to_string (currentProcessId st)))])
                   AfterStartMerge))
    processing_catch.

(** [startProcessing] from its response on; an exception that leaves it
    reaches the [catch] of [handleFormSubmit], which awaits it. *)
Definition startProcessing_resume (r : reply) : M state unit :=
  try_catch
    (try_catch
       (result ← match r with
                 | Rejected e => throw e
                 | Json v => mret v
                 end;
        success ← prop result "success";
        if JS.truthy success then
          updateProgress (JS.Num 75) (JS.Str "Processing started...");;
          modify startProgressMonitoring
        else
          throw (JS.to_string (JS.or_else (field result "message")
                                          (JS.Str "Processing failed to start"))))
       processing_catch)
    upload_catch.

(** [handleFormSubmit] up to its [await fetch]. *)
Definition handleFormSubmit : M state unit :=
  st ← gets (fun st => st);
  match boundaries st, geotiff st with
  | Some b, Some g =>
      switchTab "process";;
      modify (fun st => set_startTime (Some (now st)) st);;
      set_by_id "progressPanel" (with_style "display" "block");;
      set_by_id "coordinateInfo" (with_style "display" "block");;
      updateProgress (JS.Num 0) (JS.Str "Starting upload...");;
      try_catch
        (updateProgress (JS.Num 25) (JS.Str "Uploading files...");;
         st ← gets (fun st => st);
         modify (fetch (Request "POST" "/geospatial/upload_files/"
                                (Some (getCsrfToken st))
                                [("geojson", Blob b); ("geotiff", Blob g)])
                       AfterUpload))
        upload_catch
  | _, _ => showAlert "Please upload both files" "error"
  end.

(** [handleFormSubmit] from the upload response on. *)
Definition handleFormSubmit_resume (r : reply) : M state unit :=
  try_catch
    (result ← match r with
              | Rejected e => throw e
              | Json v => mret v
              end;
     success ← prop result "success";
     if JS.truthy success then
       modify (set_currentProcessId (field result "process_id"));;
       updateProgress (JS.Num 50) (JS.Str "Files uploaded successfully");;
       startProcessing
     else
       throw (JS.to_string (JS.or_else (field result "message") (JS.Str "Upload failed"))))
    upload_catch.

(** ** The event loop *)

Definition resume (k : continuation) (r : reply) : M state unit :=
  match k with
  | AfterUpload => handleFormSubmit_resume r
  | AfterStartMerge => startProcessing_resume r
  | AfterPoll => poll_resume r
  end.

Definition fire (c : callback) : M state unit :=
  match c with
  | Poll => modify poll
  | RefreshStatistics =>
      st ← gets (fun st => st);
      if JS.truthy (currentProcessId st) && bool_decide (is_Some (progressInterval st))
      then updateStatistics else mret tt
  | RemoveAlert a =>
      d ← gets dom;
      match d !! a with
      | Some n => if attached n then modify (on_dom (update a (with_attached false)))
                  else mret tt
      | None => mret tt
      end
  end.

(** Running a listener to its end or to an uncaught exception. *)
Definition dispatch (m : M state unit) (st : state) : state :=
  match m st with
  | (st', Ret _) => st'
  | (st', Throw e) => log ("Uncaught " +:+ e) st'
  end.

(** What happens on the page: the upload form is submitted, a timer comes
    due, a request settles.  Time does not go back, and a timer fires when
    it is due. *)
Inductive happening : Type :=
| Submit (target : nat) (time : Z)
| Tick (timer_id : nat)
| Settle (req : nat) (time : Z) (r : reply).

Definition find_timer (i : nat) (st : state) : option timer :=
  head (List.filter (fun t => Nat.eqb (id t) i) (timers st)).

Definition reschedule (t : timer) (st : state) : state :=
  match period t with
  | Some p =>
      set_timers (map (fun t' => if Nat.eqb (id t') (id t)
                                 then Timer (id t') (due t' + p) (period t') (action t')
                                 else t') (timers st)) st
  | None => set_timers (List.filter (fun t' => negb (Nat.eqb (id t') (id t))) (timers st)) st
  end.

Definition step (h : happening) (st : state) : option state :=
  match h with
  | Submit target time =>
      if now st <=? time then
        Some (set_event None
                (dispatch handleFormSubmit (set_event (Some target) (set_now time st))))
      else None
  | Tick i =>
      t ← find_timer i st;
      if now st <=? due t then
        Some (dispatch (fire (action t)) (reschedule t (set_event None (set_now (due t) st))))
      else None
  | Settle req time r =>
      k ← JS.assoc_nat req (pending st);
      if now st <=? time then
        Some (dispatch (resume k r)
                (set_pending (List.filter (fun p => negb (Nat.eqb p.1 req)) (pending st))
                   (set_event None (set_now time st))))
      else None
  end.

Fixpoint run (hs : list happening) (st : state) : option state :=
  match hs with
  | [] => Some st
  | h :: r => st' ← step h st; run r st'
  end.

(** The script as loaded on a template at time [t] (lines 9-12, 486). *)
Definition page (template : document) (t : Z) : state :=
  State None None JS.Null None None template None t
        [Timer 1 (t + 5000) (Some 5000) RefreshStatistics] 2 [] [] [].

End Script.

(** ** What the properties speak of *)

(** The ids the script writes to while a process is monitored. *)
Definition progress_ids : list string :=
  ["progressFill"; "progressText"; "processingStatus"].

Definition statistics_ids : list string :=
  ["totalBoundaryFeatures"; "totalSlopePoints"; "processedFeatures";
   "failedFeatures"; "batchesCompleted"; "successRate"].

Definition coordinate_ids : list string :=
  ["boundaryBounds"; "slopeBounds"; "overlapCoverage"; "overlapStatus"].

Definition submit_ids : list string :=
  ["processTab"; "progressPanel"; "coordinateInfo"] ++ progress_ids.

Definition monitor_ids : list string :=
  progress_ids ++ statistics_ids ++ coordinate_ids.

(** The document has an element for each of these ids. *)
Definition has_ids (d : document) (ids : list string) : Prop :=
  forall i, i ∈ ids -> is_Some (getElementById d i).

Definition has_idsb (d : document) (ids : list string) : bool :=
  forallb (fun i => bool_decide (is_Some (getElementById d i))) ids.

(** Looking up an id gives the same element in both documents. *)
Definition same_ids (d d' : document) : Prop :=
  forall i, getElementById d' i = getElementById d i.

(** [m] runs to its end on a document that has [ids], and leaves the ids
    where they are. *)
Definition smooth {A} (ids : list string) (m : M state A) : Prop :=
  forall st, has_ids (dom st) ids ->
    exists st' a, m st = (st', Ret a) /\ same_ids (dom st) (dom st').

(** A step that sends nothing and starts nothing: the requests, what is
    awaited, the script's variables and the clock are as before, and every
    timer is one that was there or the removal of an alert just shown. *)
Definition calm (st st' : state) : Prop :=
  requests st' = requests st /\
  pending st' = pending st /\
  currentProcessId st' = currentProcessId st /\
  progressInterval st' = progressInterval st /\
  startTime st' = startTime st /\
  now st' = now st /\
  event st' = event st /\
  (next_id st <= next_id st')%nat /\
  forall t, t ∈ timers st' ->
    t ∈ timers st \/
    (exists a, action t = RemoveAlert a) /\ (next_id st <= id t < next_id st')%nat.

Definition calm_m {A} (m : M state A) : Prop := forall st, calm st (m st).1.

(** A step that only rewrites elements that carry an id: the rest of the
    state, the ids and the elements without id are as before. *)
Definition retouch (st st' : state) : Prop :=
  (exists d, st' = on_dom (fun _ => d) st) /\
  same_ids (dom st) (dom st') /\
  forall j n, dom st !! j = Some n -> attr "id" n = None -> dom st' !! j = Some n.

(** ** The monitor *)

Definition no_submit (h : happening) : bool :=
  match h with
  | Submit _ _ => false
  | _ => true
  end.

(** How often the timer [m] fires in a run. *)
Definition firings (m : nat) (hs : list happening) : nat :=
  length (List.filter (fun h => match h with
                                | Tick i => Nat.eqb i m
                                | _ => false
                                end) hs).

(** A response to a poll that says the process has completed. *)
Definition completes (r : reply) : bool :=
  match r with
  | Rejected _ => false
  | Json status => JS.truthy (field status "completed")
  end.

(** No response of the run says that the process has completed. *)
Definition running (hs : list happening) : bool :=
  forallb (fun h => match h with
                    | Settle _ _ r => negb (completes r)
                    | _ => true
                    end) hs.

(** [m] sets and clears no timer. *)
Definition timeless {A} (m : M state A) : Prop :=
  forall st, timers (m st).1 = timers st.

(** The status request for process [pid], issued at [t]. *)
Definition poll_at (pid : JS.value) (t : Z) : Z * request :=
  (t, Request "GET" (status_url pid) None []).

(** No monitor is running and nothing is awaited. *)
Definition idle (st : state) : Prop :=
  pending st = [] /\
  forall t, t ∈ timers st -> action t <> Poll /\ (id t < next_id st)%nat.

(** The monitor started in [st0] has polled [n] times: the requests since
    then are its [n] polls, one every 2000 ms; its interval, if it is still
    there, fires next at the time of poll [n + 1]; what is awaited are
    responses to polls. *)
Definition monitoring (st0 : state) (n : nat) (st : state) : Prop :=
  let m := next_id st0 in
  progressInterval st = Some m /\
  currentProcessId st = currentProcessId st0 /\
  requests st =
    requests st0 ++
      map (fun k => poll_at (currentProcessId st0) (now st0 + 2000 * Z.of_nat k))
          (seq 1 n) /\
  (forall p, p ∈ pending st -> p.2 = AfterPoll) /\
  (m < next_id st)%nat /\
  forall t, t ∈ timers st ->
    (id t < next_id st)%nat /\
    (id t = m <-> action t = Poll) /\
    (action t = Poll ->
     t = Timer m (now st0 + 2000 * Z.of_nat (S n)) (Some 2000) Poll).

(** Timers that differ from those of before only in when a timer that is
    not the monitor's fires next, or in that it is gone. *)
Definition retimed (l l' : list timer) : Prop :=
  forall t', t' ∈ l' ->
    exists t0, t0 ∈ l /\ id t' = id t0 /\ action t' = action t0 /\
               (action t0 = Poll -> t' = t0).

(** No interval polls any more. *)
Definition stopped (st : state) : Prop :=
  (forall p, p ∈ pending st -> p.2 = AfterPoll) /\
  forall t, t ∈ timers st -> action t <> Poll.

(** The width of the progress bar. *)
Definition progress_width (d : document) : option string :=
  i ← getElementById d "progressFill"; n ← d !! i; style n !! "width".

(** An alert with this text and type is the last element of the document,
    and a timer will remove it 5 s after [t]. *)
Definition alert_shown (message type : string) (t : Z) (st : state) : Prop :=
  exists a n c i,
    dom st !! a = Some n /\
    content n = message /\ classes n = ["alert"; "alert-" +:+ type] /\
    attrs n = ∅ /\ attached n = true /\ parent n = Some c /\
    getElementById (dom st) "alertContainer" = Some c /\
    Timer i (t + 5000) None (RemoveAlert a) ∈ timers st.

(** A response that makes the upload or the start of the merge fail, and
    the message of the error that is then caught. *)
Definition failed (r : reply) : bool :=
  match r with
  | Rejected _ => true
  | Json data =>
      match JS.get data "success" with
      | Some success => negb (JS.truthy success)
      | None => true
      end
  end.

Definition failure_message (fallback : string) (r : reply) : string :=
  match r with
  | Rejected e => e
  | Json data =>
      match JS.get data "success" with
      | Some _ =>
          JS.to_string
            (JS.or_else (default JS.Undefined (JS.get data "message")) (JS.Str fallback))
      | None => "Cannot read properties of " +:+ JS.to_string data +:+
                " (reading 'success')"
      end
  end.

(** The message of the error that is caught, where the script or the
    network words it: the reason of a rejection, or the [message] of a
    response whose [success] is falsy (the fallback without one).  When
    [success] cannot be read the engine words the message. *)
Definition caught_message (fallback : string) (r : reply) : option string :=
  match r with
  | Rejected e => Some e
  | Json data =>
      _ ← JS.get data "success";
      Some (JS.to_string
              (JS.or_else (default JS.Undefined (JS.get data "message"))
                          (JS.Str fallback)))
  end.

(** ** A page to run the script on *)

Definition with_id (t i : string) (cls : list string) : node :=
  tagged t cls [("id", i)] None "" 0.

Definition sample_template : document :=
  [ tagged "form" [] [("id", "uploadForm")] None "" 0;
    tagged "input" [] [("name", "csrfmiddlewaretoken")] (Some 0%nat) "token" 0;
    with_id "div" "alertContainer" [];
    with_id "div" "uploadTab" ["tab-content"; "active"];
    with_id "div" "processTab" ["tab-content"];
    with_id "div" "statisticsTab" ["tab-content"];
    with_id "div" "progressPanel" [];
    with_id "div" "coordinateInfo" [];
    with_id "div" "progressFill" [];
    with_id "div" "progressText" [];
    with_id "div" "processingStatus" [];
    with_id "span" "totalBoundaryFeatures" [];
    with_id "span" "totalSlopePoints" [];
    with_id "span" "processedFeatures" [];
    with_id "span" "failedFeatures" [];
    with_id "span" "batchesCompleted" [];
    with_id "span" "successRate" [];
    with_id "span" "boundaryBounds" [];
    with_id "span" "slopeBounds" [];
    with_id "span" "overlapCoverage" [];
    with_id "div" "overlapStatus" [];
    with_id "span" "processingTime" [];
    with_id "div" "processingSummary" [] ].

(** The page once both files have been chosen. *)
Definition sample : state :=
  State (Some (File "districts.zip" 2048 "application/zip"))
        (Some (File "slope.tif" 4096 "image/tiff"))
        JS.Null None None sample_template None 1000
        [Timer 1 5000 (Some 5000) RefreshStatistics] 2 [] [] [].

Definition plain (v : JS.value) : string := JS.to_string v.
Definition no_rate (total processed : JS.value) : string := "0".
Definition no_summary (status : JS.value) : string := "".

(** [formatFileSize] (lines 422-428). *)
Definition formatFileSize (m : Math) (bytes : number m) : string :=
  if is_zero m bytes then "0 Bytes"
  else
    let k := of_nat m 1024 in
    let sizes := ["Bytes"; "KB"; "MB"; "GB"] in
    let i := Math_floor m (divide m (Math_log m bytes) (Math_log m k)) in
    show m (parseFloat m (toFixed m (divide m bytes (Math_pow m k i)) 2)) +:+ " " +:+
    default "undefined" (j ← index m i; sizes !! j).

End Dashboard.
(* ===================================================================== *)
(** * Relations between two states of a document                          *)
(* ===================================================================== *)

Module DOMRel.
Import DOM.

(** Every element of [d] is in [d'] at its place, with its attributes and
    attached as it was; [d'] has no other element. *)
Definition same_attrs (d d' : document) : Prop :=
  length d' = length d /\
  forall j n, d !! j = Some n ->
    exists n', d' !! j = Some n' /\ attrs n' = attrs n /\ attached n' = attached n.

(** The elements of [d] are in [d'] as they were. *)
Definition untouched (d d' : document) : Prop :=
  forall j n, d !! j = Some n -> d' !! j = Some n.

(** The element at [j] satisfies [P]. *)
Definition node_at (d : document) (j : nat) (P : node -> Prop) : Prop :=
  exists n, d !! j = Some n /\ P n.

(** [d'] is [d] with other classes, texts, styles and enabled states: every
    element is at its place under its parent, with its tag and attached as
    it was; no element has got the class [c], and the element at [b] has
    not lost it. *)
Definition reclassed (c : string) (b : nat) (d d' : document) : Prop :=
  length d' = length d /\
  forall j n, d !! j = Some n ->
    exists n', d' !! j = Some n' /\
      tag n' = tag n /\ parent n' = parent n /\ attached n' = attached n /\
      (has_class c n' = true -> has_class c n = true) /\
      (j = b -> has_class c n = true -> has_class c n' = true).

End DOMRel.

(* ===================================================================== *)
(** * user-upload_app.js: the Escape key, and predicates on the page      *)
(* ===================================================================== *)

Module UserPage.
Import DOM DOMRel UserUpload.

(** Does an element of class [c] enclose [i]?  This is the descendant
    combinator of a selector [.c x]. *)
Fixpoint enclosed (d : document) (fuel : nat) (c : string) (i : nat) : bool :=
  match fuel with
  | O => false
  | S fuel' =>
      match d !! i with
      | Some n =>
          match parent n with
          | Some p => class_of d p c || enclosed d fuel' c p
          | None => false
          end
      | None => false
      end
  end.

(** [handleEscapeKey] (lines 858-869): the field errors are removed and the
    border colour of the fields inside a [.form-group] is cleared. *)
Definition handleEscapeKey (st : state) : state :=
  let errorMessages := querySelectorAll (dom st) (Class "field-error") in
  let st := on_dom (update_all errorMessages (with_attached false)) st in
  let formInputs :=
    find_from (fun i n => attached n && matches fields n &&
                          enclosed (dom st) (length (dom st)) "form-group" i)
              0%nat (dom st) in
  on_dom (update_all formInputs (with_style "borderColor" "")) st.

(** Of the four status classes the element carries [status] and no other;
    it carries none of them. *)
Definition carries (status : string) (n : node) : Prop :=
  has_class status n = true /\
  forall l, l ∈ labels -> l <> status -> has_class l n = false.

Definition unlabelled (n : node) : Prop :=
  forall l, l ∈ labels -> has_class l n = false.

(** [m] writes nothing but the document. *)
Definition dom_only_m {A} (m : M state A) : Prop :=
  forall st, exists d, (m st).1 = set_dom d st.

(** An upload type that the selector [[data-upload="..."]] of
    [updateUploadState] quotes as it is: it has no double quote, no
    backslash, no line break and no NUL. *)
Definition quoted_as_is (c : ascii) : bool :=
  let n := N_of_ascii c in
  negb ((n =? 34) || (n =? 92) || (n =? 10) || (n =? 12) || (n =? 13) || (n =? 0))%N.

Fixpoint quotable (s : string) : bool :=
  match s with
  | EmptyString => true
  | String c r => quoted_as_is c && quotable r
  end.


(** The page of [UserUpload.sample_template] whose second form has only
    white space in its required field. *)
Definition blank_template : document :=
  <[11%nat := tagged "input" [] [("type", "text"); ("required", "")] (Some 10%nat) "  " 0]>
    sample_template.

Definition blank : state := page blank_template ∅ "12:00:00".

End UserPage.

(* ===================================================================== *)
(** * dashboard.js: choosing the files, validating them, resetting        *)
(* ===================================================================== *)

Module DashboardFiles.
Import DOM DOMRel Dashboard.

Definition set_boundaries (f : option file) (st : state) : state :=
  State f (geotiff st) (currentProcessId st) (progressInterval st)
        (startTime st) (dom st) (event st) (now st) (timers st) (next_id st)
        (requests st) (pending st) (console st).
Definition set_geotiff (f : option file) (st : state) : state :=
  State (boundaries st) f (currentProcessId st) (progressInterval st)
        (startTime st) (dom st) (event st) (now st) (timers st) (next_id st)
        (requests st) (pending st) (console st).

(** [String.prototype.toLowerCase] on the letters A-Z.  A character outside
    ASCII that changes does not complete one of the suffixes
    [validateFileType] tests for. *)
Definition lower (c : ascii) : ascii :=
  let n := N_of_ascii c in
  if (65 <=? n)%N && (n <=? 90)%N then ascii_of_N (n + 32) else c.

Fixpoint toLowerCase (s : string) : string :=
  match s with
  | EmptyString => EmptyString
  | String c r => String (lower c) (toLowerCase r)
  end.

(** [s.endsWith(suffix)]. *)
Fixpoint endsWith (s suffix : string) : bool :=
  String.eqb s suffix ||
  match s with
  | EmptyString => false
  | String _ r => endsWith r suffix
  end.

(** The per cent the progress bar can show for [status.progress]: the
    number [status.progress || 0] when it is an integer from 0 to 2^53 - 1,
    which JavaScript prints in full and CSS takes as a width. *)
Definition bar_percent (progress : JS.value) : option Z :=
  match JS.or_else progress (JS.Num 0) with
  | JS.Num p =>
      if (0 <=? p) && (p <=? 9007199254740991) then Some p else None
  | _ => None
  end.

(** [validateFileType] (lines 101-111). *)
Definition validateFileType (f : file) (type : string) : bool :=
  let fileName := toLowerCase (name f) in
  if String.eqb type "boundaries" then endsWith fileName ".zip"
  else if String.eqb type "geotiff" then
    endsWith fileName ".tif" || endsWith fileName ".tiff"
  else false.

(** [updateButtonStates] (lines 113-120). *)
Definition updateButtonStates : M state unit :=
  st ← gets (fun st => st);
  let hasBoundaries := bool_decide (is_Some (boundaries st)) in
  let hasGeotiff := bool_decide (is_Some (geotiff st)) in
  let bothUploaded := hasBoundaries && hasGeotiff in
  set_by_id "validateBtn" (with_disabled (negb bothUploaded));;
  set_by_id "uploadBtn" (with_disabled (negb bothUploaded)).

(** [uploadedFiles[type] = file]; the callers pass 'boundaries' or
    'geotiff', any other [type] would name a property the script never
    reads. *)
Definition store (type : string) (f : file) (st : state) : state :=
  if String.eqb type "boundaries" then set_boundaries (Some f) st
  else if String.eqb type "geotiff" then set_geotiff (Some f) st
  else st.

(** [updateCoordinateInfo] (lines 135-151); the markup is reduced to its
    text. *)
Definition updateCoordinateInfo : M state unit :=
  set_by_id "boundsGrid"
    (with_content
       ("Coordinate System WGS84 (EPSG:4326) Storage Format Decimal Degrees " +:+
        "Processing Status Files ready for processing")).

(** [validateFiles] (lines 122-133). *)
Definition validateFiles : M state unit :=
  st ← gets (fun st => st);
  match boundaries st, geotiff st with
  | Some _, Some _ =>
      showAlert "Files validated successfully! Ready to process." "success";;
      set_by_id "coordinateInfo" (with_style "display" "block");;
      updateCoordinateInfo
  | _, _ => showAlert "Please upload both files first" "error"
  end.

(** The elements below [root]: what [root.innerHTML = ''] removes. *)
Definition descendants (d : document) (root : nat) : list nat :=
  find_from (fun i _ => descends d (length d) root i) 0%nat d.

Section Script.

(** The markup of the file panel (lines 79-86): name, formatted size, type
    and date of the file. *)
Variable fileInfoMarkup : file -> string.

(** [form.reset()], which puts back the values the template gave the
    controls of the form. *)
Variable resetForm : nat -> document -> document.

(** [handleFileSelect(event, type)] (lines 70-99); [chosen] is
    [event.target.files[0]]. *)
Definition handleFileSelect (chosen : option file) (type : string) : M state unit :=
  match chosen with
  | None => mret tt
  | Some file =>
      modify (store type file);;
      d ← gets dom;
      infoDiv ← deref (getElementById d (if String.eqb type "boundaries"
                                         then "shapefileInfo" else "geotiffInfo"))
                      "infoDiv";
      modify (on_dom (update infoDiv (with_style "display" "block")));;
      modify (on_dom (update infoDiv (with_content (fileInfoMarkup file))));;
      (if validateFileType file type then
         modify (on_dom (update infoDiv (add_class "status-success")));;
         showAlert ((if String.eqb type "boundaries" then "Boundary shapefile"
                     else "Slope GeoTIFF") +:+ " uploaded successfully!") "success"
       else
         modify (on_dom (update infoDiv (add_class "status-error")));;
         showAlert ("Invalid file type for " +:+ type) "error");;
      updateButtonStates
  end.

(** [resetDashboard] (lines 435-467). *)
Definition resetDashboard : M state unit :=
  modify (set_boundaries None);;
  modify (set_geotiff None);;
  modify (set_currentProcessId JS.Null);;
  modify (set_startTime None);;
  h ← gets progressInterval;
  match h with
  | Some (S _) => modify (clearInterval h)
  | _ => mret tt
  end;;
  d ← gets dom;
  form ← deref (getElementById d "uploadForm") "uploadForm";
  modify (on_dom (resetForm form));;
  set_by_id "shapefileInfo" (with_style "display" "none");;
  set_by_id "geotiffInfo" (with_style "display" "none");;
  set_by_id "progressPanel" (with_style "display" "none");;
  set_by_id "coordinateInfo" (with_style "display" "none");;
  updateButtonStates;;
  d ← gets dom;
  alertContainer ← deref (getElementById d "alertContainer") "alertContainer";
  modify (on_dom (update_all (descendants d alertContainer) (with_attached false)));;
  updateStatistics;;
  switchTab "upload";;
  showAlert "Dashboard reset successfully" "info".

End Script.

(** ** What the properties speak of *)

(** The text of the element with this id. *)
Definition text_of (d : document) (i : string) : option string :=
  e ← getElementById d i; content <$> d !! e.

(** Is the element with this id disabled? *)
Definition disabled_of (d : document) (i : string) : option bool :=
  e ← getElementById d i; disabled <$> d !! e.

(** [d'] is [d] with other texts, classes and enabled states: every element
    is at its place with its attributes, attachment and style. *)
Definition rewritten (d d' : document) : Prop :=
  same_attrs d d' /\
  forall j, style <$> d' !! j = style <$> d !! j.

(** [m] runs to its end on a document that has [ids] and writes nothing but
    texts, classes and enabled states of the document. *)
Definition paints {A} (ids : list string) (m : M state A) : Prop :=
  forall st, has_ids (dom st) ids ->
    exists d a, m st = (on_dom (fun _ => d) st, Ret a) /\ rewritten (dom st) d.

(** The console and the two chosen files are the same in both states. *)
Definition same_data (st st' : state) : Prop :=
  console st' = console st /\ boundaries st' = boundaries st /\ geotiff st' = geotiff st.

(** [f] leaves the ids where they are and writes neither the console nor
    the chosen files. *)
Definition keeps_page (f : state -> state) : Prop :=
  forall st, same_ids (dom st) (dom (f st)) /\ same_data st (f st).

(** [m] leaves the ids where they are and writes neither the console nor
    the chosen files. *)
Definition tidy {A} (m : M state A) : Prop :=
  forall st, same_ids (dom st) (dom (m st).1) /\ same_data st (m st).1.

(** [m] writes neither the console nor the chosen files. *)
Definition keeps_data {A} (m : M state A) : Prop :=
  forall st, same_data st (m st).1.

(** Run outside an event listener, [m] ends in an exception and has written
    nothing to the console. *)
Definition fails_quietly {A} (m : M state A) : Prop :=
  forall st, event st = None ->
    exists st' e, m st = (st', Throw e) /\ console st' = console st.

(** On a document that has [ids], [m] runs to its end, leaves the ids where
    they are, writes nothing to the console and keeps [window.event]. *)
Definition steady {A} (ids : list string) (m : M state A) : Prop :=
  forall st, has_ids (dom st) ids ->
    exists st' a, m st = (st', Ret a) /\ same_ids (dom st) (dom st') /\
                  console st' = console st /\ event st' = event st.

(** The six statistics of the page show no value. *)
Definition blanked (d : document) : Prop :=
  text_of d "totalBoundaryFeatures" = Some "-" /\
  text_of d "totalSlopePoints" = Some "-" /\
  text_of d "processedFeatures" = Some "-" /\
  text_of d "failedFeatures" = Some "-" /\
  text_of d "successRate" = Some "-%" /\
  text_of d "batchesCompleted" = Some "-".

(** The ids [handleFileSelect] and [updateButtonStates] write to. *)
Definition file_ids : list string :=
  ["shapefileInfo"; "geotiffInfo"; "alertContainer"; "validateBtn"; "uploadBtn"].

(** The page of [Dashboard.sample_template] with the file panels and the
    two buttons, before a file is chosen. *)
Definition sample_template : document :=
  Dashboard.sample_template ++
  [ with_id "div" "shapefileInfo" [];
    with_id "div" "geotiffInfo" [];
    with_id "button" "validateBtn" [];
    with_id "button" "uploadBtn" [];
    with_id "div" "boundsGrid" [] ].

Definition sample : state := page sample_template 1000.

Definition no_markup (f : file) : string := name f.
Definition no_reset (form : nat) (d : document) : document := d.

End DashboardFiles.

(* ===================================================================== *)
(** * admin-upload-app.js: a page to run the script on                    *)
(* ===================================================================== *)

Module AdminPage.
Import DOM AdminUpload.

(** The page of [UserUpload.sample_template] with a third sidebar item,
    'weather', that has no form section; [gtag] is defined. *)
Definition orphan_template : document :=
  UserUpload.sample_template ++
  [ tagged "li" ["upload-item"] [("data-upload", "weather")] (Some 0%nat) "" 0 ].

Definition orphan : state := page orphan_template true.

(** The same page with a message container, and a form that has no submit
    button. *)
Definition messages_template : document :=
  orphan_template ++
  [ tagged "div" ["messages"] [] None "" 0;
    tagged "form" ["upload-form"] [] None "" 0 ].

Definition with_messages : state := page messages_template false.

End AdminPage.

Module JSONFacts.
Import JSON.
#[local] Arguments append !_ _ / : simpl nomatch.

Lemma app_assoc_str (a b c : string) : (a +:+ b) +:+ c = a +:+ (b +:+ c).
Proof. induction a as [|x a IH]; simpl; [done | by rewrite IH]. Qed.

Lemma length_app_str (a b : string) :
  String.length (a +:+ b) = (String.length a + String.length b)%nat.
Proof. induction a as [|x a IH]; simpl; [done | by rewrite IH]. Qed.

Lemma parse_chars_escape (c : ascii) (t : string) :
  parse_chars (escape c +:+ t) =
  match parse_chars t with
  | Some (u, rest) => Some (String c u, rest)
  | None => None
  end.
Proof.
  destruct c as [[] [] [] [] [] [] [] []]; reflexivity.
Qed.

Lemma parse_chars_quote (s rest : string) :
  parse_chars (quote_chars s +:+ String dquote rest) = Some (s, rest).
Proof.
  induction s as [|c s IH]; simpl; [done |].
  by rewrite app_assoc_str, parse_chars_escape, IH.
Qed.

Lemma quote_app (s rest : string) :
  quote s +:+ rest = String dquote (quote_chars s +:+ String dquote rest).
Proof. unfold quote. simpl. by rewrite app_assoc_str. Qed.

Lemma parse_string_quote (s rest : string) :
  parse_string (quote s +:+ rest) = Some (s, rest).
Proof.
  rewrite quote_app. unfold parse_string. simpl. apply parse_chars_quote.
Qed.

Lemma length_member (kv : string * string) : (1 <= String.length (member kv))%nat.
Proof. unfold member, quote. simpl. lia. Qed.

#[local] Opaque quote.

Lemma parse_member (kv : string * string) (rest : string) :
  parse_string (member kv +:+ rest) = Some (kv.1, ":" +:+ quote kv.2 +:+ rest).
Proof.
  unfold member. rewrite app_assoc_str, parse_string_quote.
  by rewrite app_assoc_str.
Qed.

Lemma parse_members_comma (fuel : nat) (kv : string * string)
    (rest : string) (acc : object) :
  parse_members (S fuel) (member kv +:+ "," +:+ rest) acc =
  parse_members fuel rest (put acc kv).
Proof.
  cbn [parse_members]. rewrite parse_member. simpl.
  rewrite parse_string_quote. by simpl.
Qed.

Lemma parse_members_close (fuel : nat) (kv : string * string) (acc : object) :
  parse_members (S fuel) (member kv +:+ "}") acc = Some (put acc kv).
Proof.
  cbn [parse_members]. rewrite parse_member. simpl.
  rewrite parse_string_quote. by simpl.
Qed.

Lemma parse_members_join (l : list (string * string)) :
  forall (fuel : nat) (acc : object) (kv : string * string),
    (length l < fuel)%nat ->
    parse_members fuel (JS.join "," (map member (kv :: l)) +:+ "}") acc =
    Some (fold_left put (kv :: l) acc).
Proof.
  induction l as [|kv' l IH]; intros fuel acc kv Hfuel.
  - destruct fuel as [|fuel]; [simpl in Hfuel; lia|].
    apply parse_members_close.
  - destruct fuel as [|fuel]; [simpl in Hfuel; lia|].
    change (JS.join "," (map member (kv :: kv' :: l)))
      with (member kv +:+ "," +:+ JS.join "," (map member (kv' :: l))).
    rewrite !app_assoc_str, parse_members_comma.
    rewrite IH by (simpl in Hfuel; lia). done.
Qed.

Lemma set_fresh (acc : object) (k v : string) :
  k ∉ keys acc -> set acc k v = acc ++ [(k, v)].
Proof.
  induction acc as [|[k' v'] acc IH]; intros Hk; simpl; [done|].
  destruct (String.eqb_spec k k') as [->|Hne].
  - exfalso. apply Hk. simpl. left.
  - rewrite IH; [done|]. intros Hin. apply Hk. simpl. by right.
Qed.

Lemma fold_put_fresh (l : list (string * string)) :
  forall acc : object, NoDup (keys (acc ++ l)) -> fold_left put l acc = acc ++ l.
Proof.
  induction l as [|[k v] l IH]; intros acc Hnd; simpl.
  - by rewrite app_nil_r.
  - unfold put at 2. simpl. rewrite set_fresh.
    + rewrite IH; rewrite <- app_assoc; [done|exact Hnd].
    + unfold keys in *. rewrite map_app in Hnd. simpl in Hnd.
      apply NoDup_app in Hnd as (_ & Hdisj & _).
      intros Hin. apply (Hdisj k Hin). left.
Qed.

Lemma length_join_members (l : list (string * string)) :
  (length l <= String.length (JS.join "," (map member l)))%nat.
Proof.
  induction l as [|kv l IH]; [simpl; lia|].
  pose proof (length_member kv) as Hkv.
  destruct l as [|kv' l]; [simpl; lia|].
  change (JS.join "," (map member (kv :: kv' :: l)))
    with (member kv +:+ String "," (JS.join "," (map member (kv' :: l)))).
  rewrite length_app_str.
  change (length (kv :: kv' :: l)) with (S (length (kv' :: l))).
  cbn [String.length]. lia.
Qed.

(** Reading back the text written for an object gives the object. *)
Theorem parse_stringify (o : object) : wf o -> parse (stringify o) = Some o.
Proof.
  intros Hwf. unfold parse, stringify.
  destruct o as [|kv l]; [done|].
  change (expect "{" ("{" +:+ JS.join "," (map member (kv :: l)) +:+ "}"))
    with (Some (JS.join "," (map member (kv :: l)) +:+ "}")).
  cbn [mbind option_bind].
  assert (Hclose : expect "}" (JS.join "," (map member (kv :: l)) +:+ "}") = None).
  { destruct l; simpl; unfold member; rewrite quote_app; done. }
  rewrite Hclose, parse_members_join.
  - f_equal. apply (fold_put_fresh (kv :: l) []). exact Hwf.
  - pose proof (length_join_members (kv :: l)) as Hlen.
    change (String.length ("{" +:+ JS.join "," (map member (kv :: l)) +:+ "}"))
      with (S (String.length (JS.join "," (map member (kv :: l)) +:+ "}"))).
    rewrite length_app_str. simpl in *. lia.
Qed.

Lemma get_of_key (o : object) (k : string) :
  k ∈ keys o -> exists v, get o k = Some v.
Proof.
  induction o as [|[k' v'] o IH]; simpl; intros Hin.
  - by apply elem_of_nil in Hin.
  - unfold get. simpl. destruct (String.eqb_spec k k') as [->|Hne]; [by eexists|].
    apply elem_of_cons in Hin as [?|Hin]; [done|]. by apply IH.
Qed.

Lemma key_of_get (o : object) (k v : string) :
  get o k = Some v -> k ∈ keys o /\ v ∈ values o.
Proof.
  induction o as [|[k' v'] o IH]; unfold get; simpl; [done|].
  destruct (String.eqb_spec k k') as [->|Hne].
  - intros [= ->]. split; left.
  - intros H. destruct (IH H). split; by right.
Qed.

Lemma set_same (o : object) (k v : string) :
  get o k = Some v -> set o k v = o.
Proof.
  induction o as [|[k' v'] o IH]; unfold get; simpl; [done|].
  destruct (String.eqb_spec k k') as [->|Hne].
  - by intros [= ->].
  - intros H. by rewrite IH.
Qed.

Lemma keys_set (o : object) (k v : string) :
  k ∈ keys o -> keys (set o k v) = keys o.
Proof.
  induction o as [|[k' v'] o IH]; simpl; intros Hin.
  - by apply elem_of_nil in Hin.
  - destruct (String.eqb_spec k k') as [->|Hne]; [done|].
    apply elem_of_cons in Hin as [?|Hin]; [done|]. simpl. by rewrite IH.
Qed.

Lemma keys_set_new (o : object) (k v : string) :
  k ∉ keys o -> keys (set o k v) = keys o ++ [k].
Proof. intros H. rewrite set_fresh by done. unfold keys. by rewrite map_app. Qed.

Lemma values_set (P : string -> Prop) (o : object) (k v : string) :
  Forall P (values o) -> P v -> Forall P (values (set o k v)).
Proof.
  induction o as [|[k' v'] o IH]; simpl; intros Ho Hv.
  - by constructor.
  - apply Forall_cons in Ho as [Hv' Ho].
    destruct (String.eqb_spec k k'); simpl; constructor; auto.
Qed.

Lemma get_set_eq (o : object) (k v : string) : get (set o k v) k = Some v.
Proof.
  induction o as [|[k' v'] o IH]; unfold get in *; simpl.
  - by rewrite String.eqb_refl.
  - destruct (String.eqb_spec k k') as [->|Hne]; simpl.
    + by rewrite String.eqb_refl.
    + by destruct (String.eqb_spec k k').
Qed.

End JSONFacts.

(* ===================================================================== *)
(** * Running a computation step by step                                  *)
(* ===================================================================== *)

Module MFacts.

Section Steps.
Context {S A B : Type}.

Lemma bind_ret (a : A) (k : A -> M S B) (s : S) : (mret a ≫= k) s = k a s.
Proof. done. Qed.

Lemma bind_throw (e : string) (k : A -> M S B) (s : S) :
  (throw e ≫= k) s = (s, Throw e).
Proof. done. Qed.

Lemma bind_gets (f : S -> A) (k : A -> M S B) (s : S) :
  (gets f ≫= k) s = k (f s) s.
Proof. done. Qed.

Lemma bind_modify (f : S -> S) (k : unit -> M S B) (s : S) :
  (modify f ≫= k) s = k tt (f s).
Proof. done. Qed.

Lemma bind_deref_Some (a : A) (what : string) (k : A -> M S B) (s : S) :
  (deref (Some a) what ≫= k) s = k a s.
Proof. done. Qed.

Lemma bind_deref_None (what : string) (k : A -> M S B) (s : S) :
  (deref (@None A) what ≫= k) s = (s, Throw ("TypeError: " +:+ what +:+ " is null")).
Proof. done. Qed.

Lemma bind_assoc {C} (m : M S A) (k : A -> M S B) (h : B -> M S C) (s : S) :
  ((m ≫= k) ≫= h) s = (m ≫= (fun a => k a ≫= h)) s.
Proof.
  unfold mbind, M_bind. destruct (m s) as [s' [a|e]]; done.
Qed.

End Steps.

Lemma run_modify {S} (f : S -> S) (s : S) : modify f s = (f s, Ret tt).
Proof. done. Qed.

End MFacts.

(** Membership in, and inclusion between, lists that are written out. *)
Ltac listed := apply (bool_decide_eq_true_1 _); vm_compute; reflexivity.

Ltac step_m :=
  repeat first
    [ rewrite MFacts.bind_gets
    | rewrite MFacts.bind_modify
    | rewrite MFacts.bind_ret
    | rewrite MFacts.bind_throw
    | rewrite MFacts.bind_deref_Some
    | rewrite MFacts.bind_deref_None
    | rewrite MFacts.run_modify ].

(* ===================================================================== *)
(** * Facts about the document                                            *)
(* ===================================================================== *)

Module DOMFacts.
Import DOM.

Lemma find_from_spec {A} (p : nat -> A -> bool) (l : list A) (k i : nat) :
  i ∈ find_from p k l <->
  exists x, (k <= i)%nat /\ l !! (i - k)%nat = Some x /\ p i x = true.
Proof.
  revert k. induction l as [|y l IH]; intros k; simpl.
  - split; [intros H; by apply elem_of_nil in H | by intros (x & _ & ? & _)].
  - assert (Hrec : i ∈ find_from p (S k) l <->
              exists x, (k < i)%nat /\ l !! (i - S k)%nat = Some x /\ p i x = true).
    { rewrite IH. split; intros (x & ? & ? & ?); exists x; repeat split; auto; lia. }
    destruct (p k y) eqn:Hp.
    + rewrite elem_of_cons, Hrec. split.
      * intros [->|(x & Hlt & Hx & Hpx)].
        -- exists y. rewrite Nat.sub_diag. auto.
        -- exists x. split; [lia|]. split; [|done].
           replace (i - k)%nat with (S (i - S k)) by lia. done.
      * intros (x & Hle & Hx & Hpx).
        destruct (decide (i = k)) as [->|Hne]; [by left|right].
        exists x. split; [lia|]. split; [|done].
        replace (i - k)%nat with (S (i - S k)) in Hx by lia. done.
    + rewrite Hrec. split.
      * intros (x & Hlt & Hx & Hpx). exists x. split; [lia|]. split; [|done].
        replace (i - k)%nat with (S (i - S k)) by lia. done.
      * intros (x & Hle & Hx & Hpx).
        destruct (decide (i = k)) as [->|Hne].
        -- rewrite Nat.sub_diag in Hx. simpl in Hx. congruence.
        -- exists x. split; [lia|]. split; [|done].
           replace (i - k)%nat with (S (i - S k)) in Hx by lia. done.
Qed.

Lemma querySelectorAll_spec (d : document) (s : selector) (i : nat) :
  i ∈ querySelectorAll d s <->
  exists n, d !! i = Some n /\ attached n = true /\ matches s n = true.
Proof.
  unfold querySelectorAll. rewrite find_from_spec. rewrite Nat.sub_0_r.
  split.
  - intros (n & _ & Hn & Hp). apply andb_prop in Hp as [? ?]. by exists n.
  - intros (n & Hn & Ha & Hm). exists n. rewrite Ha, Hm. split; [lia|done].
Qed.

Lemma querySelector_Some (d : document) (s : selector) (i : nat) :
  querySelector d s = Some i ->
  exists n, d !! i = Some n /\ attached n = true /\ matches s n = true.
Proof.
  unfold querySelector. intros H. apply querySelectorAll_spec.
  destruct (querySelectorAll d s) as [|j l]; [done|].
  simpl in H. injection H as ->. left.
Qed.

(** ** Classes *)

Lemma has_class_remove (c c' : string) (n : node) :
  has_class c' (remove_class c n) = has_class c' n && negb (String.eqb c' c).
Proof.
  unfold has_class, remove_class. simpl.
  induction (classes n) as [|x l IH]; simpl; [done|].
  destruct (String.eqb_spec c x) as [->|Hcx]; simpl.
  - rewrite IH. destruct (String.eqb_spec c' x) as [->|Hc'x]; simpl; [|done].
    by rewrite andb_false_r.
  - rewrite IH. destruct (String.eqb_spec c' x) as [->|Hc'x]; simpl; [|done].
    destruct (String.eqb_spec x c); [congruence|done].
Qed.

Lemma has_class_add (c c' : string) (n : node) :
  has_class c' (add_class c n) = has_class c' n || String.eqb c' c.
Proof.
  unfold add_class. destruct (has_class c n) eqn:Hc.
  - destruct (String.eqb_spec c' c) as [->|]; [by rewrite Hc | by rewrite orb_false_r].
  - unfold has_class. simpl. rewrite existsb_app. simpl. by rewrite orb_false_r.
Qed.

Lemma class_of_update (d : document) (i j : nat) (f : node -> node) (c : string) :
  class_of (update i f d) j c =
  if decide (j = i)
  then match d !! i with Some n => has_class c (f n) | None => false end
  else class_of d j c.
Proof.
  unfold class_of, update. destruct (decide (j = i)) as [->|Hne].
  - rewrite list_lookup_alter_eq. by destruct (d !! i).
  - by rewrite list_lookup_alter_ne.
Qed.

Lemma class_of_update_all_remove (l : list nat) (c c' : string) :
  forall (d : document) (j : nat),
    class_of (update_all l (remove_class c) d) j c' =
    class_of d j c' && negb (bool_decide (j ∈ l) && String.eqb c' c).
Proof.
  unfold update_all.
  induction l as [|i l IH]; intros d j; simpl.
  - by rewrite andb_true_r.
  - rewrite IH, class_of_update.
    destruct (decide (j = i)) as [->|Hne].
    + rewrite (bool_decide_eq_true_2 (i ∈ i :: l)) by left.
      unfold class_of. destruct (d !! i) as [n|]; [|done].
      rewrite has_class_remove. simpl.
      destruct (has_class c' n), (String.eqb c' c), (bool_decide (i ∈ l)); done.
    + assert (Heq : bool_decide (j ∈ i :: l) = bool_decide (j ∈ l)).
      { apply bool_decide_ext. rewrite elem_of_cons.
        split; [intros [?|?]; done | intros ?; by right]. }
      by rewrite Heq.
Qed.

(** ** Selections that do not look at what was written *)

Lemma find_from_alter {A} (p : nat -> A -> bool) (f : A -> A) (i : nat) :
  (forall k x, p k (f x) = p k x) ->
  forall (l : list A) (k : nat), find_from p k (alter f i l) = find_from p k l.
Proof.
  intros Hp l. revert i. induction l as [|x l IH]; intros i k; [by destruct i|].
  destruct i as [|i].
  - change (alter f 0%nat (x :: l)) with (f x :: l). simpl. by rewrite Hp.
  - change (alter f (S i) (x :: l)) with (x :: alter f i l). simpl. by rewrite IH.
Qed.

Lemma keeps_attrs_add_class (c : string) : keeps_attrs (add_class c).
Proof. intros n. unfold add_class. by destruct (has_class c n). Qed.

Lemma keeps_attrs_remove_class (c : string) : keeps_attrs (remove_class c).
Proof. done. Qed.

Lemma find_from_app {A} (p : nat -> A -> bool) (l : list A) (x : A) :
  forall k, find_from p k (l ++ [x]) =
            find_from p k l ++ (if p (k + length l)%nat x then [(k + length l)%nat] else []).
Proof.
  induction l as [|y l IH]; intros k; simpl.
  - rewrite Nat.add_0_r. by destruct (p k x).
  - rewrite IH. replace (S k + length l)%nat with (k + S (length l))%nat by lia.
    by destruct (p k y).
Qed.

Lemma query_append (d : document) (n : node) (s : selector) :
  matches s n = false -> querySelectorAll (d ++ [n]) s = querySelectorAll d s.
Proof.
  intros Hn. unfold querySelectorAll. rewrite find_from_app, Hn.
  by rewrite andb_false_r, app_nil_r.
Qed.

Lemma query_attr_update (d : document) (i : nat) (f : node -> node) (k v : string) :
  keeps_attrs f ->
  querySelectorAll (update i f d) (AttrIs k v) = querySelectorAll d (AttrIs k v).
Proof.
  intros Hf. unfold querySelectorAll, update. apply find_from_alter.
  intros _ n. destruct (Hf n) as [Ha Hb]. simpl. unfold attr. by rewrite Ha, Hb.
Qed.

Lemma query_attr_update_all (l : list nat) (f : node -> node) (k v : string) :
  keeps_attrs f ->
  forall d, querySelectorAll (update_all l f d) (AttrIs k v) =
            querySelectorAll d (AttrIs k v).
Proof.
  intros Hf. unfold update_all. induction l as [|i l IH]; intros d; simpl; [done|].
  by rewrite IH, query_attr_update.
Qed.

Lemma attr_update (d : document) (i j : nat) (f : node -> node) (k : string) :
  keeps_attrs f ->
  (n ← update i f d !! j; attr k n) = (n ← d !! j; attr k n).
Proof.
  intros Hf. unfold update. destruct (decide (j = i)) as [->|Hne].
  - rewrite list_lookup_alter_eq. destruct (d !! i) as [n|]; [|done].
    simpl. unfold attr. by destruct (Hf n) as [-> _].
  - by rewrite list_lookup_alter_ne.
Qed.

Lemma attr_update_all (l : list nat) (f : node -> node) (k : string) (j : nat) :
  keeps_attrs f ->
  forall d, (n ← update_all l f d !! j; attr k n) = (n ← d !! j; attr k n).
Proof.
  intros Hf. unfold update_all. induction l as [|i l IH]; intros d; simpl; [done|].
  by rewrite IH, attr_update.
Qed.

Lemma query_class_update_all_remove (l : list nat) (c c' : string) :
  c' <> c ->
  forall d, querySelectorAll (update_all l (remove_class c) d) (Class c') =
            querySelectorAll d (Class c').
Proof.
  intros Hne. unfold update_all.
  induction l as [|i l IH]; intros d; simpl; [done|].
  rewrite IH. unfold querySelectorAll, update. apply find_from_alter.
  intros _ n. simpl. rewrite has_class_remove.
  destruct (String.eqb_spec c' c); [done|]. by rewrite andb_true_r.
Qed.

Lemma length_update (d : document) (i : nat) (f : node -> node) :
  length (update i f d) = length d.
Proof. apply length_alter. Qed.

Lemma length_update_all (l : list nat) (f : node -> node) :
  forall d : document, length (update_all l f d) = length d.
Proof.
  unfold update_all. induction l as [|i l IH]; intros d; simpl; [done|].
  by rewrite IH, length_update.
Qed.

Lemma class_of_update_add (d : document) (t j : nat) (c : string) :
  (t < length d)%nat ->
  class_of (update t (add_class c) d) j c = bool_decide (j = t) || class_of d j c.
Proof.
  intros Ht. rewrite class_of_update. destruct (decide (j = t)) as [->|Hne].
  - rewrite bool_decide_eq_true_2 by done.
    destruct (d !! t) as [n|] eqn:Hn.
    + by rewrite has_class_add, String.eqb_refl, orb_true_r.
    + apply lookup_ge_None in Hn. lia.
  - by rewrite bool_decide_eq_false_2.
Qed.

Lemma switched_active (d : document) (items sections : list nat) (i : nat)
    (target : option nat) (j : nat) :
  (i < length d)%nat ->
  (forall t, target = Some t -> (t < length d)%nat) ->
  j ∈ items \/ j ∈ sections ->
  class_of (switched d items sections i target) j "active" = true <->
  j = i \/ target = Some j.
Proof.
  intros Hi Ht Hj. unfold switched. cbv zeta.
  set (d1 := update_all items (remove_class "active") d).
  set (d2 := update_all sections (remove_class "active") d1).
  assert (Hlen : length d2 = length d).
  { unfold d2, d1. by rewrite !length_update_all. }
  assert (Hoff : class_of d2 j "active" = false).
  { unfold d2, d1. rewrite !class_of_update_all_remove. simpl.
    destruct Hj as [Hj|Hj].
    - rewrite (bool_decide_eq_true_2 _ Hj). simpl.
      by rewrite andb_false_r.
    - rewrite (bool_decide_eq_true_2 _ Hj). simpl.
      by rewrite andb_false_r. }
  assert (H3 : class_of (update i (add_class "active") d2) j "active" =
               bool_decide (j = i)).
  { rewrite class_of_update_add by lia. by rewrite Hoff, orb_false_r. }
  destruct target as [t|].
  - rewrite class_of_update_add by (rewrite length_update, Hlen; by apply Ht).
    rewrite H3. rewrite orb_true_iff, !bool_decide_eq_true.
    split; [intros [->| ->]; auto | intros [->|[= ->]]; auto].
  - rewrite H3, bool_decide_eq_true. split; [auto | by intros [?|?]].
Qed.

Lemma switched_target (d : document) (items sections : list nat) (i t : nat) :
  (t < length d)%nat ->
  class_of (switched d items sections i (Some t)) t "active" = true.
Proof.
  intros Ht. unfold switched. cbv zeta.
  rewrite class_of_update_add.
  - by rewrite bool_decide_eq_true_2.
  - by rewrite length_update, !length_update_all.
Qed.

Lemma switched_item (d : document) (items sections : list nat) (i : nat)
    (target : option nat) :
  (i < length d)%nat ->
  (forall t, target = Some t -> (t < length d)%nat) ->
  class_of (switched d items sections i target) i "active" = true.
Proof.
  intros Hi Ht. unfold switched. cbv zeta.
  assert (H3 : class_of (update i (add_class "active")
                 (update_all sections (remove_class "active")
                    (update_all items (remove_class "active") d))) i "active" = true).
  { rewrite class_of_update_add by (by rewrite !length_update_all).
    by rewrite bool_decide_eq_true_2. }
  destruct target as [t|]; [|done].
  rewrite class_of_update_add.
  - by rewrite H3, orb_true_r.
  - rewrite length_update, !length_update_all. by apply Ht.
Qed.

(** The target of a switch does not depend on the classes written before
    it is looked up. *)
Lemma switch_target_stable (d : document) (items sections : list nat) (i : nat)
    (suffix : string) :
  let d3 := update i (add_class "active")
              (update_all sections (remove_class "active")
                 (update_all items (remove_class "active") d)) in
  getElementById d3
    (default "undefined" (n ← d3 !! i; attr "data-upload" n) +:+ suffix) =
  getElementById d
    (default "undefined" (n ← d !! i; attr "data-upload" n) +:+ suffix).
Proof.
  cbv zeta. unfold getElementById, querySelector.
  rewrite attr_update by apply keeps_attrs_add_class.
  rewrite !attr_update_all by apply keeps_attrs_remove_class.
  rewrite query_attr_update by apply keeps_attrs_add_class.
  by rewrite !query_attr_update_all by apply keeps_attrs_remove_class.
Qed.

Lemma getElementById_lt (d : document) (i : string) (t : nat) :
  getElementById d i = Some t -> (t < length d)%nat.
Proof.
  intros H. apply querySelector_Some in H as (n & Hn & _).
  by eapply lookup_lt_Some.
Qed.

Lemma querySelectorAll_lt (d : document) (s : selector) (i : nat) :
  i ∈ querySelectorAll d s -> (i < length d)%nat.
Proof.
  intros H. apply querySelectorAll_spec in H as (n & Hn & _).
  by eapply lookup_lt_Some.
Qed.

End DOMFacts.

(* ===================================================================== *)
(** * Facts about the user upload page                                    *)
(* ===================================================================== *)

Module UserUploadFacts.
Import DOM UserUpload.

(** ** Functions that only write the document *)

Lemma dom_only_id : dom_only (fun st => st).
Proof. intros [? ? ? ? ? ? ?]. by eexists. Qed.

Lemma dom_only_on_dom (g : document -> document) : dom_only (on_dom g).
Proof. intros st. by eexists. Qed.

Lemma dom_only_comp (f g : state -> state) :
  dom_only f -> dom_only g -> dom_only (fun st => g (f st)).
Proof.
  intros Hf Hg st. destruct (Hf st) as [d ->].
  destruct (Hg (set_dom d st)) as [d' ->]. by exists d'.
Qed.

Lemma dom_only_fields (f : state -> state) (st : state) :
  dom_only f ->
  uploadStatus (f st) = uploadStatus st /\
  sessionStorage (f st) = sessionStorage st /\
  timers (f st) = timers st /\
  console (f st) = console st /\
  requests (f st) = requests st /\
  localTime (f st) = localTime st.
Proof. intros Hf. by destruct (Hf st) as [d ->]. Qed.

Section Script.
Variable percent : nat -> nat -> string.

Ltac dom_only_tac f :=
  intros [? ? ? ? ? ? ?]; unfold f, on_dom, set_dom; cbn [dom];
  repeat case_match; eexists; reflexivity.

Lemma dom_only_updateStatusBadge (i : nat) (s : string) :
  dom_only (updateStatusBadge i s).
Proof. dom_only_tac updateStatusBadge. Qed.

Lemma dom_only_updateStatusIcon (i : nat) (s : string) :
  dom_only (updateStatusIcon i s).
Proof. dom_only_tac updateStatusIcon. Qed.

Lemma dom_only_updateFormState (i : nat) (s : string) :
  dom_only (updateFormState i s).
Proof. dom_only_tac updateFormState. Qed.

Lemma dom_only_updateProgressBar : dom_only (updateProgressBar percent).
Proof. dom_only_tac updateProgressBar. Qed.

Lemma dom_only_updateSessionStatus : dom_only updateSessionStatus.
Proof. dom_only_tac updateSessionStatus. Qed.

Lemma dom_only_handleSectionSwitch (i : nat) : dom_only (handleSectionSwitch i).
Proof. dom_only_tac handleSectionSwitch. Qed.

Lemma dom_only_selectNextAvailableUpload : dom_only selectNextAvailableUpload.
Proof.
  intros st. unfold selectNextAvailableUpload.
  destruct (querySelectorAll _ _) as [|first rest]; [apply dom_only_id|].
  match goal with |- context [handleSectionSwitch ?i ?s] =>
    destruct (dom_only_handleSectionSwitch i s) as [d ->] end.
  destruct st. by eexists.
Qed.

(** ** What [updateUploadState] does to the status map and to storage *)

Lemma updateUploadState_missing (uploadType status : string) (st : state) :
  found uploadType st = false ->
  updateUploadState percent uploadType status st =
  log ("warn: Could not find elements for upload type: " +:+ uploadType) st.
Proof.
  unfold found, updateUploadState. intros H.
  destruct (querySelector _ _) as [i|]; [|done].
  destruct (getElementById _ _) as [j|]; [|done].
  simpl in H. done.
Qed.

Lemma updateUploadState_found (uploadType status : string) (st : state) :
  found uploadType st = true ->
  let st' := updateUploadState percent uploadType status st in
  uploadStatus st' = JSON.set (uploadStatus st) uploadType status /\
  sessionStorage st' =
    <["uploadStatus" := JSON.stringify (JSON.set (uploadStatus st) uploadType status)]>
      (sessionStorage st) /\
  timers st' = timers st /\ console st' = console st /\
  requests st' = requests st /\ localTime st' = localTime st.
Proof.
  unfold found, updateUploadState. intros H.
  destruct (querySelector _ _) as [i|]; [|done].
  destruct (getElementById _ _) as [j|]; [|by rewrite andb_false_r in H].
  cbv zeta.
  repeat match goal with
  | |- context [updateSessionStatus ?s] =>
      destruct (dom_only_updateSessionStatus s) as [? ->]
  | |- context [updateProgressBar percent ?s] =>
      destruct (dom_only_updateProgressBar s) as [? ->]
  end.
  cbn [set_dom uploadStatus sessionStorage timers console requests localTime
       saveUploadStatus set_sessionStorage set_uploadStatus].
  repeat match goal with
  | |- context [updateFormState ?a ?b ?s] =>
      destruct (dom_only_updateFormState a b s) as [? ->]
  | |- context [updateStatusIcon ?a ?b ?s] =>
      destruct (dom_only_updateStatusIcon a b s) as [? ->]
  | |- context [updateStatusBadge ?a ?b ?s] =>
      destruct (dom_only_updateStatusBadge a b s) as [? ->]
  end.
  done.
Qed.

(** ** The status map is kept *)

Lemma found_attr (uploadType : string) (st : state) :
  found uploadType st = true ->
  exists i n, dom st !! i = Some n /\ attached n = true /\
              attr "data-upload" n = Some uploadType.
Proof.
  unfold found. intros H. apply andb_prop in H as [H _].
  apply bool_decide_eq_true in H as [i Hi].
  apply DOMFacts.querySelector_Some in Hi as (n & Hn & Ha & Hm).
  exists i, n. simpl in Hm. by apply bool_decide_eq_true in Hm.
Qed.

Lemma updateUploadState_kept (uploadType status : string) (st : state) :
  status_map (uploadStatus st) ->
  status ∈ labels ->
  (found uploadType st = true -> uploadType ∈ categories) ->
  kept st (updateUploadState percent uploadType status st).
Proof.
  intros [Hkeys Hvals] Hs Hcat. destruct (found uploadType st) eqn:Hf.
  - destruct (updateUploadState_found uploadType status st Hf)
      as (Hu & Hss & _).
    split; [split|right].
    + rewrite Hu, JSONFacts.keys_set; [done|]. rewrite Hkeys. auto.
    + rewrite Hu. by apply JSONFacts.values_set.
    + unfold saved. rewrite Hss, Hu. apply lookup_insert_eq.
  - rewrite updateUploadState_missing by done. split; [done | by left].
Qed.

Lemma kept_refl (st : state) : status_map (uploadStatus st) -> kept st st.
Proof. intros H. split; [done | by left]. Qed.

Lemma kept_trans (st1 st2 st3 : state) :
  kept st1 st2 -> kept st2 st3 -> kept st1 st3.
Proof.
  intros [_ H12] [H3 H23]. split; [done|].
  destruct H23 as [[Hu Hs]|H23]; [|by right].
  destruct H12 as [[Hu' Hs']|H12]; [left; split; congruence|].
  right. unfold saved in *. by rewrite Hu, Hs.
Qed.

(** An operation that leaves map and storage alone keeps them. *)
Lemma kept_same (st1 st2 st3 : state) :
  kept st1 st2 ->
  uploadStatus st3 = uploadStatus st2 -> sessionStorage st3 = sessionStorage st2 ->
  kept st1 st3.
Proof.
  intros H12 Hu Hs. apply (kept_trans st1 st2 st3 H12).
  destruct H12 as [H2 _]. split; [by rewrite Hu | by left].
Qed.

Lemma sidebar_found (uploadType : string) (st : state) :
  sidebar_of_categories (dom st) ->
  found uploadType st = true -> uploadType ∈ categories.
Proof.
  intros Hpage Hf. destruct (found_attr uploadType st Hf) as (i & n & ? & ? & ?).
  by eapply Hpage.
Qed.

Lemma label_available : "available" ∈ labels.
Proof. listed. Qed.
Lemma label_processing : "processing" ∈ labels.
Proof. listed. Qed.
Lemma label_completed : "completed" ∈ labels.
Proof. listed. Qed.

Lemma showToast_data (message type : string) (st : state) :
  uploadStatus (showToast message type st) = uploadStatus st /\
  sessionStorage (showToast message type st) = sessionStorage st /\
  requests (showToast message type st) = requests st /\
  console (showToast message type st) = console st.
Proof. done. Qed.

Lemma handleUploadSuccess_kept (uploadType : string) (st : state) :
  status_map (uploadStatus st) ->
  (found uploadType st = true -> uploadType ∈ categories) ->
  kept st (handleUploadSuccess percent uploadType st).
Proof.
  intros Hst Hcat.
  eapply kept_same;
    [exact (updateUploadState_kept uploadType "completed" st Hst label_completed Hcat)| |];
    unfold handleUploadSuccess, checkAllUploadsCompleted;
    cbv zeta; by case_match.
Qed.

Lemma handleUploadFailure_kept (uploadType : string) (st : state) :
  status_map (uploadStatus st) ->
  (found uploadType st = true -> uploadType ∈ categories) ->
  kept st (handleUploadFailure percent uploadType st).
Proof.
  intros Hst Hcat.
  eapply kept_same;
    [exact (updateUploadState_kept uploadType "available" st Hst label_available Hcat)| |];
    done.
Qed.

Lemma reset_fold_kept (l : list string) :
  forall st0 st,
    kept st0 st ->
    (forall k, k ∈ l -> k ∈ categories) ->
    kept st0 (fold_left (fun st uploadType =>
                updateUploadState percent uploadType "available" st) l st).
Proof.
  induction l as [|k l IH]; intros st0 st Hk Hl; simpl; [done|].
  apply IH; [|intros k' Hk'; apply Hl; by right].
  eapply kept_trans; [exact Hk|].
  apply updateUploadState_kept; [apply Hk | apply label_available |].
  intros _. apply Hl. left.
Qed.

Lemma resetAllUploads_kept (st : state) :
  status_map (uploadStatus st) -> kept st (resetAllUploads percent st).
Proof.
  intros Hst. unfold resetAllUploads. cbv zeta.
  eapply kept_same; [|done|done].
  apply reset_fold_kept; [by apply kept_refl|].
  intros k Hk. destruct Hst as [<- _]. done.
Qed.

Lemma handleFormSubmission_kept (form : nat) (st : state) :
  status_map (uploadStatus st) ->
  sidebar_of_categories (dom st) ->
  kept st (handleFormSubmission percent form st).1.
Proof.
  intros Hst Hpage. unfold handleFormSubmission. step_m.
  destruct (querySelectorIn (dom st) form (Class "submit-btn")) as [b|];
    step_m; [|by apply kept_refl].
  destruct (dataset (dom st) b "data-upload-type") as [ut|];
    [|step_m; eapply kept_same; [by apply kept_refl|done|done]].
  destruct (String.eqb ut "");
    step_m; [eapply kept_same; [by apply kept_refl|done|done]|].
  cbn [fst].
  eapply kept_same;
    [exact (updateUploadState_kept ut "processing" st Hst label_processing
              (sidebar_found ut st Hpage))| |];
    done.
Qed.

Lemma saveUploadStatus_saved (st : state) :
  saved (saveUploadStatus st) /\
  uploadStatus (saveUploadStatus st) = uploadStatus st.
Proof. split; [apply lookup_insert_eq | done]. Qed.

(** ** Loading the map back *)

Lemma updateUploadState_same (uploadType status : string) (st : state) :
  JSON.get (uploadStatus st) uploadType = Some status ->
  uploadStatus (updateUploadState percent uploadType status st) = uploadStatus st.
Proof.
  intros Hget. destruct (found uploadType st) eqn:Hf.
  - destruct (updateUploadState_found uploadType status st Hf) as (-> & _).
    by apply JSONFacts.set_same.
  - by rewrite updateUploadState_missing.
Qed.

Lemma updateAll_fold (l : list string) :
  forall st,
    (forall k, k ∈ l -> k ∈ JSON.keys (uploadStatus st)) ->
    uploadStatus
      (fold_left (fun st uploadType =>
         match JSON.get (uploadStatus st) uploadType with
         | Some status => updateUploadState percent uploadType status st
         | None => updateUploadState percent uploadType "undefined" st
         end) l st) = uploadStatus st.
Proof.
  induction l as [|k l IH]; intros st Hl; simpl; [done|].
  destruct (JSONFacts.get_of_key (uploadStatus st) k) as [v Hv]; [apply Hl; left|].
  rewrite Hv.
  pose proof (updateUploadState_same k v st Hv) as Hsame.
  rewrite IH; [done|]. intros k' Hk'. rewrite Hsame. apply Hl. by right.
Qed.

Lemma updateAllUploadStates_status (st : state) :
  uploadStatus (updateAllUploadStates percent st) = uploadStatus st.
Proof.
  unfold updateAllUploadStates. cbv zeta.
  set (st1 := fold_left _ _ st).
  assert (H1 : uploadStatus st1 = uploadStatus st) by (by apply updateAll_fold).
  destruct (querySelector (dom st1) _) as [a|]; [|done].
  case_bool_decide; [|done].
  by destruct (dom_only_fields selectNextAvailableUpload st1
                 dom_only_selectNextAvailableUpload) as (-> & _).
Qed.

(** Whatever page reads the text that [saveUploadStatus] wrote gets the
    map back. *)
Lemma load_after_save (st page : state) :
  JSON.wf (uploadStatus st) ->
  sessionStorage page = sessionStorage (saveUploadStatus st) ->
  exists st', loadUploadStatus percent page = Some st' /\
              uploadStatus st' = uploadStatus st.
Proof.
  intros Hwf Hs. unfold loadUploadStatus. rewrite Hs.
  destruct (saveUploadStatus_saved st) as [-> _].
  change (String.eqb (JSON.stringify (uploadStatus st)) "") with false.
  cbn iota. rewrite JSONFacts.parse_stringify by done. simpl.
  eexists. split; [done|]. by rewrite updateAllUploadStates_status.
Qed.

Lemma initializeDashboard_storage (st : state) :
  sessionStorage (initializeDashboard percent st) = sessionStorage st.
Proof.
  unfold initializeDashboard, setupMessageHandling, createProgressIndicator,
    createSessionStatusIndicator. cbv zeta.
  destruct (querySelector (dom st) (Class "messages")); simpl;
  match goal with |- context [updateProgressBar percent ?s] =>
    by destruct (dom_only_updateProgressBar s) as [? ->] end.
Qed.

Lemma sidebar_of_categoriesb_sound (d : document) :
  sidebar_of_categoriesb d = true -> sidebar_of_categories d.
Proof.
  unfold sidebar_of_categoriesb. rewrite forallb_forall.
  intros H i n ut Hn Ha Hu.
  specialize (H n). rewrite Ha, Hu in H. simpl in H.
  eapply bool_decide_eq_true_1. apply H. apply list_elem_of_In.
  by eapply list_elem_of_lookup_2.
Qed.

(** ** Submitting a form *)

Lemma silent_ret {A} (a : A) : silent (mret a : M state A).
Proof. done. Qed.

Lemma silent_bind {A B} (m : M state A) (k : A -> M state B) :
  silent m -> (forall a, silent (k a)) -> silent (m ≫= k).
Proof.
  intros Hm Hk st. specialize (Hm st). unfold mbind, M_bind.
  destruct (m st) as [s' [a|e]]; simpl in *; [|done].
  by rewrite Hk.
Qed.

Lemma silent_modify (f : state -> state) :
  (forall st, requests (f st) = requests st) -> silent (modify f).
Proof. intros Hf st. apply Hf. Qed.

Lemma silent_gets {A} (f : state -> A) : silent (gets f).
Proof. done. Qed.

Lemma silent_deref {A} (o : option A) (what : string) :
  silent (deref o what : M state A).
Proof. by destruct o. Qed.

Lemma silent_for_each {A} (l : list A) (f : A -> M state unit) :
  (forall a, silent (f a)) -> silent (for_each l f).
Proof.
  intros Hf. induction l as [|a l IH]; simpl; [apply silent_ret|].
  apply silent_bind; auto.
Qed.

Lemma silent_parentNode (i : nat) : silent (parentNode i).
Proof. apply silent_bind; [apply silent_gets | intros; apply silent_deref]. Qed.

Lemma silent_clearFieldError (field : nat) : silent (clearFieldError field).
Proof.
  unfold clearFieldError.
  apply silent_bind; [apply silent_parentNode | intros p].
  apply silent_bind; [apply silent_gets | intros d].
  apply silent_bind; [|intros; by apply silent_modify].
  destruct (querySelectorIn d p _); [by apply silent_modify | apply silent_ret].
Qed.

Lemma silent_showFieldError (field : nat) (message : string) :
  silent (showFieldError field message).
Proof.
  unfold showFieldError.
  apply silent_bind; [apply silent_clearFieldError | intros _].
  apply silent_bind; [apply silent_parentNode | intros p].
  apply silent_bind; [by apply silent_modify | intros _].
  by apply silent_modify.
Qed.

Lemma silent_validateForm (form : nat) : silent (validateForm form).
Proof.
  unfold validateForm.
  apply silent_bind; [apply silent_gets | intros d].
  apply silent_bind.
  { apply silent_for_each. intros field.
    case_match; [apply silent_showFieldError | apply silent_clearFieldError]. }
  intros _. apply silent_bind; [|intros; apply silent_ret].
  apply silent_for_each. intros input.
  case_match; [apply silent_showFieldError | apply silent_ret].
Qed.

Ltac keep_length f :=
  intros [? ? ? ? ? ? ?]; unfold f, on_dom, set_dom; cbn [dom];
  repeat case_match; cbn [dom];
  rewrite ?DOMFacts.length_update, ?DOMFacts.length_update_all;
  rewrite ?DOMFacts.length_update, ?DOMFacts.length_update_all; reflexivity.

Lemma length_updateStatusBadge (i : nat) (s : string) :
  forall st, length (dom (updateStatusBadge i s st)) = length (dom st).
Proof. keep_length updateStatusBadge. Qed.

Lemma length_updateStatusIcon (i : nat) (s : string) :
  forall st, length (dom (updateStatusIcon i s st)) = length (dom st).
Proof. keep_length updateStatusIcon. Qed.

Lemma length_updateFormState (i : nat) (s : string) :
  forall st, length (dom (updateFormState i s st)) = length (dom st).
Proof. keep_length updateFormState. Qed.

Lemma length_updateProgressBar :
  forall st, length (dom (updateProgressBar percent st)) = length (dom st).
Proof. keep_length updateProgressBar. Qed.

Lemma length_updateSessionStatus :
  forall st, length (dom (updateSessionStatus st)) = length (dom st).
Proof. keep_length updateSessionStatus. Qed.

Lemma length_updateUploadState (uploadType status : string) (st : state) :
  length (dom (updateUploadState percent uploadType status st)) = length (dom st).
Proof.
  unfold updateUploadState.
  destruct (querySelector _ _) as [i|]; [|done].
  destruct (getElementById _ _) as [j|]; [|done].
  cbv zeta.
  rewrite length_updateSessionStatus, length_updateProgressBar.
  cbn [dom saveUploadStatus set_sessionStorage set_uploadStatus].
  rewrite length_updateFormState, length_updateStatusIcon, length_updateStatusBadge.
  cbn [dom on_dom set_dom]. by rewrite !DOMFacts.length_update.
Qed.

Lemma setButtonLoadingState_loading (b : nat) (st : state) :
  (b < length (dom st))%nat ->
  loading (dom (setButtonLoadingState b st)) b /\
  requests (setButtonLoadingState b st) = requests st.
Proof.
  intros Hb. destruct (lookup_lt_is_Some_2 _ _ Hb) as [n Hn].
  unfold loading, setButtonLoadingState, update. cbn [dom on_dom set_dom requests].
  rewrite !list_lookup_alter_eq, Hn. cbn.
  unfold add_class. by destruct (has_class "loading" _).
Qed.

(** A form whose submit button carries an upload type: the button shows the
    loading state in the state from which the request is issued. *)
Lemma handleRealDjangoSubmission_run (form : nat) (uploadType : string) (st : state) :
  requests (handleRealDjangoSubmission form uploadType st) =
    requests st ++ [Request (dataset (dom st) form "action") form uploadType] /\
  dom (handleRealDjangoSubmission form uploadType st) = dom st.
Proof. done. Qed.

Lemma handleFormSubmission_typed (form b : nat) (uploadType : string) (st : state) :
  querySelectorIn (dom st) form (Class "submit-btn") = Some b ->
  dataset (dom st) b "data-upload-type" = Some uploadType ->
  uploadType <> "" ->
  exists st2,
    handleFormSubmission percent form st =
      (handleRealDjangoSubmission form uploadType st2, Ret tt) /\
    loading (dom st2) b /\
    requests st2 = requests st.
Proof.
  intros Hb Hut Hne. unfold handleFormSubmission. step_m.
  rewrite Hb. step_m. rewrite Hut.
  destruct (String.eqb_spec uploadType ""); [done|]. step_m.
  eexists. split; [reflexivity|].
  assert (Hlt : (b < length (dom (updateUploadState percent uploadType "processing" st)))%nat).
  { rewrite length_updateUploadState. unfold dataset in Hut.
    destruct (dom st !! b) eqn:Hn; [|done]. by eapply lookup_lt_Some. }
  destruct (setButtonLoadingState_loading b _ Hlt) as [Hload Hreq].
  split; [done|]. rewrite Hreq.
  destruct (found uploadType st) eqn:Hf.
  - by destruct (updateUploadState_found uploadType "processing" st Hf)
      as (_ & _ & _ & _ & -> & _).
  - by rewrite updateUploadState_missing.
Qed.

(** Without an upload type nothing is sent and the document is only given
    the error toast. *)
Lemma handleFormSubmission_untyped (form b : nat) (st : state) :
  querySelectorIn (dom st) form (Class "submit-btn") = Some b ->
  dataset (dom st) b "data-upload-type" = None \/
  dataset (dom st) b "data-upload-type" = Some "" ->
  handleFormSubmission percent form st =
    (showToast "Error: Upload type not specified" "error"
       (log "error: Upload type not found on submit button" st), Ret tt).
Proof.
  intros Hb Hut. unfold handleFormSubmission. step_m.
  rewrite Hb. step_m. by destruct Hut as [-> | ->]; step_m.
Qed.

(** ** A failed submission *)

Lemma on_reply_failed (uploadType : string) (r : reply) (st : state) :
  failed r = true ->
  on_reply percent uploadType r st = handleUploadFailure percent uploadType st.
Proof.
  unfold failed, on_reply. destruct r as [e|data]; [done|].
  destruct (JS.get data "success") as [success|]; [|done].
  by destruct (JS.truthy success).
Qed.

Lemma showToast_shown (message type : string) (st : state) :
  toast_shown message type (showToast message type st) /\
  timers (showToast message type st) =
    timers st ++ [Timer 100 false (ToastFadeIn (length (dom st)));
                  Timer 4000 false (ToastFadeOut (length (dom st)))].
Proof.
  split.
  - exists (length (dom st)),
      (with_style "opacity" "0"
         (with_style "background" (getToastColor type)
            (element "div" ["toast"; "toast-" +:+ type] message None))).
    unfold showToast, appendChild, append.
    cbn [dom set_dom setTimeout timers].
    repeat split; try done.
    + by rewrite lookup_app_r, Nat.sub_diag.
    + apply elem_of_app. left. apply elem_of_app. right. left.
    + apply elem_of_app. right. left.
  - unfold showToast, appendChild, append. cbn [dom set_dom setTimeout timers].
    by rewrite <- app_assoc.
Qed.

Lemma updateUploadState_frame (uploadType status : string) (st : state) :
  timers (updateUploadState percent uploadType status st) = timers st /\
  requests (updateUploadState percent uploadType status st) = requests st.
Proof.
  destruct (found uploadType st) eqn:Hf.
  - by destruct (updateUploadState_found uploadType status st Hf)
      as (_ & _ & -> & _ & -> & _).
  - by rewrite updateUploadState_missing.
Qed.

Lemma handleUploadFailure_spec (uploadType : string) (st : state) :
  let st' := handleUploadFailure percent uploadType st in
  toast_shown (getUploadDisplayName uploadType +:+ " upload failed. Please try again.")
              "error" st' /\
  requests st' = requests st /\
  length (timers st') = S (S (length (timers st))) /\
  (found uploadType st = true ->
   JSON.get (uploadStatus st') uploadType = Some "available").
Proof.
  cbv zeta. unfold handleUploadFailure. cbv zeta.
  set (st1 := updateUploadState percent uploadType "available" st).
  destruct (showToast_shown
              (getUploadDisplayName uploadType +:+ " upload failed. Please try again.")
              "error" st1) as [Hshown Htimers].
  destruct (updateUploadState_frame uploadType "available" st) as [Ht Hr].
  split; [exact Hshown|]. split; [exact Hr|]. split.
  - rewrite Htimers, length_app. fold st1 in Ht. rewrite Ht. simpl. lia.
  - intros Hf.
    destruct (updateUploadState_found uploadType "available" st Hf) as (Hu & _).
    change (uploadStatus (showToast _ _ st1)) with (uploadStatus st1).
    unfold st1. rewrite Hu. apply JSONFacts.get_set_eq.
Qed.

(** With a status that is neither 'completed' nor 'disabled',
    [updateFormState] enables the submit button of the section. *)
Lemma updateFormState_enables (section b : nat) (status : string) (st : state) :
  status <> "completed" -> status <> "disabled" ->
  querySelectorIn (dom st) section (Class "submit-btn") = Some b ->
  (b < length (dom st))%nat ->
  disabled <$> dom (updateFormState section status st) !! b = Some false.
Proof.
  intros H1 H2 Hb Hlt. unfold updateFormState. rewrite Hb.
  destruct (String.eqb_spec status "completed"); [done|].
  destruct (String.eqb_spec status "disabled"); [done|].
  cbn [orb dom on_dom set_dom]. unfold update.
  assert (Hsome : is_Some (update_all (querySelectorAllIn (dom st) section fields)
                             (with_disabled false) (dom st) !! b)).
  { apply lookup_lt_is_Some_2. by rewrite DOMFacts.length_update_all. }
  destruct Hsome as [nb Hnb].
  by rewrite !list_lookup_alter_eq, Hnb.
Qed.

End Script.

(** ** Switching sections *)

Lemma handleSectionSwitch_dom (i : nat) (st : state) :
  dom (handleSectionSwitch i st) =
  switched (dom st)
    (querySelectorAll (dom st) (Class "upload-item"))
    (querySelectorAll (dom st) (Class "upload-section")) i
    (getElementById (dom st)
       (default "undefined" (dataset (dom st) i "data-upload") +:+ "-form")).
Proof.
  unfold handleSectionSwitch, switched, dataset. cbv zeta.
  cbn [dom on_dom set_dom].
  rewrite (DOMFacts.switch_target_stable (dom st)).
  by destruct (getElementById (dom st) _).
Qed.

Lemma on_item_click_open (i : nat) (st : state) :
  let status := JSON.get (uploadStatus st)
                  (default "undefined" (dataset (dom st) i "data-upload")) in
  status <> Some "completed" -> status <> Some "disabled" ->
  on_item_click i st = handleSectionSwitch i st.
Proof.
  cbv zeta. intros H1 H2. unfold on_item_click. cbv zeta.
  by rewrite (bool_decide_eq_true_2 _ H1), (bool_decide_eq_true_2 _ H2).
Qed.

(** ** Toasts go away *)

Lemma fire_ToastFadeOut (t : nat) (st : state) :
  timers (fire (ToastFadeOut t) st) = timers st ++ [Timer 300 false (ToastRemove t)].
Proof. done. Qed.

Lemma fire_ToastRemove (t : nat) (n : node) (st : state) :
  dom st !! t = Some n ->
  attached <$> dom (fire (ToastRemove t) st) !! t = Some false.
Proof.
  intros Hn. unfold fire, removeFromParent. rewrite Hn.
  destruct (attached n) eqn:Ha.
  - cbn [dom on_dom set_dom]. unfold update. by rewrite list_lookup_alter_eq, Hn.
  - rewrite Hn. cbn. by rewrite Ha.
Qed.

(** ** The completion check *)

Lemma allCompleted_spec (o : JSON.object) :
  allCompleted o = true <-> Forall finished (JSON.values o).
Proof.
  unfold allCompleted. rewrite forallb_forall, Forall_forall.
  split; intros H s Hs.
  - apply list_elem_of_In in Hs. specialize (H s Hs).
    apply orb_prop in H as [H|H]; apply String.eqb_eq in H; [by left | by right].
  - apply list_elem_of_In in Hs. destruct (H s Hs) as [-> | ->]; done.
Qed.

Lemma setTimeout_changes (c : callback) (ms : Z) (st : state) :
  setTimeout c ms st <> st.
Proof.
  intros H. apply (f_equal (fun s => length (timers s))) in H.
  simpl in H. rewrite length_app in H. simpl in H. lia.
Qed.

End UserUploadFacts.

(* ===================================================================== *)
(** * Facts about the admin upload page                                   *)
(* ===================================================================== *)

Module AdminUploadFacts.
Import DOM AdminUpload.

Lemma on_item_click_dom (i : nat) (st : state) :
  dom (after (on_item_click i) st) =
  switched (dom st)
    (querySelectorAll (dom st) (Class "upload-item"))
    (querySelectorAll (dom st) (Class "upload-section")) i
    (getElementById (dom st)
       (default "undefined" (dataset (dom st) i "data-upload") +:+ "-form")).
Proof.
  unfold after, on_item_click, activate, switched, dataset.
  step_m. cbn [dom on_dom].
  rewrite (DOMFacts.query_class_update_all_remove _ "active" "upload-section") by done.
  rewrite (DOMFacts.switch_target_stable (dom st)).
  destruct (getElementById (dom st) _); by step_m.
Qed.

Lemma click_dom (i : nat) (st : state) :
  dom (click i st) = dom (after (on_item_click i) st).
Proof.
  unfold click, after at 1, on_click_track, trackAdminAction.
  step_m. cbn [fst]. by destruct (gtag _).
Qed.

Lemma on_submit_run (form b : nat) (n : node) (st : state) :
  querySelectorIn (dom st) form (Class "submit-btn") = Some b ->
  dom st !! b = Some n ->
  on_submit form st =
    (setTimeout (RestoreButton b (content n)) 30000
       (on_dom (update b (with_content "⏳ Uploading..."))
          (on_dom (update b (with_disabled true)) st)), Ret tt).
Proof.
  intros Hb Hn. unfold on_submit. step_m. rewrite Hb. step_m. by rewrite Hn.
Qed.

Lemma on_submit_loading (form b : nat) (n : node) (st : state) :
  querySelectorIn (dom st) form (Class "submit-btn") = Some b ->
  dom st !! b = Some n ->
  let st' := after (on_submit form) st in
  loading (dom st') b /\
  submitted st' = submitted st /\
  timers st' = timers st ++ [Timer 30000 (RestoreButton b (content n))].
Proof.
  intros Hb Hn. cbv zeta. unfold after. rewrite (on_submit_run form b n st Hb Hn).
  cbn [fst]. split; [|done].
  unfold loading, update. cbn [dom on_dom setTimeout].
  by rewrite !list_lookup_alter_eq, Hn.
Qed.

Lemma on_submit_track_frame (form : nat) (st : state) :
  submitted (after (on_submit_track form) st) = submitted st /\
  dom (after (on_submit_track form) st) = dom st.
Proof.
  unfold after, on_submit_track, trackAdminAction. step_m.
  destruct (closest _ _ _ _); step_m; cbn [fst]; [|done].
  by destruct (gtag st).
Qed.

Lemma submit_after_listeners (form : nat) (st : state) :
  submitted (submit form st) = submitted (after (on_submit form) st) ++ [form] /\
  dom (submit form st) = dom (after (on_submit form) st).
Proof.
  unfold submit. cbn [submit_form submitted dom].
  by destruct (on_submit_track_frame form (after (on_submit form) st)) as [-> ->].
Qed.

Lemma fire_RestoreButton (b : nat) (originalText : string) (st : state) :
  (b < length (dom st))%nat ->
  let st' := fire (RestoreButton b originalText) st in
  disabled <$> dom st' !! b = Some false /\
  content <$> dom st' !! b = Some originalText.
Proof.
  intros Hb. destruct (lookup_lt_is_Some_2 _ _ Hb) as [n Hn].
  cbv zeta. unfold fire, update. cbn [dom on_dom].
  by rewrite !list_lookup_alter_eq, Hn.
Qed.

End AdminUploadFacts.

(* ===================================================================== *)
(** * Facts about the dashboard                                           *)
(* ===================================================================== *)

Module DashboardFacts.
Import DOM Dashboard.

(** ** Calm steps *)

Lemma calm_refl (st : state) : calm st st.
Proof. unfold calm. repeat split; auto. Qed.

Lemma calm_trans (st1 st2 st3 : state) : calm st1 st2 -> calm st2 st3 -> calm st1 st3.
Proof.
  intros (Hr & Hp & Hc & Hi & Hs & Hn & He & Hid & Ht)
         (Hr' & Hp' & Hc' & Hi' & Hs' & Hn' & He' & Hid' & Ht').
  unfold calm. repeat split; try congruence; try lia.
  intros t Hin. destruct (Ht' t Hin) as [Hold|[Ha Hrange]].
  - destruct (Ht t Hold) as [?|[Ha Hrange]]; [by left|right].
    split; [done|lia].
  - right. split; [done|lia].
Qed.

Lemma calm_m_ret {A} (a : A) : calm_m (mret a : M state A).
Proof. intros st. apply calm_refl. Qed.

Lemma calm_m_throw {A} (e : string) : calm_m (throw e : M state A).
Proof. intros st. apply calm_refl. Qed.

Lemma calm_m_gets {A} (f : state -> A) : calm_m (gets f).
Proof. intros st. apply calm_refl. Qed.

Lemma calm_m_deref {A} (o : option A) (what : string) :
  calm_m (deref o what : M state A).
Proof. destruct o; [apply calm_m_ret | apply calm_m_throw]. Qed.

Lemma calm_m_modify (f : state -> state) :
  (forall st, calm st (f st)) -> calm_m (modify f).
Proof. intros Hf st. apply Hf. Qed.

Lemma calm_m_bind {A B} (m : M state A) (k : A -> M state B) :
  calm_m m -> (forall a, calm_m (k a)) -> calm_m (m ≫= k).
Proof.
  intros Hm Hk st. specialize (Hm st). unfold mbind, M_bind.
  destruct (m st) as [s' [a|e]]; simpl in *; [|done].
  eapply calm_trans; [exact Hm | apply Hk].
Qed.

Lemma calm_m_try_catch {A} (m : M state A) (h : string -> M state A) :
  calm_m m -> (forall e, calm_m (h e)) -> calm_m (try_catch m h).
Proof.
  intros Hm Hh st. specialize (Hm st). unfold try_catch.
  destruct (m st) as [s' [a|e]]; simpl in *; [done|].
  eapply calm_trans; [exact Hm | apply Hh].
Qed.

Lemma calm_on_dom (g : document -> document) (st : state) : calm st (on_dom g st).
Proof. unfold calm. repeat split; auto. Qed.

Lemma calm_log (line : string) (st : state) : calm st (log line st).
Proof. unfold calm. repeat split; auto. Qed.

Lemma calm_setTimeout (a : nat) (ms : Z) (st : state) :
  calm st (setTimeout (RemoveAlert a) ms st).
Proof.
  unfold calm. cbn. repeat split; auto.
  intros t Hin. apply elem_of_app in Hin as [?|Hin]; [by left|right].
  apply list_elem_of_singleton in Hin as ->. cbn. split; [by eexists | lia].
Qed.

Lemma calm_clearInterval (h : option nat) (st : state) :
  calm st (clearInterval h st).
Proof.
  destruct h as [i|]; [|apply calm_refl].
  unfold calm. cbn. repeat split; auto.
  intros t Hin. left. apply list_elem_of_In in Hin.
  apply filter_In in Hin as [Hin _]. by apply list_elem_of_In.
Qed.

Create HintDb calm.
#[local] Hint Resolve calm_m_ret calm_m_throw calm_m_gets calm_m_deref
  calm_on_dom calm_log calm_setTimeout calm_clearInterval : calm.

Lemma calm_m_when (v : JS.value) (m : M state unit) : calm_m m -> calm_m (when v m).
Proof. intros Hm. unfold when. destruct (JS.truthy v); [done | apply calm_m_ret]. Qed.

(** Splits a computation along its binds. *)
Ltac calm_m_step :=
  lazymatch goal with
  | |- calm_m (mbind _ _) => apply calm_m_bind
  | |- calm_m (try_catch _ _) => apply calm_m_try_catch
  | |- calm_m (modify _) => apply calm_m_modify
  | |- calm_m (when _ _) => apply calm_m_when
  | |- calm_m _ => first [solve [auto with calm] | case_match]
  end.

Ltac calm_tac :=
  repeat match goal with
  | |- calm_m _ => calm_m_step
  | |- calm _ _ => solve [auto with calm]
  | |- forall _, _ => intro
  end.

Lemma calm_m_set_by_id (i : string) (f : node -> node) : calm_m (set_by_id i f).
Proof. unfold set_by_id. calm_tac. Qed.
#[local] Hint Resolve calm_m_set_by_id : calm.

Lemma calm_m_updateProgress (percentage message : JS.value) :
  calm_m (updateProgress percentage message).
Proof. unfold updateProgress. calm_tac. Qed.
#[local] Hint Resolve calm_m_updateProgress : calm.

Lemma calm_m_showAlert (message type : string) : calm_m (showAlert message type).
Proof. unfold showAlert. calm_tac. Qed.
#[local] Hint Resolve calm_m_showAlert : calm.

Lemma calm_m_switchTab (tabName : string) : calm_m (switchTab tabName).
Proof. unfold switchTab. calm_tac. Qed.
#[local] Hint Resolve calm_m_switchTab : calm.

Lemma calm_m_updateStatistics : calm_m updateStatistics.
Proof. unfold updateStatistics. calm_tac. Qed.
#[local] Hint Resolve calm_m_updateStatistics : calm.

Lemma calm_m_upload_catch (e : string) : calm_m (upload_catch e).
Proof. unfold upload_catch. calm_tac. Qed.
#[local] Hint Resolve calm_m_upload_catch : calm.

Lemma calm_m_processing_catch (e : string) : calm_m (processing_catch e).
Proof. unfold processing_catch. calm_tac. Qed.
#[local] Hint Resolve calm_m_processing_catch : calm.

Lemma calm_m_prop (v : JS.value) (k : string) : calm_m (prop v k).
Proof. unfold prop. calm_tac. Qed.
#[local] Hint Resolve calm_m_prop : calm.

Lemma calm_m_updateCoordinateDisplay (c : JS.value) :
  calm_m (updateCoordinateDisplay c).
Proof. unfold updateCoordinateDisplay. calm_tac. Qed.
#[local] Hint Resolve calm_m_updateCoordinateDisplay : calm.

Lemma calm_m_fire_other (c : callback) : c <> Poll -> calm_m (fire c).
Proof. intros Hc. destruct c; [done| |]; unfold fire; calm_tac. Qed.

(** ** Steps that run to their end *)

Lemma same_ids_refl (d : document) : same_ids d d.
Proof. done. Qed.

Lemma same_ids_trans (d1 d2 d3 : document) :
  same_ids d1 d2 -> same_ids d2 d3 -> same_ids d1 d3.
Proof. intros H12 H23 i. by rewrite H23. Qed.

Lemma same_ids_update (d : document) (i : nat) (f : node -> node) :
  keeps_attrs f -> same_ids d (update i f d).
Proof.
  intros Hf j. unfold getElementById, querySelector.
  by rewrite DOMFacts.query_attr_update.
Qed.

Lemma has_ids_same (d d' : document) (ids : list string) :
  has_ids d ids -> same_ids d d' -> has_ids d' ids.
Proof. intros H Hs i Hi. rewrite Hs. by apply H. Qed.

Lemma has_ids_sub (d : document) (ids ids' : list string) :
  has_ids d ids' -> ids ⊆ ids' -> has_ids d ids.
Proof. intros H Hsub i Hi. apply H. by apply Hsub. Qed.

Lemma keeps_attrs_with_style (k v : string) : keeps_attrs (with_style k v).
Proof. done. Qed.
Lemma keeps_attrs_with_content (s : string) : keeps_attrs (with_content s).
Proof. done. Qed.
Lemma keeps_attrs_with_classes (c : list string) : keeps_attrs (with_classes c).
Proof. done. Qed.

Create HintDb smooth.
#[local] Hint Resolve keeps_attrs_with_style keeps_attrs_with_content
  keeps_attrs_with_classes DOMFacts.keeps_attrs_add_class
  DOMFacts.keeps_attrs_remove_class : smooth.

Lemma smooth_ret {A} (ids : list string) (a : A) : smooth ids (mret a : M state A).
Proof. intros st _. by exists st, a. Qed.

Lemma smooth_gets {A} (ids : list string) (f : state -> A) : smooth ids (gets f).
Proof. intros st _. by exists st, (f st). Qed.

Lemma smooth_bind {A B} (ids : list string) (m : M state A) (k : A -> M state B) :
  smooth ids m -> (forall a, smooth ids (k a)) -> smooth ids (m ≫= k).
Proof.
  intros Hm Hk st Hst. destruct (Hm st Hst) as (s1 & a & Hrun & Hsame).
  destruct (Hk a s1 (has_ids_same _ _ _ Hst Hsame)) as (s2 & b & Hrun2 & Hsame2).
  exists s2, b. split; [|by eapply same_ids_trans].
  unfold mbind, M_bind. by rewrite Hrun.
Qed.

Lemma smooth_update (ids : list string) (e : nat) (f : node -> node) :
  keeps_attrs f -> smooth ids (modify (on_dom (update e f))).
Proof.
  intros Hf st _. exists (on_dom (update e f) st), tt. split; [done|].
  by apply same_ids_update.
Qed.

Lemma smooth_deref_id (ids : list string) (i : string) (st : state) :
  i ∈ ids -> has_ids (dom st) ids ->
  exists e, getElementById (dom st) i = Some e.
Proof. intros Hi Hst. by apply Hst. Qed.

Lemma smooth_set_by_id (ids : list string) (i : string) (f : node -> node) :
  i ∈ ids -> keeps_attrs f -> smooth ids (set_by_id i f).
Proof.
  intros Hi Hf st Hst. destruct (smooth_deref_id ids i st Hi Hst) as [e He].
  exists (on_dom (update e f) st), tt. split.
  - unfold set_by_id. step_m. rewrite He. by step_m.
  - by apply same_ids_update.
Qed.

Lemma smooth_when (ids : list string) (v : JS.value) (m : M state unit) :
  smooth ids m -> smooth ids (when v m).
Proof. intros Hm. unfold when. destruct (JS.truthy v); [done | apply smooth_ret]. Qed.

Lemma smooth_sub {A} (ids ids' : list string) (m : M state A) :
  ids ⊆ ids' -> smooth ids m -> smooth ids' m.
Proof. intros Hsub Hm st Hst. apply Hm. by eapply has_ids_sub. Qed.

Lemma smooth_updateProgress (percentage message : JS.value) :
  smooth progress_ids (updateProgress percentage message).
Proof.
  intros st Hst.
  destruct (Hst "progressFill") as [fill Hfill]; [listed|].
  destruct (Hst "progressText") as [text Htext]; [listed|].
  unfold updateProgress. step_m. rewrite Hfill, Htext. step_m.
  set (st1 := on_dom (update text _) (on_dom (update fill _) st)).
  assert (Hsame : same_ids (dom st) (dom st1)).
  { eapply same_ids_trans; apply same_ids_update; auto with smooth. }
  destruct (smooth_set_by_id progress_ids "processingStatus"
              (with_content ("Status: " +:+ JS.to_string message +:+
                 " Progress: " +:+ JS.to_string percentage +:+ "%" +:+
                 " Process ID: " +:+
                 JS.to_string (JS.or_else (currentProcessId st1) (JS.Str "Not assigned"))))
              ltac:(listed)
              (keeps_attrs_with_content _) st1
              (has_ids_same _ _ _ Hst Hsame)) as (st2 & [] & Hrun & Hsame2).
  exists st2, tt. split; [exact Hrun | by eapply same_ids_trans].
Qed.

(** Running a bind whose first part is known. *)
Lemma run_bind {A B} (m : M state A) (k : A -> M state B) (st st1 : state) (a : A) :
  m st = (st1, Ret a) -> (m ≫= k) st = k a st1.
Proof. intros H. unfold mbind, M_bind. by rewrite H. Qed.

Lemma style_update_content (d : document) (i j : nat) (s k : string) :
  (alter (with_content s) i d !! j ≫= fun n => style n !! k) =
  (d !! j ≫= fun n => style n !! k).
Proof.
  rewrite list_lookup_alter. case_decide as H; [|done].
  subst j. by destruct (d !! i).
Qed.

Lemma progress_width_updateProgress (percentage message : JS.value) (st : state) :
  has_ids (dom st) progress_ids ->
  exists st',
    updateProgress percentage message st = (st', Ret tt) /\
    progress_width (dom st') = Some (JS.to_string percentage +:+ "%") /\
    same_ids (dom st) (dom st').
Proof.
  intros Hst.
  destruct (Hst "progressFill") as [fill Hfill]; [listed|].
  destruct (Hst "progressText") as [text Htext]; [listed|].
  destruct (Hst "processingStatus") as [stat Hstat]; [listed|].
  destruct (DOMFacts.querySelector_Some _ _ _ Hfill) as (n & Hn & _).
  set (st1 := on_dom (update text (with_content (JS.to_string message)))
                (on_dom (update fill
                   (with_style "width" (JS.to_string percentage +:+ "%"))) st)).
  assert (Hsame1 : same_ids (dom st) (dom st1)).
  { eapply same_ids_trans; apply same_ids_update; auto with smooth. }
  unfold updateProgress. step_m. rewrite Hfill, Htext. step_m.
  unfold set_by_id. step_m. fold st1. rewrite (Hsame1 "processingStatus"), Hstat.
  step_m. eexists. split; [reflexivity|].
  assert (Hsame : same_ids (dom st) (dom (on_dom (update stat
            (with_content ("Status: " +:+ JS.to_string message +:+
               " Progress: " +:+ JS.to_string percentage +:+ "%" +:+
               " Process ID: " +:+
               JS.to_string (JS.or_else (currentProcessId st1) (JS.Str "Not assigned")))))
            st1)))
    by (eapply same_ids_trans; [exact Hsame1 | apply same_ids_update; auto with smooth]).
  split; [|exact Hsame].
  unfold progress_width. rewrite (Hsame "progressFill"), Hfill.
  cbn [mbind option_bind dom on_dom st1]. unfold update.
  cbn [mbind option_bind dom on_dom st1].
  rewrite !style_update_content.
  rewrite list_lookup_alter_eq, Hn. cbn. apply lookup_insert_eq.
Qed.

(** ** Writes to elements with an id *)

Lemma retouch_refl (st : state) : retouch st st.
Proof. split; [exists (dom st); by destruct st | done]. Qed.

Lemma retouch_trans (st1 st2 st3 : state) :
  retouch st1 st2 -> retouch st2 st3 -> retouch st1 st3.
Proof.
  intros ([d ->] & Hs & Ha) ([d' ->] & Hs' & Ha').
  split; [by exists d'|]. split; [by eapply same_ids_trans | auto].
Qed.

Lemma retouch_set_by_id (i : string) (f : node -> node) (st : state) :
  keeps_attrs f -> retouch st (set_by_id i f st).1.
Proof.
  intros Hf. unfold set_by_id. step_m.
  destruct (getElementById (dom st) i) as [e|] eqn:He; step_m;
    [|apply retouch_refl].
  cbn [fst]. split; [by eexists|]. split; [by apply same_ids_update|].
  intros j n Hj Hanon. cbn [dom on_dom]. unfold update.
  rewrite list_lookup_alter_ne; [done|]. intros <-.
  apply DOMFacts.querySelector_Some in He as (n' & Hn' & _ & Hm).
  simpl in Hm. apply bool_decide_eq_true in Hm. congruence.
Qed.

Lemma retouch_updateProgress (percentage message : JS.value) (st : state) :
  retouch st (updateProgress percentage message st).1.
Proof.
  assert (Hone : forall (i : string) (f : node -> node) (s : state),
            keeps_attrs f ->
            retouch s (match getElementById (dom s) i with
                       | Some e => on_dom (update e f) s
                       | None => s
                       end)).
  { intros i f s Hf. pose proof (retouch_set_by_id i f s Hf) as H.
    unfold set_by_id in H. revert H. step_m.
    by destruct (getElementById (dom s) i); step_m. }
  unfold updateProgress. step_m.
  destruct (getElementById (dom st) "progressFill") as [fill|] eqn:Hfill; step_m;
    [|apply retouch_refl].
  pose proof (Hone "progressFill"
                (with_style "width" (JS.to_string percentage +:+ "%")) st
                (keeps_attrs_with_style _ _)) as H1.
  rewrite Hfill in H1.
  destruct (getElementById (dom st) "progressText") as [text|] eqn:Htext; step_m;
    [|exact H1].
  set (st1 := on_dom (update fill _) st) in *.
  pose proof (Hone "progressText" (with_content (JS.to_string message)) st1
                (keeps_attrs_with_content _)) as H2.
  destruct H1 as (Hd1 & Hs1 & Ha1).
  rewrite (Hs1 "progressText"), Htext in H2.
  eapply retouch_trans; [exact (conj Hd1 (conj Hs1 Ha1))|].
  eapply retouch_trans; [exact H2|].
  apply retouch_set_by_id. apply keeps_attrs_with_content.
Qed.

Lemma retouch_alert (st st' : state) (message type : string) (t : Z) :
  retouch st st' -> alert_shown message type t st -> alert_shown message type t st'.
Proof.
  intros ([d ->] & Hs & Ha)
         (a & n & c & i & Hn & Hc & Hcl & Hat & Hattd & Hp & Hcont & Ht).
  exists a, n, c, i. repeat split; try done.
  - apply Ha; [done|]. unfold attr. by rewrite Hat.
  - by rewrite Hs.
Qed.

Lemma showAlert_run (message type : string) (c : nat) (st : state) :
  getElementById (dom st) "alertContainer" = Some c ->
  showAlert message type st =
    (setTimeout (RemoveAlert (length (dom st))) 5000
       (on_dom (fun d =>
          (append (element "div" ["alert"; "alert-" +:+ type] message (Some c)) d).1)
          st), Ret tt).
Proof. intros Hc. unfold showAlert. step_m. rewrite Hc. by step_m. Qed.

Lemma showAlert_shown (message type : string) (c : nat) (st : state) :
  getElementById (dom st) "alertContainer" = Some c ->
  alert_shown message type (now st) (showAlert message type st).1.
Proof.
  intros Hc. rewrite (showAlert_run message type c st Hc). cbn [fst].
  exists (length (dom st)),
         (element "div" ["alert"; "alert-" +:+ type] message (Some c)), c, (next_id st).
  cbn [dom on_dom setTimeout append fst timers now].
  repeat split; try done.
  - by rewrite lookup_app_r, Nat.sub_diag.
  - unfold getElementById, querySelector. by rewrite DOMFacts.query_append.
  - apply elem_of_app. right. left.
Qed.

Lemma upload_catch_shown (e : string) (c : nat) (st : state) :
  getElementById (dom st) "alertContainer" = Some c ->
  alert_shown ("Upload failed: " +:+ e) "error" (now st) (upload_catch e st).1 /\
  calm st (upload_catch e st).1.
Proof.
  intros Hc. split; [|apply calm_m_upload_catch].
  unfold upload_catch. step_m.
  set (st1 := log ("error: Upload error: " +:+ e) st).
  pose proof (showAlert_shown ("Upload failed: " +:+ e) "error" c st1 Hc) as Hshown.
  rewrite (showAlert_run _ _ c st1 Hc) in Hshown. cbn [fst] in Hshown.
  rewrite (run_bind _ _ _ _ tt (showAlert_run _ _ c st1 Hc)).
  eapply retouch_alert; [apply retouch_updateProgress | exact Hshown].
Qed.

Lemma processing_catch_run (e : string) (c : nat) (st : state) :
  getElementById (dom st) "alertContainer" = Some c ->
  exists st', processing_catch e st = (st', Ret tt) /\
    alert_shown ("Processing failed: " +:+ e) "error" (now st) st' /\
    calm st st'.
Proof.
  intros Hc.
  set (st1 := log ("error: Processing error: " +:+ e) st).
  pose proof (showAlert_shown ("Processing failed: " +:+ e) "error" c st1 Hc) as Hshown.
  pose proof (calm_m_processing_catch e st) as Hcalm.
  assert (Hrun : processing_catch e st =
                 showAlert ("Processing failed: " +:+ e) "error" st1).
  { unfold processing_catch. by step_m. }
  rewrite Hrun in *. rewrite (showAlert_run _ _ c st1 Hc) in *.
  eexists. split; [reflexivity|]. split; [exact Hshown | exact Hcalm].
Qed.

(** ** The failure branches of the upload and of the start of the merge *)

Lemma handleFormSubmit_resume_failed (r : reply) (st : state) :
  failed r = true ->
  handleFormSubmit_resume r st = upload_catch (failure_message "Upload failed" r) st.
Proof.
  intros Hf. unfold handleFormSubmit_resume, try_catch, prop, failed, failure_message in *.
  destruct r as [e|data]; step_m; [done|].
  destruct (JS.get data "success") as [success|] eqn:Hs; step_m; [|done].
  destruct (JS.truthy success); [done|]. step_m.
  unfold field. by destruct (JS.get data "message").
Qed.

Lemma startProcessing_resume_failed (r : reply) (c : nat) (st : state) :
  failed r = true ->
  getElementById (dom st) "alertContainer" = Some c ->
  startProcessing_resume r st =
    processing_catch (failure_message "Processing failed to start" r) st.
Proof.
  intros Hf Hc.
  assert (Hcatch : forall e,
            match processing_catch e st with
            | (s', Throw e') => upload_catch e' s'
            | other => other
            end = processing_catch e st).
  { intros e. by destruct (processing_catch_run e c st Hc) as (st' & -> & _). }
  unfold startProcessing_resume, try_catch, prop, failed, failure_message in *.
  destruct r as [e|data]; step_m; [apply Hcatch|].
  destruct (JS.get data "success") as [success|] eqn:Hs; step_m; [|apply Hcatch].
  destruct (JS.truthy success); [done|]. step_m.
  unfold field. destruct (JS.get data "message"); apply Hcatch.
Qed.

(** ** The success branches *)

Lemma updateProgress_run (percentage message : JS.value) (st : state) :
  has_ids (dom st) progress_ids ->
  exists d,
    updateProgress percentage message st = (on_dom (fun _ => d) st, Ret tt) /\
    progress_width d = Some (JS.to_string percentage +:+ "%") /\
    same_ids (dom st) d.
Proof.
  intros Hst.
  destruct (progress_width_updateProgress percentage message st Hst)
    as (st' & Hrun & Hw & Hs).
  destruct (retouch_updateProgress percentage message st) as ([d Hd] & _).
  rewrite Hrun in Hd. cbn [fst] in Hd. subst st'. by exists d.
Qed.

Lemma handleFormSubmit_resume_ok (result success : JS.value) (st : state) :
  has_ids (dom st) progress_ids ->
  JS.get result "success" = Some success -> JS.truthy success = true ->
  exists st',
    handleFormSubmit_resume (Json result) st = (st', Ret tt) /\
    currentProcessId st' = field result "process_id" /\
    progress_width (dom st') = Some "50%" /\
    requests st' =
      requests st ++
        [(now st,
          Request "POST" "/geospatial/api/start_merge/" (Some (getCsrfToken st'))
            [("process_id", Text (JS.to_string (field result "process_id")))])] /\
    pending st' = pending st ++ [(length (requests st), AfterStartMerge)] /\
    timers st' = timers st /\ progressInterval st' = progressInterval st.
Proof.
  intros Hst Hs Ht.
  destruct (updateProgress_run (JS.Num 50) (JS.Str "Files uploaded successfully")
              (set_currentProcessId (field result "process_id") st) Hst)
    as (d & Hrun & Hw & _).
  unfold handleFormSubmit_resume, try_catch, prop. step_m. rewrite Hs. step_m.
  rewrite Ht. step_m. rewrite (run_bind _ _ _ _ tt Hrun).
  unfold startProcessing, try_catch. step_m.
  eexists. split; [reflexivity|]. by repeat split.
Qed.

Lemma startProcessing_resume_ok (result success : JS.value) (st : state) :
  has_ids (dom st) progress_ids ->
  JS.get result "success" = Some success -> JS.truthy success = true ->
  exists st',
    startProcessing_resume (Json result) st = (st', Ret tt) /\
    progress_width (dom st') = Some "75%" /\
    progressInterval st' = Some (next_id st) /\
    timers st' = timers st ++ [Timer (next_id st) (now st + 2000) (Some 2000) Poll] /\
    requests st' = requests st /\ currentProcessId st' = currentProcessId st.
Proof.
  intros Hst Hs Ht.
  destruct (updateProgress_run (JS.Num 75) (JS.Str "Processing started...") st Hst)
    as (d & Hrun & Hw & _).
  unfold startProcessing_resume, try_catch, prop. step_m. rewrite Hs. step_m.
  rewrite Ht. rewrite (run_bind _ _ _ _ tt Hrun). step_m.
  eexists. split; [reflexivity|]. by repeat split.
Qed.

(** ** Submitting the form *)

Lemma same_ids_update_all (l : list nat) (f : node -> node) :
  keeps_attrs f -> forall d, same_ids d (update_all l f d).
Proof.
  intros Hf d i. unfold getElementById, querySelector.
  by rewrite DOMFacts.query_attr_update_all.
Qed.

Lemma set_by_id_run (i : string) (f : node -> node) (st : state) :
  is_Some (getElementById (dom st) i) -> keeps_attrs f ->
  exists d, set_by_id i f st = (on_dom (fun _ => d) st, Ret tt) /\
            same_ids (dom st) d.
Proof.
  intros [e He] Hf. exists (update e f (dom st)). split.
  - unfold set_by_id. step_m. rewrite He. by step_m.
  - by apply same_ids_update.
Qed.

Lemma switchTab_run (tabName : string) (target : nat) (st : state) :
  is_Some (getElementById (dom st) (tabName +:+ "Tab")) ->
  event st = Some target ->
  exists d, switchTab tabName st = (on_dom (fun _ => d) st, Ret tt) /\
            same_ids (dom st) d.
Proof.
  intros Hid He. unfold switchTab. step_m.
  set (st2 := on_dom (update_all _ (remove_class "active"))
                (on_dom (update_all _ (remove_class "active")) st)).
  assert (Hs2 : same_ids (dom st) (dom st2)).
  { eapply same_ids_trans; apply same_ids_update_all; auto with smooth. }
  destruct (set_by_id_run (tabName +:+ "Tab") (add_class "active") st2)
    as (d3 & Hrun & Hs3); [by rewrite Hs2 | auto with smooth |].
  rewrite (run_bind _ _ _ _ tt Hrun). step_m.
  cbn [event on_dom st2]. rewrite He. step_m.
  eexists. split; [reflexivity|].
  eapply same_ids_trans; [exact Hs2|]. eapply same_ids_trans; [exact Hs3|].
  apply same_ids_update. auto with smooth.
Qed.

Lemma handleFormSubmit_run (b g : file) (target : nat) (st : state) :
  boundaries st = Some b -> geotiff st = Some g ->
  has_ids (dom st) submit_ids ->
  event st = Some target ->
  exists st',
    handleFormSubmit st = (st', Ret tt) /\
    requests st' =
      requests st ++
        [(now st,
          Request "POST" "/geospatial/upload_files/" (Some (getCsrfToken st'))
            [("geojson", Blob b); ("geotiff", Blob g)])] /\
    pending st' = pending st ++ [(length (requests st), AfterUpload)] /\
    startTime st' = Some (now st) /\
    progress_width (dom st') = Some "25%".
Proof.
  intros Hb Hg Hids He.
  assert (Hin : forall i, i ∈ submit_ids -> is_Some (getElementById (dom st) i))
    by exact Hids.
  unfold handleFormSubmit. step_m. rewrite Hb, Hg.
  destruct (switchTab_run "process" target st) as (d1 & Hrun1 & Hs1);
    [apply Hin; listed | done |].
  rewrite (run_bind _ _ _ _ tt Hrun1). step_m.
  set (st2 := set_startTime _ _).
  destruct (set_by_id_run "progressPanel" (with_style "display" "block") st2)
    as (d3 & Hrun3 & Hs3);
    [cbn; rewrite Hs1; apply Hin; listed | auto with smooth |].
  rewrite (run_bind _ _ _ _ tt Hrun3).
  set (st3 := on_dom (fun _ => d3) st2).
  destruct (set_by_id_run "coordinateInfo" (with_style "display" "block") st3)
    as (d4 & Hrun4 & Hs4);
    [cbn; cbn in Hs3; rewrite Hs3, Hs1; apply Hin; listed
    | auto with smooth |].
  rewrite (run_bind _ _ _ _ tt Hrun4).
  set (st4 := on_dom (fun _ => d4) st3).
  assert (Hids4 : has_ids (dom st4) progress_ids).
  { intros i Hi. cbn. cbn in Hs3, Hs4. rewrite Hs4, Hs3, Hs1. apply Hin.
    unfold submit_ids. apply elem_of_app. by right. }
  destruct (updateProgress_run (JS.Num 0) (JS.Str "Starting upload...") st4 Hids4)
    as (d5 & Hrun5 & _ & Hs5).
  rewrite (run_bind _ _ _ _ tt Hrun5).
  set (st5 := on_dom (fun _ => d5) st4).
  assert (Hids5 : has_ids (dom st5) progress_ids)
    by (eapply has_ids_same; [exact Hids4 | exact Hs5]).
  destruct (updateProgress_run (JS.Num 25) (JS.Str "Uploading files...") st5 Hids5)
    as (d6 & Hrun6 & Hw6 & _).
  unfold try_catch. rewrite (run_bind _ _ _ _ tt Hrun6). step_m.
  eexists. split; [reflexivity|]. by repeat split.
Qed.

Lemma fire_RemoveAlert (a : nat) (n : node) (st : state) :
  dom st !! a = Some n ->
  attached <$> dom (fire (RemoveAlert a) st).1 !! a = Some false.
Proof.
  intros Hn. unfold fire. step_m. rewrite Hn.
  destruct (attached n) eqn:Ha; step_m; unfold mret, M_ret; cbn [fst dom on_dom].
  - unfold update. by rewrite list_lookup_alter_eq, Hn.
  - rewrite Hn. cbn. by rewrite Ha.
Qed.

Lemma has_idsb_sound (d : document) (ids : list string) :
  has_idsb d ids = true -> has_ids d ids.
Proof.
  unfold has_idsb. rewrite forallb_forall. intros H i Hi.
  eapply bool_decide_eq_true_1. apply H. by apply list_elem_of_In.
Qed.

(** ** More steps that run to their end *)

Lemma smooth_lookup {A} (ids : list string) (i what : string)
    (k : document -> nat -> M state A) :
  i ∈ ids ->
  (forall d e, smooth ids (k d e)) ->
  smooth ids (d ← gets dom; e ← deref (getElementById d i) what; k d e).
Proof.
  intros Hi Hk st Hst. destruct (Hst i Hi) as [e He].
  destruct (Hk (dom st) e st Hst) as (st' & a & Hrun & Hsame).
  exists st', a. split; [|done]. step_m. rewrite He. by step_m.
Qed.

Ltac smooth_step :=
  lazymatch goal with
  | |- smooth _ (mbind _ (set_by_id _ _)) => apply smooth_bind
  | |- smooth _ (mbind _ (when _ _)) => apply smooth_bind
  | |- smooth _ (mbind _ (modify _)) => apply smooth_bind
  | |- smooth _ (set_by_id _ _) =>
      apply smooth_set_by_id; [listed | auto with smooth]
  | |- smooth _ (when _ _) => apply smooth_when
  | |- smooth _ (modify (on_dom (update _ _))) =>
      apply smooth_update; auto with smooth
  | |- smooth _ (mret _) => apply smooth_ret
  | |- forall _, _ => intro
  end.

Lemma smooth_updateCoordinateDisplay (c : JS.value) :
  smooth coordinate_ids (updateCoordinateDisplay c).
Proof.
  unfold updateCoordinateDisplay, coordinate_ids.
  do 3 (apply smooth_bind; [repeat smooth_step|intros _]).
  apply (smooth_lookup _ "overlapStatus" "overlapStatus"
           (fun _ overlapStatus =>
              if JS.is_str (field c "overlap_status") "OVERLAP_ACHIEVED"
              then _ else _)); [listed|].
  intros d e. destruct (JS.is_str _ _); repeat smooth_step.
Qed.

Lemma field_get (v : JS.value) (k k' : string) :
  JS.truthy (field v k) = true -> JS.get v k' = Some (field v k').
Proof.
  unfold field. by destruct v.
Qed.

(** ** The monitor's invariant *)

Lemma monitoring_start (st0 : state) :
  idle st0 -> monitoring st0 0 (startProgressMonitoring st0).
Proof.
  intros [Hp Ht]. unfold monitoring, startProgressMonitoring, setProgressInterval.
  cbn [progressInterval currentProcessId requests pending next_id timers seq map].
  split; [done|]. split; [done|]. split; [by rewrite app_nil_r|].
  split; [intros p; rewrite Hp; intros H; by apply elem_of_nil in H|].
  split; [lia|].
  intros t Hin. apply elem_of_app in Hin as [Hin|Hin].
  - destruct (Ht t Hin) as [Hact Hid].
    split; [lia|]. split; [split; [lia|done] | done].
  - apply list_elem_of_singleton in Hin as ->. cbn [id action].
    split; [lia|]. split; [done|]. intros _. f_equal; lia.
Qed.

Lemma monitoring_calm (st0 : state) (n : nat) (s s' : state) :
  monitoring st0 n s -> calm s s' -> monitoring st0 n s'.
Proof.
  intros (Hi & Hc & Hr & Hp & Hm & Ht)
         (Hr' & Hp' & Hc' & Hi' & _ & _ & _ & Hid' & Ht').
  unfold monitoring. cbv zeta.
  split; [congruence|]. split; [congruence|]. split; [congruence|].
  split; [by rewrite Hp'|]. split; [lia|].
  intros t Hin. destruct (Ht' t Hin) as [Hold|[[a Ha] Hrange]].
  - destruct (Ht t Hold) as (H1 & H2 & H3). split; [lia|done].
  - split; [lia|]. split; [split|]; [lia | congruence | congruence].
Qed.

Lemma calm_dispatch (m : M state unit) (s : state) :
  calm_m m -> calm s (dispatch m s).
Proof.
  intros Hm. unfold dispatch. specialize (Hm s).
  destruct (m s) as [s' [a|e]]; [done|].
  eapply calm_trans; [exact Hm | apply calm_log].
Qed.

Lemma stopped_calm (s s' : state) : stopped s -> calm s s' -> stopped s'.
Proof.
  intros [Hp Ht] (_ & Hp' & _ & _ & _ & _ & _ & _ & Ht').
  split; [by rewrite Hp'|].
  intros t Hin. destruct (Ht' t Hin) as [Hold|[[a Ha] _]]; [by apply Ht | congruence].
Qed.

Lemma find_timer_Some (i : nat) (t : timer) (st : state) :
  find_timer i st = Some t -> t ∈ timers st /\ id t = i.
Proof.
  unfold find_timer. intros H.
  assert (Hin : In t (List.filter (fun t => Nat.eqb (id t) i) (timers st))).
  { destruct (List.filter _ _) as [|x l]; [done|]. injection H as ->. by left. }
  apply filter_In in Hin as [Hin Hid].
  split; [by apply list_elem_of_In | by apply Nat.eqb_eq].
Qed.

Lemma assoc_nat_Some {A} (k : nat) (v : A) (l : list (nat * A)) :
  JS.assoc_nat k l = Some v -> (k, v) ∈ l.
Proof.
  induction l as [|[k' v'] l IH]; simpl; [done|].
  destruct (Nat.eqb_spec k k') as [->|Hne].
  - intros [= ->]. left.
  - intros H. right. by apply IH.
Qed.

Lemma monitoring_frame (st0 : state) (n : nat) (st st' : state) :
  monitoring st0 n st ->
  progressInterval st' = progressInterval st ->
  currentProcessId st' = currentProcessId st ->
  requests st' = requests st ->
  (forall p, p ∈ pending st' -> p ∈ pending st) ->
  next_id st' = next_id st ->
  retimed (timers st) (timers st') ->
  monitoring st0 n st'.
Proof.
  intros (Hi & Hc & Hr & Hp & Hm & Ht) Hi' Hc' Hr' Hp' Hn' Ht'.
  unfold monitoring. cbv zeta.
  split; [congruence|]. split; [congruence|]. split; [congruence|].
  split; [auto|]. split; [lia|].
  intros t' Hin. destruct (Ht' t' Hin) as (t0 & Hin0 & Hid & Hact & Hsame).
  destruct (Ht t0 Hin0) as (H1 & H2 & H3).
  rewrite Hid, Hact, Hn'. split; [done|]. split; [done|].
  intros Hpoll. rewrite (Hsame Hpoll). by apply H3.
Qed.

Lemma stopped_frame (st st' : state) :
  stopped st ->
  (forall p, p ∈ pending st' -> p ∈ pending st) ->
  retimed (timers st) (timers st') ->
  stopped st'.
Proof.
  intros [Hp Ht] Hp' Ht'. split; [auto|].
  intros t' Hin. destruct (Ht' t' Hin) as (t0 & Hin0 & _ & Hact & _).
  rewrite Hact. by apply Ht.
Qed.

Lemma retimed_refl (l : list timer) : retimed l l.
Proof. intros t Hin. by exists t. Qed.

Lemma retimed_filter (p : timer -> bool) (l : list timer) :
  retimed l (List.filter p l).
Proof.
  intros t Hin. exists t. apply list_elem_of_In, filter_In in Hin as [Hin _].
  split; [by apply list_elem_of_In | done].
Qed.

Lemma retimed_bump (i : nat) (p : Z) (l : list timer) :
  (forall t, t ∈ l -> id t = i -> action t <> Poll) ->
  retimed l (map (fun t' => if Nat.eqb (id t') i
                            then Timer (id t') (due t' + p) (period t') (action t')
                            else t') l).
Proof.
  intros Hi t' Hin. apply list_elem_of_fmap in Hin as (t0 & -> & Hin0).
  exists t0. split; [done|].
  destruct (Nat.eqb_spec (id t0) i) as [Heq|Hne]; [|done].
  cbn. repeat split; try done. intros Hpoll. by destruct (Hi t0 Hin0 Heq).
Qed.

Lemma filter_pending_sub (req : nat) (l : list (nat * continuation)) (p : nat * continuation) :
  p ∈ List.filter (fun p => negb (Nat.eqb p.1 req)) l -> p ∈ l.
Proof.
  intros H. apply list_elem_of_In, filter_In in H as [H _]. by apply list_elem_of_In.
Qed.

Section Script.
Variable toLocaleString : JS.value -> string.
Variable successRate : JS.value -> JS.value -> string.
Variable summaryMarkup : JS.value -> string.

Lemma calm_m_updateStatisticsFromStatus (stats : JS.value) :
  calm_m (updateStatisticsFromStatus toLocaleString successRate stats).
Proof. unfold updateStatisticsFromStatus. calm_tac. Qed.

Lemma calm_m_updateFinalStatistics (status : JS.value) :
  calm_m (updateFinalStatistics summaryMarkup status).
Proof. unfold updateFinalStatistics. calm_tac. Qed.

Lemma calm_m_poll_resume (r : reply) :
  calm_m (poll_resume toLocaleString successRate summaryMarkup r).
Proof.
  pose proof calm_m_updateStatisticsFromStatus.
  pose proof calm_m_updateFinalStatistics.
  unfold poll_resume. calm_tac.
Qed.

Lemma smooth_updateStatisticsFromStatus (stats : JS.value) :
  smooth statistics_ids (updateStatisticsFromStatus toLocaleString successRate stats).
Proof. unfold updateStatisticsFromStatus, statistics_ids. repeat smooth_step. Qed.

(** A response with a truthy [completed], on a page that has the elements
    the callback writes: the callback gets to [clearInterval], and what
    follows sends and starts nothing. *)
Lemma poll_resume_completed (status : JS.value) (st : state) :
  has_ids (dom st) monitor_ids ->
  JS.truthy (field status "completed") = true ->
  exists s1,
    calm st s1 /\
    calm (clearInterval (progressInterval s1) s1)
         (dispatch (poll_resume toLocaleString successRate summaryMarkup (Json status)) st).
Proof.
  intros Hids Hdone.
  set (prefix :=
         (updateProgress (JS.or_else (field status "progress") (JS.Num 0))
            (JS.or_else (field status "message") (JS.Str "Processing..."));;
          when (field status "file_statistics")
            (updateStatisticsFromStatus toLocaleString successRate
               (field status "file_statistics"));;
          when (field status "coordinate_info")
            (updateCoordinateDisplay (field status "coordinate_info")))
         : M state unit).
  assert (Hsmooth : smooth monitor_ids prefix).
  { unfold prefix, monitor_ids.
    apply smooth_bind;
      [eapply smooth_sub; [|apply smooth_updateProgress]; listed|intros _].
    apply smooth_bind;
      [apply smooth_when; eapply smooth_sub;
         [|apply smooth_updateStatisticsFromStatus]; listed|intros _].
    apply smooth_when. eapply smooth_sub; [|apply smooth_updateCoordinateDisplay].
    listed. }
  assert (Hcalm : calm_m prefix).
  { pose proof calm_m_updateStatisticsFromStatus. unfold prefix. calm_tac. }
  destruct (Hsmooth st Hids) as (s1 & [] & Hrun & _).
  pose proof (Hcalm st) as Hcalm1. rewrite Hrun in Hcalm1. cbn [fst] in Hcalm1.
  exists s1. split; [exact Hcalm1|].
  set (rest :=
         ((if JS.truthy (field status "error")
           then showAlert ("Processing failed: " +:+ JS.to_string (field status "error"))
                          "error"
           else
             updateProgress (JS.Num 100) (JS.Str "Processing completed successfully!");;
             showAlert "Processing completed successfully!" "success";;
             updateFinalStatistics summaryMarkup status;;
             switchTab "statistics") : M state unit)).
  assert (Hrest : calm_m rest).
  { pose proof calm_m_updateFinalStatistics. unfold rest. calm_tac. }
  assert (Hbody :
    poll_resume toLocaleString successRate summaryMarkup (Json status) st =
    try_catch rest
      (fun error => modify (log ("error: Progress check error: " +:+ error)))
      (clearInterval (progressInterval s1) s1)).
  { unfold poll_resume, try_catch, prop. step_m.
    rewrite (field_get status "completed" "progress" Hdone). step_m.
    unfold prefix in Hrun. unfold mbind, M_bind in Hrun |- *.
    destruct (updateProgress _ _ st) as [sa [[]|ea]]; [|done].
    destruct (when (field status "file_statistics") _ sa) as [sb [[]|eb]]; [|done].
    destruct (when (field status "coordinate_info") _ sb) as [sc [[]|ec]]; [|done].
    injection Hrun as ->. unfold when at 1. rewrite Hdone.
    unfold gets, modify. done. }
  unfold dispatch. rewrite Hbody.
  assert (Hhandler : forall e,
            calm_m (modify (log ("error: Progress check error: " +:+ e)))) by calm_tac.
  pose proof (calm_m_try_catch rest
    (fun error => modify (log ("error: Progress check error: " +:+ error)))
    Hrest Hhandler (clearInterval (progressInterval s1) s1)) as Hfinal.
  destruct (try_catch _ _ _) as [sf [[]|ef]]; [exact Hfinal|].
  eapply calm_trans; [exact Hfinal | apply calm_log].
Qed.

(** One thing happens while the monitor runs. *)
Lemma monitoring_step (st0 : state) (n : nat) (h : happening) (st st' : state) :
  monitoring st0 n st ->
  no_submit h = true ->
  step toLocaleString successRate summaryMarkup h st = Some st' ->
  (monitoring st0 n st' /\ requests st' = requests st) \/
  (monitoring st0 (S n) st' /\ h = Tick (next_id st0)).
Proof.
  intros Hmon Hh Hstep. destruct h as [target time|i|req time r]; [done| |].
  - (* a timer fires *)
    cbn [step] in Hstep.
    destruct (find_timer i st) as [t|] eqn:Hfind; [|done]. cbn in Hstep.
    destruct (now st <=? due t); [|done]. injection Hstep as <-.
    destruct (find_timer_Some i t st Hfind) as [Hin Hid].
    pose proof Hmon as (Hint & Hpid & Hreq & Hpend & Hm & Htimers).
    destruct (Htimers t Hin) as (Hlt & Hiff & Hshape).
    destruct (decide (id t = next_id st0)) as [Hpoll%Hiff|Hne'].
    + (* the monitor's interval *)
      right. rewrite (Hshape Hpoll) in *. cbn in Hid. subst i. split; [|done].
      cbn [action period reschedule fire id due].
      unfold dispatch. rewrite MFacts.run_modify.
      unfold monitoring, poll, fetch. cbv zeta.
      cbn [progressInterval currentProcessId requests pending next_id timers
           set_timers set_event set_now now].
      split; [done|]. split; [done|]. split.
      { rewrite Hreq, seq_S, map_app, app_assoc, Hpid. done. }
      split.
      { intros p Hp. apply elem_of_app in Hp as [Hp|Hp]; [by apply Hpend|].
        by apply list_elem_of_singleton in Hp as ->. }
      split; [done|].
      intros t' Hin'. apply list_elem_of_fmap in Hin' as (t0 & -> & Hin0).
      destruct (Htimers t0 Hin0) as (Hlt0 & Hiff0 & Hshape0).
      destruct (Nat.eqb_spec (id t0) (next_id st0)) as [Heq|Hne].
      * cbn [id action]. split; [done|]. split; [done|]. intros Hp0.
        rewrite (Hshape0 Hp0). cbn. f_equal. lia.
      * split; [done|]. split; [done|]. intros Hp0.
        exfalso. apply Hne. by apply Hiff0.
    + (* another timer *)
      left.
      assert (Hother : action t <> Poll) by (intros Hp; by apply Hne', Hiff).
      assert (Hne : id t <> next_id st0) by done.
      set (pre := reschedule t (set_event None (set_now (due t) st))).
      assert (Hpre : monitoring st0 n pre /\ requests pre = requests st).
      { split; [|unfold pre, reschedule; by destruct (period t)].
        apply (monitoring_frame st0 n st); try done;
          try (unfold pre, reschedule; by destruct (period t)).
        unfold pre, reschedule. destruct (period t) as [p|]; cbn [timers set_timers].
        - apply retimed_bump. intros t1 Hin1 Hid1 Hp1.
          destruct (Htimers t1 Hin1) as (_ & Hiff1 & _).
          apply Hne. rewrite <- Hid1. by apply Hiff1.
        - apply retimed_filter. }
      destruct Hpre as [Hpre Hreqpre].
      pose proof (calm_dispatch (fire (action t)) pre
                    (calm_m_fire_other (action t) Hother)) as Hcalm.
      split; [by eapply monitoring_calm|].
      destruct Hcalm as (-> & _). done.
  - (* a response arrives *)
    left. cbn [step] in Hstep.
    destruct (JS.assoc_nat req (pending st)) as [k|] eqn:Hk; [|done]. cbn in Hstep.
    destruct (now st <=? time); [|done]. injection Hstep as <-.
    pose proof Hmon as (Hint & Hpid & Hreq & Hpend & Hm & Htimers).
    pose proof (Hpend _ (assoc_nat_Some req k _ Hk)) as Hpoll. cbn in Hpoll. subst k.
    set (pre := set_pending _ _).
    assert (Hpre : monitoring st0 n pre).
    { apply (monitoring_frame st0 n st); try done.
      - intros p. apply filter_pending_sub.
      - apply retimed_refl. }
    pose proof (calm_dispatch _ pre (calm_m_poll_resume r)) as Hcalm.
    split; [by eapply monitoring_calm|].
    destruct Hcalm as (Hsame & _). exact Hsame.
Qed.

(** One thing happens after the monitor has stopped. *)
Lemma stopped_step (h : happening) (st st' : state) :
  stopped st ->
  no_submit h = true ->
  step toLocaleString successRate summaryMarkup h st = Some st' ->
  stopped st' /\ requests st' = requests st.
Proof.
  intros Hstop Hh Hstep. destruct h as [target time|i|req time r]; [done| |].
  - cbn [step] in Hstep.
    destruct (find_timer i st) as [t|] eqn:Hfind; [|done]. cbn in Hstep.
    destruct (now st <=? due t); [|done]. injection Hstep as <-.
    destruct (find_timer_Some i t st Hfind) as [Hin Hid].
    pose proof Hstop as [Hpend Htimers].
    pose proof (Htimers t Hin) as Hother.
    set (pre := reschedule t (set_event None (set_now (due t) st))).
    assert (Hpre : stopped pre /\ requests pre = requests st).
    { split; [|unfold pre, reschedule; by destruct (period t)].
      apply (stopped_frame st); [done| |].
      - unfold pre, reschedule. by destruct (period t).
      - unfold pre, reschedule. destruct (period t) as [p|]; cbn [timers set_timers].
        + apply retimed_bump. intros t1 Hin1 _. by apply Htimers.
        + apply retimed_filter. }
    destruct Hpre as [Hpre Hreqpre].
    pose proof (calm_dispatch (fire (action t)) pre
                  (calm_m_fire_other (action t) Hother)) as Hcalm.
    split; [by eapply stopped_calm|].
    destruct Hcalm as (-> & _). done.
  - cbn [step] in Hstep.
    destruct (JS.assoc_nat req (pending st)) as [k|] eqn:Hk; [|done]. cbn in Hstep.
    destruct (now st <=? time); [|done]. injection Hstep as <-.
    pose proof Hstop as [Hpend Htimers].
    pose proof (Hpend _ (assoc_nat_Some req k _ Hk)) as Hpoll. cbn in Hpoll. subst k.
    set (pre := set_pending _ _).
    assert (Hpre : stopped pre).
    { apply (stopped_frame st); [done| |apply retimed_refl].
      intros p. apply filter_pending_sub. }
    pose proof (calm_dispatch _ pre (calm_m_poll_resume r)) as Hcalm.
    split; [by eapply stopped_calm|].
    destruct Hcalm as (Hsame & _). exact Hsame.
Qed.

Lemma monitoring_run (st0 : state) (hs : list happening) :
  forall (n : nat) (st st' : state),
    monitoring st0 n st ->
    forallb no_submit hs = true ->
    run toLocaleString successRate summaryMarkup hs st = Some st' ->
    exists n', monitoring st0 n' st'.
Proof.
  induction hs as [|h hs IH]; intros n st st' Hmon Hhs Hrun.
  - injection Hrun as <-. by exists n.
  - cbn [forallb] in Hhs. apply andb_prop in Hhs as [Hh Hhs].
    cbn [run] in Hrun.
    destruct (step _ _ _ h st) as [s|] eqn:Hstep; [|done]. cbn in Hrun.
    destruct (monitoring_step st0 n h st s Hmon Hh Hstep) as [[Hs _]|[Hs _]];
      by eapply IH.
Qed.

Lemma stopped_run (hs : list happening) :
  forall st st' : state,
    stopped st ->
    forallb no_submit hs = true ->
    run toLocaleString successRate summaryMarkup hs st = Some st' ->
    stopped st' /\ requests st' = requests st.
Proof.
  induction hs as [|h hs IH]; intros st st' Hstop Hhs Hrun.
  - by injection Hrun as <-.
  - cbn [forallb] in Hhs. apply andb_prop in Hhs as [Hh Hhs].
    cbn [run] in Hrun.
    destruct (step _ _ _ h st) as [s|] eqn:Hstep; [|done]. cbn in Hrun.
    destruct (stopped_step h st s Hstop Hh Hstep) as [Hs Hreq].
    destruct (IH s st' Hs Hhs Hrun) as [Hs' Hreq'].
    split; [done | congruence].
Qed.

(** The response that says [completed] stops the monitor. *)
Lemma monitoring_completed (st0 : state) (n req : nat) (time : Z)
    (status : JS.value) (st st' : state) :
  monitoring st0 n st ->
  has_ids (dom st) monitor_ids ->
  JS.truthy (field status "completed") = true ->
  step toLocaleString successRate summaryMarkup (Settle req time (Json status)) st
    = Some st' ->
  stopped st'.
Proof.
  intros Hmon Hids Hdone Hstep. cbn [step] in Hstep.
  destruct (JS.assoc_nat req (pending st)) as [k|] eqn:Hk; [|done]. cbn in Hstep.
  destruct (now st <=? time); [|done]. injection Hstep as <-.
  pose proof Hmon as (_ & _ & _ & Hpend & _).
  pose proof (Hpend _ (assoc_nat_Some req k _ Hk)) as Hpoll. cbn in Hpoll. subst k.
  set (pre := set_pending _ _).
  assert (Hpre : monitoring st0 n pre).
  { apply (monitoring_frame st0 n st); try done.
    - intros p. apply filter_pending_sub.
    - apply retimed_refl. }
  destruct (poll_resume_completed status pre Hids Hdone) as (s1 & Hcalm1 & Hcalm2).
  pose proof (monitoring_calm st0 n pre s1 Hpre Hcalm1)
    as (Hint1 & _ & _ & Hpend1 & _ & Htimers1).
  eapply stopped_calm; [|exact Hcalm2].
  rewrite Hint1. split; [exact Hpend1|].
  intros t Hin. cbn [clearInterval timers set_timers] in Hin.
  apply list_elem_of_In, filter_In in Hin as [Hin Hid].
  apply list_elem_of_In in Hin. destruct (Htimers1 t Hin) as (_ & Hiff & _).
  intros Hp. apply Hiff in Hp. rewrite Hp, Nat.eqb_refl in Hid. done.
Qed.

Lemma idleb_sound (st : state) :
  pending st = [] ->
  forallb (fun t => match action t with Poll => false | _ => true end &&
                    Nat.ltb (id t) (next_id st)) (timers st) = true ->
  idle st.
Proof.
  intros Hp Ht. split; [done|]. rewrite forallb_forall in Ht.
  intros t Hin. apply list_elem_of_In in Hin. specialize (Ht t Hin).
  apply andb_prop in Ht as [Ha Hlt]. apply Nat.ltb_lt in Hlt.
  split; [|done]. by destruct (action t).
Qed.

End Script.
End DashboardFacts.
(* ===================================================================== *)
(** * Facts: the user upload page, continued                              *)
(* ===================================================================== *)

Module DOMRelFacts.
Import DOM DOMRel.

Lemma same_attrs_refl (d : document) : same_attrs d d.
Proof. split; [done|]. intros j n Hn. by exists n. Qed.

Lemma same_attrs_trans (d1 d2 d3 : document) :
  same_attrs d1 d2 -> same_attrs d2 d3 -> same_attrs d1 d3.
Proof.
  intros [Hl1 H1] [Hl2 H2]. split; [congruence|].
  intros j n Hn. destruct (H1 j n Hn) as (n' & Hn' & Ha & Hb).
  destruct (H2 j n' Hn') as (n'' & Hn'' & Ha' & Hb').
  exists n''. split; [done|]. split; congruence.
Qed.

Lemma same_attrs_update (d0 d : document) (k : nat) (f : node -> node) :
  keeps_attrs f -> same_attrs d0 d -> same_attrs d0 (update k f d).
Proof.
  intros Hf H. apply (same_attrs_trans _ d); [done|]. split.
  - apply DOMFacts.length_update.
  - intros j n Hn. unfold update. destruct (decide (j = k)) as [->|Hne].
    + exists (f n). rewrite list_lookup_alter_eq, Hn. split; [done|]. apply Hf.
    + exists n. by rewrite list_lookup_alter_ne.
Qed.

Lemma same_attrs_update_all (d0 : document) (l : list nat) (f : node -> node) :
  keeps_attrs f -> forall d, same_attrs d0 d -> same_attrs d0 (update_all l f d).
Proof.
  intros Hf. unfold update_all. induction l as [|k l IH]; intros d H; cbn; [done|].
  apply IH. by apply same_attrs_update.
Qed.

Lemma find_from_pointwise {A} (p q : nat -> A -> bool) (l l' : list A) :
  length l' = length l ->
  (forall j x x', l !! j = Some x -> l' !! j = Some x' -> forall k, p k x = q k x') ->
  forall k, find_from p k l = find_from q k l'.
Proof.
  revert l'. induction l as [|x l IH]; intros [|x' l'] Hlen H k; try done.
  cbn. rewrite (H 0%nat x x' eq_refl eq_refl k).
  assert (Hrest : find_from p (S k) l = find_from q (S k) l').
  { apply IH; [by injection Hlen|]. intros j y y' Hy Hy'. by apply (H (S j)). }
  by rewrite Hrest.
Qed.

Lemma same_attrs_query (d d' : document) (k v : string) :
  same_attrs d d' ->
  querySelectorAll d' (AttrIs k v) = querySelectorAll d (AttrIs k v).
Proof.
  intros [Hlen H]. unfold querySelectorAll. symmetry.
  apply find_from_pointwise; [done|].
  intros j x x' Hx Hx' _. destruct (H j x Hx) as (n' & Hn' & Ha & Hb).
  assert (n' = x') as -> by congruence. cbn [matches]. unfold attr.
  by rewrite Ha, Hb.
Qed.

Lemma same_attrs_id (d d' : document) (i : string) :
  same_attrs d d' -> getElementById d' i = getElementById d i.
Proof. intros H. unfold getElementById, querySelector. by rewrite (same_attrs_query d d'). Qed.

Lemma keeps_attrs_with_disabled (b : bool) : keeps_attrs (with_disabled b).
Proof. by intros n. Qed.

Lemma keeps_attrs_remove_classes (cs : list string) : keeps_attrs (remove_classes cs).
Proof.
  unfold remove_classes. induction cs as [|c cs IH]; intros n; [done|].
  cbn [fold_left]. destruct (IH (remove_class c n)) as [-> ->].
  apply DOMFacts.keeps_attrs_remove_class.
Qed.

End DOMRelFacts.

Create HintDb keeps.
#[export] Hint Resolve DOMRelFacts.keeps_attrs_with_disabled
  DashboardFacts.keeps_attrs_with_style DashboardFacts.keeps_attrs_with_content
  DashboardFacts.keeps_attrs_with_classes DOMRelFacts.keeps_attrs_remove_classes
  DOMFacts.keeps_attrs_add_class DOMFacts.keeps_attrs_remove_class : keeps.

(** The document after a chain of writes that keep attributes. *)
Ltac same_attrs_tac :=
  repeat first
    [ apply DOMRelFacts.same_attrs_refl
    | assumption
    | apply DOMRelFacts.same_attrs_update; [solve [auto with keeps]|]
    | apply DOMRelFacts.same_attrs_update_all; [solve [auto with keeps]|] ].

Module UserPageFacts.
Import DOM DOMRel UserUpload UserPage.

Lemma get_set_ne (o : JSON.object) (k k' v : string) :
  k' <> k -> JSON.get (JSON.set o k v) k' = JSON.get o k'.
Proof.
  intros Hne. induction o as [|[a b] o IH]; cbn.
  - destruct (String.eqb_spec k' k); congruence.
  - destruct (String.eqb_spec k a) as [->|Hka]; cbn.
    + destruct (String.eqb_spec k' a); congruence.
    + destruct (String.eqb_spec k' a); [done|]. exact IH.
Qed.

(** ** Elements under updates *)

Lemma node_at_lt (d : document) (j : nat) (P : node -> Prop) :
  node_at d j P -> (j < length d)%nat.
Proof. intros (n & Hn & _). by apply lookup_lt_Some in Hn. Qed.

Lemma node_at_update_same (d : document) (j : nat) (f : node -> node)
    (P Q : node -> Prop) :
  node_at d j P -> (forall n, P n -> Q (f n)) -> node_at (update j f d) j Q.
Proof.
  intros (n & Hn & HP) Hf. exists (f n). split; [|by apply Hf].
  unfold update. rewrite list_lookup_alter_eq, Hn. done.
Qed.

Lemma node_at_update (d : document) (j k : nat) (f : node -> node)
    (P : node -> Prop) :
  node_at d j P -> (forall n, P n -> P (f n)) -> node_at (update k f d) j P.
Proof.
  intros HP Hf. destruct (decide (j = k)) as [->|Hne].
  - by apply (node_at_update_same d k f P P).
  - destruct HP as (n & Hn & HP). exists n. split; [|done].
    unfold update. by rewrite list_lookup_alter_ne.
Qed.

Lemma node_at_update_all (l : list nat) (f : node -> node) (P : node -> Prop) :
  (forall n, P n -> P (f n)) ->
  forall (d : document) (j : nat), node_at d j P -> node_at (update_all l f d) j P.
Proof.
  intros Hf. unfold update_all. induction l as [|k l IH]; intros d j HP; cbn; [done|].
  apply IH. by apply node_at_update.
Qed.

Lemma node_at_weaken (d : document) (j : nat) (P Q : node -> Prop) :
  node_at d j P -> (forall n, P n -> Q n) -> node_at d j Q.
Proof. intros (n & Hn & HP) H. exists n. auto. Qed.

(** ** The status classes *)

Lemma has_class_remove_classes (c : string) (cs : list string) :
  forall n, has_class c (remove_classes cs n) =
            has_class c n && negb (existsb (String.eqb c) cs).
Proof.
  unfold remove_classes. induction cs as [|x cs IH]; intros n; cbn.
  - by rewrite andb_true_r.
  - rewrite IH, DOMFacts.has_class_remove.
    destruct (has_class c n), (String.eqb c x), (existsb (String.eqb c) cs); done.
Qed.

Lemma unlabelled_remove_classes (n : node) : unlabelled (remove_classes labels n).
Proof.
  intros l Hl. rewrite has_class_remove_classes.
  assert (existsb (String.eqb l) labels = true) as ->; [|by rewrite andb_false_r].
  apply existsb_exists. exists l. split; [by apply list_elem_of_In|].
  apply String.eqb_refl.
Qed.

Lemma unlabelled_keep (f : node -> node) (n : node) :
  (forall c, has_class c (f n) = has_class c n && negb (existsb (String.eqb c) labels)) ->
  unlabelled n -> unlabelled (f n).
Proof. intros Hf Hn l Hl. by rewrite Hf, (Hn l Hl). Qed.

Lemma carries_add (status : string) (n : node) :
  unlabelled n \/ carries status n -> carries status (add_class status n).
Proof.
  intros H. split.
  - rewrite DOMFacts.has_class_add, String.eqb_refl. apply orb_true_r.
  - intros l Hl Hne. rewrite DOMFacts.has_class_add.
    destruct (String.eqb_spec l status) as [|_]; [done|]. rewrite orb_false_r.
    destruct H as [H|[_ H]]; auto.
Qed.

Lemma carries_badge (status : string) (n : node) :
  carries status (with_classes ["status-badge"; status] n).
Proof.
  split.
  - unfold has_class. cbn. rewrite String.eqb_refl. by rewrite orb_true_r.
  - intros l Hl Hne. unfold has_class. cbn.
    destruct (String.eqb_spec l status) as [|_]; [done|].
    destruct (String.eqb_spec l "status-badge") as [->|_]; [|done].
    exfalso. revert Hl. unfold labels. rewrite !elem_of_cons, elem_of_nil.
    intros [?|[?|[?|[?|[]]]]]; discriminate.
Qed.

Lemma carries_classes (status : string) (n n' : node) :
  classes n' = classes n -> carries status n -> carries status n'.
Proof. unfold carries, has_class. by intros ->. Qed.

(** ** Choosing the next upload *)

Lemma query_class_update_add (d : document) (t : nat) (c c' : string) :
  c' <> c ->
  querySelectorAll (update t (add_class c) d) (Class c') = querySelectorAll d (Class c').
Proof.
  intros Hne. unfold querySelectorAll, update. apply DOMFacts.find_from_alter.
  intros _ x. cbn [matches]. rewrite DOMFacts.has_class_add.
  destruct (String.eqb_spec c' c); [done|]. rewrite orb_false_r.
  by destruct (DOMFacts.keeps_attrs_add_class c x) as [_ ->].
Qed.

Lemma selectNextAvailableUpload_first (first : nat) (rest : list nat) (st : state) :
  querySelectorAll (dom st)
    (And (Class "upload-item") (And (Not (Class "completed")) (Not (Class "disabled"))))
  = first :: rest ->
  only_active (dom st) (dom (selectNextAvailableUpload st)) first.
Proof.
  intros Hq. unfold selectNextAvailableUpload. rewrite Hq.
  rewrite UserUploadFacts.handleSectionSwitch_dom.
  unfold on_dom, set_dom. cbn [dom].
  set (items := querySelectorAll (dom st) (Class "upload-item")).
  set (d1 := update_all items (remove_class "active") (dom st)).
  set (d2 := update first (add_class "active") d1).
  assert (Hfirst : (first < length (dom st))%nat).
  { apply (DOMFacts.querySelectorAll_lt _
      (And (Class "upload-item") (And (Not (Class "completed")) (Not (Class "disabled"))))).
    rewrite Hq. apply elem_of_cons. by left. }
  assert (Hlen : length d2 = length (dom st)).
  { unfold d2, d1. by rewrite DOMFacts.length_update, DOMFacts.length_update_all. }
  assert (Hitems : querySelectorAll d2 (Class "upload-item") = items).
  { unfold d2, d1. rewrite query_class_update_add by done.
    by rewrite DOMFacts.query_class_update_all_remove. }
  assert (Hsections : querySelectorAll d2 (Class "upload-section") =
                      querySelectorAll (dom st) (Class "upload-section")).
  { unfold d2, d1. rewrite query_class_update_add by done.
    by rewrite DOMFacts.query_class_update_all_remove. }
  assert (Hdata : dataset d2 first "data-upload" = dataset (dom st) first "data-upload").
  { unfold dataset, d2, d1.
    rewrite DOMFacts.attr_update by apply DOMFacts.keeps_attrs_add_class.
    by rewrite DOMFacts.attr_update_all by apply DOMFacts.keeps_attrs_remove_class. }
  assert (Hid : forall i, getElementById d2 i = getElementById (dom st) i).
  { intros i. unfold getElementById, querySelector, d2, d1.
    rewrite DOMFacts.query_attr_update by apply DOMFacts.keeps_attrs_add_class.
    by rewrite DOMFacts.query_attr_update_all by apply DOMFacts.keeps_attrs_remove_class. }
  rewrite Hitems, Hsections, Hdata, Hid.
  unfold only_active. cbv zeta.
  set (target := getElementById (dom st)
                   (default "undefined" (dataset (dom st) first "data-upload") +:+ "-form")).
  assert (Ht : forall t, target = Some t -> (t < length d2)%nat).
  { intros t Heq. rewrite Hlen. by apply (DOMFacts.getElementById_lt _ _ _ Heq). }
  rewrite <- Hlen in Hfirst.
  split; [by apply DOMFacts.switched_item|]. split.
  - intros t Heq. rewrite Heq. apply DOMFacts.switched_target. by apply Ht.
  - intros j Hj Hact. by apply (DOMFacts.switched_active d2 _ _ first _ j Hfirst Ht Hj).
Qed.

(** ** Enabled states *)

Lemma node_at_update_all_in (l : list nat) (f : node -> node) (P : node -> Prop) :
  (forall n, P (f n)) ->
  forall (d : document) (j : nat),
    j ∈ l -> (j < length d)%nat -> node_at (update_all l f d) j P.
Proof.
  intros Hf. unfold update_all. induction l as [|k l IH]; intros d j Hj Hlt; cbn.
  - by apply elem_of_nil in Hj.
  - destruct (decide (j = k)) as [->|Hne].
    + apply (node_at_update_all l f P (fun n _ => Hf n)).
      destruct (lookup_lt_is_Some_2 _ _ Hlt) as [n Hn].
      apply (node_at_update_same _ _ _ (fun _ => True)); [by exists n|done].
    + apply elem_of_cons in Hj as [?|Hj]; [done|].
      apply IH; [done|]. by rewrite DOMFacts.length_update.
Qed.

Lemma find_from_lt {A} (p : nat -> A -> bool) (l : list A) (i : nat) :
  i ∈ find_from p 0 l -> (i < length l)%nat.
Proof.
  intros H. apply DOMFacts.find_from_spec in H as (x & _ & Hx & _).
  apply lookup_lt_Some in Hx. lia.
Qed.

Lemma updateFormState_disabled (section j : nat) (status : string) (st : state) :
  j ∈ querySelectorAllIn (dom st) section fields \/
  querySelectorIn (dom st) section (Class "submit-btn") = Some j ->
  node_at (dom (updateFormState section status st)) j
    (fun n => disabled n =
              (String.eqb status "completed" || String.eqb status "disabled")).
Proof.
  intros Hj.
  assert (Hlt : (j < length (dom st))%nat).
  { destruct Hj as [Hj|Hj]; [by apply find_from_lt in Hj|].
    unfold querySelectorIn in Hj. apply head_Some_elem_of in Hj.
    by apply find_from_lt in Hj. }
  unfold updateFormState.
  set (b := String.eqb status "completed" || String.eqb status "disabled").
  set (P := fun n : node => disabled n = b).
  assert (Hset : forall n, P (with_disabled b n)) by done.
  assert (Hall : forall l : list nat,
    (j ∈ l) \/ querySelectorIn (dom st) section (Class "submit-btn") = Some j ->
    (j ∈ l) \/ ((j ∉ l) /\ querySelectorIn (dom st) section (Class "submit-btn") = Some j)).
  { intros l [H|H]; [by left|]. destruct (decide (j ∈ l)); [by left|by right]. }
  destruct (Hall _ Hj) as [Hin|[Hnin Hbtn]].
  - assert (H1 : node_at (update_all (querySelectorAllIn (dom st) section fields)
                            (with_disabled b) (dom st)) j P)
      by (by apply node_at_update_all_in).
    destruct b eqn:Hb; subst P; cbn beta in *.
    + repeat case_match; unfold on_dom, set_dom; cbn [dom];
        repeat first [exact H1 | apply node_at_update; [|by intros ? ?]].
    + repeat case_match; unfold on_dom, set_dom; cbn [dom];
        repeat first [exact H1 | apply node_at_update; [|by intros ? ?]].
  - rewrite Hbtn.
    assert (H1 : node_at (update j (with_disabled b)
                   (update_all (querySelectorAllIn (dom st) section fields)
                      (with_disabled b) (dom st))) j P).
    { assert (Hlt' : (j < length (update_all (querySelectorAllIn (dom st) section fields)
                                     (with_disabled b) (dom st)))%nat)
        by (by rewrite DOMFacts.length_update_all).
      destruct (lookup_lt_is_Some_2 _ _ Hlt') as [n Hn].
      apply (node_at_update_same _ _ _ (fun _ => True)); [by exists n|done]. }
    destruct b eqn:Hb; subst P; cbn beta in *.
    + repeat case_match; unfold on_dom, set_dom; cbn [dom];
        repeat first [exact H1 | apply node_at_update; [|by intros ? ?]].
    + repeat case_match; unfold on_dom, set_dom; cbn [dom];
        repeat first [exact H1 | apply node_at_update; [|by intros ? ?]].
Qed.

(** A function that only sets texts, styles, enabled states, or gives a
    badge its classes keeps the status class of every element. *)
Ltac keep_node :=
  repeat first
    [ assumption
    | apply node_at_update;
      [ | solve [ intros ? ?; first [ apply carries_badge
                                    | eapply carries_classes; [|eassumption]; reflexivity ] ] ]
    | apply node_at_update_all;
      [ solve [ intros ? ?; eapply carries_classes; [|eassumption]; reflexivity ] | ] ].

Section Script.
Variable percent : nat -> nat -> string.

Lemma carries_updateStatusBadge (i j : nat) (status : string) (st : state) :
  node_at (dom st) j (carries status) ->
  node_at (dom (updateStatusBadge i status st)) j (carries status).
Proof.
  intros H. unfold updateStatusBadge. case_match; [|done].
  unfold on_dom, set_dom. cbn [dom]. keep_node.
Qed.

Lemma carries_updateStatusIcon (i j : nat) (status status' : string) (st : state) :
  node_at (dom st) j (carries status) ->
  node_at (dom (updateStatusIcon i status' st)) j (carries status).
Proof.
  intros H. unfold updateStatusIcon. case_match; unfold on_dom, set_dom; cbn [dom]; keep_node.
Qed.

Lemma carries_updateFormState (i j : nat) (status status' : string) (st : state) :
  node_at (dom st) j (carries status) ->
  node_at (dom (updateFormState i status' st)) j (carries status).
Proof.
  intros H. unfold updateFormState.
  repeat case_match; unfold on_dom, set_dom; cbn [dom]; keep_node.
Qed.

Lemma carries_updateProgressBar (j : nat) (status : string) (st : state) :
  node_at (dom st) j (carries status) ->
  node_at (dom (updateProgressBar percent st)) j (carries status).
Proof.
  intros H. unfold updateProgressBar. case_match; [|done].
  unfold on_dom, set_dom. cbn [dom]. keep_node.
Qed.

Lemma carries_updateSessionStatus (j : nat) (status : string) (st : state) :
  node_at (dom st) j (carries status) ->
  node_at (dom (updateSessionStatus st)) j (carries status).
Proof.
  intros H. unfold updateSessionStatus. case_match; [|done].
  unfold on_dom, set_dom. cbn [dom]. keep_node.
Qed.

Lemma updateUploadState_classes (uploadType status : string) (i s : nat) (st : state) :
  querySelector (dom st) (AttrIs "data-upload" uploadType) = Some i ->
  getElementById (dom st) (uploadType +:+ "-form") = Some s ->
  let d' := dom (updateUploadState percent uploadType status st) in
  node_at d' i (carries status) /\ node_at d' s (carries status).
Proof.
  intros Hi Hs d'. subst d'. unfold updateUploadState. rewrite Hi, Hs.
  destruct (DOMFacts.querySelector_Some _ _ _ Hi) as (ni & Hni & _).
  destruct (DOMFacts.querySelector_Some _ _ _ Hs) as (ns & Hns & _).
  set (d1 := update i (remove_classes labels) (dom st)).
  set (d2 := update s (remove_classes labels) d1).
  set (d3 := update i (add_class status) d2).
  set (d4 := update s (add_class status) d3).
  assert (H1 : node_at d1 i unlabelled).
  { apply (node_at_update_same _ _ _ (fun _ => True)); [by exists ni|].
    intros n _. apply unlabelled_remove_classes. }
  assert (H2 : node_at d2 i unlabelled /\ node_at d2 s unlabelled).
  { split.
    - apply node_at_update; [done|]. intros n Hn. apply unlabelled_keep; [|done].
      intros c. apply has_class_remove_classes.
    - apply (node_at_update_same _ _ _ (fun _ => True)).
      + assert (Hlt : (s < length d1)%nat).
        { unfold d1. rewrite DOMFacts.length_update. by apply lookup_lt_Some in Hns. }
        destruct (lookup_lt_is_Some_2 _ _ Hlt) as [n Hn]. by exists n.
      + intros n _. apply unlabelled_remove_classes. }
  destruct H2 as [H2i H2s].
  assert (H3 : node_at d3 i (carries status) /\
               node_at d3 s (fun n => unlabelled n \/ carries status n)).
  { split.
    - apply (node_at_update_same _ _ _ unlabelled); [done|].
      intros n Hn. apply carries_add. by left.
    - apply node_at_update; [by apply (node_at_weaken _ _ unlabelled); [|left]|].
      intros n Hn. right. by apply carries_add. }
  destruct H3 as [H3i H3s].
  assert (H4 : node_at d4 i (carries status) /\ node_at d4 s (carries status)).
  { split.
    - apply node_at_update; [done|]. intros n Hn. apply carries_add. by right.
    - apply (node_at_update_same _ _ _ (fun n => unlabelled n \/ carries status n));
        [done|]. intros n Hn. by apply carries_add. }
  destruct H4 as [H4i H4s].
  assert (Hrest : forall j, node_at d4 j (carries status) ->
    node_at
      (dom (updateSessionStatus
         (updateProgressBar percent
            (saveUploadStatus
               (set_uploadStatus
                  (JSON.set
                     (uploadStatus
                        (updateFormState s status
                           (updateStatusIcon i status
                              (updateStatusBadge i status
                                 (on_dom (update s (add_class status))
                                    (on_dom (update i (add_class status))
                                       (on_dom (update s (remove_classes labels))
                                          (on_dom (update i (remove_classes labels)) st))))))))
                     uploadType status)
                  (updateFormState s status
                     (updateStatusIcon i status
                        (updateStatusBadge i status
                           (on_dom (update s (add_class status))
                              (on_dom (update i (add_class status))
                                 (on_dom (update s (remove_classes labels))
                                    (on_dom (update i (remove_classes labels)) st)))))))))))) j
      (carries status)).
  { intros j Hj. apply carries_updateSessionStatus, carries_updateProgressBar.
    unfold saveUploadStatus, set_uploadStatus, set_sessionStorage. cbn [dom].
    apply carries_updateFormState, carries_updateStatusIcon, carries_updateStatusBadge.
    exact Hj. }
  split; apply Hrest; done.
Qed.

(** ** Validation *)

Lemma set_dom_set_dom (d d' : document) (st : state) :
  set_dom d' (set_dom d st) = set_dom d' st.
Proof. by destruct st. Qed.

Lemma dom_only_m_ret {A} (a : A) : dom_only_m (mret a : M state A).
Proof. intros st. exists (dom st). by destruct st. Qed.

Lemma dom_only_m_throw {A} (e : string) : dom_only_m (throw e : M state A).
Proof. intros st. exists (dom st). by destruct st. Qed.

Lemma dom_only_m_gets {A} (f : state -> A) : dom_only_m (gets f).
Proof. intros st. exists (dom st). by destruct st. Qed.

Lemma dom_only_m_deref {A} (o : option A) (what : string) :
  dom_only_m (deref o what : M state A).
Proof. destruct o; [apply dom_only_m_ret | apply dom_only_m_throw]. Qed.

Lemma dom_only_m_modify (f : state -> state) : dom_only f -> dom_only_m (modify f).
Proof. intros Hf st. exact (Hf st). Qed.

Lemma dom_only_m_bind {A B} (m : M state A) (k : A -> M state B) :
  dom_only_m m -> (forall a, dom_only_m (k a)) -> dom_only_m (m ≫= k).
Proof.
  intros Hm Hk st. unfold mbind, M_bind. destruct (Hm st) as [d Hd].
  destruct (m st) as [s1 [a|e]]; cbn [fst] in *.
  - subst s1. destruct (Hk a (set_dom d st)) as [d' Hd']. exists d'.
    by rewrite Hd', set_dom_set_dom.
  - by exists d.
Qed.

Lemma dom_only_m_for_each {A} (l : list A) (f : A -> M state unit) :
  (forall a, dom_only_m (f a)) -> dom_only_m (for_each l f).
Proof.
  intros Hf. induction l as [|a l IH]; cbn [for_each].
  - apply dom_only_m_ret.
  - apply dom_only_m_bind; [apply Hf | by intros _].
Qed.

Lemma dom_only_appendChild (n : node) : dom_only (fun st => (appendChild n st).1).
Proof. intros st. unfold appendChild. cbn. by eexists. Qed.

Lemma dom_only_m_parentNode (i : nat) : dom_only_m (parentNode i).
Proof.
  unfold parentNode. apply dom_only_m_bind; [apply dom_only_m_gets|].
  intros d. apply dom_only_m_deref.
Qed.

Lemma dom_only_m_clearFieldError (field : nat) : dom_only_m (clearFieldError field).
Proof.
  unfold clearFieldError.
  apply dom_only_m_bind; [apply dom_only_m_parentNode|]. intros p.
  apply dom_only_m_bind; [apply dom_only_m_gets|]. intros d.
  apply dom_only_m_bind.
  - case_match; [|apply dom_only_m_ret].
    apply dom_only_m_modify, UserUploadFacts.dom_only_on_dom.
  - intros _. apply dom_only_m_modify, UserUploadFacts.dom_only_on_dom.
Qed.

Lemma dom_only_m_showFieldError (field : nat) (message : string) :
  dom_only_m (showFieldError field message).
Proof.
  unfold showFieldError.
  apply dom_only_m_bind; [apply dom_only_m_clearFieldError|]. intros _.
  apply dom_only_m_bind; [apply dom_only_m_parentNode|]. intros p.
  apply dom_only_m_bind; [apply dom_only_m_modify, dom_only_appendChild|]. intros _.
  apply dom_only_m_modify, UserUploadFacts.dom_only_on_dom.
Qed.

Lemma dom_only_m_validateForm (form : nat) : dom_only_m (validateForm form).
Proof.
  unfold validateForm.
  apply dom_only_m_bind; [apply dom_only_m_gets|]. intros d.
  apply dom_only_m_bind.
  { apply dom_only_m_for_each. intros a.
    case_match; [apply dom_only_m_showFieldError | apply dom_only_m_clearFieldError]. }
  intros _. apply dom_only_m_bind.
  { apply dom_only_m_for_each. intros a.
    case_match; [apply dom_only_m_showFieldError | apply dom_only_m_ret]. }
  intros _. apply dom_only_m_ret.
Qed.

Lemma bind_returns {A B} (m : M state A) (k : A -> M state B) (st st' : state) (b : B) :
  (m ≫= k) st = (st', Ret b) -> exists s1 a, m st = (s1, Ret a) /\ k a s1 = (st', Ret b).
Proof.
  unfold mbind, M_bind. destruct (m st) as [s1 [a|e]]; [|done]. intros H. by exists s1, a.
Qed.

Lemma validateForm_invalid (form i : nat) (n : node) (st : state) :
  dom st !! i = Some n ->
  (i ∈ querySelectorAllIn (dom st) form (HasAttr "required") /\
   is_blank (value n) = true) \/
  (i ∈ querySelectorAllIn (dom st) form (And (Tag "input") (AttrIs "type" "file")) /\
   is_Some (attr "required" n) /\ files n = 0%nat) ->
  forall st1, validateForm form st <> (st1, Ret true).
Proof.
  intros Hn Hi st1 Hrun. unfold validateForm in Hrun.
  rewrite MFacts.bind_gets in Hrun.
  apply bind_returns in Hrun as (s1 & [] & _ & Hrun).
  apply bind_returns in Hrun as (s2 & [] & _ & Hrun).
  revert Hrun. unfold mret, M_ret. intros [= _ Hb].
  apply andb_true_iff in Hb as [Hreq Hfile].
  destruct Hi as [[Hi Hblank]|(Hi & Hattr & Hfiles)].
  - rewrite forallb_forall in Hreq. specialize (Hreq i).
    rewrite Hn, Hblank in Hreq. cbn in Hreq.
    by specialize (Hreq (proj1 (list_elem_of_In _ _) Hi)).
  - rewrite forallb_forall in Hfile. specialize (Hfile i).
    rewrite Hn, Hfiles in Hfile. rewrite bool_decide_eq_true_2 in Hfile by done.
    cbn in Hfile. by specialize (Hfile (proj1 (list_elem_of_In _ _) Hi)).
Qed.

(** ** A successful upload *)

Lemma handleUploadSuccess_run (uploadType : string) (st : state) :
  let st' := handleUploadSuccess percent uploadType st in
  let o := uploadStatus (updateUploadState percent uploadType "completed" st) in
  let t := length (dom st) in
  uploadStatus st' = o /\
  sessionStorage st' =
    sessionStorage (updateUploadState percent uploadType "completed" st) /\
  requests st' = requests st /\
  timers st' =
    timers st ++
      [Timer 100 false (ToastFadeIn t); Timer 4000 false (ToastFadeOut t);
       Timer 1500 false SelectNext] ++
      (if allCompleted o then [Timer 2000 false CompletionNotice] else []) /\
  toast_shown (getUploadDisplayName uploadType +:+ " uploaded successfully! ✅")
              "success" st'.
Proof.
  cbv zeta. unfold handleUploadSuccess, checkAllUploadsCompleted.
  set (st1 := updateUploadState percent uploadType "completed" st).
  set (msg := getUploadDisplayName uploadType +:+ " uploaded successfully! ✅").
  destruct (UserUploadFacts.showToast_data msg "success" st1) as (Hu & Hs & Hr & _).
  destruct (UserUploadFacts.showToast_shown msg "success" st1) as [Hshown Ht].
  destruct (UserUploadFacts.updateUploadState_frame percent uploadType "completed" st)
    as [Ht1 Hr1].
  pose proof (UserUploadFacts.length_updateUploadState percent uploadType "completed" st)
    as Hlen.
  fold st1 in Ht1, Hr1, Hlen.
  assert (Hshown' : forall c ms,
    toast_shown msg "success" (setTimeout c ms (showToast msg "success" st1)) ->
    toast_shown msg "success"
      (setTimeout CompletionNotice 2000 (setTimeout c ms (showToast msg "success" st1)))).
  { intros c ms (t & n & H1 & H2 & H3 & H4 & H5 & H6). exists t, n.
    repeat split; try done; cbn [timers setTimeout] in *;
      rewrite elem_of_app; by left. }
  assert (Hshown1 : toast_shown msg "success"
                      (setTimeout SelectNext 1500 (showToast msg "success" st1))).
  { destruct Hshown as (t & n & H1 & H2 & H3 & H4 & H5 & H6). exists t, n.
    repeat split; try done; cbn [timers setTimeout]; rewrite elem_of_app; by left. }
  cbn [uploadStatus setTimeout] in *.
  rewrite Hu. destruct (allCompleted (uploadStatus st1)) eqn:Hall;
    cbn [uploadStatus sessionStorage requests timers setTimeout];
    rewrite ?Hu, ?Hs, ?Hr, ?Hr1, ?Ht, ?Ht1, ?Hlen, <- ?app_assoc; cbn [app];
    repeat split; try done.
  by apply Hshown'.
Qed.

(** ** Submitting an invalid form *)

Lemma on_submit_stops (form : nat) (st : state) :
  (forall st1, validateForm form st <> (st1, Ret true)) ->
  (on_submit percent form st).1 = (validateForm form st).1.
Proof.
  intros H. unfold on_submit, mbind, M_bind.
  destruct (validateForm form st) as [s1 [[|]|e]] eqn:Hv; [|done|done].
  by destruct (H s1).
Qed.

(** ** [updateUploadState] keeps the attributes *)

Lemma same_attrs_updateStatusBadge (d0 : document) (i : nat) (s : string) (st : state) :
  same_attrs d0 (dom st) -> same_attrs d0 (dom (updateStatusBadge i s st)).
Proof.
  intros H. unfold updateStatusBadge. case_match; [|done].
  unfold on_dom, set_dom. cbn [dom]. same_attrs_tac.
Qed.

Lemma same_attrs_updateStatusIcon (d0 : document) (i : nat) (s : string) (st : state) :
  same_attrs d0 (dom st) -> same_attrs d0 (dom (updateStatusIcon i s st)).
Proof.
  intros H. unfold updateStatusIcon.
  case_match; unfold on_dom, set_dom; cbn [dom]; same_attrs_tac.
Qed.

Lemma same_attrs_updateFormState (d0 : document) (i : nat) (s : string) (st : state) :
  same_attrs d0 (dom st) -> same_attrs d0 (dom (updateFormState i s st)).
Proof.
  intros H. unfold updateFormState.
  destruct (String.eqb s "completed" || String.eqb s "disabled");
    destruct (querySelectorIn (dom st) i (Class "submit-btn"));
    try destruct (String.eqb s "completed");
    unfold on_dom, set_dom; cbn [dom]; same_attrs_tac.
Qed.

Lemma same_attrs_updateProgressBar (d0 : document) (st : state) :
  same_attrs d0 (dom st) -> same_attrs d0 (dom (updateProgressBar percent st)).
Proof.
  intros H. unfold updateProgressBar. case_match; [|done].
  unfold on_dom, set_dom. cbn [dom]. same_attrs_tac.
Qed.

Lemma same_attrs_updateSessionStatus (d0 : document) (st : state) :
  same_attrs d0 (dom st) -> same_attrs d0 (dom (updateSessionStatus st)).
Proof.
  intros H. unfold updateSessionStatus. case_match; [|done].
  unfold on_dom, set_dom. cbn [dom]. same_attrs_tac.
Qed.

Lemma same_attrs_updateUploadState (uploadType status : string) (st : state) :
  same_attrs (dom st) (dom (updateUploadState percent uploadType status st)).
Proof.
  unfold updateUploadState.
  destruct (querySelector (dom st) (AttrIs "data-upload" uploadType)) as [i|];
    [|apply DOMRelFacts.same_attrs_refl].
  destruct (getElementById (dom st) (uploadType +:+ "-form")) as [s|];
    [|apply DOMRelFacts.same_attrs_refl].
  apply same_attrs_updateSessionStatus, same_attrs_updateProgressBar.
  unfold saveUploadStatus, set_sessionStorage, set_uploadStatus. cbn [dom].
  apply same_attrs_updateFormState, same_attrs_updateStatusIcon,
    same_attrs_updateStatusBadge.
  unfold on_dom, set_dom. cbn [dom]. same_attrs_tac.
Qed.

Lemma found_same_attrs (k : string) (st st' : state) :
  same_attrs (dom st) (dom st') -> found k st' = found k st.
Proof.
  intros H. unfold found.
  rewrite (DOMRelFacts.same_attrs_id _ _ (k +:+ "-form") H).
  unfold querySelector. by rewrite (DOMRelFacts.same_attrs_query _ _ "data-upload" k H).
Qed.

Lemma reset_fold (l : list string) :
  forall (st : state) (k : string),
    let st' := fold_left (fun st uploadType =>
                 updateUploadState percent uploadType "available" st) l st in
    same_attrs (dom st) (dom st') /\
    JSON.get (uploadStatus st') k =
      if bool_decide (k ∈ l) && found k st then Some "available"
      else JSON.get (uploadStatus st) k.
Proof.
  induction l as [|t l IH]; intros st k; cbn [fold_left].
  - split; [apply DOMRelFacts.same_attrs_refl|]. by rewrite bool_decide_eq_false_2 by
      (apply not_elem_of_nil).
  - set (st1 := updateUploadState percent t "available" st).
    pose proof (same_attrs_updateUploadState t "available" st) as H1. fold st1 in H1.
    destruct (IH st1 k) as [H2 Hget]. cbv zeta in H2, Hget.
    split; [by apply (DOMRelFacts.same_attrs_trans _ (dom st1))|].
    rewrite Hget, (found_same_attrs k st st1 H1). clear Hget IH.
    assert (Hst1 : JSON.get (uploadStatus st1) k =
                   if bool_decide (k = t) && found k st then Some "available"
                   else JSON.get (uploadStatus st) k).
    { destruct (decide (k = t)) as [Hk|Hk].
      - rewrite (bool_decide_eq_true_2 _ Hk). subst k. cbn [andb].
        destruct (found t st) eqn:Hf.
        + destruct (UserUploadFacts.updateUploadState_found percent t "available" st Hf)
            as (Hu & _). fold st1 in Hu. rewrite Hu. apply JSONFacts.get_set_eq.
        + unfold st1. by rewrite UserUploadFacts.updateUploadState_missing.
      - rewrite (bool_decide_eq_false_2 _ Hk). cbn [andb].
        destruct (found t st) eqn:Hf.
        + destruct (UserUploadFacts.updateUploadState_found percent t "available" st Hf)
            as (Hu & _). fold st1 in Hu. rewrite Hu. by apply get_set_ne.
        + unfold st1. by rewrite UserUploadFacts.updateUploadState_missing. }
    rewrite Hst1. clear Hst1.
    destruct (found k st); rewrite ?andb_true_r, ?andb_false_r; [|done].
    destruct (decide (k = t)) as [Hk|Hk].
    + rewrite (bool_decide_eq_true_2 (k ∈ t :: l)) by (apply elem_of_cons; by left).
      rewrite (bool_decide_eq_true_2 _ Hk). by destruct (bool_decide (k ∈ l)).
    + rewrite (bool_decide_eq_false_2 _ Hk).
      destruct (decide (k ∈ l)) as [Hin|Hin].
      * rewrite (bool_decide_eq_true_2 _ Hin).
        by rewrite (bool_decide_eq_true_2 (k ∈ t :: l)) by (apply elem_of_cons; by right).
      * rewrite (bool_decide_eq_false_2 _ Hin).
        rewrite (bool_decide_eq_false_2 (k ∈ t :: l)); [done|].
        rewrite elem_of_cons. tauto.
Qed.

Lemma resetAllUploads_get (st : state) (k : string) :
  k ∈ JSON.keys (uploadStatus st) ->
  JSON.get (uploadStatus (resetAllUploads percent st)) k =
    if found k st then Some "available" else JSON.get (uploadStatus st) k.
Proof.
  intros Hk. unfold resetAllUploads.
  destruct (UserUploadFacts.showToast_data "All upload statuses have been reset." "info"
    (fold_left (fun st uploadType => updateUploadState percent uploadType "available" st)
       (JSON.keys (uploadStatus st)) st)) as [-> _].
  destruct (reset_fold (JSON.keys (uploadStatus st)) st k) as [_ ->].
  by rewrite bool_decide_eq_true_2.
Qed.

End Script.

Lemma status_map_all_available (o : JSON.object) :
  JSON.keys o = categories ->
  (forall k, k ∈ categories -> JSON.get o k = Some "available") ->
  o = initialStatus.
Proof.
  intros Hk Hget. unfold JSON.keys, categories in Hk.
  destruct o as [|[k1 v1] [|[k2 v2] [|[k3 v3] [|[k4 v4] [|? ?]]]]]; try discriminate.
  cbn in Hk. injection Hk as -> -> -> ->.
  pose proof (Hget "health-center" ltac:(listed)) as H1.
  pose proof (Hget "hmis-api" ltac:(listed)) as H2.
  pose proof (Hget "temperature" ltac:(listed)) as H3.
  pose proof (Hget "precipitation" ltac:(listed)) as H4.
  cbn in H1, H2, H3, H4. unfold initialStatus. congruence.
Qed.

(** ** A click on an upload that is done *)

Lemma untouched_append (d : document) (n : node) : untouched d (d ++ [n]).
Proof. intros j x Hx. by apply lookup_app_l_Some. Qed.

Lemma showToast_dom (message type : string) (st : state) :
  exists n, dom (showToast message type st) = dom st ++ [n] /\
            content n = message /\ attached n = true.
Proof. unfold showToast, appendChild, append. cbn. by eexists. Qed.

(** ** The Escape key *)

Lemma find_from_nil {A} (p : nat -> A -> bool) (l : list A) :
  (forall j x, l !! j = Some x -> forall k, p k x = false) ->
  forall k, find_from p k l = [].
Proof.
  induction l as [|x l IH]; intros H k; [done|]. cbn.
  rewrite (H 0%nat x eq_refl k). apply IH. intros j y Hy. by apply (H (S j)).
Qed.

Lemma update_all_notin (l : list nat) (f : node -> node) :
  forall (d : document) (j : nat), j ∉ l -> update_all l f d !! j = d !! j.
Proof.
  unfold update_all. induction l as [|k l IH]; intros d j Hj; cbn [fold_left]; [done|].
  rewrite not_elem_of_cons in Hj. destruct Hj as [Hne Hj].
  rewrite IH by done. unfold update. by rewrite list_lookup_alter_ne.
Qed.

Lemma handleEscapeKey_errors (st : state) :
  let st' := handleEscapeKey st in
  querySelectorAll (dom st') (Class "field-error") = [] /\
  (forall j n, dom st !! j = Some n -> has_class "field-error" n = false ->
     attached <$> dom st' !! j = Some (attached n)) /\
  length (dom st') = length (dom st) /\
  exists d, st' = set_dom d st.
Proof.
  cbv zeta. unfold handleEscapeKey, on_dom, set_dom. cbn [dom].
  set (errors := querySelectorAll (dom st) (Class "field-error")).
  set (d1 := update_all errors (with_attached false) (dom st)).
  set (inputs := find_from _ 0%nat d1).
  set (Q := fun n : node => attached n && has_class "field-error" n = false).
  assert (Hd1 : forall j n1, d1 !! j = Some n1 -> node_at d1 j Q).
  { intros j n1 Hn1. destruct (decide (j ∈ errors)) as [Hin|Hnin].
    - apply (node_at_weaken _ _ (fun n => attached n = false)).
      + apply node_at_update_all_in; [done|done|].
        by apply DOMFacts.querySelectorAll_lt in Hin.
      + intros n Hn. unfold Q. by rewrite Hn.
    - exists n1. split; [done|]. unfold d1 in Hn1.
      rewrite update_all_notin in Hn1 by done. unfold Q.
      destruct (attached n1) eqn:Ha; [|done].
      destruct (has_class "field-error" n1) eqn:Hc; [|done].
      exfalso. apply Hnin. apply DOMFacts.querySelectorAll_spec. by exists n1. }
  split; [|split; [|split]].
  - unfold querySelectorAll. apply find_from_nil. intros j x Hx _.
    assert (Hlt : (j < length d1)%nat).
    { apply lookup_lt_Some in Hx. by rewrite DOMFacts.length_update_all in Hx. }
    destruct (lookup_lt_is_Some_2 _ _ Hlt) as [n1 Hn1].
    assert (H2 : node_at (update_all inputs (with_style "borderColor" "") d1) j Q).
    { apply node_at_update_all; [|by apply (Hd1 j n1)]. by intros n Hn. }
    destruct H2 as (n2 & Hn2 & HQ). assert (n2 = x) as -> by congruence.
    exact HQ.
  - intros j n Hn Hc.
    assert (Hnin : j ∉ errors).
    { intros Hin. apply DOMFacts.querySelectorAll_spec in Hin as (n' & Hn' & _ & Hm).
      cbn [matches] in Hm. congruence. }
    assert (H1 : node_at d1 j (fun m => attached m = attached n)).
    { exists n. split; [|done]. unfold d1. by rewrite update_all_notin. }
    assert (H2 : node_at (update_all inputs (with_style "borderColor" "") d1) j
                   (fun m => attached m = attached n)).
    { apply node_at_update_all; [|done]. by intros m Hm. }
    destruct H2 as (n2 & -> & Ha). cbn. by rewrite Ha.
  - unfold d1. by rewrite !DOMFacts.length_update_all.
  - by eexists.
Qed.

End UserPageFacts.
(* ===================================================================== *)
(** * Facts: the dashboard, continued                                     *)
(* ===================================================================== *)

Module DashboardFilesFacts.
Import DOM DOMRel Dashboard DashboardFiles.

#[local] Hint Resolve DashboardFacts.calm_m_ret DashboardFacts.calm_m_throw
  DashboardFacts.calm_m_gets DashboardFacts.calm_m_deref DashboardFacts.calm_on_dom
  DashboardFacts.calm_log DashboardFacts.calm_setTimeout
  DashboardFacts.calm_clearInterval DashboardFacts.calm_m_set_by_id
  DashboardFacts.calm_m_updateProgress DashboardFacts.calm_m_showAlert
  DashboardFacts.calm_m_switchTab DashboardFacts.calm_m_updateStatistics
  DashboardFacts.calm_m_prop DashboardFacts.calm_m_updateCoordinateDisplay : calm.

Lemma on_dom_on_dom (f g : document -> document) (st : state) :
  on_dom g (on_dom f st) = on_dom (fun d => g (f d)) st.
Proof. by destruct st. Qed.

Lemma on_dom_const (d : document) (st : state) :
  dom st = d -> on_dom (fun _ => d) st = st.
Proof. intros <-. by destruct st. Qed.

Lemma on_dom_eval (f : document -> document) (st : state) :
  on_dom f st = on_dom (fun _ => f (dom st)) st.
Proof. by destruct st. Qed.

(** ** Reading an element by its id *)

Lemma id_of (d : document) (i : string) (e : nat) :
  getElementById d i = Some e ->
  exists n, d !! e = Some n /\ attr "id" n = Some i.
Proof.
  intros H. apply DOMFacts.querySelector_Some in H as (n & Hn & _ & Hm).
  exists n. split; [done|]. cbn [matches] in Hm. by apply bool_decide_eq_true in Hm.
Qed.

Lemma by_id_update_same {A} (g : node -> A) (d : document) (i : string) (e : nat)
    (f : node -> node) :
  keeps_attrs f -> getElementById d i = Some e ->
  (e' ← getElementById (update e f d) i; g <$> update e f d !! e') =
  (fun n => g (f n)) <$> d !! e.
Proof.
  intros Hf He. rewrite (DashboardFacts.same_ids_update d e f Hf i), He. cbn.
  unfold update. rewrite list_lookup_alter_eq. by destruct (d !! e).
Qed.

Lemma by_id_update_other {A} (g : node -> A) (d : document) (i j : string) (e : nat)
    (f : node -> node) :
  keeps_attrs f -> getElementById d j = Some e -> i <> j ->
  (e' ← getElementById (update e f d) i; g <$> update e f d !! e') =
  (e' ← getElementById d i; g <$> d !! e').
Proof.
  intros Hf He Hne. rewrite (DashboardFacts.same_ids_update d e f Hf i).
  destruct (getElementById d i) as [e'|] eqn:He'; [|done]. cbn.
  unfold update. rewrite list_lookup_alter_ne; [done|]. intros <-.
  destruct (id_of _ _ _ He) as (n & Hn & Hj).
  destruct (id_of _ _ _ He') as (n' & Hn' & Hi). congruence.
Qed.

Lemma set_by_id_Some (i : string) (f : node -> node) (e : nat) (st : state) :
  getElementById (dom st) i = Some e ->
  set_by_id i f st = (on_dom (update e f) st, Ret tt).
Proof. intros He. unfold set_by_id. step_m. rewrite He. by step_m. Qed.

Lemma set_by_id_None (i : string) (f : node -> node) (st : state) :
  getElementById (dom st) i = None ->
  set_by_id i f st = (st, Throw ("TypeError: " +:+ i +:+ " is null")).
Proof. intros He. unfold set_by_id. step_m. rewrite He. by step_m. Qed.

Lemma text_of_set (d : document) (i : string) (e : nat) (s : string) :
  getElementById d i = Some e ->
  text_of (update e (with_content s) d) i = Some s.
Proof.
  intros He. unfold text_of.
  rewrite (by_id_update_same content d i e _ (DashboardFacts.keeps_attrs_with_content s) He).
  destruct (id_of _ _ _ He) as (n & -> & _). done.
Qed.

Lemma text_of_other (d : document) (i j : string) (e : nat) (f : node -> node) :
  keeps_attrs f -> getElementById d j = Some e -> i <> j ->
  text_of (update e f d) i = text_of d i.
Proof. intros. unfold text_of. by apply by_id_update_other with (j := j). Qed.

Lemma text_of_kept (d : document) (i j : string) (e : nat) (f : node -> node) :
  keeps_attrs f -> (forall n, content (f n) = content n) ->
  text_of (update e f d) i = text_of d i.
Proof.
  intros Hf Hc. unfold text_of. rewrite (DashboardFacts.same_ids_update d e f Hf i).
  destruct (getElementById d i) as [e'|]; [|done]. cbn. unfold update.
  destruct (decide (e' = e)) as [->|Hne].
  - rewrite list_lookup_alter_eq. destruct (d !! e); [|done]. cbn. by rewrite Hc.
  - by rewrite list_lookup_alter_ne.
Qed.

Lemma disabled_of_set (d : document) (i : string) (e : nat) (b : bool) :
  getElementById d i = Some e ->
  disabled_of (update e (with_disabled b) d) i = Some b.
Proof.
  intros He. unfold disabled_of.
  rewrite (by_id_update_same disabled d i e _ (DOMRelFacts.keeps_attrs_with_disabled b) He).
  destruct (id_of _ _ _ He) as (n & -> & _). done.
Qed.

Lemma disabled_of_other (d : document) (i j : string) (e : nat) (f : node -> node) :
  keeps_attrs f -> getElementById d j = Some e -> i <> j ->
  disabled_of (update e f d) i = disabled_of d i.
Proof. intros. unfold disabled_of. by apply by_id_update_other with (j := j). Qed.

(** ** The refresh of the statistics *)

Lemma updateStatistics_run (st : state) :
  has_ids (dom st) statistics_ids ->
  exists d, updateStatistics st = (on_dom (fun _ => d) st, Ret tt) /\
            blanked d /\ same_ids (dom st) d.
Proof.
  intros Hids.
  assert (Hstep : forall (i : string) (s : string) (d : document),
    i ∈ statistics_ids -> same_ids (dom st) d ->
    exists e, getElementById d i = Some e /\
      set_by_id i (with_content s) (on_dom (fun _ => d) st) =
        (on_dom (fun _ => update e (with_content s) d) st, Ret tt) /\
      same_ids (dom st) (update e (with_content s) d)).
  { intros i s d Hi Hsame. destruct (Hids i Hi) as [e He]. rewrite <- Hsame in He.
    exists e. split; [done|]. split.
    - rewrite (set_by_id_Some i _ e); [|by destruct st]. by rewrite on_dom_on_dom.
    - apply (DashboardFacts.same_ids_trans _ d); [done|].
      apply DashboardFacts.same_ids_update, DashboardFacts.keeps_attrs_with_content. }
  unfold updateStatistics.
  destruct (Hstep "totalBoundaryFeatures" "-" (dom st) ltac:(listed)
              (DashboardFacts.same_ids_refl _)) as (e1 & He1 & Hr1 & Hs1).
  rewrite (on_dom_const (dom st) st eq_refl) in Hr1.
  rewrite (DashboardFacts.run_bind _ _ _ _ tt Hr1).
  destruct (Hstep "totalSlopePoints" "-" _ ltac:(listed) Hs1) as (e2 & He2 & Hr2 & Hs2).
  rewrite (DashboardFacts.run_bind _ _ _ _ tt Hr2).
  destruct (Hstep "processedFeatures" "-" _ ltac:(listed) Hs2) as (e3 & He3 & Hr3 & Hs3).
  rewrite (DashboardFacts.run_bind _ _ _ _ tt Hr3).
  destruct (Hstep "failedFeatures" "-" _ ltac:(listed) Hs3) as (e4 & He4 & Hr4 & Hs4).
  rewrite (DashboardFacts.run_bind _ _ _ _ tt Hr4).
  destruct (Hstep "successRate" "-%" _ ltac:(listed) Hs4) as (e5 & He5 & Hr5 & Hs5).
  rewrite (DashboardFacts.run_bind _ _ _ _ tt Hr5).
  destruct (Hstep "batchesCompleted" "-" _ ltac:(listed) Hs5) as (e6 & He6 & Hr6 & Hs6).
  rewrite Hr6. eexists. split; [reflexivity|]. split; [|done].
  pose proof (DashboardFacts.keeps_attrs_with_content) as Hk.
  unfold blanked. repeat split.
  - rewrite (text_of_other _ _ "batchesCompleted" e6) by (try apply Hk; done).
    rewrite (text_of_other _ _ "successRate" e5) by (try apply Hk; done).
    rewrite (text_of_other _ _ "failedFeatures" e4) by (try apply Hk; done).
    rewrite (text_of_other _ _ "processedFeatures" e3) by (try apply Hk; done).
    rewrite (text_of_other _ _ "totalSlopePoints" e2) by (try apply Hk; done).
    by apply text_of_set.
  - rewrite (text_of_other _ _ "batchesCompleted" e6) by (try apply Hk; done).
    rewrite (text_of_other _ _ "successRate" e5) by (try apply Hk; done).
    rewrite (text_of_other _ _ "failedFeatures" e4) by (try apply Hk; done).
    rewrite (text_of_other _ _ "processedFeatures" e3) by (try apply Hk; done).
    by apply text_of_set.
  - rewrite (text_of_other _ _ "batchesCompleted" e6) by (try apply Hk; done).
    rewrite (text_of_other _ _ "successRate" e5) by (try apply Hk; done).
    rewrite (text_of_other _ _ "failedFeatures" e4) by (try apply Hk; done).
    by apply text_of_set.
  - rewrite (text_of_other _ _ "batchesCompleted" e6) by (try apply Hk; done).
    rewrite (text_of_other _ _ "successRate" e5) by (try apply Hk; done).
    by apply text_of_set.
  - rewrite (text_of_other _ _ "batchesCompleted" e6) by (try apply Hk; done).
    by apply text_of_set.
  - by apply text_of_set.
Qed.

(** ** Steps that keep the ids, the console and the files *)

Lemma same_data_refl (st : state) : same_data st st.
Proof. done. Qed.

Lemma same_data_trans (s1 s2 s3 : state) :
  same_data s1 s2 -> same_data s2 s3 -> same_data s1 s3.
Proof. intros (?&?&?) (?&?&?). repeat split; congruence. Qed.

Lemma tidy_ret {A} (a : A) : tidy (mret a : M state A).
Proof. intros st. split; [apply DashboardFacts.same_ids_refl|done]. Qed.

Lemma tidy_throw {A} (e : string) : tidy (throw e : M state A).
Proof. intros st. split; [apply DashboardFacts.same_ids_refl|done]. Qed.

Lemma tidy_gets {A} (f : state -> A) : tidy (gets f).
Proof. intros st. split; [apply DashboardFacts.same_ids_refl|done]. Qed.

Lemma tidy_deref {A} (o : option A) (what : string) : tidy (deref o what : M state A).
Proof. destruct o; [apply tidy_ret | apply tidy_throw]. Qed.

Lemma tidy_modify (f : state -> state) : keeps_page f -> tidy (modify f).
Proof. intros Hf st. exact (Hf st). Qed.

Lemma tidy_bind {A B} (m : M state A) (k : A -> M state B) :
  tidy m -> (forall a, tidy (k a)) -> tidy (m ≫= k).
Proof.
  intros Hm Hk st. unfold mbind, M_bind. destruct (Hm st) as [H1 H2].
  destruct (m st) as [s1 [a|e]]; cbn [fst] in *; [|done].
  destruct (Hk a s1) as [H3 H4]. split; [|by apply (same_data_trans _ s1)].
  by apply (DashboardFacts.same_ids_trans _ (dom s1)).
Qed.

Lemma tidy_try_catch {A} (m : M state A) (h : string -> M state A) :
  tidy m -> (forall e, tidy (h e)) -> tidy (try_catch m h).
Proof.
  intros Hm Hh st. unfold try_catch. destruct (Hm st) as [H1 H2].
  destruct (m st) as [s1 [a|e]]; cbn [fst] in *; [done|].
  destruct (Hh e s1) as [H3 H4]. split; [|by apply (same_data_trans _ s1)].
  by apply (DashboardFacts.same_ids_trans _ (dom s1)).
Qed.

Lemma tidy_when (v : JS.value) (m : M state unit) : tidy m -> tidy (when v m).
Proof. intros Hm. unfold when. destruct (JS.truthy v); [done|apply tidy_ret]. Qed.

Lemma keeps_page_on_dom (g : document -> document) :
  (forall d, same_ids d (g d)) -> keeps_page (on_dom g).
Proof. intros Hg st. split; [|by destruct st]. destruct st. cbn [dom on_dom]. apply Hg. Qed.

Lemma keeps_page_update (e : nat) (f : node -> node) :
  keeps_attrs f -> keeps_page (on_dom (update e f)).
Proof.
  intros Hf. apply keeps_page_on_dom. intros d. by apply DashboardFacts.same_ids_update.
Qed.

Lemma keeps_page_update_all (l : list nat) (f : node -> node) :
  keeps_attrs f -> keeps_page (on_dom (update_all l f)).
Proof.
  intros Hf. apply keeps_page_on_dom. intros d.
  by apply DashboardFacts.same_ids_update_all.
Qed.

Lemma same_ids_append (d : document) (n : node) :
  attrs n = ∅ -> same_ids d (d ++ [n]).
Proof.
  intros Hn i. unfold getElementById, querySelector.
  rewrite DOMFacts.query_append; [done|]. cbn [matches]. unfold attr. rewrite Hn.
  by rewrite lookup_empty, bool_decide_eq_false_2.
Qed.

Lemma keeps_page_append (n : node) :
  attrs n = ∅ -> keeps_page (on_dom (fun d => (append n d).1)).
Proof.
  intros Hn. apply keeps_page_on_dom. intros d. cbn [append fst].
  by apply same_ids_append.
Qed.

Lemma keeps_page_setTimeout (c : callback) (ms : Z) : keeps_page (setTimeout c ms).
Proof. intros st. split; [apply DashboardFacts.same_ids_refl|done]. Qed.

Lemma keeps_page_clearInterval (h : option nat) : keeps_page (clearInterval h).
Proof. intros st. destruct h; (split; [apply DashboardFacts.same_ids_refl|done]). Qed.

Lemma keeps_page_set_startTime (f : state -> option Z) :
  keeps_page (fun st => set_startTime (f st) st).
Proof. intros st. split; [apply DashboardFacts.same_ids_refl|done]. Qed.

Lemma keeps_page_set_currentProcessId (v : JS.value) : keeps_page (set_currentProcessId v).
Proof. intros st. split; [apply DashboardFacts.same_ids_refl|done]. Qed.

Lemma keeps_page_startProgressMonitoring : keeps_page startProgressMonitoring.
Proof. intros st. split; [apply DashboardFacts.same_ids_refl|done]. Qed.

Create HintDb tidy.
#[local] Hint Resolve tidy_ret tidy_throw tidy_gets tidy_deref
  keeps_page_update keeps_page_update_all keeps_page_append keeps_page_setTimeout
  keeps_page_clearInterval keeps_page_set_startTime keeps_page_set_currentProcessId
  keeps_page_startProgressMonitoring
  DOMRelFacts.keeps_attrs_with_disabled DashboardFacts.keeps_attrs_with_style
  DashboardFacts.keeps_attrs_with_content DashboardFacts.keeps_attrs_with_classes
  DOMFacts.keeps_attrs_add_class DOMFacts.keeps_attrs_remove_class : tidy.

Ltac tidy_step :=
  lazymatch goal with
  | |- tidy (mbind _ _) => apply tidy_bind
  | |- tidy (try_catch _ _) => apply tidy_try_catch
  | |- tidy (modify _) => apply tidy_modify
  | |- tidy (when _ _) => apply tidy_when
  | |- tidy _ => first [solve [auto with tidy] | case_match]
  end.

Ltac tidy_tac :=
  repeat match goal with
  | |- tidy _ => tidy_step
  | |- keeps_page _ => solve [auto with tidy]
  | |- forall _, _ => intro
  end.

Lemma tidy_set_by_id (i : string) (f : node -> node) :
  keeps_attrs f -> tidy (set_by_id i f).
Proof. intros Hf. unfold set_by_id. tidy_tac. Qed.

Lemma tidy_set_style (i k v : string) : tidy (set_by_id i (with_style k v)).
Proof. apply tidy_set_by_id. auto with tidy. Qed.

Lemma tidy_set_content (i s : string) : tidy (set_by_id i (with_content s)).
Proof. apply tidy_set_by_id. auto with tidy. Qed.

Lemma tidy_set_disabled (i : string) (b : bool) : tidy (set_by_id i (with_disabled b)).
Proof. apply tidy_set_by_id. auto with tidy. Qed.

Lemma tidy_set_add_class (i c : string) : tidy (set_by_id i (add_class c)).
Proof. apply tidy_set_by_id. auto with tidy. Qed.

#[local] Hint Resolve tidy_set_style tidy_set_content tidy_set_disabled
  tidy_set_add_class : tidy.

Lemma tidy_updateProgress (percentage message : JS.value) :
  tidy (updateProgress percentage message).
Proof. unfold updateProgress. tidy_tac. Qed.
#[local] Hint Resolve tidy_updateProgress : tidy.

Lemma tidy_showAlert (message type : string) : tidy (showAlert message type).
Proof. unfold showAlert. tidy_tac. Qed.
#[local] Hint Resolve tidy_showAlert : tidy.

Lemma tidy_switchTab (tabName : string) : tidy (switchTab tabName).
Proof. unfold switchTab. tidy_tac. Qed.
#[local] Hint Resolve tidy_switchTab : tidy.

Lemma tidy_updateStatistics : tidy updateStatistics.
Proof. unfold updateStatistics. tidy_tac. Qed.
#[local] Hint Resolve tidy_updateStatistics : tidy.

Lemma tidy_prop (v : JS.value) (k : string) : tidy (prop v k).
Proof. unfold prop. tidy_tac. Qed.
#[local] Hint Resolve tidy_prop : tidy.

Lemma tidy_updateCoordinateDisplay (c : JS.value) : tidy (updateCoordinateDisplay c).
Proof. unfold updateCoordinateDisplay. tidy_tac. Qed.
#[local] Hint Resolve tidy_updateCoordinateDisplay : tidy.

Lemma tidy_updateButtonStates : tidy updateButtonStates.
Proof. unfold updateButtonStates. tidy_tac. Qed.
#[local] Hint Resolve tidy_updateButtonStates : tidy.

(** ** Steps that only repaint *)

Lemma rewritten_refl (d : document) : rewritten d d.
Proof. split; [apply DOMRelFacts.same_attrs_refl|done]. Qed.

Lemma rewritten_trans (d1 d2 d3 : document) :
  rewritten d1 d2 -> rewritten d2 d3 -> rewritten d1 d3.
Proof.
  intros [Ha Hs] [Ha' Hs']. split; [by apply (DOMRelFacts.same_attrs_trans _ d2)|].
  intros j. by rewrite Hs', Hs.
Qed.

Lemma rewritten_update (d : document) (e : nat) (f : node -> node) :
  keeps_attrs f -> (forall n, style (f n) = style n) -> rewritten d (update e f d).
Proof.
  intros Hf Hs. split.
  - apply DOMRelFacts.same_attrs_update; [done|apply DOMRelFacts.same_attrs_refl].
  - intros j. unfold update. destruct (decide (j = e)) as [->|Hne].
    + rewrite list_lookup_alter_eq. destruct (d !! e); [|done]. cbn. by rewrite Hs.
    + by rewrite list_lookup_alter_ne.
Qed.

Lemma rewritten_ids (d d' : document) : rewritten d d' -> same_ids d d'.
Proof. intros [Ha _] i. by apply DOMRelFacts.same_attrs_id. Qed.

Lemma rewritten_width (d d' : document) :
  rewritten d d' -> progress_width d' = progress_width d.
Proof.
  intros H. unfold progress_width. rewrite (rewritten_ids d d' H).
  destruct (getElementById d "progressFill") as [e|]; [|done]. cbn.
  destruct H as [_ Hs]. specialize (Hs e).
  destruct (d' !! e), (d !! e); cbn in *; congruence.
Qed.

Lemma paints_ret {A} (ids : list string) (a : A) : paints ids (mret a : M state A).
Proof.
  intros st _. exists (dom st), a. split; [|apply rewritten_refl].
  by rewrite on_dom_const.
Qed.

Lemma paints_bind {A B} (ids : list string) (m : M state A) (k : A -> M state B) :
  paints ids m -> (forall a, paints ids (k a)) -> paints ids (m ≫= k).
Proof.
  intros Hm Hk st Hids. destruct (Hm st Hids) as (d1 & a & Hrun & Hr1).
  assert (Hids1 : has_ids (dom (on_dom (fun _ => d1) st)) ids).
  { destruct st. cbn [dom on_dom].
    eapply DashboardFacts.has_ids_same; [exact Hids|]. by apply rewritten_ids. }
  destruct (Hk a _ Hids1) as (d2 & b & Hrun2 & Hr2).
  exists d2, b. rewrite (DashboardFacts.run_bind _ _ _ _ a Hrun), Hrun2.
  split; [by rewrite on_dom_on_dom|].
  apply (rewritten_trans _ d1); [done|]. by destruct st.
Qed.

Lemma paints_when (ids : list string) (v : JS.value) (m : M state unit) :
  paints ids m -> paints ids (when v m).
Proof. intros Hm. unfold when. destruct (JS.truthy v); [done|apply paints_ret]. Qed.

Lemma paints_set_by_id (ids : list string) (i : string) (f : node -> node) :
  i ∈ ids -> keeps_attrs f -> (forall n, style (f n) = style n) ->
  paints ids (set_by_id i f).
Proof.
  intros Hi Hf Hs st Hids. destruct (Hids i Hi) as [e He].
  exists (update e f (dom st)), tt. rewrite (set_by_id_Some i f e st He).
  split; [by rewrite on_dom_eval|]. by apply rewritten_update.
Qed.

Lemma paints_update (ids : list string) (e : nat) (f : node -> node) :
  keeps_attrs f -> (forall n, style (f n) = style n) ->
  paints ids (modify (on_dom (update e f))).
Proof.
  intros Hf Hs st _. exists (update e f (dom st)), tt.
  split; [unfold modify; by rewrite on_dom_eval|]. by apply rewritten_update.
Qed.

Lemma paints_sub {A} (ids ids' : list string) (m : M state A) :
  ids ⊆ ids' -> paints ids m -> paints ids' m.
Proof.
  intros Hsub Hm st Hids. apply Hm. by apply (DashboardFacts.has_ids_sub _ _ ids').
Qed.

Lemma paints_updateCoordinateDisplay (c : JS.value) :
  paints coordinate_ids (updateCoordinateDisplay c).
Proof.
  unfold updateCoordinateDisplay, coordinate_ids.
  apply paints_bind;
    [apply paints_when, paints_set_by_id; [listed|by intros ?|done]|intros _].
  apply paints_bind;
    [apply paints_when, paints_set_by_id; [listed|by intros ?|done]|intros _].
  apply paints_bind;
    [apply paints_when, paints_set_by_id; [listed|by intros ?|done]|intros _].
  intros st Hids. destruct (Hids "overlapStatus" ltac:(listed)) as [e He].
  step_m. rewrite He. step_m.
  destruct (JS.is_str (field c "overlap_status") "OVERLAP_ACHIEVED"); step_m;
    eexists _, tt; rewrite on_dom_on_dom, on_dom_eval; (split; [reflexivity|]);
    (eapply rewritten_trans; apply rewritten_update; by intros ?).
Qed.

(** ** What ends in an exception outside an event listener *)

Lemma steady_of {A} (ids : list string) (m : M state A) :
  smooth ids m -> tidy m -> calm_m m -> steady ids m.
Proof.
  intros Hs Ht Hc st Hids. destruct (Hs st Hids) as (st' & a & Hrun & Hsame).
  exists st', a. split; [done|]. split; [done|].
  destruct (Ht st) as [_ [Hcon _]]. pose proof (Hc st) as Hcalm.
  rewrite Hrun in Hcon, Hcalm. cbn [fst] in *. split; [done|]. apply Hcalm.
Qed.

Lemma fails_after {A B} (m : M state A) (k : A -> M state B) :
  tidy m -> calm_m m -> (forall a, fails_quietly (k a)) -> fails_quietly (m ≫= k).
Proof.
  intros Ht Hc Hk st He. unfold mbind, M_bind.
  destruct (Ht st) as [_ [Hcon _]]. pose proof (Hc st) as Hcalm.
  destruct (m st) as [s1 [a|e]]; cbn [fst] in *.
  - assert (He1 : event s1 = None) by (destruct Hcalm as (_&_&_&_&_&_&->&_); done).
    destruct (Hk a s1 He1) as (st' & e & Hrun & Hcon'). exists st', e.
    split; [done|congruence].
  - by exists s1, e.
Qed.

Lemma fails_event {B} (k : nat -> M state B) :
  fails_quietly (e ← gets event; target ← deref e "event"; k target).
Proof. intros st He. step_m. rewrite He. step_m. by eexists _, _. Qed.

Lemma fails_quietly_switchTab (tabName : string) : fails_quietly (switchTab tabName).
Proof.
  unfold switchTab.
  do 5 (apply fails_after; [tidy_tac | DashboardFacts.calm_tac | intros ?]).
  apply fails_event.
Qed.

(** ** File names *)

Lemma endsWith_length (s x : string) :
  endsWith s x = true -> (String.length x <= String.length s)%nat.
Proof.
  induction s as [|a s IH]; cbn [endsWith]; intros H; apply orb_true_iff in H as [H|H].
  - apply String.eqb_eq in H. by subst.
  - done.
  - apply String.eqb_eq in H. by subst.
  - specialize (IH H). cbn [String.length]. lia.
Qed.

Lemma endsWith_zip (s : string) :
  endsWith s ".zip" = true -> endsWith s ".tif" = false /\ endsWith s ".tiff" = false.
Proof.
  induction s as [|a s IH]; cbn [endsWith]; intros H; apply orb_true_iff in H as [H|H].
  - done.
  - done.
  - apply String.eqb_eq in H. injection H as -> ->. by vm_compute.
  - destruct (IH H) as [-> ->]. rewrite !orb_false_r.
    pose proof (endsWith_length _ _ H) as Hlen. cbn in Hlen. split.
    + apply String.eqb_neq. intros Heq. apply (f_equal String.length) in Heq.
      cbn in Heq. lia.
    + apply String.eqb_neq. intros Heq. injection Heq as _ ->. by vm_compute in H.
Qed.

Lemma lower_lower (c : ascii) : lower (lower c) = lower c.
Proof. destruct c as [[] [] [] [] [] [] [] []]; reflexivity. Qed.

Lemma toLowerCase_idem (s : string) : toLowerCase (toLowerCase s) = toLowerCase s.
Proof. induction s as [|c s IH]; cbn; [done|]. by rewrite lower_lower, IH. Qed.

(** ** The two buttons *)

Lemma updateButtonStates_run (st : state) :
  is_Some (getElementById (dom st) "validateBtn") ->
  is_Some (getElementById (dom st) "uploadBtn") ->
  let both := bool_decide (is_Some (boundaries st)) &&
              bool_decide (is_Some (geotiff st)) in
  exists d,
    updateButtonStates st = (on_dom (fun _ => d) st, Ret tt) /\
    disabled_of d "validateBtn" = Some (negb both) /\
    disabled_of d "uploadBtn" = Some (negb both) /\
    same_ids (dom st) d /\
    retouch st (on_dom (fun _ => d) st).
Proof.
  intros [v Hv] [u Hu] both.
  pose proof (DOMRelFacts.keeps_attrs_with_disabled (negb both)) as Hk.
  unfold updateButtonStates. step_m. fold both.
  rewrite (DashboardFacts.run_bind _ _ _ _ tt (set_by_id_Some _ _ v st Hv)).
  assert (Hu' : getElementById (dom (on_dom (update v (with_disabled (negb both))) st))
                  "uploadBtn" = Some u).
  { destruct st. cbn [dom on_dom]. by rewrite DashboardFacts.same_ids_update. }
  rewrite (set_by_id_Some _ _ u _ Hu'). rewrite on_dom_on_dom, on_dom_eval.
  eexists. split; [reflexivity|].
  assert (Hu2 : getElementById (update v (with_disabled (negb both)) (dom st)) "uploadBtn"
                = Some u) by (by rewrite DashboardFacts.same_ids_update).
  split; [|split; [|split]].
  - rewrite (disabled_of_other _ _ "uploadBtn" u) by done. by apply disabled_of_set.
  - by apply disabled_of_set.
  - apply (DashboardFacts.same_ids_trans _ (update v (with_disabled (negb both)) (dom st)));
      by apply DashboardFacts.same_ids_update.
  - pose proof (DashboardFacts.retouch_set_by_id "validateBtn" _ st Hk) as H1.
    rewrite (set_by_id_Some _ _ v st Hv) in H1. cbn [fst] in H1.
    pose proof (DashboardFacts.retouch_set_by_id "uploadBtn" _
                  (on_dom (update v (with_disabled (negb both))) st) Hk) as H2.
    rewrite (set_by_id_Some _ _ u _ Hu') in H2. cbn [fst] in H2.
    rewrite on_dom_on_dom, on_dom_eval in H2.
    by apply (DashboardFacts.retouch_trans _ _ _ H1).
Qed.

(** ** Choosing a file *)

Lemma select_tail (e c : nat) (cls msg kind : string) (s : state) :
  getElementById (dom s) "alertContainer" = Some c ->
  is_Some (getElementById (dom s) "validateBtn") ->
  is_Some (getElementById (dom s) "uploadBtn") ->
  let both := bool_decide (is_Some (boundaries s)) && bool_decide (is_Some (geotiff s)) in
  exists st',
    ((modify (on_dom (update e (add_class cls)));; showAlert msg kind);;
     updateButtonStates) s = (st', Ret tt) /\
    alert_shown msg kind (now s) st' /\
    disabled_of (dom st') "validateBtn" = Some (negb both) /\
    disabled_of (dom st') "uploadBtn" = Some (negb both) /\
    boundaries st' = boundaries s /\ geotiff st' = geotiff s /\
    requests st' = requests s /\ pending st' = pending s /\
    now st' = now s /\
    same_ids (dom s) (dom st').
Proof.
  intros Hc Hv Hu both.
  set (s1 := on_dom (update e (add_class cls)) s).
  assert (Hs1 : same_ids (dom s) (dom s1)).
  { destruct s. cbn [dom on_dom s1].
    apply DashboardFacts.same_ids_update, DOMFacts.keeps_attrs_add_class. }
  assert (Hc1 : getElementById (dom s1) "alertContainer" = Some c) by (by rewrite Hs1).
  pose proof (DashboardFacts.showAlert_run msg kind c s1 Hc1) as Hrun1.
  pose proof (DashboardFacts.showAlert_shown msg kind c s1 Hc1) as Hshown.
  rewrite Hrun1 in Hshown. cbn [fst] in Hshown.
  set (s2 := setTimeout (RemoveAlert (length (dom s1))) 5000
               (on_dom (fun d => (append (element "div" ["alert"; "alert-" +:+ kind]
                                            msg (Some c)) d).1) s1)) in *.
  assert (Hs2 : same_ids (dom s1) (dom s2)).
  { destruct s. cbn [dom on_dom s1 s2 setTimeout append fst]. by apply same_ids_append. }
  assert (Hv2 : is_Some (getElementById (dom s2) "validateBtn")) by (by rewrite Hs2, Hs1).
  assert (Hu2 : is_Some (getElementById (dom s2) "uploadBtn")) by (by rewrite Hs2, Hs1).
  destruct (updateButtonStates_run s2 Hv2 Hu2) as (d & Hrun2 & Hdv & Hdu & Hs3 & Hret).
  assert (Hfiles : boundaries s2 = boundaries s /\ geotiff s2 = geotiff s /\
                   requests s2 = requests s /\ pending s2 = pending s /\
                   now s1 = now s /\ now s2 = now s)
    by (by destruct s).
  destruct Hfiles as (Hb & Hg & Hr & Hp & Hn & Hn2).
  rewrite Hb, Hg in Hdv, Hdu. fold both in Hdv, Hdu.
  exists (on_dom (fun _ => d) s2).
  split.
  { unfold mbind at 1, M_bind at 1. unfold mbind at 1, M_bind at 1.
    unfold modify at 1. fold s1. rewrite Hrun1. exact Hrun2. }
  split; [rewrite <- Hn; by apply (DashboardFacts.retouch_alert s2)|].
  assert (Hd : dom (on_dom (fun _ => d) s2) = d) by (by destruct s2).
  rewrite Hd. split; [done|]. split; [done|].
  split; [by destruct s2|]. split; [by destruct s2|].
  split; [by destruct s2|]. split; [by destruct s2|].
  split; [by destruct s2|].
  apply (DashboardFacts.same_ids_trans _ (dom s1)); [done|].
  by apply (DashboardFacts.same_ids_trans _ (dom s2)).
Qed.

Section Files.
Variable fileInfoMarkup : file -> string.
Variable resetForm : nat -> document -> document.

Lemma handleFileSelect_run (f : file) (type : string) (st : state) :
  has_ids (dom st) file_ids ->
  type = "boundaries" \/ type = "geotiff" ->
  let st0 := store type f st in
  let both := bool_decide (is_Some (boundaries st0)) &&
              bool_decide (is_Some (geotiff st0)) in
  exists st',
    handleFileSelect fileInfoMarkup (Some f) type st = (st', Ret tt) /\
    alert_shown
      (if validateFileType f type
       then (if String.eqb type "boundaries" then "Boundary shapefile"
             else "Slope GeoTIFF") +:+ " uploaded successfully!"
       else "Invalid file type for " +:+ type)
      (if validateFileType f type then "success" else "error") (now st) st' /\
    disabled_of (dom st') "validateBtn" = Some (negb both) /\
    disabled_of (dom st') "uploadBtn" = Some (negb both) /\
    boundaries st' = boundaries st0 /\ geotiff st' = geotiff st0 /\
    requests st' = requests st /\ pending st' = pending st /\
    now st' = now st /\
    same_ids (dom st) (dom st').
Proof.
  intros Hids Htype st0 both.
  assert (Hst0 : dom st0 = dom st /\ now st0 = now st /\ requests st0 = requests st /\
                 pending st0 = pending st).
  { unfold st0, store. by repeat case_match. }
  destruct Hst0 as (Hd0 & Hn0 & Hr0 & Hp0).
  set (info := if String.eqb type "boundaries" then "shapefileInfo" else "geotiffInfo").
  assert (Hinfo : is_Some (getElementById (dom st0) info)).
  { rewrite Hd0. apply Hids. unfold info. destruct Htype as [-> | ->]; listed. }
  destruct Hinfo as [e He].
  destruct (Hids "alertContainer" ltac:(listed)) as [c Hc].
  set (s1 := on_dom (update e (with_content (fileInfoMarkup f)))
               (on_dom (update e (with_style "display" "block")) st0)).
  assert (Hs1 : same_ids (dom st) (dom s1)).
  { rewrite <- Hd0. destruct st0. cbn [dom on_dom s1].
    eapply DashboardFacts.same_ids_trans; apply DashboardFacts.same_ids_update;
      auto with tidy. }
  assert (Hframe : boundaries s1 = boundaries st0 /\ geotiff s1 = geotiff st0 /\
                   requests s1 = requests st0 /\ pending s1 = pending st0 /\
                   now s1 = now st0) by (by destruct st0).
  destruct Hframe as (Hb1 & Hg1 & Hr1 & Hp1 & Hn1).
  assert (Hc1 : getElementById (dom s1) "alertContainer" = Some c) by (by rewrite Hs1).
  assert (Hv1 : is_Some (getElementById (dom s1) "validateBtn")).
  { rewrite Hs1. apply Hids. listed. }
  assert (Hu1 : is_Some (getElementById (dom s1) "uploadBtn")).
  { rewrite Hs1. apply Hids. listed. }
  assert (Hgo : forall cls msg kind,
    exists st',
      ((modify (on_dom (update e (add_class cls)));; showAlert msg kind);;
       updateButtonStates) s1 = (st', Ret tt) /\
      alert_shown msg kind (now st) st' /\
      disabled_of (dom st') "validateBtn" = Some (negb both) /\
      disabled_of (dom st') "uploadBtn" = Some (negb both) /\
      boundaries st' = boundaries st0 /\ geotiff st' = geotiff st0 /\
      requests st' = requests st /\ pending st' = pending st /\
      now st' = now st /\
      same_ids (dom st) (dom st')).
  { intros cls msg kind.
    destruct (select_tail e c cls msg kind s1 Hc1 Hv1 Hu1)
      as (st' & Hrun & Hshown & Hdv & Hdu & Hb & Hg & Hr & Hp & Hn & Hs).
    cbv zeta in Hdv, Hdu. rewrite Hb1, Hg1 in Hdv, Hdu. fold both in Hdv, Hdu.
    exists st'. split; [done|]. split; [by rewrite <- Hn0, <- Hn1|].
    split; [done|]. split; [done|]. split; [congruence|]. split; [congruence|].
    split; [congruence|]. split; [congruence|]. split; [congruence|].
    by apply (DashboardFacts.same_ids_trans _ (dom s1)). }
  unfold handleFileSelect. step_m. fold st0. fold info. rewrite He. step_m. fold s1.
  destruct (validateFileType f type); apply Hgo.
Qed.

(** ** Resetting the dashboard *)

Lemma keeps_data_of_tidy {A} (m : M state A) : tidy m -> keeps_data m.
Proof. intros H st. apply H. Qed.

Lemma keeps_data_on_dom (g : document -> document) : keeps_data (modify (on_dom g)).
Proof. intros st. by destruct st. Qed.

Lemma keeps_data_bind {A B} (m : M state A) (k : A -> M state B) :
  keeps_data m -> (forall a, keeps_data (k a)) -> keeps_data (m ≫= k).
Proof.
  intros Hm Hk st. unfold mbind, M_bind. pose proof (Hm st) as H1.
  destruct (m st) as [s1 [a|e]]; cbn [fst] in *; [|done].
  apply (same_data_trans _ s1); [done|]. apply Hk.
Qed.

Lemma calm_m_updateButtonStates : calm_m updateButtonStates.
Proof. unfold updateButtonStates. DashboardFacts.calm_tac. Qed.

Lemma resetDashboard_stops (st0 st : state) (n : nat) :
  monitoring st0 n st -> (0 < next_id st0)%nat ->
  let st' := dispatch (resetDashboard resetForm) st in
  stopped st' /\ boundaries st' = None /\ geotiff st' = None /\
  currentProcessId st' = JS.Null /\ startTime st' = None /\
  requests st' = requests st /\ progressInterval st' = progressInterval st.
Proof.
  intros (Hint & _ & _ & Hpend & _ & Htimers) Hpos st'.
  destruct (next_id st0) as [|m] eqn:Hm; [lia|].
  set (s0 := set_startTime None (set_currentProcessId JS.Null
               (set_geotiff None (set_boundaries None st)))).
  set (s1 := clearInterval (Some (S m)) s0).
  set (rest :=
    (d ← gets dom;
     form ← deref (getElementById d "uploadForm") "uploadForm";
     modify (on_dom (resetForm form));;
     set_by_id "shapefileInfo" (with_style "display" "none");;
     set_by_id "geotiffInfo" (with_style "display" "none");;
     set_by_id "progressPanel" (with_style "display" "none");;
     set_by_id "coordinateInfo" (with_style "display" "none");;
     updateButtonStates;;
     d ← gets dom;
     alertContainer ← deref (getElementById d "alertContainer") "alertContainer";
     modify (on_dom (update_all (descendants d alertContainer) (with_attached false)));;
     updateStatistics;;
     switchTab "upload";;
     showAlert "Dashboard reset successfully" "info") : M state unit).
  assert (Hrun : resetDashboard resetForm st = rest s1).
  { unfold resetDashboard. step_m. fold s0.
    assert (progressInterval s0 = Some (S m)) as -> by (by rewrite <- Hint).
    cbv iota. by step_m. }
  assert (Hcalm : calm_m rest).
  { pose proof calm_m_updateButtonStates. unfold rest. DashboardFacts.calm_tac. }
  assert (Hstop1 : stopped s1).
  { split; [exact Hpend|]. intros t Ht Hpoll.
    unfold s1, s0 in Ht. cbn [clearInterval set_timers timers] in Ht.
    change (timers (set_startTime None (set_currentProcessId JS.Null
              (set_geotiff None (set_boundaries None st))))) with (timers st) in Ht.
    apply list_elem_of_In, filter_In in Ht as [Ht Hid].
    apply list_elem_of_In in Ht. destruct (Htimers t Ht) as (_ & Hiff & _).
    apply Hiff in Hpoll. rewrite Hpoll, Nat.eqb_refl in Hid. done. }
  pose proof (DashboardFacts.calm_dispatch rest s1 Hcalm) as Hfinal.
  assert (Hst' : st' = dispatch rest s1).
  { unfold st', dispatch. by rewrite Hrun. }
  rewrite Hst'.
  split; [by apply (DashboardFacts.stopped_calm s1)|].
  destruct Hfinal as (Hr & _ & Hp & Hi & Hs & _).
  assert (Hdata : keeps_data rest).
  { unfold rest.
    repeat first
      [ apply keeps_data_on_dom
      | apply keeps_data_of_tidy; solve [tidy_tac]
      | apply keeps_data_bind; [|intros ?] ]. }
  assert (Hfiles : boundaries (dispatch rest s1) = None /\
                   geotiff (dispatch rest s1) = None).
  { unfold dispatch. destruct (Hdata s1) as (_ & Hb & Hg).
    destruct (rest s1) as [s2 [[]|e]]; cbn [fst] in Hb, Hg;
      cbn [boundaries geotiff log]; by rewrite Hb, Hg. }
  destruct Hfiles as [-> ->]. rewrite Hp, Hs, Hr, Hi. done.
Qed.

End Files.

(** ** Submitting without both files *)

Lemma handleFormSubmit_no_files (c : nat) (st : state) :
  boundaries st = None \/ geotiff st = None ->
  getElementById (dom st) "alertContainer" = Some c ->
  exists st',
    handleFormSubmit st = (st', Ret tt) /\
    alert_shown "Please upload both files" "error" (now st) st' /\
    requests st' = requests st /\ pending st' = pending st /\
    startTime st' = startTime st /\ progressInterval st' = progressInterval st /\
    untouched (dom st) (dom st').
Proof.
  intros Hfiles Hc.
  assert (Hrun : handleFormSubmit st = showAlert "Please upload both files" "error" st).
  { unfold handleFormSubmit. step_m.
    destruct (boundaries st), (geotiff st); try done. by destruct Hfiles. }
  pose proof (DashboardFacts.showAlert_shown "Please upload both files" "error" c st Hc)
    as Hshown.
  rewrite Hrun, (DashboardFacts.showAlert_run _ _ c st Hc) in *. cbn [fst] in Hshown.
  eexists. split; [reflexivity|]. split; [done|].
  destruct st. cbn. repeat split; try done.
  intros j n Hn. by apply lookup_app_l_Some.
Qed.

(** ** Validating the files *)

Lemma validateFiles_missing (c : nat) (st : state) :
  boundaries st = None \/ geotiff st = None ->
  getElementById (dom st) "alertContainer" = Some c ->
  exists st',
    validateFiles st = (st', Ret tt) /\
    alert_shown "Please upload both files first" "error" (now st) st' /\
    requests st' = requests st /\
    untouched (dom st) (dom st').
Proof.
  intros Hfiles Hc.
  assert (Hrun : validateFiles st = showAlert "Please upload both files first" "error" st).
  { unfold validateFiles. step_m.
    destruct (boundaries st), (geotiff st); try done. by destruct Hfiles. }
  pose proof (DashboardFacts.showAlert_shown "Please upload both files first" "error" c st Hc)
    as Hshown.
  rewrite Hrun, (DashboardFacts.showAlert_run _ _ c st Hc) in *. cbn [fst] in Hshown.
  eexists. split; [reflexivity|]. split; [done|].
  destruct st. cbn. split; [done|].
  intros j n Hn. by apply lookup_app_l_Some.
Qed.

Lemma validateFiles_present (b g : file) (c : nat) (st : state) :
  boundaries st = Some b -> geotiff st = Some g ->
  getElementById (dom st) "alertContainer" = Some c ->
  is_Some (getElementById (dom st) "coordinateInfo") ->
  is_Some (getElementById (dom st) "boundsGrid") ->
  exists st',
    validateFiles st = (st', Ret tt) /\
    alert_shown "Files validated successfully! Ready to process." "success" (now st) st' /\
    requests st' = requests st /\
    boundaries st' = Some b /\ geotiff st' = Some g.
Proof.
  intros Hb Hg Hc [ci Hci] [bg Hbg].
  set (msg := "Files validated successfully! Ready to process.").
  pose proof (DashboardFacts.showAlert_run msg "success" c st Hc) as Hrun1.
  pose proof (DashboardFacts.showAlert_shown msg "success" c st Hc) as Hshown.
  rewrite Hrun1 in Hshown. cbn [fst] in Hshown.
  set (s1 := setTimeout (RemoveAlert (length (dom st))) 5000
               (on_dom (fun d => (append (element "div" ["alert"; "alert-" +:+ "success"]
                                            msg (Some c)) d).1) st)) in *.
  assert (Hs1 : same_ids (dom st) (dom s1)).
  { destruct st. cbn [dom on_dom s1 setTimeout append fst]. by apply same_ids_append. }
  assert (Hci1 : getElementById (dom s1) "coordinateInfo" = Some ci) by (by rewrite Hs1).
  pose proof (set_by_id_Some "coordinateInfo" (with_style "display" "block") ci s1 Hci1)
    as Hrun2.
  set (s2 := on_dom (update ci (with_style "display" "block")) s1) in *.
  assert (Hbg2 : getElementById (dom s2) "boundsGrid" = Some bg).
  { destruct s1. cbn [dom on_dom s2]. rewrite DashboardFacts.same_ids_update by
      apply DashboardFacts.keeps_attrs_with_style. cbn [dom] in Hs1. by rewrite Hs1. }
  assert (Hret2 : retouch s1 s2).
  { pose proof (DashboardFacts.retouch_set_by_id "coordinateInfo"
                  (with_style "display" "block") s1
                  (DashboardFacts.keeps_attrs_with_style _ _)) as H.
    by rewrite Hrun2 in H. }
  pose proof (DashboardFacts.retouch_set_by_id "boundsGrid"
    (with_content
       ("Coordinate System WGS84 (EPSG:4326) Storage Format Decimal Degrees " +:+
        "Processing Status Files ready for processing")) s2
    (DashboardFacts.keeps_attrs_with_content _)) as Hret3.
  rewrite (set_by_id_Some "boundsGrid" _ bg s2 Hbg2) in Hret3. cbn [fst] in Hret3.
  eexists. split.
  { unfold validateFiles. step_m. rewrite Hb, Hg. fold msg.
    rewrite (DashboardFacts.run_bind _ _ _ _ tt Hrun1).
    rewrite (DashboardFacts.run_bind _ _ _ _ tt Hrun2).
    unfold updateCoordinateInfo. apply (set_by_id_Some "boundsGrid" _ bg s2 Hbg2). }
  split.
  { apply (DashboardFacts.retouch_alert s2); [done|].
    by apply (DashboardFacts.retouch_alert s1). }
  destruct st. cbn in *. by repeat split.
Qed.

Section Script.
Variable toLocaleString : JS.value -> string.
Variable successRate : JS.value -> JS.value -> string.
Variable summaryMarkup : JS.value -> string.

Lemma tidy_updateStatisticsFromStatus (stats : JS.value) :
  tidy (updateStatisticsFromStatus toLocaleString successRate stats).
Proof. unfold updateStatisticsFromStatus. tidy_tac. Qed.

Lemma tidy_updateFinalStatistics (status : JS.value) :
  tidy (updateFinalStatistics summaryMarkup status).
Proof. unfold updateFinalStatistics. tidy_tac. Qed.

(** What the callback of the monitor does with a response before it looks
    at [completed]. *)
Lemma poll_prefix_steady (status : JS.value) :
  steady monitor_ids
    (updateProgress (JS.or_else (field status "progress") (JS.Num 0))
       (JS.or_else (field status "message") (JS.Str "Processing..."));;
     when (field status "file_statistics")
       (updateStatisticsFromStatus toLocaleString successRate
          (field status "file_statistics"));;
     when (field status "coordinate_info")
       (updateCoordinateDisplay (field status "coordinate_info"))).
Proof.
  apply steady_of.
  - unfold monitor_ids.
    apply DashboardFacts.smooth_bind;
      [eapply DashboardFacts.smooth_sub; [|apply DashboardFacts.smooth_updateProgress];
       listed|intros _].
    apply DashboardFacts.smooth_bind;
      [apply DashboardFacts.smooth_when; eapply DashboardFacts.smooth_sub;
         [|apply DashboardFacts.smooth_updateStatisticsFromStatus]; listed|intros _].
    apply DashboardFacts.smooth_when.
    eapply DashboardFacts.smooth_sub; [|apply DashboardFacts.smooth_updateCoordinateDisplay].
    listed.
  - pose proof tidy_updateStatisticsFromStatus. tidy_tac.
  - pose proof (DashboardFacts.calm_m_updateStatisticsFromStatus toLocaleString successRate).
    DashboardFacts.calm_tac.
Qed.

(** The callback from [completed] on, for a response whose [completed] is
    truthy, in the state [s1] the prefix has left. *)
Lemma poll_resume_split (status : JS.value) (st s1 : state) :
  JS.truthy (field status "completed") = true ->
  (updateProgress (JS.or_else (field status "progress") (JS.Num 0))
     (JS.or_else (field status "message") (JS.Str "Processing..."));;
   when (field status "file_statistics")
     (updateStatisticsFromStatus toLocaleString successRate
        (field status "file_statistics"));;
   when (field status "coordinate_info")
     (updateCoordinateDisplay (field status "coordinate_info"))) st = (s1, Ret tt) ->
  poll_resume toLocaleString successRate summaryMarkup (Json status) st =
  try_catch
    (if JS.truthy (field status "error")
     then showAlert ("Processing failed: " +:+ JS.to_string (field status "error")) "error"
     else
       updateProgress (JS.Num 100) (JS.Str "Processing completed successfully!");;
       showAlert "Processing completed successfully!" "success";;
       updateFinalStatistics summaryMarkup status;;
       switchTab "statistics")
    (fun error => modify (log ("error: Progress check error: " +:+ error)))
    (clearInterval (progressInterval s1) s1).
Proof.
  intros Hdone Hrun.
  unfold poll_resume, try_catch, prop. step_m.
  rewrite (DashboardFacts.field_get status "completed" "progress" Hdone). step_m.
  unfold mbind, M_bind in Hrun |- *.
  destruct (updateProgress _ _ st) as [sa [[]|ea]]; [|done].
  destruct (when (field status "file_statistics") _ sa) as [sb [[]|eb]]; [|done].
  destruct (when (field status "coordinate_info") _ sb) as [sc [[]|ec]]; [|done].
  injection Hrun as ->. unfold when at 1. rewrite Hdone.
  unfold gets, modify. done.
Qed.

Lemma poll_resume_success (status : JS.value) (st : state) :
  has_ids (dom st) monitor_ids ->
  event st = None ->
  JS.truthy (field status "completed") = true ->
  JS.truthy (field status "error") = false ->
  exists st' e,
    poll_resume toLocaleString successRate summaryMarkup (Json status) st = (st', Ret tt) /\
    console st' = console st ++ ["error: Progress check error: " +:+ e].
Proof.
  intros Hids Hev Hdone Herr.
  destruct (poll_prefix_steady status st Hids) as (s1 & [] & Hrun & _ & Hcon & Hev1).
  rewrite (poll_resume_split status st s1 Hdone Hrun). rewrite Herr.
  assert (Hfail : fails_quietly
            (updateProgress (JS.Num 100) (JS.Str "Processing completed successfully!");;
             showAlert "Processing completed successfully!" "success";;
             updateFinalStatistics summaryMarkup status;;
             switchTab "statistics")).
  { pose proof tidy_updateFinalStatistics.
    pose proof (DashboardFacts.calm_m_updateFinalStatistics summaryMarkup).
    do 3 (apply fails_after; [tidy_tac | DashboardFacts.calm_tac | intros ?]).
    apply fails_quietly_switchTab. }
  destruct (Hfail (clearInterval (progressInterval s1) s1)) as (s2 & e & Hrun2 & Hcon2).
  { destruct (progressInterval s1); cbn; congruence. }
  exists (log ("error: Progress check error: " +:+ e) s2), e.
  unfold try_catch. rewrite Hrun2. split; [done|].
  cbn [console log]. rewrite Hcon2.
  assert (console (clearInterval (progressInterval s1) s1) = console s1) as ->
    by (by destruct (progressInterval s1)).
  by rewrite Hcon.
Qed.

Lemma poll_resume_failed_process (status : JS.value) (c : nat) (st : state) :
  has_ids (dom st) monitor_ids ->
  getElementById (dom st) "alertContainer" = Some c ->
  JS.truthy (field status "completed") = true ->
  JS.truthy (field status "error") = true ->
  exists st',
    poll_resume toLocaleString successRate summaryMarkup (Json status) st = (st', Ret tt) /\
    console st' = console st /\
    alert_shown ("Processing failed: " +:+ JS.to_string (field status "error")) "error"
      (now st) st'.
Proof.
  intros Hids Hc Hdone Herr.
  destruct (poll_prefix_steady status st Hids) as (s1 & [] & Hrun & Hsame & Hcon & Hev1).
  rewrite (poll_resume_split status st s1 Hdone Hrun). rewrite Herr.
  set (s2 := clearInterval (progressInterval s1) s1).
  assert (Hc2 : getElementById (dom s2) "alertContainer" = Some c).
  { unfold s2. destruct (progressInterval s1); cbn [clearInterval dom set_timers];
      by rewrite Hsame. }
  assert (Hnow : now s2 = now st).
  { pose proof (DashboardFacts.calm_m_updateStatisticsFromStatus toLocaleString successRate).
    assert (Hcalm : calm_m
      (updateProgress (JS.or_else (field status "progress") (JS.Num 0))
         (JS.or_else (field status "message") (JS.Str "Processing..."));;
       when (field status "file_statistics")
         (updateStatisticsFromStatus toLocaleString successRate
            (field status "file_statistics"));;
       when (field status "coordinate_info")
         (updateCoordinateDisplay (field status "coordinate_info"))))
      by DashboardFacts.calm_tac.
    pose proof (Hcalm st) as H1. rewrite Hrun in H1. cbn [fst] in H1.
    destruct H1 as (_&_&_&_&_&Hn&_). unfold s2.
    by destruct (progressInterval s1). }
  pose proof (DashboardFacts.showAlert_shown
    ("Processing failed: " +:+ JS.to_string (field status "error")) "error" c s2 Hc2)
    as Hshown.
  pose proof (DashboardFacts.showAlert_run
    ("Processing failed: " +:+ JS.to_string (field status "error")) "error" c s2 Hc2)
    as Hrun2.
  rewrite Hrun2 in Hshown. cbn [fst] in Hshown.
  eexists. unfold try_catch. rewrite Hrun2. split; [reflexivity|].
  split.
  - cbn [console setTimeout on_dom]. unfold s2.
    assert (console (clearInterval (progressInterval s1) s1) = console s1) as ->
      by (by destruct (progressInterval s1)).
    done.
  - by rewrite <- Hnow.
Qed.

Lemma paints_updateStatisticsFromStatus (stats : JS.value) :
  paints statistics_ids (updateStatisticsFromStatus toLocaleString successRate stats).
Proof.
  unfold updateStatisticsFromStatus, statistics_ids.
  repeat first
    [ apply paints_set_by_id; [listed|by intros ?|done]
    | apply paints_bind; [|intros _] ].
Qed.

(** A response whose [completed] is falsy only repaints the page. *)
Lemma poll_resume_running (status progress : JS.value) (st : state) :
  has_ids (dom st) monitor_ids ->
  JS.get status "progress" = Some progress ->
  JS.truthy (field status "completed") = false ->
  exists d,
    poll_resume toLocaleString successRate summaryMarkup (Json status) st =
      (on_dom (fun _ => d) st, Ret tt) /\
    progress_width d = Some (JS.to_string (JS.or_else progress (JS.Num 0)) +:+ "%") /\
    same_ids (dom st) d.
Proof.
  intros Hids Hp Hdone.
  assert (Hpids : has_ids (dom st) progress_ids).
  { eapply DashboardFacts.has_ids_sub; [exact Hids|]. unfold monitor_ids.
    intros i Hi. apply elem_of_app. by left. }
  destruct (DashboardFacts.updateProgress_run (JS.or_else progress (JS.Num 0))
              (JS.or_else (field status "message") (JS.Str "Processing...")) st Hpids)
    as (d1 & Hrun1 & Hw1 & Hs1).
  assert (Hrest : paints monitor_ids
    (when (field status "file_statistics")
       (updateStatisticsFromStatus toLocaleString successRate
          (field status "file_statistics"));;
     when (field status "coordinate_info")
       (updateCoordinateDisplay (field status "coordinate_info")))).
  { apply paints_bind; [|intros _].
    - apply paints_when. eapply paints_sub; [|apply paints_updateStatisticsFromStatus].
      unfold monitor_ids. listed.
    - apply paints_when. eapply paints_sub; [|apply paints_updateCoordinateDisplay].
      unfold monitor_ids. listed. }
  assert (Hids1 : has_ids (dom (on_dom (fun _ => d1) st)) monitor_ids).
  { destruct st. cbn [dom on_dom]. by eapply DashboardFacts.has_ids_same. }
  destruct (Hrest _ Hids1) as (d2 & [] & Hrun2 & Hr2).
  rewrite on_dom_on_dom in Hrun2.
  assert (Hr2' : rewritten d1 d2) by (by destruct st).
  exists d2. split; [|split].
  - unfold poll_resume, try_catch, prop. step_m. rewrite Hp. step_m.
    rewrite (DashboardFacts.run_bind _ _ _ _ tt Hrun1).
    unfold mbind, M_bind in Hrun2 |- *.
    destruct (when (field status "file_statistics") _ (on_dom (fun _ => d1) st))
      as [sb [[]|eb]]; [|done].
    destruct (when (field status "coordinate_info") _ sb) as [sc [[]|ec]]; [|done].
    injection Hrun2 as ->. unfold when. by rewrite Hdone.
  - by rewrite (rewritten_width d1 d2).
  - apply (DashboardFacts.same_ids_trans _ d1); [done|]. by apply rewritten_ids.
Qed.

(** ** The processing time *)

Lemma updateFinalStatistics_time (status : JS.value) (t0 : Z) (st : state) :
  is_Some (JS.get status "file_statistics") ->
  is_Some (getElementById (dom st) "processingTime") ->
  is_Some (getElementById (dom st) "processingSummary") ->
  startTime st = Some t0 -> t0 <> 0 ->
  let elapsed := now st - t0 in
  let minutes := elapsed / 60000 in
  let seconds := Z.rem elapsed 60000 / 1000 in
  exists d,
    updateFinalStatistics summaryMarkup status st = (on_dom (fun _ => d) st, Ret tt) /\
    text_of d "processingTime" =
      Some (pretty minutes +:+ "m " +:+ pretty seconds +:+ "s") /\
    text_of d "processingSummary" = Some (summaryMarkup status) /\
    (0 <= elapsed ->
     0 <= minutes /\ 0 <= seconds < 60 /\
     60000 * minutes + 1000 * seconds <= elapsed < 60000 * minutes + 1000 * seconds + 1000).
Proof.
  intros [x Hx] [t Ht] [s Hs] Hstart Hne elapsed minutes seconds.
  pose proof (DashboardFacts.keeps_attrs_with_content) as Hk.
  unfold updateFinalStatistics, prop. rewrite Hx. step_m. rewrite Hstart.
  destruct (Z.eqb_spec t0 0) as [|_]; [done|].
  fold elapsed. fold minutes. fold seconds.
  rewrite (DashboardFacts.run_bind _ _ _ _ tt (set_by_id_Some _ _ t st Ht)).
  step_m.
  assert (Hs' : getElementById
                  (dom (on_dom (update t
                     (with_content (pretty minutes +:+ "m " +:+ pretty seconds +:+ "s")))
                     st)) "processingSummary" = Some s).
  { destruct st. cbn [dom on_dom]. by rewrite DashboardFacts.same_ids_update. }
  rewrite (set_by_id_Some _ _ s _ Hs'), on_dom_on_dom, on_dom_eval.
  eexists. split; [reflexivity|].
  assert (Hs2 : getElementById
                  (update t (with_content
                     (pretty minutes +:+ "m " +:+ pretty seconds +:+ "s")) (dom st))
                  "processingSummary" = Some s)
    by (by rewrite DashboardFacts.same_ids_update).
  split; [|split].
  - rewrite (text_of_other _ _ "processingSummary" s) by done. by apply text_of_set.
  - by apply text_of_set.
  - intros Hpos. unfold minutes, seconds. rewrite Z.rem_mod_nonneg by lia.
    pose proof (Z.div_mod elapsed 60000 ltac:(lia)) as H1.
    pose proof (Z.mod_pos_bound elapsed 60000 ltac:(lia)) as H2.
    pose proof (Z.div_mod (elapsed mod 60000) 1000 ltac:(lia)) as H3.
    pose proof (Z.mod_pos_bound (elapsed mod 60000) 1000 ltac:(lia)) as H4.
    pose proof (Z.div_pos elapsed 60000 ltac:(lia) ltac:(lia)) as H5.
    pose proof (Z.div_pos (elapsed mod 60000) 1000 ltac:(lia) ltac:(lia)) as H6.
    lia.
Qed.

Lemma updateFinalStatistics_untimed (status : JS.value) (st : state) :
  is_Some (JS.get status "file_statistics") ->
  is_Some (getElementById (dom st) "processingSummary") ->
  startTime st = None \/ startTime st = Some 0 ->
  exists d,
    updateFinalStatistics summaryMarkup status st = (on_dom (fun _ => d) st, Ret tt) /\
    text_of d "processingTime" = text_of (dom st) "processingTime" /\
    text_of d "processingSummary" = Some (summaryMarkup status).
Proof.
  intros [x Hx] [s Hs] Hstart.
  assert (Hrun : updateFinalStatistics summaryMarkup status st =
                 set_by_id "processingSummary" (with_content (summaryMarkup status)) st).
  { unfold updateFinalStatistics, prop. rewrite Hx. step_m.
    destruct Hstart as [-> | ->]; by step_m. }
  rewrite Hrun, (set_by_id_Some _ _ s st Hs), on_dom_eval.
  eexists. split; [reflexivity|]. split.
  - apply (text_of_other _ _ "processingSummary"); [|done|done].
    apply DashboardFacts.keeps_attrs_with_content.
  - by apply text_of_set.
Qed.

(** With [null] or [undefined] for a status the time is written, if there
    is a start time, and then reading [status.file_statistics] throws. *)
Lemma updateFinalStatistics_unreadable (status : JS.value) (st : state) :
  JS.get status "file_statistics" = None ->
  is_Some (getElementById (dom st) "processingTime") ->
  exists d e,
    updateFinalStatistics summaryMarkup status st = (on_dom (fun _ => d) st, Throw e) /\
    text_of d "processingSummary" = text_of (dom st) "processingSummary" /\
    (forall t0, startTime st = Some t0 -> t0 <> 0 ->
       text_of d "processingTime" =
         Some (pretty ((now st - t0) / 60000) +:+ "m " +:+
               pretty (Z.rem (now st - t0) 60000 / 1000) +:+ "s")) /\
    (startTime st = None \/ startTime st = Some 0 -> d = dom st).
Proof.
  intros Hx [t Ht].
  pose proof (DashboardFacts.keeps_attrs_with_content) as Hk.
  unfold updateFinalStatistics, prop. rewrite Hx. step_m.
  destruct (startTime st) as [t0|] eqn:Hstart.
  - destruct (Z.eqb_spec t0 0) as [->|Hne].
    + step_m. unfold throw. exists (dom st). eexists.
      split; [by rewrite on_dom_const|]. split; [done|].
      split; [by intros ? [= <-] ?|done].
    + rewrite (DashboardFacts.run_bind _ _ _ _ tt (set_by_id_Some _ _ t st Ht)).
      step_m. unfold throw. rewrite on_dom_eval.
      eexists. eexists. split; [reflexivity|]. split; [|split].
      * by apply (text_of_other _ _ "processingTime").
      * intros t1 [= <-] _. by apply text_of_set.
      * intros [?|[= ->]]; done.
  - step_m. unfold throw. exists (dom st). eexists.
    split; [by rewrite on_dom_const|]. split; [done|]. split; [done|done].
Qed.

(** A response leaves the ids, the process id and the interval variable as
    they are. *)
Lemma poll_resume_keeps (r : reply) (st : state) :
  let st' := dispatch (poll_resume toLocaleString successRate summaryMarkup r) st in
  same_ids (dom st) (dom st') /\
  currentProcessId st' = currentProcessId st /\
  progressInterval st' = progressInterval st.
Proof.
  cbv zeta. split.
  - assert (Hbody : forall m : M state unit, tidy m ->
      same_ids (dom st)
        (dom (dispatch
           (try_catch m
              (fun error => modify (log ("error: Progress check error: " +:+ error)))) st))).
    { intros m Hm. unfold dispatch, try_catch, modify. destruct (Hm st) as [Hs _].
      by destruct (m st) as [s1 [[]|e]]. }
    unfold poll_resume. apply Hbody.
    pose proof tidy_updateStatisticsFromStatus. pose proof tidy_updateFinalStatistics.
    tidy_tac.
  - pose proof (DashboardFacts.calm_dispatch _ st
      (DashboardFacts.calm_m_poll_resume toLocaleString successRate summaryMarkup r))
      as (_&_&Hp&Hi&_).
    done.
Qed.

End Script.

End DashboardFilesFacts.
(* ===================================================================== *)
(** * Facts: the admin upload page, continued                             *)
(* ===================================================================== *)

Module AdminPageFacts.
Import DOM DOMRel AdminUpload.

Lemma on_item_click_missing (i : nat) (st : state) :
  getElementById (dom st)
    (default "undefined" (dataset (dom st) i "data-upload") +:+ "-form") = None ->
  (on_item_click i st).2 = Throw "TypeError: document.getElementById(...) is null".
Proof.
  intros Hnone. unfold on_item_click, activate, dataset. step_m. cbn [dom on_dom].
  rewrite (DOMFacts.switch_target_stable (dom st)).
  unfold dataset in Hnone. rewrite Hnone. by step_m.
Qed.

Lemma on_item_click_frame (i : nat) (st : state) :
  tracked (after (on_item_click i) st) = tracked st /\
  gtag (after (on_item_click i) st) = gtag st /\
  timers (after (on_item_click i) st) = timers st /\
  submitted (after (on_item_click i) st) = submitted st.
Proof.
  unfold after, on_item_click, activate. step_m.
  destruct (getElementById _ _); by step_m.
Qed.

Lemma dataset_switched (d : document) (items sections : list nat) (i j : nat)
    (target : option nat) (k : string) :
  dataset (switched d items sections i target) j k = dataset d j k.
Proof.
  unfold dataset, switched.
  destruct target as [t|].
  - rewrite DOMFacts.attr_update by apply DOMFacts.keeps_attrs_add_class.
    rewrite DOMFacts.attr_update by apply DOMFacts.keeps_attrs_add_class.
    rewrite DOMFacts.attr_update_all by apply DOMFacts.keeps_attrs_remove_class.
    by rewrite DOMFacts.attr_update_all by apply DOMFacts.keeps_attrs_remove_class.
  - rewrite DOMFacts.attr_update by apply DOMFacts.keeps_attrs_add_class.
    rewrite DOMFacts.attr_update_all by apply DOMFacts.keeps_attrs_remove_class.
    by rewrite DOMFacts.attr_update_all by apply DOMFacts.keeps_attrs_remove_class.
Qed.

Lemma click_tracked (i : nat) (st : state) :
  tracked (click i st) =
  tracked st ++
    (if gtag st
     then [("navigation_click", default "undefined" (dataset (dom st) i "data-upload"))]
     else []).
Proof.
  destruct (on_item_click_frame i st) as (Ht & Hg & _).
  pose proof (AdminUploadFacts.on_item_click_dom i st) as Hd.
  unfold click, after at 1, on_click_track, trackAdminAction. step_m. cbn [fst].
  rewrite Hg, Hd, dataset_switched.
  destruct (gtag st); cbn [tracked]; [by rewrite Ht|]. by rewrite Ht, app_nil_r.
Qed.

Lemma on_submit_no_button (form : nat) (st : state) :
  querySelectorIn (dom st) form (Class "submit-btn") = None ->
  on_submit form st = (st, Throw "TypeError: button is null").
Proof. intros H. unfold on_submit. step_m. rewrite H. by step_m. Qed.

Lemma on_submit_submitted (form : nat) (st : state) :
  submitted (after (on_submit form) st) = submitted st.
Proof.
  unfold after, on_submit. step_m.
  destruct (querySelectorIn _ _ _); by step_m.
Qed.

Lemma on_submit_track_timers (form : nat) (st : state) :
  timers (after (on_submit_track form) st) = timers st.
Proof.
  unfold after, on_submit_track, trackAdminAction. step_m.
  destruct (closest _ _ _ _); step_m; cbn [fst]; [|done].
  by destruct (gtag st).
Qed.

End AdminPageFacts.
(* ===================================================================== *)
(** * Facts: the monitor's interval                                       *)
(* ===================================================================== *)

Module MonitorFacts.
Import DOM Dashboard.

(** ** Steps that touch no timer *)

Lemma timeless_ret {A} (a : A) : timeless (mret a : M state A).
Proof. by intros st. Qed.

Lemma timeless_throw {A} (e : string) : timeless (throw e : M state A).
Proof. by intros st. Qed.

Lemma timeless_gets {A} (f : state -> A) : timeless (gets f).
Proof. by intros st. Qed.

Lemma timeless_deref {A} (o : option A) (what : string) :
  timeless (deref o what : M state A).
Proof. destruct o; [apply timeless_ret | apply timeless_throw]. Qed.

Lemma timeless_modify (f : state -> state) :
  (forall st, timers (f st) = timers st) -> timeless (modify f).
Proof. intros Hf st. apply Hf. Qed.

Lemma timeless_bind {A B} (m : M state A) (k : A -> M state B) :
  timeless m -> (forall a, timeless (k a)) -> timeless (m ≫= k).
Proof.
  intros Hm Hk st. specialize (Hm st). unfold mbind, M_bind.
  destruct (m st) as [s' [a|e]]; simpl in *; [|done].
  by rewrite Hk.
Qed.

Lemma timeless_try_catch {A} (m : M state A) (h : string -> M state A) :
  timeless m -> (forall e, timeless (h e)) -> timeless (try_catch m h).
Proof.
  intros Hm Hh st. specialize (Hm st). unfold try_catch.
  destruct (m st) as [s' [a|e]]; simpl in *; [done|].
  by rewrite Hh.
Qed.

Lemma timeless_when (v : JS.value) (m : M state unit) :
  timeless m -> timeless (when v m).
Proof. intros Hm. unfold when. destruct (JS.truthy v); [done | apply timeless_ret]. Qed.

Lemma timeless_when_false (v : JS.value) (m : M state unit) :
  JS.truthy v = false -> timeless (when v m).
Proof. intros Hv. unfold when. rewrite Hv. apply timeless_ret. Qed.

Create HintDb timeless.
#[local] Hint Resolve timeless_ret timeless_throw timeless_gets timeless_deref : timeless.

(** Splits a computation along its binds; a [when] whose condition is known
    to be falsy is not entered. *)
Ltac timeless_step :=
  lazymatch goal with
  | |- timeless (mbind _ _) => apply timeless_bind
  | |- timeless (try_catch _ _) => apply timeless_try_catch
  | |- timeless (modify _) => apply timeless_modify; intros ?; reflexivity
  | |- timeless (when _ _) =>
      first [ apply timeless_when_false; assumption | apply timeless_when ]
  | |- timeless _ => first [solve [auto with timeless] | case_match]
  end.

Ltac timeless_tac :=
  repeat match goal with
  | |- timeless _ => timeless_step
  | |- forall _, _ => intro
  end.

Lemma timeless_set_by_id (i : string) (f : node -> node) : timeless (set_by_id i f).
Proof. unfold set_by_id. timeless_tac. Qed.
#[local] Hint Resolve timeless_set_by_id : timeless.

Lemma timeless_updateProgress (percentage message : JS.value) :
  timeless (updateProgress percentage message).
Proof. unfold updateProgress. timeless_tac. Qed.
#[local] Hint Resolve timeless_updateProgress : timeless.

Lemma timeless_updateStatistics : timeless updateStatistics.
Proof. unfold updateStatistics. timeless_tac. Qed.
#[local] Hint Resolve timeless_updateStatistics : timeless.

Lemma timeless_prop (v : JS.value) (k : string) : timeless (prop v k).
Proof. unfold prop. timeless_tac. Qed.
#[local] Hint Resolve timeless_prop : timeless.

Lemma timeless_updateCoordinateDisplay (c : JS.value) :
  timeless (updateCoordinateDisplay c).
Proof. unfold updateCoordinateDisplay. timeless_tac. Qed.
#[local] Hint Resolve timeless_updateCoordinateDisplay : timeless.

Lemma timeless_fire (c : callback) : timeless (fire c).
Proof. destruct c; unfold fire; timeless_tac. Qed.

Lemma timeless_dispatch (m : M state unit) (st : state) :
  timeless m -> timers (dispatch m st) = timers st.
Proof.
  intros Hm. unfold dispatch. specialize (Hm st).
  by destruct (m st) as [s' [a|e]].
Qed.

(** ** Counting the firings *)

Lemma firings_cons (m : nat) (h : happening) (hs : list happening) :
  firings m (h :: hs) =
  ((match h with Tick i => if Nat.eqb i m then 1 else 0 | _ => 0 end) + firings m hs)%nat.
Proof.
  unfold firings. cbn [List.filter]. destruct h as [| i |]; try done.
  by destruct (Nat.eqb i m).
Qed.

Section Script.
Variable toLocaleString : JS.value -> string.
Variable successRate : JS.value -> JS.value -> string.
Variable summaryMarkup : JS.value -> string.

Lemma timeless_updateStatisticsFromStatus (stats : JS.value) :
  timeless (updateStatisticsFromStatus toLocaleString successRate stats).
Proof. unfold updateStatisticsFromStatus. timeless_tac. Qed.

(** A response that does not say [completed] leaves the timers alone,
    whether the callback runs to its end or ends in its [catch]. *)
Lemma poll_resume_timers (r : reply) (st : state) :
  completes r = false ->
  timers (dispatch (poll_resume toLocaleString successRate summaryMarkup r) st)
  = timers st.
Proof.
  intros Hr. destruct r as [e|v]; [reflexivity|].
  apply timeless_dispatch. clear st.
  pose proof timeless_updateStatisticsFromStatus as Hstats.
  unfold poll_resume.
  - cbn [completes] in Hr.
    apply timeless_try_catch; [|timeless_tac].
    intros st. rewrite MFacts.bind_ret. revert st.
    change (timeless
      (progress ← prop v "progress";
       updateProgress (JS.or_else progress (JS.Num 0))
                      (JS.or_else (field v "message") (JS.Str "Processing..."));;
       when (field v "file_statistics")
         (updateStatisticsFromStatus toLocaleString successRate
            (field v "file_statistics"));;
       when (field v "coordinate_info")
         (updateCoordinateDisplay (field v "coordinate_info"));;
       when (field v "completed")
         (h ← gets progressInterval;
          modify (clearInterval h);;
          if JS.truthy (field v "error") then
            showAlert ("Processing failed: " +:+ JS.to_string (field v "error")) "error"
          else
            updateProgress (JS.Num 100) (JS.Str "Processing completed successfully!");;
            showAlert "Processing completed successfully!" "success";;
            updateFinalStatistics summaryMarkup v;;
            switchTab "statistics"))).
    timeless_tac.
Qed.

(** The interval fires: one more poll, at the time it was due. *)
Lemma monitoring_tick (st0 : state) (n : nat) (st st' : state) :
  monitoring st0 n st ->
  step toLocaleString successRate summaryMarkup (Tick (next_id st0)) st = Some st' ->
  monitoring st0 (S n) st' /\
  requests st' =
    requests st ++
      [poll_at (currentProcessId st0) (now st0 + 2000 * Z.of_nat (S n))].
Proof.
  intros Hmon Hstep.
  assert (Hreq' : requests st' =
    requests st ++
      [poll_at (currentProcessId st0) (now st0 + 2000 * Z.of_nat (S n))]).
  { cbn [step] in Hstep.
    destruct (find_timer (next_id st0) st) as [t|] eqn:Hfind; [|done]. cbn in Hstep.
    destruct (now st <=? due t); [|done]. injection Hstep as <-.
    destruct (DashboardFacts.find_timer_Some _ t st Hfind) as [Hin Hid].
    destruct Hmon as (_ & Hpid & _ & _ & _ & Htimers).
    destruct (Htimers t Hin) as (_ & Hiff & Hshape).
    pose proof (proj1 Hiff Hid) as Hpoll. rewrite (Hshape Hpoll).
    cbn [action period reschedule fire id due].
    unfold dispatch. rewrite MFacts.run_modify.
    unfold poll, fetch, poll_at.
    cbn [requests currentProcessId set_timers set_event set_now now].
    by rewrite Hpid. }
  split; [|exact Hreq'].
  destruct (DashboardFacts.monitoring_step toLocaleString successRate summaryMarkup
              st0 n (Tick (next_id st0)) st st' Hmon eq_refl Hstep)
    as [[_ Hsame]|[Hm _]]; [|exact Hm].
  rewrite Hsame in Hreq'. apply (f_equal length) in Hreq'.
  rewrite length_app in Hreq'. cbn in Hreq'. lia.
Qed.

(** Anything else happens: no request. *)
Lemma monitoring_other (st0 : state) (n : nat) (h : happening) (st st' : state) :
  monitoring st0 n st ->
  no_submit h = true ->
  h <> Tick (next_id st0) ->
  step toLocaleString successRate summaryMarkup h st = Some st' ->
  monitoring st0 n st' /\ requests st' = requests st.
Proof.
  intros Hmon Hh Hne Hstep.
  by destruct (DashboardFacts.monitoring_step toLocaleString successRate summaryMarkup
                 st0 n h st st' Hmon Hh Hstep) as [?|[_ ?]].
Qed.

(** The polls of a run are the firings of the interval. *)
Lemma monitoring_count (st0 : state) (hs : list happening) :
  forall (n : nat) (st st' : state),
    monitoring st0 n st ->
    forallb no_submit hs = true ->
    run toLocaleString successRate summaryMarkup hs st = Some st' ->
    monitoring st0 (n + firings (next_id st0) hs) st'.
Proof.
  induction hs as [|h hs IH]; intros n st st' Hmon Hhs Hrun.
  - injection Hrun as <-. by rewrite Nat.add_0_r.
  - cbn [forallb] in Hhs. apply andb_prop in Hhs as [Hh Hhs].
    cbn [run] in Hrun.
    destruct (step _ _ _ h st) as [s|] eqn:Hstep; [|done]. cbn in Hrun.
    rewrite firings_cons.
    destruct h as [target time|i|req time r]; [done| |].
    + destruct (Nat.eqb_spec i (next_id st0)) as [->|Hne].
      * destruct (monitoring_tick st0 n st s Hmon Hstep) as [Hs _].
        replace (n + (1 + firings (next_id st0) hs))%nat
          with (S n + firings (next_id st0) hs)%nat by lia.
        by eapply IH.
      * destruct (monitoring_other st0 n (Tick i) st s Hmon Hh) as [Hs _];
          [congruence|done|].
        by eapply IH.
    + destruct (monitoring_other st0 n (Settle req time r) st s Hmon Hh) as [Hs _];
        [done|done|].
      by eapply IH.
Qed.

(** A response that does not say [completed] leaves every timer as it is. *)
Lemma settle_timers (st0 : state) (n req : nat) (time : Z) (r : reply)
    (st st' : state) :
  monitoring st0 n st ->
  completes r = false ->
  step toLocaleString successRate summaryMarkup (Settle req time r) st = Some st' ->
  timers st' = timers st.
Proof.
  intros Hmon Hr Hstep. cbn [step] in Hstep.
  destruct (JS.assoc_nat req (pending st)) as [k|] eqn:Hk; [|done]. cbn in Hstep.
  destruct (now st <=? time); [|done]. injection Hstep as <-.
  destruct Hmon as (_ & _ & _ & Hpend & _ & _).
  pose proof (Hpend _ (DashboardFacts.assoc_nat_Some req k _ Hk)) as Hpoll.
  cbn in Hpoll. subst k. cbn [resume].
  by rewrite poll_resume_timers.
Qed.

(** As long as no response says [completed], the interval is set, and due
    2000 ms after it fired last. *)
Lemma alive_step (st0 : state) (n : nat) (h : happening) (st st' : state) :
  monitoring st0 n st ->
  Timer (next_id st0) (now st0 + 2000 * Z.of_nat (S n)) (Some 2000) Poll ∈ timers st ->
  running [h] = true ->
  step toLocaleString successRate summaryMarkup h st = Some st' ->
  Timer (next_id st0)
        (now st0 + 2000 * Z.of_nat (S (n + firings (next_id st0) [h]))) (Some 2000) Poll
    ∈ timers st' \/ no_submit h = false.
Proof.
  intros Hmon Hin Hrunning Hstep.
  destruct h as [target time|i|req time r]; [by right| |]; left.
  - cbn [step] in Hstep.
    destruct (find_timer i st) as [t|] eqn:Hfind; [|done]. cbn in Hstep.
    destruct (now st <=? due t); [|done]. injection Hstep as <-.
    destruct (DashboardFacts.find_timer_Some _ t st Hfind) as [Hint Hid].
    rewrite (timeless_dispatch _ _ (timeless_fire (action t))).
    destruct Hmon as (_ & _ & _ & _ & _ & Htimers).
    destruct (Htimers t Hint) as (_ & Hiff & Hshape).
    rewrite firings_cons. cbn [firings List.filter length].
    destruct (Nat.eqb_spec i (next_id st0)) as [->|Hne].
    + pose proof (proj1 Hiff Hid) as Hpoll. rewrite (Hshape Hpoll).
      cbn [reschedule period timers set_timers id].
      apply list_elem_of_fmap.
      exists (Timer (next_id st0) (now st0 + 2000 * Z.of_nat (S n)) (Some 2000) Poll).
      split; [|exact Hin]. cbn [id due period action]. rewrite Nat.eqb_refl.
      f_equal. lia.
    + rewrite Nat.add_0_r. unfold reschedule.
      destruct (period t) as [p|]; cbn [timers set_timers].
      * apply list_elem_of_fmap.
        exists (Timer (next_id st0) (now st0 + 2000 * Z.of_nat (S n)) (Some 2000) Poll).
        split; [|exact Hin]. cbn [id].
        destruct (Nat.eqb_spec (next_id st0) (id t)) as [Heq|_]; [congruence|done].
      * apply list_elem_of_In, filter_In. split; [by apply list_elem_of_In|].
        cbn [id]. destruct (Nat.eqb_spec (next_id st0) (id t)) as [Heq|_];
          [congruence|done].
  - cbn [running forallb] in Hrunning. rewrite andb_true_r in Hrunning.
    apply negb_true_iff in Hrunning.
    cbn [step] in Hstep.
    destruct (JS.assoc_nat req (pending st)) as [k|] eqn:Hk; [|done]. cbn in Hstep.
    destruct (now st <=? time); [|done]. injection Hstep as <-.
    destruct Hmon as (_ & _ & _ & Hpend & _ & _).
    pose proof (Hpend _ (DashboardFacts.assoc_nat_Some req k _ Hk)) as Hpoll.
    cbn in Hpoll. subst k. cbn [resume].
    rewrite poll_resume_timers by done.
    rewrite firings_cons. cbn [firings List.filter length]. by rewrite Nat.add_0_r.
Qed.

Lemma monitoring_alive (st0 : state) (hs : list happening) :
  forall (n : nat) (st st' : state),
    monitoring st0 n st ->
    Timer (next_id st0) (now st0 + 2000 * Z.of_nat (S n)) (Some 2000) Poll ∈ timers st ->
    forallb no_submit hs = true ->
    running hs = true ->
    run toLocaleString successRate summaryMarkup hs st = Some st' ->
    Timer (next_id st0)
          (now st0 + 2000 * Z.of_nat (S (n + firings (next_id st0) hs))) (Some 2000) Poll
      ∈ timers st'.
Proof.
  induction hs as [|h hs IH]; intros n st st' Hmon Hin Hhs Hrunning Hrun.
  - injection Hrun as <-. by rewrite Nat.add_0_r.
  - cbn [forallb] in Hhs. apply andb_prop in Hhs as [Hh Hhs].
    assert (Hr1 : running [h] = true /\ running hs = true).
    { unfold running in *. cbn [forallb] in *.
      apply andb_prop in Hrunning as [H1 H2]. by rewrite H1, H2. }
    destruct Hr1 as [Hr1 Hr2].
    cbn [run] in Hrun.
    destruct (step _ _ _ h st) as [s|] eqn:Hstep; [|done]. cbn in Hrun.
    destruct (alive_step st0 n h st s Hmon Hin Hr1 Hstep) as [Hs|Hs]; [|congruence].
    pose proof (monitoring_count st0 [h] n st s Hmon) as Hmon'.
    cbn [forallb run] in Hmon'. rewrite Hh, Hstep in Hmon'.
    specialize (Hmon' eq_refl eq_refl).
    pose proof (IH _ s st' Hmon' Hs Hhs Hr2 Hrun) as Hfinal.
    rewrite firings_cons. rewrite firings_cons in Hfinal, Hs.
    cbn [firings List.filter length] in Hfinal, Hs.
    replace (n + (match h with
                  | Tick i => if Nat.eqb i (next_id st0) then 1 else 0
                  | _ => 0
                  end + firings (next_id st0) hs))%nat
      with (n + (match h with
                 | Tick i => if Nat.eqb i (next_id st0) then 1 else 0
                 | _ => 0
                 end + 0) + firings (next_id st0) hs)%nat by lia.
    exact Hfinal.
Qed.

(** While the interval is set and its time has not passed, it can fire. *)
Lemma tick_possible (st0 : state) (n : nat) (st : state) :
  monitoring st0 n st ->
  Timer (next_id st0) (now st0 + 2000 * Z.of_nat (S n)) (Some 2000) Poll ∈ timers st ->
  now st <= now st0 + 2000 * Z.of_nat (S n) ->
  is_Some (step toLocaleString successRate summaryMarkup (Tick (next_id st0)) st).
Proof.
  intros Hmon Hin Hnow. cbn [step].
  destruct (find_timer (next_id st0) st) as [t|] eqn:Hfind.
  - destruct (DashboardFacts.find_timer_Some _ t st Hfind) as [Hint Hid].
    destruct Hmon as (_ & _ & _ & _ & _ & Htimers).
    destruct (Htimers t Hint) as (_ & Hiff & Hshape).
    rewrite (Hshape (proj1 Hiff Hid)). cbn [mbind option_bind due].
    destruct (Z.leb_spec (now st) (now st0 + 2000 * Z.of_nat (S n))); [done|lia].
  - exfalso. unfold find_timer in Hfind.
    apply list_elem_of_In in Hin.
    assert (Hf : In (Timer (next_id st0) (now st0 + 2000 * Z.of_nat (S n)) (Some 2000) Poll)
                    (List.filter (fun t => Nat.eqb (id t) (next_id st0)) (timers st))).
    { apply filter_In. split; [done|]. cbn. apply Nat.eqb_refl. }
    destruct (List.filter _ (timers st)); [done|]. done.
Qed.

End Script.
End MonitorFacts.

(* ===================================================================== *)
(** * Facts: after a failed upload the form can be submitted again        *)
(* ===================================================================== *)

Module FailureFacts.
Import DOM Dashboard DashboardFiles.

(** The [catch] of [handleFormSubmit] and that of [startProcessing] leave
    the ids where they are and keep the two files. *)
Lemma upload_catch_keeps (e : string) (st : state) :
  same_ids (dom st) (dom (upload_catch e st).1) /\
  boundaries (upload_catch e st).1 = boundaries st /\
  geotiff (upload_catch e st).1 = geotiff st.
Proof.
  assert (Hrun : upload_catch e st =
                 (showAlert ("Upload failed: " +:+ e) "error";;
                  updateProgress (JS.Num 0) (JS.Str "Upload failed"))
                   (log ("error: Upload error: " +:+ e) st)).
  { unfold upload_catch. by step_m. }
  rewrite Hrun.
  assert (Htidy : tidy (showAlert ("Upload failed: " +:+ e) "error";;
                        updateProgress (JS.Num 0) (JS.Str "Upload failed"))).
  { apply DashboardFilesFacts.tidy_bind; [apply DashboardFilesFacts.tidy_showAlert|].
    intros _. apply DashboardFilesFacts.tidy_updateProgress. }
  destruct (Htidy (log ("error: Upload error: " +:+ e) st)) as [Hids (_ & Hb & Hg)].
  done.
Qed.

Lemma processing_catch_keeps (e : string) (st : state) :
  same_ids (dom st) (dom (processing_catch e st).1) /\
  boundaries (processing_catch e st).1 = boundaries st /\
  geotiff (processing_catch e st).1 = geotiff st.
Proof.
  assert (Hrun : processing_catch e st =
                 showAlert ("Processing failed: " +:+ e) "error"
                   (log ("error: Processing error: " +:+ e) st)).
  { unfold processing_catch. by step_m. }
  rewrite Hrun.
  destruct (DashboardFilesFacts.tidy_showAlert ("Processing failed: " +:+ e) "error"
              (log ("error: Processing error: " +:+ e) st)) as [Hids (_ & Hb & Hg)].
  done.
Qed.

(** A state that differs from [st] by a failure notice takes a submission as
    [st] does. *)
Lemma resubmit (b g : file) (target : nat) (st s' : state) :
  boundaries st = Some b -> geotiff st = Some g ->
  has_ids (dom st) submit_ids ->
  calm st s' -> same_ids (dom st) (dom s') ->
  boundaries s' = boundaries st -> geotiff s' = geotiff st ->
  exists st'',
    handleFormSubmit (set_event (Some target) s') = (st'', Ret tt) /\
    requests st'' =
      requests st ++
        [(now st,
          Request "POST" "/geospatial/upload_files/" (Some (getCsrfToken st''))
            [("geojson", Blob b); ("geotiff", Blob g)])].
Proof.
  intros Hb Hg Hids Hcalm Hsame Hb' Hg'.
  destruct Hcalm as (Hreq & _ & _ & _ & _ & Hnow & _).
  destruct (DashboardFacts.handleFormSubmit_run b g target (set_event (Some target) s'))
    as (st'' & Hrun & Hreq'' & _).
  - cbn [boundaries set_event]. congruence.
  - cbn [geotiff set_event]. congruence.
  - cbn [dom set_event]. by apply (DashboardFacts.has_ids_same (dom st)).
  - done.
  - exists st''. split; [exact Hrun|].
    rewrite Hreq''. cbn [requests now set_event]. by rewrite Hreq, Hnow.
Qed.

End FailureFacts.

(* ===================================================================== *)
(** * Facts: the end of a file name                                       *)
(* ===================================================================== *)

Module SuffixFacts.
Import DashboardFiles.

Lemma endsWith_spec (s x : string) :
  endsWith s x = true <-> exists p, s = p +:+ x.
Proof.
  induction s as [|a s IH]; cbn [endsWith].
  - rewrite orb_false_r, String.eqb_eq. split.
    + intros <-. by exists "".
    + intros ([|b p] & Hp); [done|discriminate Hp].
  - rewrite orb_true_iff, String.eqb_eq, IH. split.
    + intros [<-|(p & ->)]; [by exists ""|by exists (String a p)].
    + intros ([|b p] & Hp); [by left|right].
      cbn in Hp. injection Hp as -> ->. by exists p.
Qed.

Lemma toLowerCase_app (p s : string) :
  toLowerCase (p +:+ s) = toLowerCase p +:+ toLowerCase s.
Proof.
  induction p as [|a p IH]; [done|].
  change (String a p +:+ s) with (String a (p +:+ s)).
  cbn [toLowerCase]. by rewrite IH.
Qed.

Lemma toLowerCase_split (q x : string) :
  forall n, toLowerCase n = q +:+ x ->
            exists p s, n = p +:+ s /\ toLowerCase s = x.
Proof.
  induction q as [|a q IH]; intros n Hn.
  - by exists "", n.
  - destruct n as [|b n]; [discriminate Hn|]. cbn in Hn. injection Hn as _ Hn.
    destruct (IH n Hn) as (p & s & -> & Hs). by exists (String b p), s.
Qed.

(** The lower-case name ends in [x] exactly when the name ends in a spelling
    of [x]. *)
Lemma endsWith_lower (n x : string) :
  endsWith (toLowerCase n) x = true <->
  exists p s, n = p +:+ s /\ toLowerCase s = x.
Proof.
  rewrite endsWith_spec. split.
  - intros (q & Hq). by apply (toLowerCase_split q).
  - intros (p & s & -> & <-). exists (toLowerCase p). apply toLowerCase_app.
Qed.

End SuffixFacts.

(* ===================================================================== *)
(** * Facts: recovery after a failed upload, the completion notice        *)
(* ===================================================================== *)

Module RecoveryFacts.
Import DOM DOMRel UserUpload UserPage.

(** ** The first match of a selector *)

Lemma head_find_from_mono {A} (p q : nat -> A -> bool) (l : list A) :
  forall (l' : list A) (k b : nat),
    length l' = length l ->
    head (find_from p k l) = Some b ->
    (forall j x x', l !! j = Some x -> l' !! j = Some x' ->
       q (k + j)%nat x' = true -> p (k + j)%nat x = true) ->
    (forall x x', l !! (b - k)%nat = Some x -> l' !! (b - k)%nat = Some x' ->
       p b x = true -> q b x' = true) ->
    head (find_from q k l') = Some b.
Proof.
  induction l as [|x l IH]; intros [|x' l'] k b Hlen Hhead Hsub Hb; try done.
  cbn [find_from] in *.
  destruct (p k x) eqn:Hp.
  - cbn in Hhead. injection Hhead as <-.
    rewrite (Hb x x'); [done| | |done]; by rewrite Nat.sub_diag.
  - assert (Hq : q k x' = false).
    { destruct (q k x') eqn:Hq; [|done].
      specialize (Hsub 0%nat x x' eq_refl eq_refl). rewrite Nat.add_0_r in Hsub.
      rewrite (Hsub Hq) in Hp. done. }
    rewrite Hq.
    assert (Hlt : (S k <= b)%nat).
    { apply head_Some_elem_of in Hhead.
      apply DOMFacts.find_from_spec in Hhead as (y & Hle & _). exact Hle. }
    apply (IH l' (S k) b); [by injection Hlen|done| |].
    + intros j y y' Hy Hy' Hqy.
      replace (S k + j)%nat with (k + S j)%nat in * by lia.
      by apply (Hsub (S j) y y').
    + intros y y' Hy Hy'. apply Hb.
      * replace (b - k)%nat with (S (b - S k)) by lia. exact Hy.
      * replace (b - k)%nat with (S (b - S k)) by lia. exact Hy'.
Qed.

(** ** Documents that differ in classes, texts, styles, enabled states *)

Lemma reclassed_refl (c : string) (b : nat) (d : document) : reclassed c b d d.
Proof. split; [done|]. intros j n Hn. exists n. by repeat split. Qed.

Lemma reclassed_trans (c : string) (b : nat) (d1 d2 d3 : document) :
  reclassed c b d1 d2 -> reclassed c b d2 d3 -> reclassed c b d1 d3.
Proof.
  intros [Hl1 H1] [Hl2 H2]. split; [congruence|].
  intros j n Hn.
  destruct (H1 j n Hn) as (n' & Hn' & Ht & Hp & Ha & Hc & Hb).
  destruct (H2 j n' Hn') as (n'' & Hn'' & Ht' & Hp' & Ha' & Hc' & Hb').
  exists n''. split; [done|].
  split; [congruence|]. split; [congruence|]. split; [congruence|].
  split; [auto|]. intros Hj Hcn. auto.
Qed.

Lemma reclassed_update (c : string) (b : nat) (d0 d : document) (k : nat)
    (f : node -> node) :
  (forall n, tag (f n) = tag n /\ parent (f n) = parent n /\
             attached (f n) = attached n /\
             (has_class c (f n) = true -> has_class c n = true)) ->
  (k = b -> forall n, has_class c n = true -> has_class c (f n) = true) ->
  reclassed c b d0 d -> reclassed c b d0 (update k f d).
Proof.
  intros Hf Hb H. apply (reclassed_trans c b _ d); [done|]. split.
  - apply DOMFacts.length_update.
  - intros j n Hn. unfold update. destruct (decide (j = k)) as [->|Hne].
    + exists (f n). rewrite list_lookup_alter_eq, Hn. split; [done|].
      destruct (Hf n) as (Ht & Hp & Ha & Hc).
      repeat split; try done. intros Hk. by apply Hb.
    + exists n. rewrite list_lookup_alter_ne by done. by repeat split.
Qed.

Lemma reclassed_update_all (c : string) (b : nat) (d0 : document) (l : list nat)
    (f : node -> node) :
  (forall n, tag (f n) = tag n /\ parent (f n) = parent n /\
             attached (f n) = attached n /\
             (has_class c (f n) = true -> has_class c n = true)) ->
  (forall n, has_class c n = true -> has_class c (f n) = true) ->
  forall d, reclassed c b d0 d -> reclassed c b d0 (update_all l f d).
Proof.
  intros Hf Hb. unfold update_all. induction l as [|k l IH]; intros d H; cbn; [done|].
  apply IH. apply reclassed_update; [done| |done]. intros _. exact Hb.
Qed.

Lemma reclassed_parents (c : string) (b : nat) (d d' : document) :
  reclassed c b d d' -> forall j, parent <$> d' !! j = parent <$> d !! j.
Proof.
  intros [Hlen H] j. destruct (d !! j) as [n|] eqn:Hn.
  - destruct (H j n Hn) as (n' & -> & _ & Hp & _). cbn. by rewrite Hp.
  - apply lookup_ge_None in Hn. rewrite <- Hlen in Hn.
    apply lookup_ge_None in Hn. by rewrite Hn.
Qed.

Lemma descends_same (d d' : document) :
  (forall j, parent <$> d' !! j = parent <$> d !! j) ->
  forall fuel root i, descends d' fuel root i = descends d fuel root i.
Proof.
  intros H fuel. induction fuel as [|fuel IH]; intros root i; [done|].
  cbn [descends]. specialize (H i).
  destruct (d' !! i) as [n'|], (d !! i) as [n|]; cbn in H; try done.
  injection H as ->. destruct (parent n) as [p|]; [|done]. by rewrite IH.
Qed.

(** The first element of class [c] under [root] stays the first one. *)
Lemma query_reclassed (c : string) (b root : nat) (d d' : document) :
  reclassed c b d d' ->
  querySelectorIn d root (Class c) = Some b ->
  querySelectorIn d' root (Class c) = Some b.
Proof.
  intros Hr Hb. pose proof Hr as [Hlen H].
  pose proof (descends_same d d' (reclassed_parents c b d d' Hr)) as Hdesc.
  unfold querySelectorIn, querySelectorAllIn in *.
  apply (head_find_from_mono _ _ d d' 0 b Hlen Hb).
  - intros j x x' Hx Hx'. cbn [Nat.add matches].
    destruct (H j x Hx) as (n' & Hn' & _ & _ & Ha & Hc & _).
    assert (n' = x') as -> by congruence.
    rewrite Hlen, Hdesc, Ha. intros Hq.
    apply andb_prop in Hq as [Hq ->]. apply andb_prop in Hq as [-> Hq].
    by rewrite (Hc Hq).
  - rewrite Nat.sub_0_r. intros x x' Hx Hx'. cbn [matches].
    destruct (H b x Hx) as (n' & Hn' & _ & _ & Ha & _ & Hkeep).
    assert (n' = x') as -> by congruence.
    rewrite Hlen, Hdesc, Ha. intros Hp.
    apply andb_prop in Hp as [Hp ->]. apply andb_prop in Hp as [-> Hp].
    by rewrite (Hkeep eq_refl Hp).
Qed.

(** The fields under [root] are the same elements. *)
Lemma fields_reclassed (c : string) (b root : nat) (d d' : document) :
  reclassed c b d d' ->
  querySelectorAllIn d' root fields = querySelectorAllIn d root fields.
Proof.
  intros Hr. pose proof Hr as [Hlen H].
  pose proof (descends_same d d' (reclassed_parents c b d d' Hr)) as Hdesc.
  unfold querySelectorAllIn. symmetry.
  apply DOMRelFacts.find_from_pointwise; [done|].
  intros j x x' Hx Hx' k.
  destruct (H j x Hx) as (n' & Hn' & Ht & _ & Ha & _).
  assert (n' = x') as -> by congruence.
  rewrite Hlen, Hdesc, Ha. unfold fields. cbn [matches]. by rewrite Ht.
Qed.

(** ** The writes of [updateUploadState] before the form state *)

Lemma has_class_add_other (c c' : string) (n : node) :
  c <> c' -> has_class c (add_class c' n) = has_class c n.
Proof.
  intros Hne. rewrite DOMFacts.has_class_add.
  destruct (String.eqb_spec c c'); [done|]. by rewrite orb_false_r.
Qed.

Lemma has_class_remove_labels (c : string) (n : node) :
  c ∉ labels -> has_class c (remove_classes labels n) = has_class c n.
Proof.
  intros Hc. rewrite UserPageFacts.has_class_remove_classes.
  destruct (existsb (String.eqb c) labels) eqn:He; [|by rewrite andb_true_r].
  exfalso. apply existsb_exists in He as (x & Hx & Heq).
  apply String.eqb_eq in Heq as ->. by apply Hc, list_elem_of_In.
Qed.

Lemma shape_remove_labels (n : node) :
  tag (remove_classes labels n) = tag n /\
  parent (remove_classes labels n) = parent n /\
  attached (remove_classes labels n) = attached n.
Proof. done. Qed.

Lemma shape_add_class (c : string) (n : node) :
  tag (add_class c n) = tag n /\ parent (add_class c n) = parent n /\
  attached (add_class c n) = attached n.
Proof. unfold add_class. by destruct (has_class c n). Qed.

(** A document after the status classes of item and section have been set
    to [status], for a class [c] that is no status. *)
Lemma reclassed_status (c status : string) (b i s : nat) (d : document) :
  c ∉ labels -> c <> status ->
  reclassed c b d
    (update s (add_class status)
       (update i (add_class status)
          (update s (remove_classes labels)
             (update i (remove_classes labels) d)))).
Proof.
  intros Hc Hne.
  assert (Hrem : forall n,
    tag (remove_classes labels n) = tag n /\ parent (remove_classes labels n) = parent n /\
    attached (remove_classes labels n) = attached n /\
    (has_class c (remove_classes labels n) = true -> has_class c n = true)).
  { intros n. destruct (shape_remove_labels n) as (? & ? & ?).
    repeat split; try done. by rewrite has_class_remove_labels. }
  assert (Hadd : forall n,
    tag (add_class status n) = tag n /\ parent (add_class status n) = parent n /\
    attached (add_class status n) = attached n /\
    (has_class c (add_class status n) = true -> has_class c n = true)).
  { intros n. destruct (shape_add_class status n) as (? & ? & ?).
    repeat split; try done. by rewrite has_class_add_other. }
  repeat first
    [ apply reclassed_refl
    | apply reclassed_update;
      [ first [exact Hrem | exact Hadd]
      | intros _ n Hn;
        first [by rewrite has_class_remove_labels | by rewrite has_class_add_other]
      | ] ].
Qed.

Section Script.
Variable percent : nat -> nat -> string.

Lemma reclassed_updateStatusBadge (c : string) (b i : nat) (status : string)
    (d0 : document) (st : state) :
  c <> "status-badge" -> c <> status ->
  class_of (dom st) b "status-badge" = false ->
  reclassed c b d0 (dom st) ->
  reclassed c b d0 (dom (updateStatusBadge i status st)).
Proof.
  intros Hc Hs Hb H. unfold updateStatusBadge.
  destruct (querySelectorIn (dom st) i (Class "status-badge")) as [badge|] eqn:Hq;
    [|done].
  assert (Hne : badge <> b).
  { intros ->. unfold querySelectorIn in Hq. apply head_Some_elem_of in Hq.
    apply DOMFacts.find_from_spec in Hq as (n & _ & Hn & Hp).
    rewrite Nat.sub_0_r in Hn. unfold class_of in Hb. rewrite Hn in Hb.
    apply andb_prop in Hp as [Hp _]. apply andb_prop in Hp as [_ Hp].
    cbn [matches] in Hp. congruence. }
  unfold on_dom, set_dom. cbn [dom].
  apply reclassed_update; [|done|].
  - intros n. repeat split; try done. unfold has_class. cbn.
    destruct (String.eqb_spec c "status-badge"); [done|].
    destruct (String.eqb_spec c status); [done|]. done.
  - apply reclassed_update; [by intros ?|by intros _ ?|done].
Qed.

Lemma reclassed_updateStatusIcon (c : string) (b i : nat) (status : string)
    (d0 : document) (st : state) :
  reclassed c b d0 (dom st) ->
  reclassed c b d0 (dom (updateStatusIcon i status st)).
Proof.
  intros H. unfold updateStatusIcon.
  assert (Hstyle : forall k v n,
    tag (with_style k v n) = tag n /\ parent (with_style k v n) = parent n /\
    attached (with_style k v n) = attached n /\
    (has_class c (with_style k v n) = true -> has_class c n = true)) by done.
  case_match; unfold on_dom, set_dom; cbn [dom].
  - apply reclassed_update; [apply Hstyle|by intros _ ?|].
    apply reclassed_update_all; [apply Hstyle|by intros ?|done].
  - apply reclassed_update_all; [apply Hstyle|by intros ?|done].
Qed.

(** A function that only writes texts, styles, or classes that are not
    [disabled] states keeps an element enabled. *)
Lemma enabled_updateProgressBar (j : nat) (v : bool) (st : state) :
  node_at (dom st) j (fun n => disabled n = v) ->
  node_at (dom (updateProgressBar percent st)) j (fun n => disabled n = v).
Proof.
  intros H. unfold updateProgressBar. case_match; [|done].
  unfold on_dom, set_dom. cbn [dom].
  apply UserPageFacts.node_at_update; [done|]. by intros ? ?.
Qed.

Lemma enabled_updateSessionStatus (j : nat) (v : bool) (st : state) :
  node_at (dom st) j (fun n => disabled n = v) ->
  node_at (dom (updateSessionStatus st)) j (fun n => disabled n = v).
Proof.
  intros H. unfold updateSessionStatus. case_match; [|done].
  unfold on_dom, set_dom. cbn [dom].
  apply UserPageFacts.node_at_update; [done|]. by intros ? ?.
Qed.

Lemma enabled_showToast (j : nat) (v : bool) (message type : string) (st : state) :
  node_at (dom st) j (fun n => disabled n = v) ->
  node_at (dom (showToast message type st)) j (fun n => disabled n = v).
Proof.
  intros (n & Hn & Hv). exists n. split; [|done].
  unfold showToast, appendChild, append. cbn [dom set_dom setTimeout].
  by apply lookup_app_l_Some.
Qed.

(** [updateUploadState] with 'available' enables the submit button and the
    fields of the section, when the button is the section's first
    [.submit-btn] and not a status badge. *)
Lemma updateUploadState_enables (uploadType : string) (i s b : nat) (st : state) :
  querySelector (dom st) (AttrIs "data-upload" uploadType) = Some i ->
  getElementById (dom st) (uploadType +:+ "-form") = Some s ->
  querySelectorIn (dom st) s (Class "submit-btn") = Some b ->
  class_of (dom st) b "status-badge" = false ->
  let d' := dom (updateUploadState percent uploadType "available" st) in
  node_at d' b (fun n => disabled n = false) /\
  forall j, j ∈ querySelectorAllIn (dom st) s fields ->
            node_at d' j (fun n => disabled n = false).
Proof.
  intros Hi Hs Hb Hbadge d'. subst d'. unfold updateUploadState. rewrite Hi, Hs.
  set (st4 := on_dom (update s (add_class "available"))
                (on_dom (update i (add_class "available"))
                   (on_dom (update s (remove_classes labels))
                      (on_dom (update i (remove_classes labels)) st)))).
  set (st5 := updateStatusBadge i "available" st4).
  set (st6 := updateStatusIcon i "available" st5).
  assert (Hlab : forall c, c = "submit-btn" \/ c = "status-badge" ->
                   (c ∉ labels) /\ c <> "available").
  { intros c [-> | ->]; (split; [|done]);
      apply (bool_decide_eq_false_1 (_ ∈ labels)); vm_compute; reflexivity. }
  assert (H4 : reclassed "submit-btn" b (dom st) (dom st4)).
  { apply reclassed_status; by apply Hlab; left. }
  assert (H4b : reclassed "status-badge" b (dom st) (dom st4)).
  { apply reclassed_status; by apply Hlab; right. }
  assert (Hbadge4 : class_of (dom st4) b "status-badge" = false).
  { unfold class_of in *. destruct H4b as [Hlen H].
    destruct (dom st !! b) as [n|] eqn:Hn.
    - destruct (H b n Hn) as (n' & -> & _ & _ & _ & Hc & _).
      destruct (has_class "status-badge" n') eqn:Hn'; [|done].
      by rewrite (Hc eq_refl) in Hbadge.
    - apply lookup_ge_None in Hn. rewrite <- Hlen in Hn.
      apply lookup_ge_None in Hn. by rewrite Hn. }
  assert (H6 : reclassed "submit-btn" b (dom st) (dom st6)).
  { apply reclassed_updateStatusIcon. by apply reclassed_updateStatusBadge. }
  pose proof (query_reclassed _ _ s _ _ H6 Hb) as Hb6.
  pose proof (fields_reclassed _ _ s _ _ H6) as Hf6.
  assert (H7 : forall j,
            j ∈ querySelectorAllIn (dom st6) s fields \/
            querySelectorIn (dom st6) s (Class "submit-btn") = Some j ->
            node_at (dom (updateFormState s "available" st6)) j
              (fun n => disabled n = false)).
  { intros j Hj. by apply (UserPageFacts.updateFormState_disabled s j "available"). }
  assert (Hrest : forall j,
    node_at (dom (updateFormState s "available" st6)) j (fun n => disabled n = false) ->
    node_at
      (dom (updateSessionStatus
         (updateProgressBar percent
            (saveUploadStatus
               (set_uploadStatus
                  (JSON.set (uploadStatus (updateFormState s "available" st6))
                     uploadType "available")
                  (updateFormState s "available" st6)))))) j
      (fun n => disabled n = false)).
  { intros j Hj. by apply enabled_updateSessionStatus, enabled_updateProgressBar. }
  split.
  - apply Hrest, H7. by right.
  - intros j Hj. apply Hrest, H7. left. by rewrite Hf6.
Qed.

(** After a failed upload the form can be submitted again. *)
Lemma handleUploadFailure_enables (uploadType : string) (s b : nat) (st : state) :
  found uploadType st = true ->
  getElementById (dom st) (uploadType +:+ "-form") = Some s ->
  querySelectorIn (dom st) s (Class "submit-btn") = Some b ->
  class_of (dom st) b "status-badge" = false ->
  let d' := dom (handleUploadFailure percent uploadType st) in
  node_at d' b (fun n => disabled n = false) /\
  forall j, j ∈ querySelectorAllIn (dom st) s fields ->
            node_at d' j (fun n => disabled n = false).
Proof.
  intros Hf Hs Hb Hbadge d'. subst d'. unfold found in Hf.
  apply andb_prop in Hf as [Hi _]. apply bool_decide_eq_true_1 in Hi.
  destruct Hi as [i Hi].
  destruct (updateUploadState_enables uploadType i s b st Hi Hs Hb Hbadge) as [H1 H2].
  unfold handleUploadFailure. split.
  - by apply enabled_showToast.
  - intros j Hj. by apply enabled_showToast, H2.
Qed.

Lemma handleUploadFailure_timers (uploadType : string) (st : state) :
  timers (handleUploadFailure percent uploadType st) =
    timers st ++ [Timer 100 false (ToastFadeIn (length (dom st)));
                  Timer 4000 false (ToastFadeOut (length (dom st)))].
Proof.
  unfold handleUploadFailure.
  destruct (UserUploadFacts.showToast_shown
              (getUploadDisplayName uploadType +:+ " upload failed. Please try again.")
              "error" (updateUploadState percent uploadType "available" st))
    as [_ ->].
  destruct (UserUploadFacts.updateUploadState_frame percent uploadType "available" st)
    as [-> _].
  by rewrite UserUploadFacts.length_updateUploadState.
Qed.

End Script.

(** ** The completion notice *)

Lemma fire_CompletionNotice (st : state) :
  let st' := fire CompletionNotice st in
  toast_shown "🎉 All uploads completed successfully!" "success" st' /\
  modal_shown st' /\
  untouched (dom st) (dom st') /\
  length (dom st') = (length (dom st) + 3)%nat /\
  uploadStatus st' = uploadStatus st /\
  sessionStorage st' = sessionStorage st /\
  requests st' = requests st /\
  timers st' =
    timers st ++ [Timer 100 false (ToastFadeIn (length (dom st)));
                  Timer 4000 false (ToastFadeOut (length (dom st)))].
Proof.
  cbv zeta. unfold fire, showCompletionModal, showToast, appendChild, append.
  unfold toast_shown, modal_shown, untouched.
  cbn [dom set_dom setTimeout timers uploadStatus sessionStorage requests fst].
  rewrite <- !app_assoc. cbn [app].
  split; [|split; [|split; [|split]]].
  - eexists (length (dom st)), _. split.
    + rewrite lookup_app_r by lia. rewrite Nat.sub_diag. reflexivity.
    + cbn. repeat split; try done.
      * apply elem_of_app. right. left.
      * apply elem_of_app. right. right. left.
  - exists (S (length (dom st))), (S (S (length (dom st)))). eexists _, _.
    split; [lia|]. split.
    + rewrite lookup_app_r by lia.
      replace (S (length (dom st)) - length (dom st))%nat with 1%nat by lia.
      reflexivity.
    + cbn. split; [done|]. split; [done|]. split.
      * rewrite lookup_app_r by lia.
        replace (S (S (length (dom st))) - length (dom st))%nat with 2%nat by lia.
        reflexivity.
      * by cbn.
  - intros j n Hn. by apply lookup_app_l_Some.
  - rewrite !length_app. cbn. lia.
  - done.
Qed.

End RecoveryFacts.


(* ===================================================================== *)
(** * The properties of the specification                                 *)
(* ===================================================================== *)

(** C2.  On the user upload page every operation that writes the status map
    ([updateUploadState] with a status label, [handleUploadSuccess],
    [handleUploadFailure], [handleFormSubmission], [resetAllUploads]) keeps
    it a flat mapping from the four category names to one of the four
    labels, and what [saveUploadStatus] puts in session storage is the JSON
    text of exactly that mapping. *)
Theorem C2_status_map_kept (percent : nat -> nat -> string) (st : UserUpload.state) :
  UserUpload.status_map (UserUpload.uploadStatus st) ->
  UserUpload.sidebar_of_categories (UserUpload.dom st) ->
  (forall uploadType status, status ∈ UserUpload.labels ->
     UserUpload.kept st (UserUpload.updateUploadState percent uploadType status st)) /\
  (forall uploadType,
     UserUpload.kept st (UserUpload.handleUploadSuccess percent uploadType st)) /\
  (forall uploadType,
     UserUpload.kept st (UserUpload.handleUploadFailure percent uploadType st)) /\
  (forall form,
     UserUpload.kept st (UserUpload.handleFormSubmission percent form st).1) /\
  UserUpload.kept st (UserUpload.resetAllUploads percent st) /\
  UserUpload.saved (UserUpload.saveUploadStatus st) /\
  UserUpload.uploadStatus (UserUpload.saveUploadStatus st) = UserUpload.uploadStatus st.
Proof.
  intros Hst Hpage.
  split; [|split; [|split; [|split; [|split]]]].
  - intros uploadType status Hs.
    apply UserUploadFacts.updateUploadState_kept; [done|done|].
    by apply UserUploadFacts.sidebar_found.
  - intros uploadType.
    apply UserUploadFacts.handleUploadSuccess_kept; [done|].
    by apply UserUploadFacts.sidebar_found.
  - intros uploadType.
    apply UserUploadFacts.handleUploadFailure_kept; [done|].
    by apply UserUploadFacts.sidebar_found.
  - intros form. by apply UserUploadFacts.handleFormSubmission_kept.
  - by apply UserUploadFacts.resetAllUploads_kept.
  - apply UserUploadFacts.saveUploadStatus_saved.
Qed.

Lemma C2_witness :
  UserUpload.kept UserUpload.sample
    (UserUpload.handleUploadFailure UserUpload.no_percent "hmis-api" UserUpload.sample).
Proof.
  assert (H1 : UserUpload.status_map (UserUpload.uploadStatus UserUpload.sample)).
  { split; [reflexivity|]. repeat constructor; listed. }
  assert (H2 : UserUpload.sidebar_of_categories (UserUpload.dom UserUpload.sample)).
  { apply UserUploadFacts.sidebar_of_categoriesb_sound. vm_compute. reflexivity. }
  exact (proj1 (proj2 (proj2 (C2_status_map_kept UserUpload.no_percent
                                UserUpload.sample H1 H2))) "hmis-api").
Defined.

(** C6.  Round trip through session storage: for every status map (an
    object, so its keys are distinct), a page that finds in session storage
    what [saveUploadStatus] wrote there gets a map equal to the original from
    [loadUploadStatus]; in particular a reloaded page does, whatever its
    template. *)
Theorem C6_save_load_roundtrip (percent : nat -> nat -> string)
    (st : UserUpload.state) :
  JSON.wf (UserUpload.uploadStatus st) ->
  (forall page,
     UserUpload.sessionStorage page =
       UserUpload.sessionStorage (UserUpload.saveUploadStatus st) ->
     exists st', UserUpload.loadUploadStatus percent page = Some st' /\
                 UserUpload.uploadStatus st' = UserUpload.uploadStatus st) /\
  (forall template time,
     exists st',
       UserUpload.DOMContentLoaded percent
         (UserUpload.page template
            (UserUpload.sessionStorage (UserUpload.saveUploadStatus st)) time)
       = Some st' /\
       UserUpload.uploadStatus st' = UserUpload.uploadStatus st).
Proof.
  intros Hwf. split.
  - intros page Hpage. by apply UserUploadFacts.load_after_save.
  - intros template time. unfold UserUpload.DOMContentLoaded.
    apply UserUploadFacts.load_after_save; [done|].
    by rewrite UserUploadFacts.initializeDashboard_storage.
Qed.

Lemma C6_witness :
  exists st',
    UserUpload.DOMContentLoaded UserUpload.no_percent
      (UserUpload.page UserUpload.sample_template
         (UserUpload.sessionStorage
            (UserUpload.saveUploadStatus
               (UserUpload.handleUploadSuccess UserUpload.no_percent "hmis-api"
                  UserUpload.sample))) "12:05:00")
    = Some st' /\
    UserUpload.uploadStatus st' =
    UserUpload.uploadStatus
      (UserUpload.handleUploadSuccess UserUpload.no_percent "hmis-api"
         UserUpload.sample).
Proof.
  refine (proj2 (C6_save_load_roundtrip UserUpload.no_percent
                   (UserUpload.handleUploadSuccess UserUpload.no_percent "hmis-api"
                      UserUpload.sample) _) UserUpload.sample_template "12:05:00").
  apply (bool_decide_eq_true_1 (JSON.wf _)). vm_compute. reflexivity.
Defined.

(** C8.  The [formatFileSize] of dashboard.js and the one of
    user-upload_app.js return the same string for every byte count, whatever
    the double-precision operations compute. *)
Theorem C8_formatFileSize_agree (m : Math) (bytes : number m) :
  Dashboard.formatFileSize m bytes = UserUpload.formatFileSize m bytes.
Proof. reflexivity. Qed.

(** C9.  [checkAllUploadsCompleted] schedules the completion notice
    exactly when every value of the status map is 'completed' or
    'disabled': it then sets the 2 s timer and changes nothing else;
    otherwise, and so whenever some status is 'available' or 'processing',
    it does nothing at all.  The callback of that timer shows the toast
    '🎉 All uploads completed successfully!' and puts the completion modal
    with its style sheet in the document; it leaves the elements that were
    there, the status map, session storage and the requests as they are. *)
Theorem C9_completion_iff_all_finished (st : UserUpload.state) :
  let all_finished :=
    Forall UserUpload.finished (JSON.values (UserUpload.uploadStatus st)) in
  (UserUpload.checkAllUploadsCompleted st =
     UserUpload.setTimeout UserUpload.CompletionNotice 2000 st <-> all_finished) /\
  (UserUpload.checkAllUploadsCompleted st = st <-> ~ all_finished) /\
  ((exists s, s ∈ JSON.values (UserUpload.uploadStatus st) /\
              (s = "available" \/ s = "processing")) ->
   UserUpload.checkAllUploadsCompleted st = st) /\
  (forall st1,
     let st2 := UserUpload.fire UserUpload.CompletionNotice st1 in
     UserUpload.toast_shown "🎉 All uploads completed successfully!" "success" st2 /\
     UserUpload.modal_shown st2 /\
     DOMRel.untouched (UserUpload.dom st1) (UserUpload.dom st2) /\
     length (UserUpload.dom st2) = (length (UserUpload.dom st1) + 3)%nat /\
     UserUpload.uploadStatus st2 = UserUpload.uploadStatus st1 /\
     UserUpload.sessionStorage st2 = UserUpload.sessionStorage st1 /\
     UserUpload.requests st2 = UserUpload.requests st1).
Proof.
  cbv zeta.
  pose proof (UserUploadFacts.allCompleted_spec (UserUpload.uploadStatus st)) as Hspec.
  pose proof (UserUploadFacts.setTimeout_changes UserUpload.CompletionNotice 2000 st)
    as Hne.
  assert (Hfire : forall st1,
    UserUpload.toast_shown "🎉 All uploads completed successfully!" "success"
      (UserUpload.fire UserUpload.CompletionNotice st1) /\
    UserUpload.modal_shown (UserUpload.fire UserUpload.CompletionNotice st1) /\
    DOMRel.untouched (UserUpload.dom st1)
      (UserUpload.dom (UserUpload.fire UserUpload.CompletionNotice st1)) /\
    length (UserUpload.dom (UserUpload.fire UserUpload.CompletionNotice st1)) =
      (length (UserUpload.dom st1) + 3)%nat /\
    UserUpload.uploadStatus (UserUpload.fire UserUpload.CompletionNotice st1) =
      UserUpload.uploadStatus st1 /\
    UserUpload.sessionStorage (UserUpload.fire UserUpload.CompletionNotice st1) =
      UserUpload.sessionStorage st1 /\
    UserUpload.requests (UserUpload.fire UserUpload.CompletionNotice st1) =
      UserUpload.requests st1).
  { intros st1.
    destruct (RecoveryFacts.fire_CompletionNotice st1)
      as (H1 & H2 & H3 & H4 & H5 & H6 & H7 & _).
    by repeat split. }
  unfold UserUpload.checkAllUploadsCompleted.
  destruct (UserUpload.allCompleted (UserUpload.uploadStatus st)) eqn:Hall.
  - assert (Hfin : Forall UserUpload.finished
                     (JSON.values (UserUpload.uploadStatus st))) by by apply Hspec.
    split; [done|]. split; [split; [done | by intros []]|]. split; [|exact Hfire].
    intros (s & Hs & Hopen). rewrite Forall_forall in Hfin.
    destruct (Hfin s Hs) as [-> | ->]; by destruct Hopen.
  - assert (Hnot : ~ Forall UserUpload.finished
                       (JSON.values (UserUpload.uploadStatus st))).
    { intros H. apply Hspec in H. congruence. }
    split; [split; [by intros H; symmetry in H | done]|].
    split; [done|]. split; [done|exact Hfire].
Qed.

Lemma C9_witness :
  UserUpload.checkAllUploadsCompleted
    (UserUpload.set_uploadStatus
       [("health-center", "completed"); ("hmis-api", "completed");
        ("temperature", "disabled"); ("precipitation", "completed")]
       UserUpload.sample)
  = UserUpload.setTimeout UserUpload.CompletionNotice 2000
      (UserUpload.set_uploadStatus
         [("health-center", "completed"); ("hmis-api", "completed");
          ("temperature", "disabled"); ("precipitation", "completed")]
         UserUpload.sample).
Proof.
  apply (proj2 (proj1 (C9_completion_iff_all_finished
                         (UserUpload.set_uploadStatus
                            [("health-center", "completed"); ("hmis-api", "completed");
                             ("temperature", "disabled"); ("precipitation", "completed")]
                            UserUpload.sample)))).
  unfold UserUpload.set_uploadStatus, JSON.values. cbn [UserUpload.uploadStatus map snd].
  repeat (apply List.Forall_cons; [first [by left | by right]|]).
  apply List.Forall_nil.
Defined.



(** C4 as stated fails on the user page: an item whose status is 'disabled'
    is not 'completed', yet a click on it switches nothing. *)
Lemma C4_counterexample :
  ~ (forall (st : UserUpload.state) (i : nat),
       i ∈ DOM.querySelectorAll (UserUpload.dom st) (DOM.Class "upload-item") ->
       JSON.get (UserUpload.uploadStatus st)
         (default "undefined" (DOM.dataset (UserUpload.dom st) i "data-upload"))
         <> Some "completed" ->
       DOM.only_active (UserUpload.dom st)
         (UserUpload.dom (UserUpload.on_item_click i st)) i).
Proof.
  intros H.
  specialize (H (UserUpload.updateUploadState UserUpload.no_percent "hmis-api"
                   "disabled" UserUpload.sample) 3%nat).
  destruct H as [Hactive _].
  - vm_compute. right. left.
  - vm_compute. discriminate.
  - vm_compute in Hactive. discriminate.
Qed.

(** C4, amended.  On the user page, for every sidebar item whose status is
    neither 'completed' nor 'disabled', and on the admin page for every
    sidebar item, after the click handler has run the clicked item and the
    element whose id is its upload type followed by "-form" carry 'active',
    and no other upload item or upload section does. *)
Theorem C4_click_activates_only_clicked :
  (forall (st : UserUpload.state) (i : nat),
     i ∈ DOM.querySelectorAll (UserUpload.dom st) (DOM.Class "upload-item") ->
     let status :=
       JSON.get (UserUpload.uploadStatus st)
         (default "undefined" (DOM.dataset (UserUpload.dom st) i "data-upload")) in
     status <> Some "completed" -> status <> Some "disabled" ->
     DOM.only_active (UserUpload.dom st)
       (UserUpload.dom (UserUpload.on_item_click i st)) i) /\
  (forall (st : AdminUpload.state) (i : nat),
     i ∈ DOM.querySelectorAll (AdminUpload.dom st) (DOM.Class "upload-item") ->
     DOM.only_active (AdminUpload.dom st)
       (AdminUpload.dom (AdminUpload.click i st)) i).
Proof.
  assert (Hswitch : forall (d : DOM.document) (i : nat),
    i ∈ DOM.querySelectorAll d (DOM.Class "upload-item") ->
    DOM.only_active d
      (DOM.switched d (DOM.querySelectorAll d (DOM.Class "upload-item"))
         (DOM.querySelectorAll d (DOM.Class "upload-section")) i
         (DOM.getElementById d
            (default "undefined" (DOM.dataset d i "data-upload") +:+ "-form")))
      i).
  { intros d i Hi. unfold DOM.only_active. cbv zeta.
    pose proof (DOMFacts.querySelectorAll_lt _ _ _ Hi) as Hlt.
    pose proof (DOMFacts.getElementById_lt d
      (default "undefined" (DOM.dataset d i "data-upload") +:+ "-form")) as Ht.
    split; [by apply DOMFacts.switched_item|]. split.
    - intros t Heq. rewrite Heq. apply DOMFacts.switched_target. by apply Ht.
    - intros j Hj Hact. by apply (DOMFacts.switched_active d _ _ i _ j Hlt Ht Hj). }
  split.
  - intros st i Hi status H1 H2.
    rewrite UserUploadFacts.on_item_click_open by done.
    rewrite UserUploadFacts.handleSectionSwitch_dom. by apply Hswitch.
  - intros st i Hi.
    rewrite AdminUploadFacts.click_dom, AdminUploadFacts.on_item_click_dom.
    by apply Hswitch.
Qed.

Lemma C4_witness :
  DOM.only_active (UserUpload.dom UserUpload.sample)
    (UserUpload.dom (UserUpload.on_item_click 3%nat UserUpload.sample)) 3%nat.
Proof.
  apply (proj1 C4_click_activates_only_clicked UserUpload.sample 3%nat).
  - vm_compute. right. left.
  - vm_compute. discriminate.
  - vm_compute. discriminate.
Defined.




(** C5.  In the dashboard's two-step flow [handleFormSubmit] POSTs the two
    files to /geospatial/upload_files/.  A response to it whose [success] is
    truthy makes it store [result.process_id] in [currentProcessId], set the
    progress to 50 and POST that process id to /geospatial/api/start_merge/;
    a response to that request whose [success] is truthy sets the progress to
    75 and starts the monitor; a falsy [success] in either step shows the
    error alert with the response's [message], or the step's default
    message, and sends and starts nothing. *)
Theorem C5_upload_then_start_merge
    (toLocaleString : JS.value -> string)
    (successRate : JS.value -> JS.value -> string)
    (summaryMarkup : JS.value -> string) :
  let resume := Dashboard.resume toLocaleString successRate summaryMarkup in
  (forall (st : Dashboard.state) (b g : Dashboard.file) (target : nat),
     Dashboard.boundaries st = Some b -> Dashboard.geotiff st = Some g ->
     Dashboard.has_ids (Dashboard.dom st) Dashboard.submit_ids ->
     Dashboard.event st = Some target ->
     exists st',
       Dashboard.handleFormSubmit st = (st', Ret tt) /\
       Dashboard.requests st' =
         Dashboard.requests st ++
           [(Dashboard.now st,
             Dashboard.Request "POST" "/geospatial/upload_files/"
               (Some (Dashboard.getCsrfToken st'))
               [("geojson", Dashboard.Blob b); ("geotiff", Dashboard.Blob g)])] /\
       Dashboard.pending st' =
         Dashboard.pending st ++
           [(length (Dashboard.requests st), Dashboard.AfterUpload)]) /\
  (forall (st : Dashboard.state) (result success : JS.value),
     Dashboard.has_ids (Dashboard.dom st) Dashboard.progress_ids ->
     JS.get result "success" = Some success -> JS.truthy success = true ->
     exists st',
       resume Dashboard.AfterUpload (Dashboard.Json result) st = (st', Ret tt) /\
       Dashboard.currentProcessId st' = Dashboard.field result "process_id" /\
       Dashboard.progress_width (Dashboard.dom st') = Some "50%" /\
       Dashboard.requests st' =
         Dashboard.requests st ++
           [(Dashboard.now st,
             Dashboard.Request "POST" "/geospatial/api/start_merge/"
               (Some (Dashboard.getCsrfToken st'))
               [("process_id",
                 Dashboard.Text (JS.to_string (Dashboard.currentProcessId st')))])] /\
       Dashboard.pending st' =
         Dashboard.pending st ++
           [(length (Dashboard.requests st), Dashboard.AfterStartMerge)]) /\
  (forall (st : Dashboard.state) (result success : JS.value),
     Dashboard.has_ids (Dashboard.dom st) Dashboard.progress_ids ->
     JS.get result "success" = Some success -> JS.truthy success = true ->
     exists st',
       resume Dashboard.AfterStartMerge (Dashboard.Json result) st = (st', Ret tt) /\
       Dashboard.progress_width (Dashboard.dom st') = Some "75%" /\
       Dashboard.progressInterval st' = Some (Dashboard.next_id st) /\
       Dashboard.timers st' =
         Dashboard.timers st ++
           [Dashboard.Timer (Dashboard.next_id st) (Dashboard.now st + 2000)
              (Some 2000) Dashboard.Poll] /\
       Dashboard.requests st' = Dashboard.requests st) /\
  (forall (st : Dashboard.state) (result success : JS.value) (c : nat),
     DOM.getElementById (Dashboard.dom st) "alertContainer" = Some c ->
     JS.get result "success" = Some success -> JS.truthy success = false ->
     let after_upload :=
       (resume Dashboard.AfterUpload (Dashboard.Json result) st).1 in
     let after_start :=
       (resume Dashboard.AfterStartMerge (Dashboard.Json result) st).1 in
     Dashboard.alert_shown
       ("Upload failed: " +:+
        JS.to_string (JS.or_else (Dashboard.field result "message")
                                 (JS.Str "Upload failed")))
       "error" (Dashboard.now st) after_upload /\
     Dashboard.calm st after_upload /\
     Dashboard.alert_shown
       ("Processing failed: " +:+
        JS.to_string (JS.or_else (Dashboard.field result "message")
                                 (JS.Str "Processing failed to start")))
       "error" (Dashboard.now st) after_start /\
     Dashboard.calm st after_start).
Proof.
  cbv zeta. split; [|split; [|split]].
  - intros st b g target Hb Hg Hids He.
    destruct (DashboardFacts.handleFormSubmit_run b g target st Hb Hg Hids He)
      as (st' & Hrun & Hreq & Hpend & _).
    by exists st'.
  - intros st result success Hids Hs Ht.
    destruct (DashboardFacts.handleFormSubmit_resume_ok result success st Hids Hs Ht)
      as (st' & Hrun & Hpid & Hw & Hreq & Hpend & _).
    exists st'. rewrite Hpid. by repeat split.
  - intros st result success Hids Hs Ht.
    destruct (DashboardFacts.startProcessing_resume_ok result success st Hids Hs Ht)
      as (st' & Hrun & Hw & Hint & Htimers & Hreq & _).
    exists st'. by repeat split.
  - intros st result success c Hc Hs Hf. cbn [Dashboard.resume].
    assert (Hfailed : Dashboard.failed (Dashboard.Json result) = true).
    { unfold Dashboard.failed. by rewrite Hs, Hf. }
    rewrite DashboardFacts.handleFormSubmit_resume_failed by done.
    rewrite (DashboardFacts.startProcessing_resume_failed _ c) by done.
    unfold Dashboard.failure_message, Dashboard.field. rewrite Hs.
    destruct (DashboardFacts.upload_catch_shown
      (JS.to_string (JS.or_else (default JS.Undefined (JS.get result "message"))
                                (JS.Str "Upload failed"))) c st Hc) as [Hshown Hcalm].
    destruct (DashboardFacts.processing_catch_run
      (JS.to_string (JS.or_else (default JS.Undefined (JS.get result "message"))
                                (JS.Str "Processing failed to start"))) c st Hc)
      as (st' & Hrun & Hshown' & Hcalm').
    rewrite Hrun. cbn [fst].
    split; [exact Hshown|]. split; [exact Hcalm|]. split; [exact Hshown' | exact Hcalm'].
Qed.

Lemma C5_witness :
  exists st',
    Dashboard.resume Dashboard.plain Dashboard.no_rate Dashboard.no_summary
      Dashboard.AfterUpload
      (Dashboard.Json (JS.Obj [("success", JS.Bool true); ("process_id", JS.Str "p-17")]))
      Dashboard.sample = (st', Ret tt) /\
    Dashboard.currentProcessId st' = JS.Str "p-17" /\
    Dashboard.progress_width (Dashboard.dom st') = Some "50%".
Proof.
  destruct (proj1 (proj2 (C5_upload_then_start_merge Dashboard.plain Dashboard.no_rate
                            Dashboard.no_summary))
              Dashboard.sample
              (JS.Obj [("success", JS.Bool true); ("process_id", JS.Str "p-17")])
              (JS.Bool true))
    as (st' & Hrun & Hpid & Hw & _).
  - apply DashboardFacts.has_idsb_sound. vm_compute. reflexivity.
  - reflexivity.
  - reflexivity.
  - exists st'. by repeat split.
Defined.




(** C1 as stated fails when the form is submitted a second time while the
    first monitor runs: [startProgressMonitoring] overwrites
    [progressInterval] (line 234), so the response that says [completed]
    clears the second interval, and the first one goes on polling.  Here the
    page is submitted at 1000 ms and at 1300 ms; the poll of the first
    interval at 3200 ms is answered with [completed], and the same interval
    polls again at 5200 ms. *)
Lemma C1_counterexample :
  ~ (forall (hs hs' : list Dashboard.happening) (st st' st'' : Dashboard.state)
            (req : nat) (time : Z) (status : JS.value),
       Dashboard.run Dashboard.plain Dashboard.no_rate Dashboard.no_summary
         hs Dashboard.sample = Some st ->
       JS.assoc_nat req (Dashboard.pending st) = Some Dashboard.AfterPoll ->
       JS.truthy (Dashboard.field status "completed") = true ->
       Dashboard.step Dashboard.plain Dashboard.no_rate Dashboard.no_summary
         (Dashboard.Settle req time (Dashboard.Json status)) st = Some st' ->
       forallb Dashboard.no_submit hs' = true ->
       Dashboard.run Dashboard.plain Dashboard.no_rate Dashboard.no_summary
         hs' st' = Some st'' ->
       Dashboard.requests st'' = Dashboard.requests st').
Proof.
  intros H.
  set (started := Dashboard.Json (JS.Obj [("success", JS.Bool true)])).
  set (uploaded p :=
         Dashboard.Json (JS.Obj [("success", JS.Bool true); ("process_id", JS.Str p)])).
  set (hs := [Dashboard.Submit 0 1000; Dashboard.Settle 0 1100 (uploaded "p1");
              Dashboard.Settle 1 1200 started;
              Dashboard.Submit 0 1300; Dashboard.Settle 2 1400 (uploaded "p2");
              Dashboard.Settle 3 1500 started;
              Dashboard.Tick 2]).
  set (status := JS.Obj [("completed", JS.Bool true); ("progress", JS.Num 100)]).
  set (go := Dashboard.run Dashboard.plain Dashboard.no_rate Dashboard.no_summary).
  set (st := default Dashboard.sample (go hs Dashboard.sample)).
  set (st' := default Dashboard.sample
                (go [Dashboard.Settle 4 3300 (Dashboard.Json status)] st)).
  set (st'' := default Dashboard.sample (go [Dashboard.Tick 2] st')).
  assert (Hst : go hs Dashboard.sample = Some st) by (vm_compute; reflexivity).
  assert (Hpending : JS.assoc_nat 4 (Dashboard.pending st) = Some Dashboard.AfterPoll)
    by (vm_compute; reflexivity).
  assert (Hst' : Dashboard.step Dashboard.plain Dashboard.no_rate Dashboard.no_summary
                   (Dashboard.Settle 4 3300 (Dashboard.Json status)) st = Some st')
    by (vm_compute; reflexivity).
  assert (Hst'' : go [Dashboard.Tick 2] st' = Some st'') by (vm_compute; reflexivity).
  pose proof (H hs [Dashboard.Tick 2] st st' st'' 4%nat 3300 status
                Hst Hpending eq_refl Hst' eq_refl Hst'') as Hsame.
  apply (f_equal length) in Hsame. vm_compute in Hsame. discriminate Hsame.
Qed.

(** C1, amended.  The monitor started by [startProgressMonitoring] while no
    other monitor runs and no response is awaited, in a run without a
    further submission: each firing of its interval issues one GET of
    /geospatial/api/status/, so the requests since the start are the polls
    of the firings, the k-th of them 2000 k ms after the start; the interval
    is due 2000 ms after it fired last, whatever the responses were, and is
    still set as long as no response has said [completed]; a response -
    failed or not - issues no request, and one that does not say [completed]
    leaves the timers alone.  The first response whose [completed] is truthy
    clears the interval whatever its [error] field says (the page having the
    elements the callback writes before), and from then on no request is
    issued. *)
Theorem C1_monitor_polls_every_2s_until_completed
    (toLocaleString : JS.value -> string)
    (successRate : JS.value -> JS.value -> string)
    (summaryMarkup : JS.value -> string)
    (st0 st : Dashboard.state) (hs : list Dashboard.happening) :
  Dashboard.idle st0 ->
  forallb Dashboard.no_submit hs = true ->
  Dashboard.run toLocaleString successRate summaryMarkup hs
    (Dashboard.startProgressMonitoring st0) = Some st ->
  let m := Dashboard.next_id st0 in
  let n := Dashboard.firings m hs in
  let poll_no k :=
    Dashboard.poll_at (Dashboard.currentProcessId st0)
      (Dashboard.now st0 + 2000 * Z.of_nat k) in
  let interval :=
    Dashboard.Timer m (Dashboard.now st0 + 2000 * Z.of_nat (S n)) (Some 2000)
      Dashboard.Poll in
  Dashboard.requests st = Dashboard.requests st0 ++ map poll_no (seq 1 n) /\
  (forall t, t ∈ Dashboard.timers st -> Dashboard.action t = Dashboard.Poll ->
     t = interval) /\
  (Dashboard.running hs = true -> interval ∈ Dashboard.timers st) /\
  (interval ∈ Dashboard.timers st ->
   Dashboard.now st <= Dashboard.now st0 + 2000 * Z.of_nat (S n) ->
   exists st',
     Dashboard.step toLocaleString successRate summaryMarkup (Dashboard.Tick m) st
       = Some st' /\
     Dashboard.requests st' = Dashboard.requests st ++ [poll_no (S n)]) /\
  (forall req time r st',
     Dashboard.step toLocaleString successRate summaryMarkup
       (Dashboard.Settle req time r) st = Some st' ->
     Dashboard.requests st' = Dashboard.requests st /\
     (Dashboard.completes r = false -> Dashboard.timers st' = Dashboard.timers st)) /\
  (forall req time status st',
     Dashboard.has_ids (Dashboard.dom st) Dashboard.monitor_ids ->
     JS.truthy (Dashboard.field status "completed") = true ->
     Dashboard.step toLocaleString successRate summaryMarkup
       (Dashboard.Settle req time (Dashboard.Json status)) st = Some st' ->
     Dashboard.stopped st' /\
     forall hs' st'',
       forallb Dashboard.no_submit hs' = true ->
       Dashboard.run toLocaleString successRate summaryMarkup hs' st' = Some st'' ->
       Dashboard.requests st'' = Dashboard.requests st').
Proof.
  intros Hidle Hhs Hrun m n poll_no interval.
  pose proof (DashboardFacts.monitoring_start st0 Hidle) as Hmon0.
  pose proof (MonitorFacts.monitoring_count toLocaleString successRate summaryMarkup
                st0 hs 0 _ st Hmon0 Hhs Hrun) as Hmon.
  cbn [Nat.add] in Hmon. fold m in Hmon. fold n in Hmon.
  assert (Hin0 : Dashboard.Timer m (Dashboard.now st0 + 2000 * Z.of_nat 1) (Some 2000)
                   Dashboard.Poll
                 ∈ Dashboard.timers (Dashboard.startProgressMonitoring st0)).
  { unfold Dashboard.startProgressMonitoring, Dashboard.setProgressInterval.
    cbn [Dashboard.timers]. apply elem_of_app. right.
    apply list_elem_of_singleton. unfold m. f_equal; lia. }
  split; [|split; [|split; [|split; [|split]]]].
  - apply Hmon.
  - intros t Hin Hpoll.
    destruct Hmon as (_ & _ & _ & _ & _ & Htimers).
    by apply (Htimers t Hin).
  - intros Hrunning.
    apply (MonitorFacts.monitoring_alive toLocaleString successRate summaryMarkup
             st0 hs 0 _ st Hmon0 Hin0 Hhs Hrunning Hrun).
  - intros Hin Hnow.
    destruct (MonitorFacts.tick_possible toLocaleString successRate summaryMarkup
                st0 n st Hmon Hin Hnow) as [st' Hstep].
    exists st'. split; [exact Hstep|].
    by destruct (MonitorFacts.monitoring_tick toLocaleString successRate summaryMarkup
                   st0 n st st' Hmon Hstep).
  - intros req time r st' Hstep. split.
    + by destruct (MonitorFacts.monitoring_other toLocaleString successRate
                     summaryMarkup st0 n (Dashboard.Settle req time r) st st'
                     Hmon eq_refl ltac:(done) Hstep).
    + intros Hr.
      by apply (MonitorFacts.settle_timers toLocaleString successRate summaryMarkup
                  st0 n req time r st st').
  - intros req time status st' Hids Hdone Hstep.
    pose proof (DashboardFacts.monitoring_completed toLocaleString successRate
                  summaryMarkup st0 n req time status st st' Hmon Hids Hdone Hstep)
      as Hstopped.
    split; [done|]. intros hs' st'' Hhs' Hrun'.
    by destruct (DashboardFacts.stopped_run toLocaleString successRate summaryMarkup
                   hs' st' st'' Hstopped Hhs' Hrun').
Qed.

Lemma C1_witness :
  exists st,
    Dashboard.run Dashboard.plain Dashboard.no_rate Dashboard.no_summary
      [Dashboard.Tick 2; Dashboard.Tick 1; Dashboard.Tick 2]
      (Dashboard.startProgressMonitoring Dashboard.sample) = Some st /\
    Dashboard.requests st =
      [Dashboard.poll_at JS.Null 3000; Dashboard.poll_at JS.Null 5000] /\
    Dashboard.Timer 2 7000 (Some 2000) Dashboard.Poll ∈ Dashboard.timers st.
Proof.
  assert (Hrun : exists st,
    Dashboard.run Dashboard.plain Dashboard.no_rate Dashboard.no_summary
      [Dashboard.Tick 2; Dashboard.Tick 1; Dashboard.Tick 2]
      (Dashboard.startProgressMonitoring Dashboard.sample) = Some st).
  { vm_compute. eexists. reflexivity. }
  destruct Hrun as [st Hrun]. exists st. split; [exact Hrun|].
  assert (Hidle : Dashboard.idle Dashboard.sample)
    by (apply DashboardFacts.idleb_sound; reflexivity).
  destruct (C1_monitor_polls_every_2s_until_completed Dashboard.plain
              Dashboard.no_rate Dashboard.no_summary Dashboard.sample st
              [Dashboard.Tick 2; Dashboard.Tick 1; Dashboard.Tick 2]
              Hidle eq_refl Hrun) as (Hreq & _ & Halive & _).
  split; [exact Hreq | exact (Halive eq_refl)].
Defined.

(* ===================================================================== *)
(** * Further properties of the user upload page                          *)
(* ===================================================================== *)



(** X2.  For one of the four status labels ('available', 'processing',
    'completed', 'disabled') and an upload type that the selector of line 79
    quotes as it is: after [updateUploadState] has found the sidebar item
    and the section of the upload type, both carry the class of the new
    status and none of the other three status classes, whatever classes they
    carried before. *)
Theorem X2_updateUploadState_one_status_class (percent : nat -> nat -> string)
    (uploadType status : string) (item section : nat) (st : UserUpload.state) :
  status ∈ UserUpload.labels ->
  UserPage.quotable uploadType = true ->
  DOM.querySelector (UserUpload.dom st) (DOM.AttrIs "data-upload" uploadType) = Some item ->
  DOM.getElementById (UserUpload.dom st) (uploadType +:+ "-form") = Some section ->
  let d' := UserUpload.dom (UserUpload.updateUploadState percent uploadType status st) in
  DOMRel.node_at d' item (UserPage.carries status) /\
  DOMRel.node_at d' section (UserPage.carries status).
Proof. intros _ _. apply UserPageFacts.updateUploadState_classes. Qed.

Lemma X2_witness :
  DOMRel.node_at
    (UserUpload.dom
       (UserUpload.updateUploadState UserUpload.no_percent "hmis-api" "completed"
          (UserUpload.updateUploadState UserUpload.no_percent "hmis-api" "processing"
             UserUpload.sample)))
    3%nat (UserPage.carries "completed").
Proof.
  refine (proj1 (X2_updateUploadState_one_status_class UserUpload.no_percent "hmis-api"
                   "completed" 3%nat 9%nat
                   (UserUpload.updateUploadState UserUpload.no_percent "hmis-api"
                      "processing" UserUpload.sample)
                   UserUploadFacts.label_completed eq_refl _ _)).
  - vm_compute. reflexivity.
  - vm_compute. reflexivity.
Defined.

(** X3.  [updateFormState] puts every input, select and textarea of the
    section and its submit button in the same enabled state: all of them are
    disabled when the status is 'completed' or 'disabled', and all of them
    are enabled for any other status. *)
Theorem X3_updateFormState_all_fields (section j : nat) (status : string)
    (st : UserUpload.state) :
  j ∈ DOM.querySelectorAllIn (UserUpload.dom st) section UserUpload.fields \/
  DOM.querySelectorIn (UserUpload.dom st) section (DOM.Class "submit-btn") = Some j ->
  DOMRel.node_at (UserUpload.dom (UserUpload.updateFormState section status st)) j
    (fun n => DOM.disabled n =
              (String.eqb status "completed" || String.eqb status "disabled")).
Proof. apply UserPageFacts.updateFormState_disabled. Qed.

Lemma X3_witness :
  DOMRel.node_at
    (UserUpload.dom (UserUpload.updateFormState 9%nat "completed" UserUpload.sample))
    11%nat (fun n => DOM.disabled n = true).
Proof.
  apply (X3_updateFormState_all_fields 9%nat 11%nat "completed" UserUpload.sample).
  left. listed.
Defined.

(** X4.  [selectNextAvailableUpload] activates the first sidebar item, in
    document order, that carries neither the class 'completed' nor the
    class 'disabled': afterwards that item and its section form are active
    and no other item or section is; it writes nothing but the document.
    When every item is completed or disabled it does nothing. *)
Theorem X4_selectNextAvailableUpload_first (st : UserUpload.state) :
  let available :=
    DOM.querySelectorAll (UserUpload.dom st)
      (DOM.And (DOM.Class "upload-item")
         (DOM.And (DOM.Not (DOM.Class "completed")) (DOM.Not (DOM.Class "disabled")))) in
  (forall first rest, available = first :: rest ->
     DOM.only_active (UserUpload.dom st)
       (UserUpload.dom (UserUpload.selectNextAvailableUpload st)) first) /\
  (available = [] -> UserUpload.selectNextAvailableUpload st = st) /\
  exists d, UserUpload.selectNextAvailableUpload st = UserUpload.set_dom d st.
Proof.
  cbv zeta. split; [|split].
  - intros first rest H. by apply (UserPageFacts.selectNextAvailableUpload_first first rest).
  - intros H. unfold UserUpload.selectNextAvailableUpload. by rewrite H.
  - apply UserUploadFacts.dom_only_selectNextAvailableUpload.
Qed.

Lemma X4_witness :
  DOM.only_active
    (UserUpload.dom
       (UserUpload.updateUploadState UserUpload.no_percent "health-center" "completed"
          UserUpload.sample))
    (UserUpload.dom
       (UserUpload.selectNextAvailableUpload
          (UserUpload.updateUploadState UserUpload.no_percent "health-center" "completed"
             UserUpload.sample)))
    3%nat.
Proof.
  apply (proj1 (X4_selectNextAvailableUpload_first
                  (UserUpload.updateUploadState UserUpload.no_percent "health-center"
                     "completed" UserUpload.sample)) 3%nat []).
  vm_compute. reflexivity.
Defined.



(** X6.  When [validateForm] does not return true - it returns false, or
    an exception leaves it - the submit listener changes nothing but the
    document: it issues no request, sets no timer, and leaves the status map
    and session storage as they are. *)
Theorem X6_invalid_form_not_submitted (percent : nat -> nat -> string) (form : nat)
    (st : UserUpload.state) :
  (forall st1, UserUpload.validateForm form st <> (st1, Ret true)) ->
  exists d, (UserUpload.on_submit percent form st).1 = UserUpload.set_dom d st.
Proof.
  intros H. rewrite UserPageFacts.on_submit_stops by done.
  apply UserPageFacts.dom_only_m_validateForm.
Qed.

(** X7.  [validateForm] does not return true for a form that has a required
    field whose value is empty or white space only, or a required file input
    without a file. *)
Theorem X7_validateForm_rejects_blank (form i : nat) (n : DOM.node)
    (st : UserUpload.state) :
  UserUpload.dom st !! i = Some n ->
  (i ∈ DOM.querySelectorAllIn (UserUpload.dom st) form (DOM.HasAttr "required") /\
   UserUpload.is_blank (DOM.value n) = true) \/
  (i ∈ DOM.querySelectorAllIn (UserUpload.dom st) form
         (DOM.And (DOM.Tag "input") (DOM.AttrIs "type" "file")) /\
   is_Some (DOM.attr "required" n) /\ DOM.files n = 0%nat) ->
  forall st1, UserUpload.validateForm form st <> (st1, Ret true).
Proof. apply UserPageFacts.validateForm_invalid. Qed.

Lemma X6_witness :
  exists d,
    (UserUpload.on_submit UserUpload.no_percent 10%nat UserPage.blank).1 =
    UserUpload.set_dom d UserPage.blank.
Proof.
  apply (X6_invalid_form_not_submitted UserUpload.no_percent 10%nat UserPage.blank).
  intros st1 H. vm_compute in H. discriminate H.
Defined.

Lemma X7_witness :
  (UserUpload.validateForm 10%nat UserPage.blank).2 <> Ret true.
Proof.
  pose proof (X7_validateForm_rejects_blank 10%nat 11%nat
           (DOM.tagged "input" [] [("type", "text"); ("required", "")] (Some 10%nat) "  " 0)
           UserPage.blank) as H.
  unfold not. intros Hret.
  apply (H ltac:(vm_compute; reflexivity)
           ltac:(left; split; [listed | vm_compute; reflexivity])
           (UserUpload.validateForm 10%nat UserPage.blank).1).
  rewrite <- Hret. apply surjective_pairing.
Defined.



(** X9.  A click on a sidebar item whose status is 'completed' or 'disabled'
    only shows a toast (info for 'completed', warning for 'disabled'): every
    element of the document is as it was, so no item or section changes its
    'active' class, the status map and session storage are untouched and no
    request is issued. *)
Theorem X9_click_on_finished_item (i : nat) (st : UserUpload.state) :
  let status :=
    JSON.get (UserUpload.uploadStatus st)
      (default "undefined" (DOM.dataset (UserUpload.dom st) i "data-upload")) in
  status = Some "completed" \/ status = Some "disabled" ->
  let st' := UserUpload.on_item_click i st in
  UserUpload.toast_shown
    (if bool_decide (status = Some "completed")
     then "This upload has already been completed!"
     else "This upload section is currently disabled.")
    (if bool_decide (status = Some "completed") then "info" else "warning") st' /\
  DOMRel.untouched (UserUpload.dom st) (UserUpload.dom st') /\
  UserUpload.uploadStatus st' = UserUpload.uploadStatus st /\
  UserUpload.sessionStorage st' = UserUpload.sessionStorage st /\
  UserUpload.requests st' = UserUpload.requests st.
Proof.
  intros status Hs st'. subst st'. unfold UserUpload.on_item_click. fold status.
  assert (Hguard : bool_decide (status <> Some "completed") &&
                   bool_decide (status <> Some "disabled") = false).
  { destruct Hs as [Hs|Hs].
    - by rewrite (bool_decide_eq_false_2 (status <> Some "completed")) by (intros H; by apply H).
    - rewrite (bool_decide_eq_false_2 (status <> Some "disabled")) by (intros H; by apply H).
      apply andb_false_r. }
  rewrite Hguard.
  destruct (bool_decide (status = Some "completed"));
    match goal with
    | |- context [UserUpload.showToast ?m ?t st] =>
        destruct (UserUploadFacts.showToast_data m t st) as (Hu & Hss & Hr & _);
        destruct (UserPageFacts.showToast_dom m t st) as (n & Hd & _);
        (split; [apply UserUploadFacts.showToast_shown|]);
        (split; [rewrite Hd; apply UserPageFacts.untouched_append|]);
        done
    end.
Qed.

Lemma X9_witness :
  DOMRel.untouched
    (UserUpload.dom
       (UserUpload.handleUploadSuccess UserUpload.no_percent "hmis-api" UserUpload.sample))
    (UserUpload.dom
       (UserUpload.on_item_click 3%nat
          (UserUpload.handleUploadSuccess UserUpload.no_percent "hmis-api"
             UserUpload.sample))).
Proof.
  refine (proj1 (proj2 (X9_click_on_finished_item 3%nat
                          (UserUpload.handleUploadSuccess UserUpload.no_percent "hmis-api"
                             UserUpload.sample) _))).
  left. vm_compute. reflexivity.
Defined.

(** X10.  A toast takes itself away: once its timers have run (the fade in
    and the fade out [showToast] sets, and the removal the fade out sets),
    the toast is detached from the
    document, every element that was there before the toast is as it was,
    and neither the status map nor the requests have changed. *)
Theorem X10_toast_removes_itself (message type : string) (st : UserUpload.state) :
  let t := length (UserUpload.dom st) in
  let st1 := UserUpload.showToast message type st in
  let st2 :=
    UserUpload.fire (UserUpload.ToastRemove t)
      (UserUpload.fire (UserUpload.ToastFadeOut t)
         (UserUpload.fire (UserUpload.ToastFadeIn t) st1)) in
  DOMRel.node_at (UserUpload.dom st2) t
    (fun n => DOM.attached n = false /\ DOM.content n = message) /\
  DOMRel.untouched (UserUpload.dom st) (UserUpload.dom st2) /\
  length (UserUpload.dom st2) = S (length (UserUpload.dom st)) /\
  UserUpload.uploadStatus st2 = UserUpload.uploadStatus st /\
  UserUpload.sessionStorage st2 = UserUpload.sessionStorage st /\
  UserUpload.requests st2 = UserUpload.requests st.
Proof.
  cbv zeta.
  destruct (UserPageFacts.showToast_dom message type st) as (n & Hd & Hc & Ha).
  destruct (UserUploadFacts.showToast_data message type st) as (Hu & Hs & Hr & _).
  set (t := length (UserUpload.dom st)).
  set (st1 := UserUpload.showToast message type st) in *.
  unfold UserUpload.fire, UserUpload.removeFromParent, UserUpload.setTimeout,
    UserUpload.on_dom, UserUpload.set_dom.
  cbn [UserUpload.dom UserUpload.uploadStatus UserUpload.sessionStorage
       UserUpload.requests].
  rewrite Hd. unfold DOM.update.
  assert (Ht : (UserUpload.dom st ++ [n]) !! t = Some n).
  { unfold t. by rewrite lookup_app_r, Nat.sub_diag by lia. }
  assert (Hlook :
    alter (DOM.with_style "opacity" "0") t
      (alter (DOM.with_style "opacity" "1") t (UserUpload.dom st ++ [n])) !! t =
    Some (DOM.with_style "opacity" "0" (DOM.with_style "opacity" "1" n))).
  { by rewrite !list_lookup_alter_eq, Ht. }
  rewrite Hlook. cbn [DOM.attached DOM.with_style]. rewrite Ha.
  cbn [UserUpload.dom UserUpload.uploadStatus UserUpload.sessionStorage
       UserUpload.requests].
  split; [|split; [|split]].
  - eexists. split; [by rewrite list_lookup_alter_eq, Hlook|]. by cbn.
  - intros j x Hx. pose proof (lookup_lt_Some _ _ _ Hx) as Hlt.
    rewrite !list_lookup_alter_ne by (unfold t; lia).
    by apply lookup_app_l_Some.
  - rewrite !length_alter, length_app. cbn. lia.
  - done.
Qed.

(** X11.  The Escape key removes every field error: after
    [handleEscapeKey] the document has no element of class 'field-error'
    that is still attached to its parent, an element that is not a field
    error is attached exactly if it was, no element is added, and nothing
    but the document is written. *)
Theorem X11_handleEscapeKey_removes_errors (st : UserUpload.state) :
  let st' := UserPage.handleEscapeKey st in
  DOM.querySelectorAll (UserUpload.dom st') (DOM.Class "field-error") = [] /\
  (forall j n, UserUpload.dom st !! j = Some n ->
     DOM.has_class "field-error" n = false ->
     DOM.attached <$> UserUpload.dom st' !! j = Some (DOM.attached n)) /\
  length (UserUpload.dom st') = length (UserUpload.dom st) /\
  exists d, st' = UserUpload.set_dom d st.
Proof. apply UserPageFacts.handleEscapeKey_errors. Qed.

Lemma X11_witness :
  exists n,
    UserUpload.dom (UserUpload.on_submit UserUpload.no_percent 10%nat UserPage.blank).1
      !! 11%nat = Some n /\
    DOM.attached <$>
      UserUpload.dom
        (UserPage.handleEscapeKey
           (UserUpload.on_submit UserUpload.no_percent 10%nat UserPage.blank).1) !! 11%nat
    = Some (DOM.attached n).
Proof.
  eexists. split; [vm_compute; reflexivity|].
  refine (proj1 (proj2 (X11_handleEscapeKey_removes_errors
            (UserUpload.on_submit UserUpload.no_percent 10%nat UserPage.blank).1))
          11%nat _ _ _).
  - vm_compute. reflexivity.
  - vm_compute. reflexivity.
Defined.

(* ===================================================================== *)
(** * Further properties of the dashboard                                 *)
(* ===================================================================== *)

(** X12.  The 5 s refresh of the statistics blanks them.  While a process id
    is set and the interval variable holds a timer id, each run of the
    refresh sets the six statistics to '-' ('-%' for the success rate);
    with no process id or no interval it does nothing.  A response to a
    status poll changes neither the process id nor the interval variable -
    [clearInterval] does not reset it - so the refresh that follows a
    response blanks what the response has shown, also after the response
    that completed the process. *)
Theorem X12_refresh_blanks_statistics
    (toLocaleString : JS.value -> string)
    (successRate : JS.value -> JS.value -> string)
    (summaryMarkup : JS.value -> string) (st : Dashboard.state) :
  (Dashboard.has_ids (Dashboard.dom st) Dashboard.statistics_ids ->
   JS.truthy (Dashboard.currentProcessId st) = true ->
   (exists i, Dashboard.progressInterval st = Some (S i)) ->
   exists d,
     Dashboard.fire Dashboard.RefreshStatistics st =
       (Dashboard.on_dom (fun _ => d) st, Ret tt) /\
     DashboardFiles.blanked d) /\
  (JS.truthy (Dashboard.currentProcessId st) = false \/
   Dashboard.progressInterval st = None ->
   Dashboard.fire Dashboard.RefreshStatistics st = (st, Ret tt)) /\
  (forall r : Dashboard.reply,
     Dashboard.has_ids (Dashboard.dom st) Dashboard.statistics_ids ->
     JS.truthy (Dashboard.currentProcessId st) = true ->
     (exists i, Dashboard.progressInterval st = Some (S i)) ->
     let st' :=
       Dashboard.dispatch
         (Dashboard.poll_resume toLocaleString successRate summaryMarkup r) st in
     exists d,
       Dashboard.fire Dashboard.RefreshStatistics st' =
         (Dashboard.on_dom (fun _ => d) st', Ret tt) /\
       DashboardFiles.blanked d).
Proof.
  assert (Hfire : forall s : Dashboard.state,
    Dashboard.has_ids (Dashboard.dom s) Dashboard.statistics_ids ->
    JS.truthy (Dashboard.currentProcessId s) = true ->
    (exists i, Dashboard.progressInterval s = Some (S i)) ->
    exists d,
      Dashboard.fire Dashboard.RefreshStatistics s =
        (Dashboard.on_dom (fun _ => d) s, Ret tt) /\
      DashboardFiles.blanked d).
  { intros s Hids Hpid [i Hint].
    destruct (DashboardFilesFacts.updateStatistics_run s Hids) as (d & Hrun & Hb & _).
    exists d. split; [|done]. unfold Dashboard.fire. step_m.
    by rewrite Hpid, Hint, bool_decide_eq_true_2. }
  split; [apply Hfire|]. split.
  - intros H. unfold Dashboard.fire. step_m. destruct H as [-> | ->]; [done|].
    rewrite bool_decide_eq_false_2 by (by intros [? ?]). by rewrite andb_false_r.
  - intros r Hids Hpid Hint st'.
    destruct (DashboardFilesFacts.poll_resume_keeps toLocaleString successRate
                summaryMarkup r st) as (Hsame & Hp & Hi).
    apply Hfire.
    + by apply (DashboardFacts.has_ids_same (Dashboard.dom st)).
    + unfold st'. by rewrite Hp.
    + unfold st'. by rewrite Hi.
Qed.

Lemma X12_witness :
  exists d,
    Dashboard.fire Dashboard.RefreshStatistics
      (Dashboard.startProgressMonitoring
         (Dashboard.set_currentProcessId (JS.Str "p-17") Dashboard.sample)) =
      (Dashboard.on_dom (fun _ => d)
         (Dashboard.startProgressMonitoring
            (Dashboard.set_currentProcessId (JS.Str "p-17") Dashboard.sample)), Ret tt) /\
    DashboardFiles.blanked d.
Proof.
  apply (proj1 (X12_refresh_blanks_statistics Dashboard.plain Dashboard.no_rate
                  Dashboard.no_summary
                  (Dashboard.startProgressMonitoring
                     (Dashboard.set_currentProcessId (JS.Str "p-17") Dashboard.sample)))).
  - apply DashboardFacts.has_idsb_sound. vm_compute. reflexivity.
  - reflexivity.
  - exists 1%nat. reflexivity.
Defined.

(** X13.  When a polled response reports the process completed without
    error, the callback of the monitor always ends in its own [catch]: after
    the interval is cleared, [switchTab('statistics')] reads
    [event.target], and outside an event listener there is no event, so
    the console gets one 'Progress check error' line and the callback
    returns.  When the response carries an [error] instead, the error alert
    'Processing failed: ...' is shown and nothing is logged. *)
Theorem X13_completion_without_error_is_logged
    (toLocaleString : JS.value -> string)
    (successRate : JS.value -> JS.value -> string)
    (summaryMarkup : JS.value -> string)
    (status : JS.value) (st : Dashboard.state) :
  Dashboard.has_ids (Dashboard.dom st) Dashboard.monitor_ids ->
  JS.truthy (Dashboard.field status "completed") = true ->
  (Dashboard.event st = None ->
   JS.truthy (Dashboard.field status "error") = false ->
   exists st' e,
     Dashboard.poll_resume toLocaleString successRate summaryMarkup
       (Dashboard.Json status) st = (st', Ret tt) /\
     Dashboard.console st' =
       Dashboard.console st ++ ["error: Progress check error: " +:+ e]) /\
  (forall c,
     DOM.getElementById (Dashboard.dom st) "alertContainer" = Some c ->
     JS.truthy (Dashboard.field status "error") = true ->
     exists st',
       Dashboard.poll_resume toLocaleString successRate summaryMarkup
         (Dashboard.Json status) st = (st', Ret tt) /\
       Dashboard.console st' = Dashboard.console st /\
       Dashboard.alert_shown
         ("Processing failed: " +:+ JS.to_string (Dashboard.field status "error"))
         "error" (Dashboard.now st) st').
Proof.
  intros Hids Hdone. split.
  - intros Hev Herr. by apply DashboardFilesFacts.poll_resume_success.
  - intros c Hc Herr. by apply (DashboardFilesFacts.poll_resume_failed_process _ _ _ _ c).
Qed.

Lemma X13_witness :
  exists st' e,
    Dashboard.poll_resume Dashboard.plain Dashboard.no_rate Dashboard.no_summary
      (Dashboard.Json (JS.Obj [("completed", JS.Bool true)])) Dashboard.sample
    = (st', Ret tt) /\
    Dashboard.console st' =
      Dashboard.console Dashboard.sample ++ ["error: Progress check error: " +:+ e].
Proof.
  refine (proj1 (X13_completion_without_error_is_logged Dashboard.plain Dashboard.no_rate
                   Dashboard.no_summary (JS.Obj [("completed", JS.Bool true)])
                   Dashboard.sample _ _) _ _).
  - apply DashboardFacts.has_idsb_sound. vm_compute. reflexivity.
  - reflexivity.
  - reflexivity.
  - reflexivity.
Defined.

(** X14.  A polled response whose [completed] is falsy only repaints the
    page.  When [status.progress || 0] is an integer from 0 to 2^53 - 1, the
    callback returns, the width of the progress bar is that number followed
    by '%' (so '0%' when the response has no progress), and everything but
    the document - timers, interval, requests, console - is as before. *)
Theorem X14_running_response_repaints
    (toLocaleString : JS.value -> string)
    (successRate : JS.value -> JS.value -> string)
    (summaryMarkup : JS.value -> string)
    (status progress : JS.value) (p : Z) (st : Dashboard.state) :
  Dashboard.has_ids (Dashboard.dom st) Dashboard.monitor_ids ->
  JS.get status "progress" = Some progress ->
  DashboardFiles.bar_percent progress = Some p ->
  JS.truthy (Dashboard.field status "completed") = false ->
  exists d,
    Dashboard.poll_resume toLocaleString successRate summaryMarkup
      (Dashboard.Json status) st = (Dashboard.on_dom (fun _ => d) st, Ret tt) /\
    Dashboard.progress_width d = Some (pretty p +:+ "%") /\
    Dashboard.same_ids (Dashboard.dom st) d.
Proof.
  intros Hids Hprogress Hp Hdone.
  destruct (DashboardFilesFacts.poll_resume_running toLocaleString successRate
              summaryMarkup status progress st Hids Hprogress Hdone)
    as (d & Hrun & Hw & Hsame).
  exists d. split; [exact Hrun|]. split; [|exact Hsame].
  rewrite Hw. unfold DashboardFiles.bar_percent in Hp.
  destruct (JS.or_else progress (JS.Num 0)) as [| | |q| | |]; try done.
  destruct ((0 <=? q) && (q <=? 9007199254740991)); [|done].
  by injection Hp as ->.
Qed.

Lemma X14_witness :
  exists d,
    Dashboard.poll_resume Dashboard.plain Dashboard.no_rate Dashboard.no_summary
      (Dashboard.Json (JS.Obj [("message", JS.Str "Reading"); ("progress", JS.Num 40)]))
      Dashboard.sample
    = (Dashboard.on_dom (fun _ => d) Dashboard.sample, Ret tt) /\
    Dashboard.progress_width d = Some "40%".
Proof.
  destruct (X14_running_response_repaints Dashboard.plain Dashboard.no_rate
              Dashboard.no_summary
              (JS.Obj [("message", JS.Str "Reading"); ("progress", JS.Num 40)])
              (JS.Num 40) 40 Dashboard.sample) as (d & Hrun & Hw & _).
  - apply DashboardFacts.has_idsb_sound. vm_compute. reflexivity.
  - reflexivity.
  - reflexivity.
  - reflexivity.
  - exists d. by split.
Defined.

(** X15.  [handleFileSelect] keeps the chosen file whatever
    [validateFileType] says about it.  With no file chosen it does nothing.
    With a file, on a page that has the file panels, the alert container and
    the two buttons, the file is stored in its slot (the other slot is left
    alone) before it is validated; a file of the wrong type only gets the
    error alert 'Invalid file type for ...' instead of the success alert.
    The Validate and Upload buttons are then enabled exactly when both slots
    hold a file, valid or not.  No request is issued. *)
Theorem X15_handleFileSelect_stores_any_file (fileInfoMarkup : Dashboard.file -> string)
    (f : Dashboard.file) (type : string) (st : Dashboard.state) :
  DashboardFiles.handleFileSelect fileInfoMarkup None type st = (st, Ret tt) /\
  (Dashboard.has_ids (Dashboard.dom st) DashboardFiles.file_ids ->
   type = "boundaries" \/ type = "geotiff" ->
   let boundaries' :=
     if String.eqb type "boundaries" then Some f else Dashboard.boundaries st in
   let geotiff' :=
     if String.eqb type "geotiff" then Some f else Dashboard.geotiff st in
   let both := bool_decide (is_Some boundaries') && bool_decide (is_Some geotiff') in
   exists st',
     DashboardFiles.handleFileSelect fileInfoMarkup (Some f) type st = (st', Ret tt) /\
     Dashboard.boundaries st' = boundaries' /\
     Dashboard.geotiff st' = geotiff' /\
     Dashboard.alert_shown
       (if DashboardFiles.validateFileType f type
        then (if String.eqb type "boundaries" then "Boundary shapefile"
              else "Slope GeoTIFF") +:+ " uploaded successfully!"
        else "Invalid file type for " +:+ type)
       (if DashboardFiles.validateFileType f type then "success" else "error")
       (Dashboard.now st) st' /\
     DashboardFiles.disabled_of (Dashboard.dom st') "validateBtn" = Some (negb both) /\
     DashboardFiles.disabled_of (Dashboard.dom st') "uploadBtn" = Some (negb both) /\
     Dashboard.requests st' = Dashboard.requests st).
Proof.
  split; [done|]. intros Hids Htype.
  destruct (DashboardFilesFacts.handleFileSelect_run fileInfoMarkup f type st Hids Htype)
    as (st' & Hrun & Hshown & Hdv & Hdu & Hb & Hg & Hr & _).
  cbv zeta in *.
  assert (Hstore :
    Dashboard.boundaries (DashboardFiles.store type f st) =
      (if String.eqb type "boundaries" then Some f else Dashboard.boundaries st) /\
    Dashboard.geotiff (DashboardFiles.store type f st) =
      (if String.eqb type "geotiff" then Some f else Dashboard.geotiff st)).
  { unfold DashboardFiles.store. by destruct Htype as [-> | ->]. }
  destruct Hstore as [Hsb Hsg]. rewrite Hsb, Hsg in *.
  exists st'. by repeat split.
Qed.

Lemma X15_witness :
  exists st',
    DashboardFiles.handleFileSelect DashboardFiles.no_markup
      (Some (Dashboard.File "districts.txt" 10 "text/plain")) "boundaries"
      DashboardFiles.sample = (st', Ret tt) /\
    Dashboard.boundaries st' = Some (Dashboard.File "districts.txt" 10 "text/plain").
Proof.
  destruct (proj2 (X15_handleFileSelect_stores_any_file DashboardFiles.no_markup
                     (Dashboard.File "districts.txt" 10 "text/plain") "boundaries"
                     DashboardFiles.sample)) as (st' & Hrun & Hb & _).
  - apply DashboardFacts.has_idsb_sound. vm_compute. reflexivity.
  - by left.
  - exists st'. by split.
Defined.

(** X16.  [validateFileType] decides by the end of the file name, whatever
    the case of its letters: a file is accepted as boundaries exactly when
    its name ends in a spelling of '.zip', and as GeoTIFF exactly when it
    ends in a spelling of '.tif' or '.tiff'; a type other than 'boundaries'
    and 'geotiff' accepts no file; and no name is accepted for both. *)
Theorem X16_validateFileType_by_suffix (f : Dashboard.file) :
  (DashboardFiles.validateFileType f "boundaries" = true <->
   exists p s, Dashboard.name f = p +:+ s /\ DashboardFiles.toLowerCase s = ".zip") /\
  (DashboardFiles.validateFileType f "geotiff" = true <->
   exists p s, Dashboard.name f = p +:+ s /\
               (DashboardFiles.toLowerCase s = ".tif" \/
                DashboardFiles.toLowerCase s = ".tiff")) /\
  (forall type, type <> "boundaries" -> type <> "geotiff" ->
     DashboardFiles.validateFileType f type = false) /\
  (DashboardFiles.validateFileType f "boundaries" = true ->
   DashboardFiles.validateFileType f "geotiff" = false).
Proof.
  split; [|split; [|split]].
  - unfold DashboardFiles.validateFileType. cbn [String.eqb Ascii.eqb Bool.eqb].
    apply SuffixFacts.endsWith_lower.
  - unfold DashboardFiles.validateFileType. cbn [String.eqb Ascii.eqb Bool.eqb].
    rewrite orb_true_iff, !SuffixFacts.endsWith_lower. split.
    + intros [(p & s & Hn & Hs)|(p & s & Hn & Hs)]; exists p, s; auto.
    + intros (p & s & Hn & [Hs|Hs]); [left|right]; by exists p, s.
  - intros type H1 H2. unfold DashboardFiles.validateFileType.
    apply String.eqb_neq in H1, H2. by rewrite H1, H2.
  - unfold DashboardFiles.validateFileType. cbn [String.eqb Ascii.eqb Bool.eqb].
    intros H. apply DashboardFilesFacts.endsWith_zip in H as [-> ->]. done.
Qed.

Lemma X16_witness :
  DashboardFiles.validateFileType (Dashboard.File "RWANDA.ZIP" 2048 "application/zip")
    "geotiff" = false.
Proof.
  apply (proj2 (proj2 (proj2 (X16_validateFileType_by_suffix
                  (Dashboard.File "RWANDA.ZIP" 2048 "application/zip"))))).
  apply (proj2 (proj1 (X16_validateFileType_by_suffix
                  (Dashboard.File "RWANDA.ZIP" 2048 "application/zip")))).
  exists "RWANDA", ".ZIP". split; reflexivity.
Defined.

(** X17.  [resetDashboard] cancels the monitor before it touches the page:
    run while the monitor of one process is polling, it leaves no polling
    timer, whether or not a later step of it throws; the two files, the
    process id and the start time are cleared, the interval variable keeps
    its value, and no request is issued, neither by the reset nor by any later
    timer or response. *)
Theorem X17_resetDashboard_stops_monitor
    (toLocaleString : JS.value -> string)
    (successRate : JS.value -> JS.value -> string)
    (summaryMarkup : JS.value -> string)
    (resetForm : nat -> DOM.document -> DOM.document)
    (st0 st : Dashboard.state) (n : nat) :
  Dashboard.monitoring st0 n st ->
  (0 < Dashboard.next_id st0)%nat ->
  let st' := Dashboard.dispatch (DashboardFiles.resetDashboard resetForm) st in
  Dashboard.stopped st' /\
  Dashboard.boundaries st' = None /\ Dashboard.geotiff st' = None /\
  Dashboard.currentProcessId st' = JS.Null /\ Dashboard.startTime st' = None /\
  Dashboard.requests st' = Dashboard.requests st /\
  Dashboard.progressInterval st' = Dashboard.progressInterval st /\
  forall hs st'',
    forallb Dashboard.no_submit hs = true ->
    Dashboard.run toLocaleString successRate summaryMarkup hs st' = Some st'' ->
    Dashboard.requests st'' = Dashboard.requests st'.
Proof.
  intros Hmon Hpos st'.
  destruct (DashboardFilesFacts.resetDashboard_stops resetForm st0 st n Hmon Hpos)
    as (Hstop & Hb & Hg & Hp & Hs & Hr & Hi).
  fold st' in Hstop, Hb, Hg, Hp, Hs, Hr, Hi.
  repeat (split; [done|]).
  intros hs st'' Hhs Hrun.
  by destruct (DashboardFacts.stopped_run toLocaleString successRate summaryMarkup
                 hs st' st'' Hstop Hhs Hrun).
Qed.

Lemma X17_witness :
  Dashboard.stopped
    (Dashboard.dispatch (DashboardFiles.resetDashboard DashboardFiles.no_reset)
       (Dashboard.startProgressMonitoring Dashboard.sample)).
Proof.
  refine (proj1 (X17_resetDashboard_stops_monitor Dashboard.plain Dashboard.no_rate
                   Dashboard.no_summary DashboardFiles.no_reset Dashboard.sample
                   (Dashboard.startProgressMonitoring Dashboard.sample) 0 _ _)).
  - apply DashboardFacts.monitoring_start. apply DashboardFacts.idleb_sound; reflexivity.
  - vm_compute. lia.
Defined.

(** X18.  A submission without both files sends nothing: [handleFormSubmit]
    shows the alert 'Please upload both files' and returns; no request is
    issued, the start time and the interval are as before, and every element
    of the page is as it was, so no tab is switched and no progress is
    shown. *)
Theorem X18_submit_without_files (c : nat) (st : Dashboard.state) :
  Dashboard.boundaries st = None \/ Dashboard.geotiff st = None ->
  DOM.getElementById (Dashboard.dom st) "alertContainer" = Some c ->
  exists st',
    Dashboard.handleFormSubmit st = (st', Ret tt) /\
    Dashboard.alert_shown "Please upload both files" "error" (Dashboard.now st) st' /\
    Dashboard.requests st' = Dashboard.requests st /\
    Dashboard.pending st' = Dashboard.pending st /\
    Dashboard.startTime st' = Dashboard.startTime st /\
    Dashboard.progressInterval st' = Dashboard.progressInterval st /\
    DOMRel.untouched (Dashboard.dom st) (Dashboard.dom st').
Proof. apply DashboardFilesFacts.handleFormSubmit_no_files. Qed.

Lemma X18_witness :
  exists st',
    Dashboard.handleFormSubmit DashboardFiles.sample = (st', Ret tt) /\
    Dashboard.requests st' = Dashboard.requests DashboardFiles.sample.
Proof.
  destruct (X18_submit_without_files 2%nat DashboardFiles.sample) as (st' & Hrun & _ & Hr & _).
  - by left.
  - vm_compute. reflexivity.
  - exists st'. by split.
Defined.

(** X19.  The processing time [updateFinalStatistics] shows is the time since
    the submission in whole minutes and seconds: the text is 'Mm Ss' with
    0 <= S < 60 and 60000 M + 1000 S <= elapsed < 60000 M + 1000 S + 1000
    (minutes are not wrapped into hours).  When no start time is set the
    processing time is left as it is.  For a status whose properties can be
    read the summary is written in both cases; for [null] or [undefined] the
    time is written as before, then reading [status.file_statistics] throws
    and the summary is left as it is. *)
Theorem X19_processing_time (summaryMarkup : JS.value -> string)
    (status : JS.value) (st : Dashboard.state) :
  is_Some (DOM.getElementById (Dashboard.dom st) "processingSummary") ->
  (forall t0,
     is_Some (JS.get status "file_statistics") ->
     is_Some (DOM.getElementById (Dashboard.dom st) "processingTime") ->
     Dashboard.startTime st = Some t0 -> t0 <> 0 ->
     let elapsed := Dashboard.now st - t0 in
     let minutes := elapsed / 60000 in
     let seconds := Z.rem elapsed 60000 / 1000 in
     exists d,
       Dashboard.updateFinalStatistics summaryMarkup status st =
         (Dashboard.on_dom (fun _ => d) st, Ret tt) /\
       DashboardFiles.text_of d "processingTime" =
         Some (pretty minutes +:+ "m " +:+ pretty seconds +:+ "s") /\
       DashboardFiles.text_of d "processingSummary" = Some (summaryMarkup status) /\
       (0 <= elapsed ->
        0 <= minutes /\ 0 <= seconds < 60 /\
        60000 * minutes + 1000 * seconds <= elapsed
          < 60000 * minutes + 1000 * seconds + 1000)) /\
  (is_Some (JS.get status "file_statistics") ->
   Dashboard.startTime st = None \/ Dashboard.startTime st = Some 0 ->
   exists d,
     Dashboard.updateFinalStatistics summaryMarkup status st =
       (Dashboard.on_dom (fun _ => d) st, Ret tt) /\
     DashboardFiles.text_of d "processingTime" =
       DashboardFiles.text_of (Dashboard.dom st) "processingTime" /\
     DashboardFiles.text_of d "processingSummary" = Some (summaryMarkup status)) /\
  (JS.get status "file_statistics" = None ->
   is_Some (DOM.getElementById (Dashboard.dom st) "processingTime") ->
   exists d e,
     Dashboard.updateFinalStatistics summaryMarkup status st =
       (Dashboard.on_dom (fun _ => d) st, Throw e) /\
     DashboardFiles.text_of d "processingSummary" =
       DashboardFiles.text_of (Dashboard.dom st) "processingSummary" /\
     (forall t0, Dashboard.startTime st = Some t0 -> t0 <> 0 ->
        DashboardFiles.text_of d "processingTime" =
          Some (pretty ((Dashboard.now st - t0) / 60000) +:+ "m " +:+
                pretty (Z.rem (Dashboard.now st - t0) 60000 / 1000) +:+ "s")) /\
     (Dashboard.startTime st = None \/ Dashboard.startTime st = Some 0 ->
      d = Dashboard.dom st)).
Proof.
  intros Hs. split; [|split].
  - intros t0 Hx Ht Hstart Hne.
    by apply DashboardFilesFacts.updateFinalStatistics_time.
  - intros Hx Hstart. by apply DashboardFilesFacts.updateFinalStatistics_untimed.
  - intros Hx Ht. by apply DashboardFilesFacts.updateFinalStatistics_unreadable.
Qed.

Lemma X19_witness :
  exists d,
    Dashboard.updateFinalStatistics Dashboard.no_summary (JS.Obj [])
      (Dashboard.set_now 125400 (Dashboard.set_startTime (Some 400) Dashboard.sample)) =
      (Dashboard.on_dom (fun _ => d)
         (Dashboard.set_now 125400 (Dashboard.set_startTime (Some 400) Dashboard.sample)),
       Ret tt) /\
    DashboardFiles.text_of d "processingTime" = Some "2m 5s".
Proof.
  destruct (proj1 (X19_processing_time Dashboard.no_summary (JS.Obj [])
                     (Dashboard.set_now 125400
                        (Dashboard.set_startTime (Some 400) Dashboard.sample))
                     ltac:(vm_compute; by eexists)) 400)
    as (d & Hrun & Ht & _).
  - vm_compute. by eexists.
  - vm_compute. by eexists.
  - reflexivity.
  - lia.
  - exists d. split; [exact Hrun|]. exact Ht.
Defined.

(** X20.  The type of a file does not gate the upload.  After a file has
    been chosen for each slot on a page that has the elements the handlers
    write, a submission POSTs exactly these two files to
    /geospatial/upload_files/ - whether or not [validateFileType] accepted
    them. *)
Theorem X20_any_chosen_file_is_uploaded (fileInfoMarkup : Dashboard.file -> string)
    (f g : Dashboard.file) (target : nat) (st : Dashboard.state) :
  Dashboard.has_ids (Dashboard.dom st) (DashboardFiles.file_ids ++ Dashboard.submit_ids) ->
  let st1 := (DashboardFiles.handleFileSelect fileInfoMarkup (Some f) "boundaries" st).1 in
  let st2 := (DashboardFiles.handleFileSelect fileInfoMarkup (Some g) "geotiff" st1).1 in
  exists st',
    Dashboard.handleFormSubmit (Dashboard.set_event (Some target) st2) = (st', Ret tt) /\
    Dashboard.requests st' =
      Dashboard.requests st ++
        [(Dashboard.now st,
          Dashboard.Request "POST" "/geospatial/upload_files/"
            (Some (Dashboard.getCsrfToken st'))
            [("geojson", Dashboard.Blob f); ("geotiff", Dashboard.Blob g)])].
Proof.
  intros Hids st1 st2.
  assert (Hfile : Dashboard.has_ids (Dashboard.dom st) DashboardFiles.file_ids).
  { eapply DashboardFacts.has_ids_sub; [exact Hids|]. intros i Hi. apply elem_of_app. by left. }
  assert (Hsub : Dashboard.has_ids (Dashboard.dom st) Dashboard.submit_ids).
  { eapply DashboardFacts.has_ids_sub; [exact Hids|]. intros i Hi. apply elem_of_app. by right. }
  destruct (DashboardFilesFacts.handleFileSelect_run fileInfoMarkup f "boundaries" st Hfile
              ltac:(by left))
    as (s1 & Hrun1 & _ & _ & _ & Hb1 & Hg1 & Hr1 & _ & Hn1 & Hs1).
  assert (Hst1 : st1 = s1) by (unfold st1; by rewrite Hrun1). clearbody st1. subst s1.
  assert (Hfile1 : Dashboard.has_ids (Dashboard.dom st1) DashboardFiles.file_ids)
    by (by eapply DashboardFacts.has_ids_same).
  destruct (DashboardFilesFacts.handleFileSelect_run fileInfoMarkup g "geotiff" st1 Hfile1
              ltac:(by right))
    as (s2 & Hrun2 & _ & _ & _ & Hb2 & Hg2 & Hr2 & _ & Hn2 & Hs2).
  assert (Hst2 : st2 = s2) by (unfold st2; by rewrite Hrun2). clearbody st2. subst s2.
  cbv zeta in Hb1, Hg1, Hb2, Hg2. unfold DashboardFiles.store in Hb1, Hg1, Hb2, Hg2.
  cbn in Hb1, Hg1, Hb2, Hg2.
  destruct (DashboardFacts.handleFormSubmit_run f g target
              (Dashboard.set_event (Some target) st2))
    as (st' & Hrun & Hreq & _).
  - cbn. by rewrite Hb2, Hb1.
  - cbn. by rewrite Hg2.
  - assert (Hdom : Dashboard.dom (Dashboard.set_event (Some target) st2) =
                   Dashboard.dom st2) by (by destruct st2).
    rewrite Hdom. eapply DashboardFacts.has_ids_same; [exact Hsub|].
    by apply (DashboardFacts.same_ids_trans _ (Dashboard.dom st1)).
  - by destruct st2.
  - exists st'. split; [done|]. rewrite Hreq.
    assert (Hr : Dashboard.requests (Dashboard.set_event (Some target) st2) =
                 Dashboard.requests st) by (destruct st2; cbn in *; congruence).
    assert (Hn : Dashboard.now (Dashboard.set_event (Some target) st2) =
                 Dashboard.now st) by (destruct st2; cbn in *; congruence).
    by rewrite Hr, Hn.
Qed.

Lemma X20_witness :
  exists st',
    Dashboard.handleFormSubmit
      (Dashboard.set_event (Some 0%nat)
         (DashboardFiles.handleFileSelect DashboardFiles.no_markup
            (Some (Dashboard.File "slope.png" 9 "image/png")) "geotiff"
            (DashboardFiles.handleFileSelect DashboardFiles.no_markup
               (Some (Dashboard.File "districts.txt" 10 "text/plain")) "boundaries"
               DashboardFiles.sample).1).1) = (st', Ret tt) /\
    Dashboard.requests st' =
      Dashboard.requests DashboardFiles.sample ++
        [(Dashboard.now DashboardFiles.sample,
          Dashboard.Request "POST" "/geospatial/upload_files/"
            (Some (Dashboard.getCsrfToken st'))
            [("geojson", Dashboard.Blob (Dashboard.File "districts.txt" 10 "text/plain"));
             ("geotiff", Dashboard.Blob (Dashboard.File "slope.png" 9 "image/png"))])].
Proof.
  apply (X20_any_chosen_file_is_uploaded DashboardFiles.no_markup
           (Dashboard.File "districts.txt" 10 "text/plain")
           (Dashboard.File "slope.png" 9 "image/png") 0%nat DashboardFiles.sample).
  apply DashboardFacts.has_idsb_sound. vm_compute. reflexivity.
Defined.

(** X21.  [validateFiles] checks that two files are there and nothing else:
    with a slot empty it shows 'Please upload both files first' and leaves
    the page as it is; with both slots filled it shows 'Files validated
    successfully! Ready to process.' for any two files, whatever their names,
    sizes or types, and issues no request. *)
Theorem X21_validateFiles_checks_presence_only (c : nat) (st : Dashboard.state) :
  DOM.getElementById (Dashboard.dom st) "alertContainer" = Some c ->
  (Dashboard.boundaries st = None \/ Dashboard.geotiff st = None ->
   exists st',
     DashboardFiles.validateFiles st = (st', Ret tt) /\
     Dashboard.alert_shown "Please upload both files first" "error"
       (Dashboard.now st) st' /\
     Dashboard.requests st' = Dashboard.requests st /\
     DOMRel.untouched (Dashboard.dom st) (Dashboard.dom st')) /\
  (forall b g,
     Dashboard.boundaries st = Some b -> Dashboard.geotiff st = Some g ->
     is_Some (DOM.getElementById (Dashboard.dom st) "coordinateInfo") ->
     is_Some (DOM.getElementById (Dashboard.dom st) "boundsGrid") ->
     exists st',
       DashboardFiles.validateFiles st = (st', Ret tt) /\
       Dashboard.alert_shown "Files validated successfully! Ready to process."
         "success" (Dashboard.now st) st' /\
       Dashboard.requests st' = Dashboard.requests st /\
       Dashboard.boundaries st' = Some b /\ Dashboard.geotiff st' = Some g).
Proof.
  intros Hc. split.
  - intros Hfiles. by apply (DashboardFilesFacts.validateFiles_missing c).
  - intros b g Hb Hg Hci Hbg. by apply (DashboardFilesFacts.validateFiles_present b g c).
Qed.

Lemma X21_witness :
  exists st',
    DashboardFiles.validateFiles DashboardFiles.sample = (st', Ret tt) /\
    Dashboard.alert_shown "Please upload both files first" "error"
      (Dashboard.now DashboardFiles.sample) st'.
Proof.
  destruct (proj1 (X21_validateFiles_checks_presence_only 2%nat DashboardFiles.sample
                     ltac:(vm_compute; reflexivity)))
    as (st' & Hrun & Hshown & _).
  - by left.
  - exists st'. by split.
Defined.

(* ===================================================================== *)
(** * Further properties of the admin upload page                         *)
(* ===================================================================== *)

(** X22.  On the admin page the two click listeners of a sidebar item are
    independent.  When no element has the id made of the item's upload type
    and '-form', the first listener ends in a TypeError - after it has made
    the clicked item active and taken 'active' from every section - and the
    analytics listener still runs: whether or not the first listener throws,
    one 'navigation_click' event with the item's upload type is sent if
    [gtag] is defined, and none otherwise. *)
Theorem X22_admin_click_listeners (i : nat) (st : AdminUpload.state) :
  AdminUpload.tracked (AdminUpload.click i st) =
    AdminUpload.tracked st ++
      (if AdminUpload.gtag st
       then [("navigation_click",
              default "undefined" (DOM.dataset (AdminUpload.dom st) i "data-upload"))]
       else []) /\
  (i ∈ DOM.querySelectorAll (AdminUpload.dom st) (DOM.Class "upload-item") ->
   DOM.getElementById (AdminUpload.dom st)
     (default "undefined" (DOM.dataset (AdminUpload.dom st) i "data-upload") +:+ "-form")
     = None ->
   (AdminUpload.on_item_click i st).2 =
     Throw "TypeError: document.getElementById(...) is null" /\
   DOM.class_of (AdminUpload.dom (AdminUpload.click i st)) i "active" = true /\
   forall j,
     j ∈ DOM.querySelectorAll (AdminUpload.dom st) (DOM.Class "upload-section") ->
     j <> i ->
     DOM.class_of (AdminUpload.dom (AdminUpload.click i st)) j "active" = false).
Proof.
  split; [apply AdminPageFacts.click_tracked|].
  intros Hi Hnone. split; [by apply AdminPageFacts.on_item_click_missing|].
  rewrite AdminUploadFacts.click_dom, AdminUploadFacts.on_item_click_dom, Hnone.
  pose proof (DOMFacts.querySelectorAll_lt _ _ _ Hi) as Hlt.
  split.
  - by apply DOMFacts.switched_item.
  - intros j Hj Hne.
    destruct (DOM.class_of _ j "active") eqn:Hact; [|done].
    apply (DOMFacts.switched_active (AdminUpload.dom st) _ _ i None j Hlt) in Hact
      as [?|?]; try done. by right.
Qed.

Lemma X22_witness :
  (AdminUpload.on_item_click 13%nat AdminPage.orphan).2 =
    Throw "TypeError: document.getElementById(...) is null" /\
  DOM.class_of (AdminUpload.dom (AdminUpload.click 13%nat AdminPage.orphan)) 13%nat "active"
    = true.
Proof.
  destruct (proj2 (X22_admin_click_listeners 13%nat AdminPage.orphan))
    as (Hthrow & Hactive & _).
  - listed.
  - vm_compute. reflexivity.
  - by split.
Defined.

(** X23.  On the admin page a submit event is never cancelled: after the
    listeners have run the form is handed to the browser, once, whatever the
    listeners did.  For a form without a '.submit-btn' the first listener
    ends in a TypeError before it has changed anything: the document is as
    it was and no timer is set. *)
Theorem X23_admin_submit_reaches_browser (form : nat) (st : AdminUpload.state) :
  AdminUpload.submitted (AdminUpload.submit form st) =
    AdminUpload.submitted st ++ [form] /\
  (DOM.querySelectorIn (AdminUpload.dom st) form (DOM.Class "submit-btn") = None ->
   AdminUpload.on_submit form st = (st, Throw "TypeError: button is null") /\
   AdminUpload.dom (AdminUpload.submit form st) = AdminUpload.dom st /\
   AdminUpload.timers (AdminUpload.submit form st) = AdminUpload.timers st).
Proof.
  destruct (AdminUploadFacts.submit_after_listeners form st) as [Hs Hd].
  split; [by rewrite Hs, AdminPageFacts.on_submit_submitted|].
  intros Hnone. pose proof (AdminPageFacts.on_submit_no_button form st Hnone) as Hrun.
  split; [done|].
  assert (Hafter : AdminUpload.after (AdminUpload.on_submit form) st = st).
  { unfold AdminUpload.after. by rewrite Hrun. }
  split; [by rewrite Hd, Hafter|].
  unfold AdminUpload.submit. cbn [AdminUpload.timers AdminUpload.submit_form].
  by rewrite AdminPageFacts.on_submit_track_timers, Hafter.
Qed.

Lemma X23_witness :
  AdminUpload.dom (AdminUpload.submit 15%nat AdminPage.with_messages) =
  AdminUpload.dom AdminPage.with_messages.
Proof.
  apply (proj2 (X23_admin_submit_reaches_browser 15%nat AdminPage.with_messages)).
  vm_compute. reflexivity.
Defined.

(** X24.  The messages of the admin page take themselves away: the timer
    set at load fades the first '.messages' element out and sets a 500 ms
    timer, whose callback detaches the element; every other element is as
    it was.  On a page without messages the timer does nothing. *)
Theorem X24_admin_messages_removed (st : AdminUpload.state) :
  (DOM.querySelector (AdminUpload.dom st) (DOM.Class "messages") = None ->
   AdminUpload.fire AdminUpload.HideMessages st = st) /\
  (forall m,
     DOM.querySelector (AdminUpload.dom st) (DOM.Class "messages") = Some m ->
     let st1 := AdminUpload.fire AdminUpload.HideMessages st in
     let st2 := AdminUpload.fire (AdminUpload.RemoveMessages m) st1 in
     AdminUpload.timers st1 =
       AdminUpload.timers st ++ [AdminUpload.Timer 500 (AdminUpload.RemoveMessages m)] /\
     DOMRel.node_at (AdminUpload.dom st1) m
       (fun n => DOM.style n !! "opacity" = Some "0" /\ DOM.attached n = true) /\
     DOMRel.node_at (AdminUpload.dom st2) m (fun n => DOM.attached n = false) /\
     forall j, j <> m -> AdminUpload.dom st2 !! j = AdminUpload.dom st !! j).
Proof.
  split.
  - intros H. unfold AdminUpload.fire. by rewrite H.
  - intros m Hm st1 st2. subst st2 st1. unfold AdminUpload.fire. rewrite Hm.
    destruct (DOMFacts.querySelector_Some _ _ _ Hm) as (n & Hn & Ha & _).
    cbn [AdminUpload.timers AdminUpload.dom AdminUpload.setTimeout AdminUpload.on_dom].
    unfold DOM.update. split; [done|]. split; [|split].
    + eexists. rewrite !list_lookup_alter_eq, Hn. split; [reflexivity|].
      cbn. split; [by rewrite lookup_insert_eq|done].
    + eexists. rewrite !list_lookup_alter_eq, Hn. by split.
    + intros j Hj. by rewrite !list_lookup_alter_ne.
Qed.

Lemma X24_witness :
  DOMRel.node_at
    (AdminUpload.dom
       (AdminUpload.fire (AdminUpload.RemoveMessages 14%nat)
          (AdminUpload.fire AdminUpload.HideMessages AdminPage.with_messages)))
    14%nat (fun n => DOM.attached n = false).
Proof.
  refine (proj1 (proj2 (proj2 (proj2 (X24_admin_messages_removed AdminPage.with_messages)
                                       14%nat _)))).
  vm_compute. reflexivity.
Defined.

